(** * Resource, view-cache and descriptor-write model of libs/vkd3d/resource.c

    A shallow embedding of the reference-counting, placement, sparse-tiling,
    view-cache and descriptor-write code of [libs/vkd3d/resource.c], with the
    properties the specification states about it.

    Conventions.
    - C integers are [Z] values; every operation that can leave the range of
      its C type is followed by the wrap-around of that type ([u32], [u64],
      [s64]).
    - Calls into the Vulkan driver and into parts of the library that live in
      other translation units are explicit parameters (records of functions or
      section variables); what they return is never assumed, only named.
    - Native side effects ([vkUpdateDescriptorSets], object destruction, ...)
      are appended to logs carried in the state. *)

From stdpp Require Import base numbers option list gmap.
From Stdlib Require Import ZArith Lia Bool List.
Import ListNotations.
Local Open Scope Z_scope.

(** ** Machine integers *)

Module Machine.

Definition wrap (bits x : Z) : Z := x mod 2 ^ bits.

(** [uint32_t], [unsigned int], [ULONG], [UINT]. *)
Definition u32 (x : Z) : Z := wrap 32 x.

(** [uint64_t], [UINT64], [VkDeviceSize], [size_t] on the 64-bit targets. *)
Definition u64 (x : Z) : Z := wrap 64 x.

(** [LONG64]: two's complement, 64 bits. *)
Definition s64 (x : Z) : Z :=
  let r := wrap 64 x in if r <? 2 ^ 63 then r else r - 2 ^ 64.

Definition in_u32 (x : Z) : Prop := 0 <= x < 2 ^ 32.
Definition in_u64 (x : Z) : Prop := 0 <= x < 2 ^ 64.

(** Modelled from the spec: [align] is declared in vkd3d_common.h, which is
    not part of the sources at hand; the specification speaks of offsets
    "re-aligned upward" to a power-of-two alignment.  This is the usual
    [(addr + (alignment - 1)) & ~(alignment - 1)] on [size_t]. *)
Definition align (addr alignment : Z) : Z :=
  Z.land (u64 (addr + (alignment - 1))) (u64 (Z.lnot (alignment - 1))).

End Machine.

(** ** Status codes and API constants

    The values are those of the public Windows, Direct3D 12 and Vulkan
    headers. *)

Module Api.

(** [HRESULT] is a signed 32-bit integer; [FAILED] tests the sign. *)
Definition HRESULT := Z.
Definition S_OK : HRESULT := 0.
Definition E_INVALIDARG : HRESULT := 0x80070057 - 2 ^ 32.
Definition E_OUTOFMEMORY : HRESULT := 0x8007000E - 2 ^ 32.
Definition E_FAIL : HRESULT := 0x80004005 - 2 ^ 32.
Definition FAILED (hr : HRESULT) : bool := hr <? 0.
Definition SUCCEEDED (hr : HRESULT) : bool := 0 <=? hr.

(** [x & mask] as a C condition. *)
Definition has_flag (x mask : Z) : bool := negb (Z.land x mask =? 0).

Definition D3D12_RESOURCE_DIMENSION_UNKNOWN := 0.
Definition D3D12_RESOURCE_DIMENSION_BUFFER := 1.
Definition D3D12_RESOURCE_DIMENSION_TEXTURE1D := 2.
Definition D3D12_RESOURCE_DIMENSION_TEXTURE2D := 3.
Definition D3D12_RESOURCE_DIMENSION_TEXTURE3D := 4.

Definition D3D12_RESOURCE_FLAG_ALLOW_RENDER_TARGET := 0x1.
Definition D3D12_RESOURCE_FLAG_ALLOW_DEPTH_STENCIL := 0x2.
Definition D3D12_RESOURCE_FLAG_ALLOW_UNORDERED_ACCESS := 0x4.
Definition D3D12_RESOURCE_FLAG_DENY_SHADER_RESOURCE := 0x8.
Definition D3D12_RESOURCE_FLAG_ALLOW_CROSS_ADAPTER := 0x10.
Definition D3D12_RESOURCE_FLAG_ALLOW_SIMULTANEOUS_ACCESS := 0x20.

Definition D3D12_HEAP_FLAG_NONE := 0.
Definition D3D12_HEAP_FLAG_DENY_BUFFERS := 0x4.
Definition D3D12_HEAP_FLAG_SHARED_CROSS_ADAPTER := 0x20.
Definition D3D12_HEAP_FLAG_DENY_RT_DS_TEXTURES := 0x40.
Definition D3D12_HEAP_FLAG_DENY_NON_RT_DS_TEXTURES := 0x80.

Definition D3D12_HEAP_TYPE_DEFAULT := 1.
Definition D3D12_HEAP_TYPE_UPLOAD := 2.
Definition D3D12_HEAP_TYPE_READBACK := 3.
Definition D3D12_HEAP_TYPE_CUSTOM := 4.
Definition D3D12_CPU_PAGE_PROPERTY_NOT_AVAILABLE := 1.

Definition D3D12_TEXTURE_LAYOUT_UNKNOWN := 0.
Definition D3D12_TEXTURE_LAYOUT_ROW_MAJOR := 1.

Definition D3D12_RESOURCE_STATE_GENERIC_READ := 0xAC3.
Definition D3D12_RESOURCE_STATE_COPY_DEST := 0x400.
Definition D3D12_RESOURCE_STATE_RAYTRACING_ACCELERATION_STRUCTURE := 0x400000.

Definition DXGI_FORMAT_UNKNOWN := 0.

Definition D3D12_DEFAULT_RESOURCE_PLACEMENT_ALIGNMENT := 65536.
Definition D3D12_SMALL_RESOURCE_PLACEMENT_ALIGNMENT := 4096.
Definition D3D12_DEFAULT_MSAA_RESOURCE_PLACEMENT_ALIGNMENT := 4194304.
Definition D3D12_CONSTANT_BUFFER_DATA_PLACEMENT_ALIGNMENT := 256.

Definition D3D12_SRV_DIMENSION_BUFFER := 1.
Definition D3D12_SRV_DIMENSION_RAYTRACING_ACCELERATION_STRUCTURE := 11.
Definition D3D12_UAV_DIMENSION_BUFFER := 1.

Definition D3D12_TEXTURE_ADDRESS_MODE_WRAP := 1.
Definition D3D12_TEXTURE_ADDRESS_MODE_MIRROR := 2.
Definition D3D12_TEXTURE_ADDRESS_MODE_CLAMP := 3.
Definition D3D12_TEXTURE_ADDRESS_MODE_BORDER := 4.
Definition D3D12_TEXTURE_ADDRESS_MODE_MIRROR_ONCE := 5.

Definition VK_NULL_HANDLE := 0.
Definition VK_DESCRIPTOR_TYPE_SAMPLER := 0.
Definition VK_DESCRIPTOR_TYPE_SAMPLED_IMAGE := 2.
Definition VK_DESCRIPTOR_TYPE_STORAGE_IMAGE := 3.
Definition VK_DESCRIPTOR_TYPE_UNIFORM_TEXEL_BUFFER := 4.
Definition VK_DESCRIPTOR_TYPE_STORAGE_TEXEL_BUFFER := 5.
Definition VK_DESCRIPTOR_TYPE_UNIFORM_BUFFER := 6.
Definition VK_DESCRIPTOR_TYPE_STORAGE_BUFFER := 7.
Definition VK_DESCRIPTOR_TYPE_MUTABLE_VALVE := 1000351000.
Definition VK_WHOLE_SIZE := 2 ^ 64 - 1.
Definition VK_IMAGE_LAYOUT_UNDEFINED := 0.
Definition VK_IMAGE_LAYOUT_GENERAL := 1.

End Api.

(** ** The cookie allocator (resource.c:32-37) *)

Module Cookie.
Import Machine.

(** [static LONG64 global_cookie_counter;] is zero-initialised. *)
Record globals := { global_cookie_counter : Z }.

Definition initial : globals := {| global_cookie_counter := 0 |}.

(** [InterlockedIncrement64] adds one in 64-bit two's complement and returns
    the new value. *)
Definition InterlockedIncrement64 (v : Z) : Z := s64 (v + 1).

Definition vkd3d_allocate_cookie (g : globals) : Z * globals :=
  let v := InterlockedIncrement64 (global_cookie_counter g) in
  (v, {| global_cookie_counter := v |}).

(** The process state after [n] calls. *)
Definition after_calls (n : N) : globals :=
  N.iter n (fun g => snd (vkd3d_allocate_cookie g)) initial.

(** The value returned by call number [n] (counting from 1). *)
Definition nth_cookie (n : N) : Z :=
  fst (vkd3d_allocate_cookie (after_calls (N.pred n))).

End Cookie.

(** ** Resources: descriptions, validation, creation and destruction *)

Module Resource.
Import Machine Api.

Record DXGI_SAMPLE_DESC := { Count : Z; Quality : Z }.

Record D3D12_RESOURCE_DESC := {
  Dimension : Z;
  Alignment : Z;
  Width : Z;
  Height : Z;
  DepthOrArraySize : Z;
  MipLevels : Z;
  Format : Z;
  SampleDesc : DXGI_SAMPLE_DESC;
  Layout : Z;
  Flags : Z
}.

Definition set_MipLevels (desc : D3D12_RESOURCE_DESC) (m : Z) : D3D12_RESOURCE_DESC :=
  {| Dimension := Dimension desc; Alignment := Alignment desc; Width := Width desc;
     Height := Height desc; DepthOrArraySize := DepthOrArraySize desc; MipLevels := m;
     Format := Format desc; SampleDesc := SampleDesc desc; Layout := Layout desc;
     Flags := Flags desc |}.

Record D3D12_HEAP_PROPERTIES := {
  HeapType : Z;
  CPUPageProperty : Z;
  MemoryPoolPreference : Z;
  CreationNodeMask : Z;
  VisibleNodeMask : Z
}.

Record D3D12_RESOURCE_ALLOCATION_INFO := { SizeInBytes : Z; info_Alignment : Z }.

Record vkd3d_format := {
  dxgi_format : Z;
  vk_format : Z;
  byte_count : Z;
  block_width : Z;
  block_height : Z;
  block_byte_count : Z;
  vk_aspect_mask : Z
}.

Record VkMemoryRequirements := { req_size : Z; req_alignment : Z; memoryTypeBits : Z }.

(** Modelled from the spec: the resource flag bits [VKD3D_RESOURCE_*] are
    declared in vkd3d_private.h, which is not part of the sources at hand;
    the specification lists them as a "bit-set of derived flags".  They are
    distinct single bits; nothing below depends on their numbering. *)
Definition VKD3D_RESOURCE_COMMITTED := 0x1.
Definition VKD3D_RESOURCE_PLACED := 0x2.
Definition VKD3D_RESOURCE_RESERVED := 0x4.
Definition VKD3D_RESOURCE_ALLOCATION := 0x8.
Definition VKD3D_RESOURCE_LINEAR_TILING := 0x10.
Definition VKD3D_RESOURCE_EXTERNAL := 0x20.
Definition VKD3D_RESOURCE_ACCELERATION_STRUCTURE := 0x40.
Definition VKD3D_RESOURCE_SIMULTANEOUS_ACCESS := 0x80.

(** The collaborators of this translation unit: the format table, the host
    allocator and the Vulkan driver.  Each field is what the named call
    returns for the given arguments. *)
Record d3d12_device := {
  vkd3d_format_from_d3d12_resource_desc : D3D12_RESOURCE_DESC -> Z -> option vkd3d_format;
  vkd3d_format_is_compressed : vkd3d_format -> bool;
  is_valid_resource_state : Z -> bool;
  is_cpu_accessible_heap : D3D12_HEAP_PROPERTIES -> bool;
  d3d12_resource_desc_get_depth : D3D12_RESOURCE_DESC -> Z -> Z;
  vkd3d_log2i : Z -> Z;
  (** host allocation of the resource object and its private store *)
  vkd3d_malloc_object : bool;
  vkd3d_private_store_init : HRESULT;
  (** native object creation: status and handle *)
  vkd3d_create_image : option D3D12_HEAP_PROPERTIES -> Z -> D3D12_RESOURCE_DESC -> HRESULT * Z;
  vkd3d_create_buffer : option D3D12_HEAP_PROPERTIES -> Z -> D3D12_RESOURCE_DESC -> HRESULT * Z;
  vkGetImageMemoryRequirements : Z -> VkMemoryRequirements;
  vkBindImageMemory : Z -> Z -> Z -> Z;
  hresult_from_vk_result : Z -> HRESULT;
  attachmentFragmentShadingRate : bool;
  vkd3d_resource_make_vrs_view : Z -> HRESULT * Z;
  bufferDeviceAddress : bool
}.

Definition d3d12_validate_resource_flags (flags : Z) : HRESULT :=
  if has_flag flags D3D12_RESOURCE_FLAG_ALLOW_SIMULTANEOUS_ACCESS
     && has_flag flags D3D12_RESOURCE_FLAG_ALLOW_DEPTH_STENCIL then E_INVALIDARG
  else if has_flag flags D3D12_RESOURCE_FLAG_ALLOW_UNORDERED_ACCESS
     && has_flag flags D3D12_RESOURCE_FLAG_ALLOW_DEPTH_STENCIL then E_INVALIDARG
  else S_OK.

Definition d3d12_resource_validate_texture_format (dev : d3d12_device)
    (desc : D3D12_RESOURCE_DESC) (format : vkd3d_format) : bool :=
  if negb (vkd3d_format_is_compressed dev format) then true
  else if (Dimension desc =? D3D12_RESOURCE_DIMENSION_TEXTURE1D) && (1 <? block_height format)
  then false
  else if negb (align (Width desc) (block_width format) =? Width desc)
          || negb (align (Height desc) (block_height format) =? Height desc)
  then false
  else true.

Definition d3d12_resource_validate_texture_alignment
    (desc : D3D12_RESOURCE_DESC) (format : vkd3d_format) : bool :=
  if Alignment desc =? 0 then true
  else if negb (Alignment desc =? D3D12_DEFAULT_RESOURCE_PLACEMENT_ALIGNMENT)
          && negb (Alignment desc =? D3D12_SMALL_RESOURCE_PLACEMENT_ALIGNMENT)
          && ((Count (SampleDesc desc) =? 1)
              || negb (Alignment desc =? D3D12_DEFAULT_MSAA_RESOURCE_PLACEMENT_ALIGNMENT))
  then false
  else if (Alignment desc <? D3D12_DEFAULT_RESOURCE_PLACEMENT_ALIGNMENT)
          && (D3D12_DEFAULT_RESOURCE_PLACEMENT_ALIGNMENT <?
                u64 (Width desc * Height desc * byte_count format * block_byte_count format)
                / u64 (block_width format * block_height format))
  then false
  else true.

Definition d3d12_resource_validate_desc (dev : d3d12_device)
    (desc : D3D12_RESOURCE_DESC) : HRESULT :=
  if Dimension desc =? D3D12_RESOURCE_DIMENSION_BUFFER then
    if negb (MipLevels desc =? 1) then E_INVALIDARG
    else if negb (Format desc =? DXGI_FORMAT_UNKNOWN)
         || negb (Layout desc =? D3D12_TEXTURE_LAYOUT_ROW_MAJOR)
         || negb (Height desc =? 1) || negb (DepthOrArraySize desc =? 1)
         || negb (Count (SampleDesc desc) =? 1) || negb (Quality (SampleDesc desc) =? 0)
         || (negb (Alignment desc =? 0)
             && negb (Alignment desc =? D3D12_DEFAULT_RESOURCE_PLACEMENT_ALIGNMENT))
    then E_INVALIDARG
    else if has_flag (Flags desc) D3D12_RESOURCE_FLAG_ALLOW_SIMULTANEOUS_ACCESS
    then E_INVALIDARG
    else d3d12_validate_resource_flags (Flags desc)
  else if (Dimension desc =? D3D12_RESOURCE_DIMENSION_TEXTURE1D)
       || (Dimension desc =? D3D12_RESOURCE_DIMENSION_TEXTURE2D)
       || (Dimension desc =? D3D12_RESOURCE_DIMENSION_TEXTURE3D) then
    if (Dimension desc =? D3D12_RESOURCE_DIMENSION_TEXTURE1D) && negb (Height desc =? 1)
    then E_INVALIDARG
    else if Count (SampleDesc desc) =? 0 then E_INVALIDARG
    else match vkd3d_format_from_d3d12_resource_desc dev desc 0 with
         | None => E_INVALIDARG
         | Some format =>
             if negb (d3d12_resource_validate_texture_format dev desc format)
                || negb (d3d12_resource_validate_texture_alignment desc format)
             then E_INVALIDARG
             else d3d12_validate_resource_flags (Flags desc)
         end
  else E_INVALIDARG.

Definition d3d12_resource_validate_heap_properties (desc : D3D12_RESOURCE_DESC)
    (heap_properties : D3D12_HEAP_PROPERTIES) (initial_state : Z) : HRESULT :=
  let ty := HeapType heap_properties in
  if ((ty =? D3D12_HEAP_TYPE_UPLOAD) || (ty =? D3D12_HEAP_TYPE_READBACK))
     && (negb (Dimension desc =? D3D12_RESOURCE_DIMENSION_BUFFER)
         || has_flag (Flags desc)
              (Z.lor D3D12_RESOURCE_FLAG_ALLOW_RENDER_TARGET
                     D3D12_RESOURCE_FLAG_ALLOW_UNORDERED_ACCESS))
  then E_INVALIDARG
  else if (ty =? D3D12_HEAP_TYPE_UPLOAD)
          && negb (initial_state =? D3D12_RESOURCE_STATE_GENERIC_READ)
  then E_INVALIDARG
  else if (ty =? D3D12_HEAP_TYPE_READBACK)
          && negb (initial_state =? D3D12_RESOURCE_STATE_COPY_DEST)
  then E_INVALIDARG
  else if Layout desc =? D3D12_TEXTURE_LAYOUT_ROW_MAJOR then
    if Dimension desc =? D3D12_RESOURCE_DIMENSION_TEXTURE2D then
      if negb (has_flag (Flags desc) D3D12_RESOURCE_FLAG_ALLOW_CROSS_ADAPTER)
      then E_INVALIDARG
      else if (1 <? MipLevels desc) || (1 <? DepthOrArraySize desc) then E_INVALIDARG
      else if (ty =? D3D12_HEAP_TYPE_CUSTOM)
              && negb (CPUPageProperty heap_properties =? D3D12_CPU_PAGE_PROPERTY_NOT_AVAILABLE)
      then E_INVALIDARG
      else S_OK
    else if (Dimension desc =? D3D12_RESOURCE_DIMENSION_TEXTURE1D)
            || (Dimension desc =? D3D12_RESOURCE_DIMENSION_TEXTURE3D)
    then E_INVALIDARG
    else S_OK
  else S_OK.

(** [optimized_clear_value] is only tested for being a null pointer. *)
Definition d3d12_resource_validate_create_info (dev : d3d12_device)
    (desc : D3D12_RESOURCE_DESC) (heap_properties : option D3D12_HEAP_PROPERTIES)
    (initial_state : Z) (optimized_clear_value : bool) : HRESULT :=
  let hr := d3d12_resource_validate_desc dev desc in
  if FAILED hr then hr
  else
    let hr := match heap_properties with
              | Some hp => d3d12_resource_validate_heap_properties desc hp initial_state
              | None => S_OK
              end in
    if FAILED hr then hr
    else if optimized_clear_value
            && (Dimension desc =? D3D12_RESOURCE_DIMENSION_BUFFER)
    then E_INVALIDARG
    else if negb (is_valid_resource_state dev initial_state) then E_INVALIDARG
    else S_OK.

(** The fields of [struct d3d12_resource] the modelled functions read or
    write.  [mem_vk_memory] is [mem.device_allocation.vk_memory]. *)
Record d3d12_resource := {
  refcount : Z;
  internal_refcount : Z;
  desc : D3D12_RESOURCE_DESC;
  flags : Z;
  format : option vkd3d_format;
  res_cookie : Z;
  res_vk_image : Z;
  res_vk_buffer : Z;
  res_va : Z;
  res_size : Z;
  mem_vk_memory : Z;
  mem_offset : Z;
  vrs_view : Z;
  initial_state : Z;
  heap_properties : option D3D12_HEAP_PROPERTIES;
  heap_flags : Z;
  initial_layout_transition : Z
}.

Definition d3d12_resource_is_buffer (r : d3d12_resource) : bool :=
  Dimension (desc r) =? D3D12_RESOURCE_DIMENSION_BUFFER.

Definition d3d12_resource_is_texture (r : d3d12_resource) : bool :=
  negb (Dimension (desc r) =? D3D12_RESOURCE_DIMENSION_BUFFER).

(** Calls whose only role here is that they happened: releases of native
    objects, of memory and of references. *)
Inductive effect :=
| DeviceAddRef
| DeviceRelease
| ViewMapDestroy
| UnregisterCookie (cookie : Z)
| FreeSparseMetadata
| FreeTiles
| FreeTilings
| VaMapRemove (va : Z)
| FreeFakeVa (va size : Z)
| DestroyImage (image : Z)
| DestroyBuffer (buffer : Z)
| FreeMemory (memory : Z)
| DestroyImageView (view : Z)
| PrivateStoreDestroy
| FreeObject.

(** [d3d12_resource_create] (resource.c:2418-2476).  Returns the status, the
    new object on success, the cookie allocator's state and the calls made
    on the device. *)
Definition d3d12_resource_create (dev : d3d12_device) (g : Cookie.globals)
    (flags0 : Z) (desc0 : D3D12_RESOURCE_DESC)
    (heap_properties0 : option D3D12_HEAP_PROPERTIES) (heap_flags0 : Z)
    (initial_state0 : Z) (optimized_clear_value : bool)
  : HRESULT * option d3d12_resource * Cookie.globals * list effect :=
  let hr := d3d12_resource_validate_create_info dev desc0 heap_properties0
              initial_state0 optimized_clear_value in
  if FAILED hr then (hr, None, g, [])
  else if negb (vkd3d_malloc_object dev) then (E_OUTOFMEMORY, None, g, [])
  else if FAILED (vkd3d_private_store_init dev)
  then (vkd3d_private_store_init dev, None, g, [ViewMapDestroy; FreeObject])
  else
    let '(cookie, g') := Cookie.vkd3d_allocate_cookie g in
    let object := {|
      refcount := 1;
      internal_refcount := 1;
      desc := desc0;
      flags := if initial_state0 =? D3D12_RESOURCE_STATE_RAYTRACING_ACCELERATION_STRUCTURE
               then Z.lor flags0 VKD3D_RESOURCE_ACCELERATION_STRUCTURE else flags0;
      format := vkd3d_format_from_d3d12_resource_desc dev desc0 0;
      res_cookie := cookie;
      res_vk_image := 0; res_vk_buffer := 0; res_va := 0; res_size := 0;
      mem_vk_memory := 0; mem_offset := 0; vrs_view := 0;
      initial_state := initial_state0;
      heap_properties := heap_properties0;
      heap_flags := heap_flags0;
      initial_layout_transition := 0 |} in
    (S_OK, Some object, g', [DeviceAddRef]).

(** [d3d12_resource_create_vk_resource] (resource.c:2389-2416).  The writes
    [vkd3d_create_image] makes to [resource->flags] and
    [resource->common_layout] are not tracked: no modelled function reads
    them. *)
Definition max_miplevel_count (dev : d3d12_device) (d : D3D12_RESOURCE_DESC) : Z :=
  let size := u32 (Z.max (Width d) (Height d)) in
  let size := u32 (Z.max size (d3d12_resource_desc_get_depth dev d 0)) in
  u32 (vkd3d_log2i dev size + 1).

Definition set_desc_image (r : d3d12_resource) (d : D3D12_RESOURCE_DESC) (image : Z)
  : d3d12_resource :=
  {| refcount := refcount r; internal_refcount := internal_refcount r; desc := d;
     flags := flags r; format := format r; res_cookie := res_cookie r;
     res_vk_image := image; res_vk_buffer := res_vk_buffer r; res_va := res_va r;
     res_size := res_size r; mem_vk_memory := mem_vk_memory r;
     mem_offset := mem_offset r; vrs_view := vrs_view r;
     initial_state := initial_state r; heap_properties := heap_properties r;
     heap_flags := heap_flags r; initial_layout_transition := 1 |}.

Definition set_buffer (r : d3d12_resource) (buffer va : Z) : d3d12_resource :=
  {| refcount := refcount r; internal_refcount := internal_refcount r; desc := desc r;
     flags := flags r; format := format r; res_cookie := res_cookie r;
     res_vk_image := res_vk_image r; res_vk_buffer := buffer; res_va := va;
     res_size := res_size r; mem_vk_memory := mem_vk_memory r;
     mem_offset := mem_offset r; vrs_view := vrs_view r;
     initial_state := initial_state r; heap_properties := heap_properties r;
     heap_flags := heap_flags r;
     initial_layout_transition := initial_layout_transition r |}.

Definition set_mem (r : d3d12_resource) (memory offset : Z) : d3d12_resource :=
  {| refcount := refcount r; internal_refcount := internal_refcount r; desc := desc r;
     flags := flags r; format := format r; res_cookie := res_cookie r;
     res_vk_image := res_vk_image r; res_vk_buffer := res_vk_buffer r;
     res_va := res_va r; res_size := res_size r; mem_vk_memory := memory;
     mem_offset := offset; vrs_view := vrs_view r;
     initial_state := initial_state r; heap_properties := heap_properties r;
     heap_flags := heap_flags r;
     initial_layout_transition := initial_layout_transition r |}.

Definition set_vrs_view (r : d3d12_resource) (view : Z) : d3d12_resource :=
  {| refcount := refcount r; internal_refcount := internal_refcount r; desc := desc r;
     flags := flags r; format := format r; res_cookie := res_cookie r;
     res_vk_image := res_vk_image r; res_vk_buffer := res_vk_buffer r;
     res_va := res_va r; res_size := res_size r; mem_vk_memory := mem_vk_memory r;
     mem_offset := mem_offset r; vrs_view := view;
     initial_state := initial_state r; heap_properties := heap_properties r;
     heap_flags := heap_flags r;
     initial_layout_transition := initial_layout_transition r |}.

(** [if (!desc->MipLevels) desc->MipLevels = max_miplevel_count(desc);] *)
Definition normalised_desc (dev : d3d12_device) (d : D3D12_RESOURCE_DESC)
  : D3D12_RESOURCE_DESC :=
  if MipLevels d =? 0 then set_MipLevels d (max_miplevel_count dev d) else d.

Definition d3d12_resource_create_vk_resource (dev : d3d12_device) (r : d3d12_resource)
  : HRESULT * d3d12_resource :=
  let hp := if has_flag (flags r) VKD3D_RESOURCE_RESERVED then None else heap_properties r in
  if Dimension (desc r) =? D3D12_RESOURCE_DIMENSION_BUFFER then
    let '(hr, buffer) := vkd3d_create_buffer dev hp D3D12_HEAP_FLAG_NONE (desc r) in
    if FAILED hr then (hr, r) else (S_OK, set_buffer r buffer (res_va r))
  else
    let d := normalised_desc dev (desc r) in
    let '(hr, image) := vkd3d_create_image dev hp D3D12_HEAP_FLAG_NONE d in
    if FAILED hr then (hr, set_desc_image r d (res_vk_image r))
    else (S_OK, set_desc_image r d image).

(** [vkd3d_get_image_allocation_info] (resource.c:609-652).  The two
    [assert]s make the function partial: [None] is the failed assertion.
    [allocation_info] is the caller's structure, left as it is when the
    native image cannot be created. *)
Definition default_heap_properties : D3D12_HEAP_PROPERTIES :=
  {| HeapType := D3D12_HEAP_TYPE_DEFAULT; CPUPageProperty := 0;
     MemoryPoolPreference := 0; CreationNodeMask := 0; VisibleNodeMask := 0 |}.

Definition target_alignment (d : D3D12_RESOURCE_DESC) : Z :=
  if Alignment d =? 0 then D3D12_DEFAULT_RESOURCE_PLACEMENT_ALIGNMENT else Alignment d.

Definition vkd3d_get_image_allocation_info (dev : d3d12_device)
    (desc0 : D3D12_RESOURCE_DESC) (allocation_info : D3D12_RESOURCE_ALLOCATION_INFO)
  : option (HRESULT * D3D12_RESOURCE_ALLOCATION_INFO) :=
  if Dimension desc0 =? D3D12_RESOURCE_DIMENSION_BUFFER then None
  else if negb (d3d12_resource_validate_desc dev desc0 =? S_OK) then None
  else
    let d := normalised_desc dev desc0 in
    let '(hr, vk_image) :=
      vkd3d_create_image dev (Some default_heap_properties) 0 d in
    if FAILED hr then Some (hr, allocation_info)
    else
      let requirements := vkGetImageMemoryRequirements dev vk_image in
      let size := req_size requirements in
      let alignment := req_alignment requirements in
      if target_alignment d <? alignment
      then Some (hr, {| SizeInBytes := u64 (size + u64 (alignment - target_alignment d));
                        info_Alignment := target_alignment d |})
      else Some (hr, {| SizeInBytes := size; info_Alignment := alignment |}).

(** What the driver answers for the throw-away image of a description: the
    creation status and the memory requirements. *)
Definition native_status (dev : d3d12_device) (d : D3D12_RESOURCE_DESC) : HRESULT :=
  fst (vkd3d_create_image dev (Some default_heap_properties) 0 (normalised_desc dev d)).

Definition native_requirements (dev : d3d12_device) (d : D3D12_RESOURCE_DESC)
  : VkMemoryRequirements :=
  vkGetImageMemoryRequirements dev
    (snd (vkd3d_create_image dev (Some default_heap_properties) 0 (normalised_desc dev d))).

(** [d3d12_resource_destroy] (resource.c:2347-2387): the releases it
    performs, in order.  An external resource gives back nothing beyond its
    views: the function returns before the native object, the memory, the
    device reference and the structure itself are released. *)
Definition d3d12_resource_destroy (dev : d3d12_device) (r : d3d12_resource) : list effect :=
  [ViewMapDestroy; UnregisterCookie (res_cookie r)] ++
  (if has_flag (flags r) VKD3D_RESOURCE_EXTERNAL then []
   else
     (if has_flag (flags r) VKD3D_RESOURCE_RESERVED
      then [FreeSparseMetadata; FreeTiles; FreeTilings] ++
           (if res_va r =? 0 then []
            else VaMapRemove (res_va r) ::
                 (if bufferDeviceAddress dev then []
                  else [FreeFakeVa (res_va r) (res_size r)]))
      else []) ++
     (if d3d12_resource_is_texture r then [DestroyImage (res_vk_image r)]
      else if has_flag (flags r) VKD3D_RESOURCE_RESERVED
           then [DestroyBuffer (res_vk_buffer r)] else []) ++
     (if has_flag (flags r) VKD3D_RESOURCE_ALLOCATION && negb (mem_vk_memory r =? 0)
      then [FreeMemory (mem_vk_memory r)] else []) ++
     (if vrs_view r =? 0 then [] else [DestroyImageView (vrs_view r)]) ++
     [PrivateStoreDestroy; DeviceRelease; FreeObject]).

(** *** Reference counting (resource.c:1230-1249, 1327-1356)

    A resource together with what has been called on its behalf.
    [destroyed] records that [d3d12_resource_destroy] has run. *)
Record lifetime := {
  object : d3d12_resource;
  destroyed : bool;
  calls : list effect
}.

Definition set_refcount (r : d3d12_resource) (n : Z) : d3d12_resource :=
  {| refcount := n; internal_refcount := internal_refcount r; desc := desc r;
     flags := flags r; format := format r; res_cookie := res_cookie r;
     res_vk_image := res_vk_image r; res_vk_buffer := res_vk_buffer r;
     res_va := res_va r; res_size := res_size r; mem_vk_memory := mem_vk_memory r;
     mem_offset := mem_offset r; vrs_view := vrs_view r;
     initial_state := initial_state r; heap_properties := heap_properties r;
     heap_flags := heap_flags r;
     initial_layout_transition := initial_layout_transition r |}.

Definition set_internal_refcount (r : d3d12_resource) (n : Z) : d3d12_resource :=
  {| refcount := refcount r; internal_refcount := n; desc := desc r;
     flags := flags r; format := format r; res_cookie := res_cookie r;
     res_vk_image := res_vk_image r; res_vk_buffer := res_vk_buffer r;
     res_va := res_va r; res_size := res_size r; mem_vk_memory := mem_vk_memory r;
     mem_offset := mem_offset r; vrs_view := vrs_view r;
     initial_state := initial_state r; heap_properties := heap_properties r;
     heap_flags := heap_flags r;
     initial_layout_transition := initial_layout_transition r |}.

(** [InterlockedIncrement] and [InterlockedDecrement] on a 32-bit counter;
    the result is read as [ULONG]. *)
Definition InterlockedIncrement (v : Z) : Z := u32 (v + 1).
Definition InterlockedDecrement (v : Z) : Z := u32 (v - 1).

Definition d3d12_resource_incref (s : lifetime) : Z * lifetime :=
  let refcount' := InterlockedIncrement (internal_refcount (object s)) in
  (refcount', {| object := set_internal_refcount (object s) refcount';
                 destroyed := destroyed s; calls := calls s |}).

Definition d3d12_resource_decref (dev : d3d12_device) (s : lifetime) : Z * lifetime :=
  let refcount' := InterlockedDecrement (internal_refcount (object s)) in
  let r := set_internal_refcount (object s) refcount' in
  if refcount' =? 0
  then (refcount', {| object := r; destroyed := true;
                      calls := calls s ++ d3d12_resource_destroy dev r |})
  else (refcount', {| object := r; destroyed := destroyed s; calls := calls s |}).

Definition d3d12_resource_AddRef (s : lifetime) : Z * lifetime :=
  let refcount' := InterlockedIncrement (refcount (object s)) in
  let s1 := {| object := set_refcount (object s) refcount';
               destroyed := destroyed s; calls := calls s |} in
  if refcount' =? 1
  then
    let s2 := {| object := object s1; destroyed := destroyed s1;
                 calls := calls s1 ++ [DeviceAddRef] |} in
    (refcount', snd (d3d12_resource_incref s2))
  else (refcount', s1).

Definition d3d12_resource_Release (dev : d3d12_device) (s : lifetime) : Z * lifetime :=
  let refcount' := InterlockedDecrement (refcount (object s)) in
  let s1 := {| object := set_refcount (object s) refcount';
               destroyed := destroyed s; calls := calls s |} in
  if refcount' =? 0
  then (refcount', snd (d3d12_resource_decref dev s1))
  else (refcount', s1).

(** Modelled from the spec: [d3d12_device_add_ref] and
    [d3d12_device_release] belong to the device, outside the sources at
    hand; the specification has them acquire and release "a reference on the
    owning device".  The references held on the device on behalf of a
    resource are the acquisitions minus the releases among the calls. *)
Fixpoint device_references (l : list effect) : Z :=
  match l with
  | [] => 0
  | DeviceAddRef :: l' => device_references l' + 1
  | DeviceRelease :: l' => device_references l' - 1
  | _ :: l' => device_references l'
  end.

Definition effect_eqb (a b : effect) : bool :=
  match a, b with
  | DeviceAddRef, DeviceAddRef | DeviceRelease, DeviceRelease
  | ViewMapDestroy, ViewMapDestroy | FreeSparseMetadata, FreeSparseMetadata
  | FreeTiles, FreeTiles | FreeTilings, FreeTilings
  | PrivateStoreDestroy, PrivateStoreDestroy | FreeObject, FreeObject => true
  | UnregisterCookie x, UnregisterCookie y | VaMapRemove x, VaMapRemove y
  | DestroyImage x, DestroyImage y | DestroyBuffer x, DestroyBuffer y
  | FreeMemory x, FreeMemory y | DestroyImageView x, DestroyImageView y => x =? y
  | FreeFakeVa x1 x2, FreeFakeVa y1 y2 => (x1 =? y1) && (x2 =? y2)
  | _, _ => false
  end.

Definition called (e : effect) (l : list effect) : bool := existsb (effect_eqb e) l.

(** The native object of a resource: its image, or the buffer a reserved
    buffer owns. *)
Definition native_object_released (r : d3d12_resource) (l : list effect) : bool :=
  if d3d12_resource_is_texture r then called (DestroyImage (res_vk_image r)) l
  else called (DestroyBuffer (res_vk_buffer r)) l.

(** A resource as a factory leaves it. *)
Definition fresh (r : d3d12_resource) : lifetime :=
  {| object := r; destroyed := false; calls := [DeviceAddRef] |}.

(** *** Placed resources (resource.c:2593-2712) *)

(** The fields of [struct d3d12_heap] that placement reads:
    [desc.Properties], [desc.Flags], the allocation's device memory, offset,
    buffer, address and size. *)
Record d3d12_heap := {
  heap_Properties : D3D12_HEAP_PROPERTIES;
  heap_Flags : Z;
  heap_vk_memory : Z;
  heap_offset_in_memory : Z;
  heap_vk_buffer : Z;
  heap_va : Z;
  heap_size : Z
}.

Definition deny_flag_of (resource_desc : D3D12_RESOURCE_DESC) : Z :=
  if Dimension resource_desc =? D3D12_RESOURCE_DIMENSION_BUFFER
  then D3D12_HEAP_FLAG_DENY_BUFFERS
  else if has_flag (Flags resource_desc)
            (Z.lor D3D12_RESOURCE_FLAG_ALLOW_RENDER_TARGET
                   D3D12_RESOURCE_FLAG_ALLOW_DEPTH_STENCIL)
  then D3D12_HEAP_FLAG_DENY_RT_DS_TEXTURES
  else D3D12_HEAP_FLAG_DENY_NON_RT_DS_TEXTURES.

Definition d3d12_resource_validate_heap (resource_desc : D3D12_RESOURCE_DESC)
    (heap : d3d12_heap) : HRESULT :=
  if has_flag (heap_Flags heap) (deny_flag_of resource_desc) then E_INVALIDARG
  else if has_flag (heap_Flags heap) D3D12_HEAP_FLAG_SHARED_CROSS_ADAPTER
          && negb (has_flag (Flags resource_desc) D3D12_RESOURCE_FLAG_ALLOW_CROSS_ADAPTER)
  then E_INVALIDARG
  else S_OK.

Definition D3D12_RESOURCE_FLAG_VIDEO_DECODE_REFERENCE_ONLY := 0x40.
Definition DXGI_FORMAT_R8_UINT := 62.

Definition vkd3d_resource_can_be_vrs (dev : d3d12_device)
    (hp : option D3D12_HEAP_PROPERTIES) (d : D3D12_RESOURCE_DESC) : bool :=
  attachmentFragmentShadingRate dev
  && (Format d =? DXGI_FORMAT_R8_UINT)
  && (Dimension d =? D3D12_RESOURCE_DIMENSION_TEXTURE2D)
  && (MipLevels d =? 1)
  && (Count (SampleDesc d) =? 1)
  && (Quality (SampleDesc d) =? 0)
  && (Layout d =? D3D12_TEXTURE_LAYOUT_UNKNOWN)
  && match hp with
     | Some p => negb (is_cpu_accessible_heap dev p)
     | None => false
     end
  && negb (has_flag (Flags d)
             (Z.lor D3D12_RESOURCE_FLAG_ALLOW_RENDER_TARGET
               (Z.lor D3D12_RESOURCE_FLAG_ALLOW_DEPTH_STENCIL
                 (Z.lor D3D12_RESOURCE_FLAG_ALLOW_CROSS_ADAPTER
                   (Z.lor D3D12_RESOURCE_FLAG_ALLOW_SIMULTANEOUS_ACCESS
                          D3D12_RESOURCE_FLAG_VIDEO_DECODE_REFERENCE_ONLY))))).

(** The outcome of a factory call: status, the object handed to the caller,
    the cookie allocator's state and the calls made. *)
Definition created : Type :=
  (HRESULT * option d3d12_resource * Cookie.globals * list effect)%type.

Section Placed.

(** [d3d12_resource_create_committed] is only the fallback of placement on a
    heap without backing memory; it is taken as given. *)
Variable d3d12_resource_create_committed :
  d3d12_device -> Cookie.globals -> D3D12_RESOURCE_DESC -> D3D12_HEAP_PROPERTIES ->
  Z -> Z -> bool -> created.

(** Modelled from the spec: [vkd3d_memory_allocation_slice] lives in the
    memory allocator, outside the sources at hand; the specification gives
    it as "slice(allocation, offset) -> Allocation (placed-resource sub-view
    of a heap allocation)": the heap's memory and buffer, displaced by the
    offset. *)
Definition vkd3d_memory_allocation_slice (r : d3d12_resource) (heap : d3d12_heap)
    (offset : Z) : d3d12_resource :=
  set_mem r (heap_vk_memory heap) (u64 (heap_offset_in_memory heap + offset)).

Definition d3d12_resource_create_placed (dev : d3d12_device) (g : Cookie.globals)
    (desc0 : D3D12_RESOURCE_DESC) (heap : d3d12_heap) (heap_offset : Z)
    (initial_state0 : Z) (optimized_clear_value : bool) : created :=
  let hr := d3d12_resource_validate_heap desc0 heap in
  if FAILED hr then (hr, None, g, [])
  else if heap_vk_memory heap =? VK_NULL_HANDLE then
    d3d12_resource_create_committed dev g desc0 (heap_Properties heap)
      (Z.land (heap_Flags heap)
         (Z.lnot (Z.lor D3D12_HEAP_FLAG_DENY_BUFFERS
                    (Z.lor D3D12_HEAP_FLAG_DENY_NON_RT_DS_TEXTURES
                           D3D12_HEAP_FLAG_DENY_RT_DS_TEXTURES))))
      initial_state0 optimized_clear_value
  else
    match d3d12_resource_create dev g VKD3D_RESOURCE_PLACED desc0
            (Some (heap_Properties heap)) (heap_Flags heap) initial_state0
            optimized_clear_value with
    | (hr, None, g', eff) => (hr, None, g', eff)
    | (_, Some object, g', eff) =>
        (* [goto fail]: roll back through the normal destroy path *)
        let fail (hr : HRESULT) (o : d3d12_resource) : created :=
          (hr, None, g', eff ++ d3d12_resource_destroy dev o) in
        (* the size check, with a texture's offset re-aligned first;
           [inl] is a jump to [fail] *)
        let checked : (HRESULT * d3d12_resource) + (d3d12_resource * Z) :=
          if d3d12_resource_is_texture object then
            let '(hr, o) := d3d12_resource_create_vk_resource dev object in
            if FAILED hr then inl (hr, o)
            else
              let memory_requirements := vkGetImageMemoryRequirements dev (res_vk_image o) in
              let heap_offset' := align heap_offset (req_alignment memory_requirements) in
              if heap_size heap <? u64 (heap_offset' + req_size memory_requirements)
              then inl (E_INVALIDARG, o)
              else inr (o, heap_offset')
          else
            if heap_size heap <? u64 (heap_offset + Width desc0)
            then inl (E_INVALIDARG, object)
            else inr (object, heap_offset) in
        match checked with
        | inl (hr, o) => fail hr o
        | inr (o, heap_offset') =>
            let o := vkd3d_memory_allocation_slice o heap heap_offset' in
            (* [if ((vr = vkBindImageMemory(...) < 0))]: the comparison is
               what is assigned to [vr] *)
            let bound : (HRESULT * d3d12_resource) + d3d12_resource :=
              if d3d12_resource_is_texture o then
                let vr := if vkBindImageMemory dev (res_vk_image o) (mem_vk_memory o)
                               (mem_offset o) <? 0 then 1 else 0 in
                if negb (vr =? 0) then inl (hresult_from_vk_result dev vr, o) else inr o
              else inr (set_buffer o (heap_vk_buffer heap) (u64 (heap_va heap + heap_offset'))) in
            match bound with
            | inl (hr, o) => fail hr o
            | inr o =>
                if vkd3d_resource_can_be_vrs dev (Some (heap_Properties heap)) desc0 then
                  let '(hr, view) := vkd3d_resource_make_vrs_view dev (res_vk_image o) in
                  if FAILED hr then fail hr o
                  else (S_OK, Some (set_vrs_view o view), g', eff)
                else (S_OK, Some o, g', eff)
            end
        end
    end.

End Placed.

Definition status (c : created) : HRESULT := fst (fst (fst c)).

(** The requirements the driver reports for the image of a placed texture,
    and the size check of [d3d12_resource_create_placed] as a predicate on
    its arguments. *)
Definition placed_requirements (dev : d3d12_device) (d : D3D12_RESOURCE_DESC)
    (heap : d3d12_heap) : VkMemoryRequirements :=
  vkGetImageMemoryRequirements dev
    (snd (vkd3d_create_image dev (Some (heap_Properties heap)) D3D12_HEAP_FLAG_NONE
            (normalised_desc dev d))).

Definition capacity_exceeded (dev : d3d12_device) (d : D3D12_RESOURCE_DESC)
    (heap : d3d12_heap) (heap_offset : Z) : bool :=
  if Dimension d =? D3D12_RESOURCE_DIMENSION_BUFFER
  then heap_size heap <? u64 (heap_offset + Width d)
  else
    let req := placed_requirements dev d heap in
    heap_size heap <? u64 (align heap_offset (req_alignment req) + req_size req).

(** The heap denies the category of the resource (buffer, render-target or
    depth-stencil capable texture, other texture). *)
Definition category_denied (d : D3D12_RESOURCE_DESC) (heap : d3d12_heap) : bool :=
  has_flag (heap_Flags heap) (deny_flag_of d).

Definition cross_adapter_mismatch (d : D3D12_RESOURCE_DESC) (heap : d3d12_heap) : bool :=
  has_flag (heap_Flags heap) D3D12_HEAP_FLAG_SHARED_CROSS_ADAPTER
  && negb (has_flag (Flags d) D3D12_RESOURCE_FLAG_ALLOW_CROSS_ADAPTER).

(** Everything placement needs besides the heap checks goes through: the
    heap has backing memory, the resource object can be created, and the
    driver creates and binds the image. *)
Definition placement_goes_through (dev : d3d12_device) (d : D3D12_RESOURCE_DESC)
    (heap : d3d12_heap) (initial_state0 : Z) (optimized_clear_value : bool) : Prop :=
  heap_vk_memory heap <> VK_NULL_HANDLE /\
  d3d12_resource_validate_create_info dev d (Some (heap_Properties heap))
    initial_state0 optimized_clear_value = S_OK /\
  vkd3d_malloc_object dev = true /\
  FAILED (vkd3d_private_store_init dev) = false /\
  (Dimension d <> D3D12_RESOURCE_DIMENSION_BUFFER ->
     FAILED (fst (vkd3d_create_image dev (Some (heap_Properties heap)) D3D12_HEAP_FLAG_NONE
                    (normalised_desc dev d))) = false) /\
  (forall image memory offset, 0 <= vkBindImageMemory dev image memory offset) /\
  (forall image, FAILED (fst (vkd3d_resource_make_vrs_view dev image)) = false).

End Resource.

(** ** Sparse tiling of reserved buffers (resource.c:1106-1138, 2243-2345)

    Only the buffer branches of [d3d12_resource_get_tiling] and
    [d3d12_resource_init_sparse_info] are modelled; for a texture the model
    answers [None]. *)

Module Sparse.
Import Machine Api Resource.

(** Modelled from the spec: [VKD3D_TILE_SIZE] is declared in
    vkd3d_private.h, which is not part of the sources at hand; the
    specification's glossary gives the tile as "a fixed-size (e.g. 64KB)
    unit". *)
Definition VKD3D_TILE_SIZE : Z := 65536.

Record D3D12_PACKED_MIP_INFO := {
  NumStandardMips : Z;
  NumPackedMips : Z;
  NumTilesForPackedMips : Z;
  packed_StartTileIndexInOverallResource : Z
}.

Record D3D12_TILE_SHAPE := { WidthInTexels : Z; HeightInTexels : Z; DepthInTexels : Z }.

Record D3D12_SUBRESOURCE_TILING := {
  WidthInTiles : Z;
  HeightInTiles : Z;
  DepthInTiles : Z;
  StartTileIndexInOverallResource : Z
}.

(** [struct d3d12_sparse_tile], buffer variant of the union. *)
Record d3d12_sparse_tile := {
  buffer_offset : Z;
  buffer_length : Z;
  vk_memory : Z;
  vk_offset : Z
}.

Record d3d12_sparse_info := {
  tiling_count : Z;
  tile_count : Z;
  tilings : list D3D12_SUBRESOURCE_TILING;
  tiles : list d3d12_sparse_tile;
  packed_mips : D3D12_PACKED_MIP_INFO;
  tile_shape : D3D12_TILE_SHAPE
}.

(** The structure after [memset] to zero. *)
Definition zero_sparse_info : d3d12_sparse_info :=
  {| tiling_count := 0; tile_count := 0; tilings := []; tiles := [];
     packed_mips := {| NumStandardMips := 0; NumPackedMips := 0;
                       NumTilesForPackedMips := 0;
                       packed_StartTileIndexInOverallResource := 0 |};
     tile_shape := {| WidthInTexels := 0; HeightInTexels := 0; DepthInTexels := 0 |} |}.

(** The outputs of [d3d12_resource_get_tiling]. *)
Record tiling := {
  total_tile_count : Z;
  packed_mip_info : D3D12_PACKED_MIP_INFO;
  out_tile_shape : D3D12_TILE_SHAPE;
  out_tilings : list D3D12_SUBRESOURCE_TILING
}.

(** The buffer branch.  [tile_count] is an [unsigned int]; only [tilings[0]]
    is written. *)
Definition d3d12_resource_get_tiling (r : d3d12_resource) : option tiling :=
  if Dimension (desc r) =? D3D12_RESOURCE_DIMENSION_BUFFER then
    let tile_count := u32 (align (Width (desc r)) VKD3D_TILE_SIZE / VKD3D_TILE_SIZE) in
    Some {| total_tile_count := tile_count;
            packed_mip_info := {| NumStandardMips := 0; NumPackedMips := 0;
                                  NumTilesForPackedMips := 0;
                                  packed_StartTileIndexInOverallResource := 0 |};
            out_tile_shape := {| WidthInTexels := VKD3D_TILE_SIZE; HeightInTexels := 1;
                                 DepthInTexels := 1 |};
            out_tilings := [ {| WidthInTiles := tile_count; HeightInTiles := 1;
                                DepthInTiles := 1;
                                StartTileIndexInOverallResource := 0 |} ] |}
  else None.

Section TileTable.

(** In [VkDeviceSize offset = VKD3D_TILE_SIZE * i;] the index is an
    [unsigned int] and the product is evaluated at the type of the macro's
    literal before it is widened: 32 bits for a plain literal, 64 for a
    64-bit one.  The header is not at hand, so the width is a parameter. *)
Variable tile_product_bits : Z.

(** Host allocation of an array of the given number of elements. *)
Variable vkd3d_malloc : Z -> bool.

(** [d3d12_resource_desc_get_sub_resource_count_per_plane], from a header
    that is not at hand. *)
Variable sub_resource_count_per_plane : D3D12_RESOURCE_DESC -> Z.

Definition tile_byte_offset (i : Z) : Z :=
  u64 (wrap tile_product_bits (VKD3D_TILE_SIZE * i)).

(** One iteration of the loop over the tiles, buffer branch. *)
Definition buffer_tile (width i : Z) : d3d12_sparse_tile :=
  let offset := tile_byte_offset i in
  {| buffer_offset := offset;
     buffer_length := Z.min VKD3D_TILE_SIZE (u64 (width - offset));
     vk_memory := VK_NULL_HANDLE;
     vk_offset := 0 |}.

(** [for (i = 0; i < sparse->tile_count; i++)] *)
Definition buffer_tiles (width count : Z) : list d3d12_sparse_tile :=
  (fun i => buffer_tile width (Z.of_nat i)) <$> seq 0 (Z.to_nat count).

Definition d3d12_resource_init_sparse_info (r : d3d12_resource)
  : option (HRESULT * d3d12_sparse_info) :=
  if negb (has_flag (flags r) VKD3D_RESOURCE_RESERVED) then Some (S_OK, zero_sparse_info)
  else
    let tiling_count0 := u32 (sub_resource_count_per_plane (desc r)) in
    if negb (vkd3d_malloc tiling_count0)
    then Some (E_OUTOFMEMORY,
               {| tiling_count := tiling_count0; tile_count := 0; tilings := []; tiles := [];
                  packed_mips := packed_mips zero_sparse_info;
                  tile_shape := tile_shape zero_sparse_info |})
    else
      match d3d12_resource_get_tiling r with
      | None => None
      | Some t =>
          let partial (tl : list d3d12_sparse_tile) :=
            {| tiling_count := tiling_count0; tile_count := total_tile_count t;
               tilings := out_tilings t; tiles := tl;
               packed_mips := packed_mip_info t; tile_shape := out_tile_shape t |} in
          if negb (vkd3d_malloc (total_tile_count t))
          then Some (E_OUTOFMEMORY, partial [])
          else
            (* [d3d12_resource_bind_sparse_metadata] returns [S_OK] at once
               for a buffer *)
            Some (S_OK, partial (buffer_tiles (Width (desc r)) (total_tile_count t)))
      end.

End TileTable.

(** [ceil (width / VKD3D_TILE_SIZE)] *)
Definition tiles_needed (width : Z) : Z :=
  (width + (VKD3D_TILE_SIZE - 1)) / VKD3D_TILE_SIZE.

End Sparse.

(** ** View keys: hashing and equality (resource.c:654-775, 4497-4503) *)

Module ViewKey.
Import Machine Api.

(** A [float] is kept as its IEEE-754 binary32 bit pattern;
    [float_bits_to_uint32] reads that pattern and [==] is the IEEE
    comparison: a NaN differs from everything, the two zeros are equal. *)
Definition float := Z.

Definition float_bits_to_uint32 (f : float) : Z := u32 f.

Definition float_is_nan (f : float) : bool :=
  (Z.land f 0x7F800000 =? 0x7F800000) && negb (Z.land f 0x007FFFFF =? 0).

Definition float_is_zero (f : float) : bool := Z.land f 0x7FFFFFFF =? 0.

Definition float_eq (a b : float) : bool :=
  if float_is_nan a || float_is_nan b then false
  else if float_is_zero a && float_is_zero b then true
  else u32 a =? u32 b.

(** [struct vkd3d_buffer_view_desc]; [bv_format] is the address of the
    format descriptor. *)
Record vkd3d_buffer_view_desc := {
  bv_buffer : Z;
  bv_format : Z;
  bv_offset : Z;
  bv_size : Z
}.

Record VkComponentMapping := { r : Z; g : Z; b : Z; a : Z }.

Record vkd3d_texture_view_desc := {
  image : Z;
  view_type : Z;
  aspect_mask : Z;
  tv_format : Z;
  miplevel_idx : Z;
  miplevel_count : Z;
  miplevel_clamp : float;
  layer_idx : Z;
  layer_count : Z;
  components : VkComponentMapping;
  allowed_swizzle : bool
}.

Record float4 := { c0 : float; c1 : float; c2 : float; c3 : float }.

Record D3D12_SAMPLER_DESC := {
  Filter : Z;
  AddressU : Z;
  AddressV : Z;
  AddressW : Z;
  MipLODBias : float;
  MaxAnisotropy : Z;
  ComparisonFunc : Z;
  BorderColor : float4;
  MinLOD : float;
  MaxLOD : float
}.

(** [struct vkd3d_view_key]: the tag with the member of the union it
    selects. *)
Inductive vkd3d_view_key :=
| VKD3D_VIEW_TYPE_BUFFER (d : vkd3d_buffer_view_desc)
| VKD3D_VIEW_TYPE_ACCELERATION_STRUCTURE (d : vkd3d_buffer_view_desc)
| VKD3D_VIEW_TYPE_IMAGE (d : vkd3d_texture_view_desc)
| VKD3D_VIEW_TYPE_SAMPLER (d : D3D12_SAMPLER_DESC)
| unexpected_view_type (tag : Z).

Definition d3d12_sampler_needs_border_color (u v w : Z) : bool :=
  (u =? D3D12_TEXTURE_ADDRESS_MODE_BORDER)
  || (v =? D3D12_TEXTURE_ADDRESS_MODE_BORDER)
  || (w =? D3D12_TEXTURE_ADDRESS_MODE_BORDER).

Definition needs_border (s : D3D12_SAMPLER_DESC) : bool :=
  d3d12_sampler_needs_border_color (AddressU s) (AddressV s) (AddressW s).

Definition bool_to_u32 (x : bool) : Z := if x then 1 else 0.

Section Hash.

(** [hash_uint64] and [hash_combine] come from hashmap.h, which is not part
    of the sources at hand. *)
Variable hash_uint64 : Z -> Z.
Variable hash_combine : Z -> Z -> Z.

(** The words a sampler key feeds to the hash after [Filter], in order. *)
Definition sampler_hash_words (s : D3D12_SAMPLER_DESC) : list Z :=
  [u32 (AddressU s); u32 (AddressV s); u32 (AddressW s);
   float_bits_to_uint32 (MipLODBias s); u32 (MaxAnisotropy s); u32 (ComparisonFunc s)]
  ++ (if needs_border s
      then [float_bits_to_uint32 (c0 (BorderColor s));
            float_bits_to_uint32 (c1 (BorderColor s));
            float_bits_to_uint32 (c2 (BorderColor s));
            float_bits_to_uint32 (c3 (BorderColor s))]
      else [])
  ++ [float_bits_to_uint32 (MinLOD s); float_bits_to_uint32 (MaxLOD s)].

Definition vkd3d_view_entry_hash (k : vkd3d_view_key) : Z :=
  match k with
  | VKD3D_VIEW_TYPE_BUFFER d | VKD3D_VIEW_TYPE_ACCELERATION_STRUCTURE d =>
      fold_left hash_combine
        [hash_uint64 (bv_offset d); hash_uint64 (bv_size d); u32 (bv_format d)]
        (hash_uint64 (bv_buffer d))
  | VKD3D_VIEW_TYPE_IMAGE d =>
      fold_left hash_combine
        [u32 (view_type d); u32 (tv_format d); u32 (miplevel_idx d);
         u32 (miplevel_count d); float_bits_to_uint32 (miplevel_clamp d);
         u32 (layer_idx d); u32 (layer_count d);
         u32 (r (components d)); u32 (g (components d));
         u32 (b (components d)); u32 (a (components d));
         bool_to_u32 (allowed_swizzle d)]
        (hash_uint64 (image d))
  | VKD3D_VIEW_TYPE_SAMPLER d =>
      fold_left hash_combine (sampler_hash_words d) (u32 (Filter d))
  | unexpected_view_type _ => 0
  end.

End Hash.

Definition buffer_desc_compare (k e : vkd3d_buffer_view_desc) : bool :=
  (bv_buffer k =? bv_buffer e) && (bv_format k =? bv_format e)
  && (bv_offset k =? bv_offset e) && (bv_size k =? bv_size e).

Definition border_color_eq (x y : float4) : bool :=
  float_eq (c0 x) (c0 y) && float_eq (c1 x) (c1 y)
  && float_eq (c2 x) (c2 y) && float_eq (c3 x) (c3 y).

(** [vkd3d_view_entry_compare key entry], with the entry given by its key. *)
Definition vkd3d_view_entry_compare (k e : vkd3d_view_key) : bool :=
  match k, e with
  | VKD3D_VIEW_TYPE_BUFFER k, VKD3D_VIEW_TYPE_BUFFER e
  | VKD3D_VIEW_TYPE_ACCELERATION_STRUCTURE k, VKD3D_VIEW_TYPE_ACCELERATION_STRUCTURE e =>
      buffer_desc_compare k e
  | VKD3D_VIEW_TYPE_IMAGE k, VKD3D_VIEW_TYPE_IMAGE e =>
      (image k =? image e) && (view_type k =? view_type e)
      && (tv_format k =? tv_format e) && (miplevel_idx k =? miplevel_idx e)
      && (miplevel_count k =? miplevel_count e)
      && float_eq (miplevel_clamp k) (miplevel_clamp e)
      && (layer_idx k =? layer_idx e) && (layer_count k =? layer_count e)
      && (r (components k) =? r (components e))
      && (g (components k) =? g (components e))
      && (b (components k) =? b (components e))
      && (a (components k) =? a (components e))
      && Bool.eqb (allowed_swizzle k) (allowed_swizzle e)
  | VKD3D_VIEW_TYPE_SAMPLER k, VKD3D_VIEW_TYPE_SAMPLER e =>
      (Filter k =? Filter e) && (AddressU k =? AddressU e)
      && (AddressV k =? AddressV e) && (AddressW k =? AddressW e)
      && float_eq (MipLODBias k) (MipLODBias e)
      && (MaxAnisotropy k =? MaxAnisotropy e)
      && (ComparisonFunc k =? ComparisonFunc e)
      && (negb (needs_border k) || border_color_eq (BorderColor k) (BorderColor e))
      && float_eq (MinLOD k) (MinLOD e) && float_eq (MaxLOD k) (MaxLOD e)
  | _, _ => false
  end.

(** The comparisons the code makes on the fields of two sampler
    descriptions other than the border colour. *)
Definition same_but_border (k e : D3D12_SAMPLER_DESC) : bool :=
  (Filter k =? Filter e) && (AddressU k =? AddressU e)
  && (AddressV k =? AddressV e) && (AddressW k =? AddressW e)
  && float_eq (MipLODBias k) (MipLODBias e)
  && (MaxAnisotropy k =? MaxAnisotropy e)
  && (ComparisonFunc k =? ComparisonFunc e)
  && float_eq (MinLOD k) (MinLOD e) && float_eq (MaxLOD k) (MaxLOD e).

Definition with_border (s : D3D12_SAMPLER_DESC) (c : float4) : D3D12_SAMPLER_DESC :=
  {| Filter := Filter s; AddressU := AddressU s; AddressV := AddressV s;
     AddressW := AddressW s; MipLODBias := MipLODBias s;
     MaxAnisotropy := MaxAnisotropy s; ComparisonFunc := ComparisonFunc s;
     BorderColor := c; MinLOD := MinLOD s; MaxLOD := MaxLOD s |}.

End ViewKey.

(** ** The view cache (resource.c:777-887, 2822-2873)

    [vkd3d_view_map_create_view] holds the map's lock in two separate
    sections and creates the native view between them with no lock held.
    The model therefore runs each call as a thread of atomic steps, one per
    locked section or unlocked piece of work, over a world shared by all
    callers; callers interleave between steps. *)

Module ViewMap.
Import Machine Api ViewKey.

(** [struct vkd3d_view]: the reference count, the cookie and the native
    handle (0 while there is none). *)
Record vkd3d_view := {
  refcount : Z;
  cookie : Z;
  vk_handle : Z
}.

(** What the callers share: the occupied entries of the hash map (key and
    address of the view) in insertion order with their count, the view
    objects on the host heap by address, the native views alive in the
    driver, the next unused address and the cookie counter. *)
Record world := {
  map : list (vkd3d_view_key * Z);
  used_count : Z;
  views : gmap Z vkd3d_view;
  native : gset Z;
  next : Z;
  cookies : Cookie.globals
}.

(** Where a caller stands. *)
Inductive pc :=
| Lookup                          (* about to search, under the read lock *)
| Create                          (* missed: about to create, no lock held *)
| Insert (view : Z)               (* created: about to insert, under the write lock *)
| Decref (redundant winner : Z)   (* lost the insert: about to drop its own view *)
| Done (result : option Z).       (* returned this view, or NULL *)

Section CreateView.

(** [hash_uint64] and [hash_combine] come from hashmap.h, which is not part
    of the sources at hand. *)
Variable hash_uint64 : Z -> Z.
Variable hash_combine : Z -> Z -> Z.

(** Modelled from the spec: the hash map lives in hashmap.h as well.  The
    specification has the cache "probe the hash map by key" and, on
    insertion, find that "another thread may have inserted an equal key in
    the interim", in which case the map's "now-current entry" is the other
    thread's.  [vkd3d_view_map_init] hands the map [vkd3d_view_entry_hash]
    and [vkd3d_view_entry_compare] (resource.c:780): [matches key stored] is
    the map's test that an entry holds the key, which is that the two hash
    alike and that the comparison answers true. *)
Definition matches (key stored : vkd3d_view_key) : bool :=
  (vkd3d_view_entry_hash hash_uint64 hash_combine key
   =? vkd3d_view_entry_hash hash_uint64 hash_combine stored)
  && vkd3d_view_entry_compare key stored.

(** Whether the driver creates the native view of a key, whether the host
    allocation of the view object succeeds, and whether the map can take one
    more entry. *)
Variable vk_create : vkd3d_view_key -> bool.
Variable vkd3d_malloc : bool.
Variable hash_map_can_grow : bool.

Definition hash_map_find (k : vkd3d_view_key) (m : list (vkd3d_view_key * Z)) : option Z :=
  snd <$> find (fun e => matches k (fst e)) m.

(** The entry now current for the key, as the address of its view; [None]
    when the map cannot grow. *)
Definition hash_map_insert (k : vkd3d_view_key) (view : Z) (w : world)
  : option (Z * world) :=
  match hash_map_find k (map w) with
  | Some current => Some (current, w)
  | None =>
      if hash_map_can_grow
      then Some (view, {| map := map w ++ [(k, view)]; used_count := u32 (used_count w + 1);
                          views := views w; native := native w; next := next w;
                          cookies := cookies w |})
      else None
  end.

(** [vkd3d_view_create]: a fresh object with one reference and a new
    cookie. *)
Definition vkd3d_view_create (handle : Z) (w : world) : Z * world :=
  let '(c, g) := Cookie.vkd3d_allocate_cookie (cookies w) in
  (next w,
   {| map := map w; used_count := used_count w;
      views := <[next w := {| refcount := 1; cookie := c; vk_handle := handle |}]> (views w);
      native := native w; next := next w + 1; cookies := g |}).

Definition add_native (handle : Z) (w : world) : world :=
  {| map := map w; used_count := used_count w; views := views w;
     native := {[handle]} ∪ native w; next := next w; cookies := cookies w |}.

Definition set_handle (view handle : Z) (w : world) : world :=
  {| map := map w; used_count := used_count w;
     views := alter (fun v => {| refcount := refcount v; cookie := cookie v;
                                 vk_handle := handle |}) view (views w);
     native := native w; next := next w; cookies := cookies w |}.

(** The [switch] on the key's type.  A sampler's object is allocated before
    the native sampler is created and is not freed when that fails; the
    other views are created natively first, and the native view is destroyed
    again when the allocation fails.  The native view of the object at
    address [a] is given the handle [a]. *)
Definition create_view (k : vkd3d_view_key) (w : world) : option Z * world :=
  match k with
  | unexpected_view_type _ => (None, w)
  | VKD3D_VIEW_TYPE_SAMPLER _ =>
      if vkd3d_malloc then
        let '(a, w1) := vkd3d_view_create 0 w in
        if vk_create k then (Some a, add_native a (set_handle a a w1)) else (None, w1)
      else (None, w)
  | _ =>
      if vk_create k then
        if vkd3d_malloc then
          let '(a, w1) := vkd3d_view_create (next w) (add_native (next w) w) in
          (Some a, w1)
        else (None, w)
      else (None, w)
  end.

(** [vkd3d_view_decref], with [vkd3d_view_destroy] when the count reaches
    zero; [None] is a use of a freed object. *)
Definition vkd3d_view_decref (view : Z) (w : world) : option world :=
  match views w !! view with
  | None => None
  | Some v =>
      let refcount' := u32 (refcount v - 1) in
      if refcount' =? 0
      then Some {| map := map w; used_count := used_count w;
                   views := delete view (views w);
                   native := native w ∖ {[vk_handle v]};
                   next := next w; cookies := cookies w |}
      else Some {| map := map w; used_count := used_count w;
                   views := <[view := {| refcount := refcount'; cookie := cookie v;
                                         vk_handle := vk_handle v |}]> (views w);
                   native := native w; next := next w; cookies := cookies w |}
  end.

(** One atomic step of a caller with key [k]; [None] is an abort (the
    [NULL] entry of a failed insert is dereferenced). *)
Definition thread_step (k : vkd3d_view_key) (p : pc) (w : world) : option (pc * world) :=
  match p with
  | Lookup =>
      match hash_map_find k (map w) with
      | Some view => Some (Done (Some view), w)
      | None => Some (Create, w)
      end
  | Create =>
      match create_view k w with
      | (Some view, w') => Some (Insert view, w')
      | (None, w') => Some (Done None, w')
      end
  | Insert view =>
      match hash_map_insert k view w with
      | None => None
      | Some (current, w') =>
          if current =? view then Some (Done (Some current), w')
          else Some (Decref view current, w')
      end
  | Decref redundant winner =>
      match vkd3d_view_decref redundant w with
      | None => None
      | Some w' => Some (Done (Some winner), w')
      end
  | Done r => Some (Done r, w)
  end.

(** A call run on its own, from entry to return. *)
Fixpoint run_thread (fuel : nat) (k : vkd3d_view_key) (p : pc) (w : world)
  : option (pc * world) :=
  match fuel with
  | O => Some (p, w)
  | S n =>
      match thread_step k p w with
      | Some (p', w') => run_thread n k p' w'
      | None => None
      end
  end.

Definition vkd3d_view_map_create_view (k : vkd3d_view_key) (w : world)
  : option (option Z * world) :=
  match run_thread 4 k Lookup w with
  | Some (Done r, w') => Some (r, w')
  | _ => None
  end.

(** Two callers on the same map. *)
Inductive thread_id := T1 | T2.

Record system := { pc1 : pc; pc2 : pc; shared : world }.

Definition system_step (k1 k2 : vkd3d_view_key) (t : thread_id) (s : system)
  : option system :=
  match t with
  | T1 => match thread_step k1 (pc1 s) (shared s) with
          | Some (p, w) => Some {| pc1 := p; pc2 := pc2 s; shared := w |}
          | None => None
          end
  | T2 => match thread_step k2 (pc2 s) (shared s) with
          | Some (p, w) => Some {| pc1 := pc1 s; pc2 := p; shared := w |}
          | None => None
          end
  end.

(** The system after the callers have taken their steps in the order of the
    schedule. *)
Fixpoint run (k1 k2 : vkd3d_view_key) (schedule : list thread_id) (s : system)
  : option system :=
  match schedule with
  | [] => Some s
  | t :: rest =>
      match system_step k1 k2 t s with
      | Some s' => run k1 k2 rest s'
      | None => None
      end
  end.

End CreateView.

Definition thread_eqb (t u : thread_id) : bool :=
  match t, u with T1, T1 | T2, T2 => true | _, _ => false end.

Fixpoint count_turns (t : thread_id) (schedule : list thread_id) : nat :=
  match schedule with
  | [] => O
  | u :: rest => if thread_eqb t u then S (count_turns t rest) else count_turns t rest
  end.

Definition is_known_type (k : vkd3d_view_key) : bool :=
  match k with unexpected_view_type _ => false | _ => true end.

(** Every address in use lies below the next unused one. *)
Definition well_formed (w : world) : Prop :=
  (forall a, is_Some (views w !! a) -> a < next w) /\
  (forall a, a ∈ native w -> a < next w) /\
  (forall k a, In (k, a) (map w) -> a < next w).

Definition start (w : world) : system := {| pc1 := Lookup; pc2 := Lookup; shared := w |}.

(** *** The invariant of two racing callers

    [w0] is the world before the two calls, [k1] and [k2] their keys.
    [installed] names the caller whose view went into the map, if any. *)
Section Invariant.

Variable w0 : world.
Variable k1 k2 : vkd3d_view_key.

Definition key_of (t : thread_id) : vkd3d_view_key :=
  match t with T1 => k1 | T2 => k2 end.

Definition other (t : thread_id) : thread_id :=
  match t with T1 => T2 | T2 => T1 end.

Definition pc_of (t : thread_id) (s : system) : pc :=
  match t with T1 => pc1 s | T2 => pc2 s end.

(** The view a caller holds that is not in the map. *)
Definition own (p : pc) : option Z :=
  match p with
  | Insert v => Some v
  | Decref redundant _ => Some redundant
  | _ => None
  end.

Definition winner (installed : option (thread_id * Z)) : option Z :=
  match installed with Some (_, v) => Some v | None => None end.

Definition entry (installed : option (thread_id * Z)) : list (vkd3d_view_key * Z) :=
  match installed with Some (t, v) => [(key_of t, v)] | None => [] end.

(** The views the two calls have brought about and not yet released. *)
Definition brought (s : system) (installed : option (thread_id * Z)) (a : Z) : Prop :=
  own (pc1 s) = Some a \/ own (pc2 s) = Some a \/ winner installed = Some a.

Definition pc_ok (t : thread_id) (p : pc) (installed : option (thread_id * Z)) : Prop :=
  match p with
  | Lookup | Create | Insert _ => forall v, installed <> Some (t, v)
  | Decref _ x => installed = Some (other t, x)
  | Done (Some x) => winner installed = Some x
  | Done None => False
  end.

Definition invariant (s : system) : Prop :=
  exists installed,
    map (shared s) = map w0 ++ entry installed /\
    used_count (shared s)
      = match installed with
        | Some _ => u32 (used_count w0 + 1)
        | None => used_count w0
        end /\
    (forall a, own (pc1 s) = Some a -> own (pc2 s) <> Some a) /\
    (forall a, own (pc1 s) = Some a -> winner installed <> Some a) /\
    (forall a, own (pc2 s) = Some a -> winner installed <> Some a) /\
    (forall a, brought s installed a ->
       next w0 <= a < next (shared s) /\ a ∈ native (shared s) /\
       exists c, views (shared s) !! a
                 = Some {| refcount := 1; cookie := c; vk_handle := a |}) /\
    (forall a, ~ brought s installed a ->
       views (shared s) !! a = views w0 !! a /\
       (a ∈ native (shared s) <-> a ∈ native w0)) /\
    next w0 <= next (shared s) /\
    pc_ok T1 (pc1 s) installed /\ pc_ok T2 (pc2 s) installed.

(** The same system with the callers exchanged. *)
Definition swap (s : system) : system :=
  {| pc1 := pc2 s; pc2 := pc1 s; shared := shared s |}.

Definition swap_installed (i : option (thread_id * Z)) : option (thread_id * Z) :=
  match i with Some (t, v) => Some (other t, v) | None => None end.

(** The steps a caller has left at most. *)
Definition rank (p : pc) : nat :=
  match p with
  | Lookup => 4 | Create => 3 | Insert _ => 2 | Decref _ _ => 1 | Done _ => 0
  end.

End Invariant.

Definition empty_world : world :=
  {| map := []; used_count := 0; views := ∅; native := ∅; next := 1;
     cookies := Cookie.initial |}.

End ViewMap.

(** ** The descriptor write engine (resource.c:3524-3924, 4287-4383, 4648-4692) *)

Module Descriptor.
Import Machine Api.

(** Modelled from the spec: the flag bits of a slot's metadata are declared
    in vkd3d_private.h, which is not part of the sources at hand; the
    specification lists them as "VIEW", "OFFSET_RANGE", "RAW_VA_AUX_BUFFER",
    "BUFFER_OFFSET" and "NON_NULL".  They are distinct single bits. *)
Definition VKD3D_DESCRIPTOR_FLAG_VIEW := 0x1.
Definition VKD3D_DESCRIPTOR_FLAG_RAW_VA_AUX_BUFFER := 0x2.
Definition VKD3D_DESCRIPTOR_FLAG_BUFFER_OFFSET := 0x4.
Definition VKD3D_DESCRIPTOR_FLAG_OFFSET_RANGE := 0x8.
Definition VKD3D_DESCRIPTOR_FLAG_NON_NULL := 0x10.

(** Modelled from the spec: the categories of "bindless set" are declared in
    vkd3d_private.h as well; they are only handed to the lookup of the
    bindless state, so their numbering is immaterial. *)
Definition VKD3D_BINDLESS_SET_SAMPLER := 0x1.
Definition VKD3D_BINDLESS_SET_CBV := 0x2.
Definition VKD3D_BINDLESS_SET_SRV := 0x4.
Definition VKD3D_BINDLESS_SET_UAV := 0x8.
Definition VKD3D_BINDLESS_SET_IMAGE := 0x10.
Definition VKD3D_BINDLESS_SET_BUFFER := 0x20.
Definition VKD3D_BINDLESS_SET_AUX_BUFFER := 0x40.
Definition VKD3D_BINDLESS_SET_RAW_SSBO := 0x80.

Definition VK_IMAGE_VIEW_TYPE_1D := 0.
Definition VK_IMAGE_VIEW_TYPE_2D := 1.
Definition VK_IMAGE_VIEW_TYPE_3D := 2.
Definition VK_IMAGE_VIEW_TYPE_1D_ARRAY := 4.
Definition VK_IMAGE_VIEW_TYPE_2D_ARRAY := 5.
Definition VK_COMPONENT_SWIZZLE_IDENTITY := 0.

(** [struct vkd3d_descriptor_data], the metadata of a slot. *)
Record vkd3d_descriptor_data := {
  cookie : Z;
  set_info_mask : Z;
  flags : Z;
  current_null_type : Z
}.

Record VkDescriptorBufferInfo := { buffer : Z; offset : Z; range : Z }.
Record VkDescriptorImageInfo := { sampler : Z; imageView : Z; imageLayout : Z }.

(** [union vkd3d_descriptor_info], by the member written. *)
Inductive vkd3d_descriptor_info :=
| info_buffer (b : VkDescriptorBufferInfo)
| info_buffer_view (view : Z)
| info_image (i : VkDescriptorImageInfo).

(** The [info] member of a slot: zeroed, a buffer range, or the view. *)
Inductive desc_info :=
| desc_info_zero
| desc_info_buffer (b : VkDescriptorBufferInfo)
| desc_info_view (view : ViewMap.vkd3d_view).

Record d3d12_desc := {
  heap_offset : Z;
  metadata : vkd3d_descriptor_data;
  info : desc_info
}.

(** [VkWriteDescriptorSet]; a write of the null template carries the
    template's null buffer, image and view instead of a payload. *)
Record VkWriteDescriptorSet := {
  dstSet : Z;
  dstBinding : Z;
  dstArrayElement : Z;
  descriptorCount : Z;
  descriptorType : Z;
  payload : option vkd3d_descriptor_info
}.

(** Modelled from the spec: [struct vkd3d_bound_buffer_range], the entry of
    the "offset/range side table", is declared in a header that is not
    among the sources; its four members are taken as 32-bit words. *)
Record vkd3d_bound_buffer_range := {
  byte_offset : Z;
  byte_count : Z;
  element_offset : Z;
  element_count : Z
}.

(** The parts of [struct d3d12_descriptor_heap] that stay as they are once
    the heap is built. *)
Record d3d12_descriptor_heap := {
  vk_descriptor_sets : Z -> Z;
  template_writes : list VkWriteDescriptorSet;
  template_set_info_mask : Z;
  has_mutable_descriptors : bool
}.

(** What a descriptor write can change: the slot, the heap's two host-side
    tables (the raw address table is absent when its [host_ptr] is null) and
    the driver, which sees one list of writes per
    [vkUpdateDescriptorSets]. *)
Record state := {
  slot : d3d12_desc;
  raw_va_aux_buffer : option (list Z);
  buffer_ranges : list vkd3d_bound_buffer_range;
  native_updates : list (list VkWriteDescriptorSet)
}.

(** *** A state monad with abort

    [None] is a crash of the C code (a null pointer is dereferenced). *)
Definition M (A : Type) : Type := state -> option (A * state).

Definition ret {A} (x : A) : M A := fun s => Some (x, s).

Definition bind {A B} (m : M A) (k : A -> M B) : M B :=
  fun s => match m s with
           | Some (x, s') => k x s'
           | None => None
           end.

Definition crash {A} : M A := fun _ => None.

Notation "'let*' x ':=' m 'in' k" := (bind m (fun x => k))
  (at level 10, x name, m at level 100, k at level 200, only parsing).
Notation "'run*' m 'in' k" := (bind m (fun _ => k))
  (at level 10, m at level 100, k at level 200, only parsing).

Definition get_slot : M d3d12_desc := fun s => Some (slot s, s).

Definition set_metadata (f : vkd3d_descriptor_data -> vkd3d_descriptor_data) : M unit :=
  fun s => Some (tt, {| slot := {| heap_offset := heap_offset (slot s);
                                  metadata := f (metadata (slot s));
                                  info := info (slot s) |};
                        raw_va_aux_buffer := raw_va_aux_buffer s;
                        buffer_ranges := buffer_ranges s;
                        native_updates := native_updates s |}).

Definition set_cookie (c : Z) : M unit :=
  set_metadata (fun m => {| cookie := c; set_info_mask := set_info_mask m;
                            flags := flags m; current_null_type := current_null_type m |}).

Definition set_set_info_mask (x : Z) : M unit :=
  set_metadata (fun m => {| cookie := cookie m; set_info_mask := x;
                            flags := flags m; current_null_type := current_null_type m |}).

Definition or_set_info_mask (x : Z) : M unit :=
  set_metadata (fun m => {| cookie := cookie m; set_info_mask := Z.lor (set_info_mask m) x;
                            flags := flags m; current_null_type := current_null_type m |}).

Definition set_flags (x : Z) : M unit :=
  set_metadata (fun m => {| cookie := cookie m; set_info_mask := set_info_mask m;
                            flags := x; current_null_type := current_null_type m |}).

Definition or_flags (x : Z) : M unit :=
  set_metadata (fun m => {| cookie := cookie m; set_info_mask := set_info_mask m;
                            flags := Z.lor (flags m) x;
                            current_null_type := current_null_type m |}).

Definition set_current_null_type (x : Z) : M unit :=
  set_metadata (fun m => {| cookie := cookie m; set_info_mask := set_info_mask m;
                            flags := flags m; current_null_type := x |}).

Definition set_info (i : desc_info) : M unit :=
  fun s => Some (tt, {| slot := {| heap_offset := heap_offset (slot s);
                                  metadata := metadata (slot s); info := i |};
                        raw_va_aux_buffer := raw_va_aux_buffer s;
                        buffer_ranges := buffer_ranges s;
                        native_updates := native_updates s |}).

(** [va[index] = address] through a [host_ptr] that may be null. *)
Definition write_raw_va (index address : Z) : M unit :=
  fun s => match raw_va_aux_buffer s with
           | None => None
           | Some table =>
               Some (tt, {| slot := slot s;
                            raw_va_aux_buffer := Some (<[Z.to_nat index := address]> table);
                            buffer_ranges := buffer_ranges s;
                            native_updates := native_updates s |})
           end.

Definition write_buffer_range (index : Z) (r : vkd3d_bound_buffer_range) : M unit :=
  fun s => Some (tt, {| slot := slot s; raw_va_aux_buffer := raw_va_aux_buffer s;
                        buffer_ranges := <[Z.to_nat index := r]> (buffer_ranges s);
                        native_updates := native_updates s |}).

Definition vkUpdateDescriptorSets (writes : list VkWriteDescriptorSet) : M unit :=
  fun s => Some (tt, {| slot := slot s; raw_va_aux_buffer := raw_va_aux_buffer s;
                        buffer_ranges := buffer_ranges s;
                        native_updates := native_updates s ++ [writes] |}).

(** The state a call leaves, when it returns. *)
Definition exec (m : M unit) (s : state) : option state :=
  match m s with Some (_, s') => Some s' | None => None end.


(** [va = heap->raw_va_aux_buffer.host_ptr; if (va) va[offset] = 0;] *)
Definition clear_raw_va (index : Z) : M unit :=
  fun s => match raw_va_aux_buffer s with
           | None => Some (tt, s)
           | Some _ => write_raw_va index 0 s
           end.

(** *** What the device and its tables answer *)

Record vkd3d_descriptor_binding := { set : Z; binding : Z }.

(** [struct vkd3d_unique_resource], as the address map hands it out. *)
Record vkd3d_unique_resource := {
  ur_vk_buffer : Z;
  ur_va : Z;
  ur_size : Z;
  ur_cookie : Z
}.

(** The collaborators of the descriptor writes.  Their code is in other
    files; each one is a function of what the caller passes.  The view cache
    of a resource (module [ViewMap]) is read here through its result only:
    the view a key is served with, or none when the creation fails. *)
Record d3d12_device := {
  vkd3d_bindless_state_get_cbv_descriptor_type : Z;
  vkd3d_bindless_state_find_set_info_index : Z -> Z;
  vkd3d_bindless_state_binding_from_info_index : Z -> vkd3d_descriptor_binding;
  (** [bindless_state.flags & VKD3D_SSBO_OFFSET_BUFFER] and
      [bindless_state.flags & VKD3D_TYPED_OFFSET_BUFFER] *)
  ssbo_offset_buffer : bool;
  typed_offset_buffer : bool;
  d3d12_device_use_ssbo_raw_buffer : bool;
  d3d12_device_supports_ray_tracing_tier_1_0 : bool;
  d3d12_device_get_ssbo_alignment : Z;
  maxTexelBufferElements : Z;
  vkd3d_va_map_deref : Z -> option vkd3d_unique_resource;
  vkd3d_get_format : Z -> bool -> option Resource.vkd3d_format;
  vkd3d_format_from_d3d12_resource_desc :
    Resource.D3D12_RESOURCE_DESC -> Z -> option Resource.vkd3d_format;
  vkd3d_format_is_compressed : Resource.vkd3d_format -> bool;
  (** the address of a format descriptor, as the view keys store it *)
  format_address : Resource.vkd3d_format -> Z;
  d3d12_resource_desc_get_layer_count : Resource.D3D12_RESOURCE_DESC -> Z;
  vkd3d_log2i : Z -> Z;
  vkd3d_view_map_create_view :
    Resource.d3d12_resource -> ViewKey.vkd3d_view_key -> option ViewMap.vkd3d_view
}.

(** *** The view descriptions of the API *)

Record D3D12_CONSTANT_BUFFER_VIEW_DESC := {
  BufferLocation : Z;
  SizeInBytes : Z
}.

(** [D3D12_SHADER_RESOURCE_VIEW_DESC] with the two members of its union that
    the buffer path reads: [Buffer] and [RaytracingAccelerationStructure]. *)
Record D3D12_SHADER_RESOURCE_VIEW_DESC := {
  srv_Format : Z;
  srv_ViewDimension : Z;
  FirstElement : Z;
  NumElements : Z;
  StructureByteStride : Z;
  Buffer_Flags : Z;
  Location : Z
}.

(** [D3D12_UNORDERED_ACCESS_VIEW_DESC]; the members of the union share their
    storage, so the union is kept as its 32-bit words and each member reads
    the words it lies on. *)
Record D3D12_UNORDERED_ACCESS_VIEW_DESC := {
  uav_Format : Z;
  uav_ViewDimension : Z;
  word0 : Z;
  word1 : Z;
  word2 : Z;
  word3 : Z
}.

Definition Texture1D_MipSlice := word0.
Definition Texture1DArray_MipSlice := word0.
Definition Texture1DArray_FirstArraySlice := word1.
Definition Texture1DArray_ArraySize := word2.
Definition Texture2D_MipSlice := word0.
Definition Texture2D_PlaneSlice := word1.
Definition Texture2DArray_MipSlice := word0.
Definition Texture2DArray_FirstArraySlice := word1.
Definition Texture2DArray_ArraySize := word2.
Definition Texture2DArray_PlaneSlice := word3.
Definition Texture3D_MipSlice := word0.

Definition D3D12_UAV_DIMENSION_TEXTURE1D := 2.
Definition D3D12_UAV_DIMENSION_TEXTURE1DARRAY := 3.
Definition D3D12_UAV_DIMENSION_TEXTURE2D := 4.
Definition D3D12_UAV_DIMENSION_TEXTURE2DARRAY := 5.
Definition D3D12_UAV_DIMENSION_TEXTURE3D := 8.
Definition D3D12_BUFFER_SRV_FLAG_RAW := 1.
Definition DXGI_FORMAT_R32_TYPELESS := 39.
Definition DXGI_FORMAT_R32_UINT := 42.
Definition VKD3D_VIEW_RAW_BUFFER := 0x1.

(** *** The writes *)

Section Writes.

Variable device : d3d12_device.
Variable heap : d3d12_descriptor_heap.

Definition vkd3d_init_write_descriptor_set (descriptor : d3d12_desc)
    (b : vkd3d_descriptor_binding) (vk_descriptor_type : Z)
    (i : vkd3d_descriptor_info) : VkWriteDescriptorSet :=
  {| dstSet := vk_descriptor_sets heap (set b);
     dstBinding := binding b;
     dstArrayElement := heap_offset descriptor;
     descriptorCount := 1;
     descriptorType := vk_descriptor_type;
     payload := Some i |}.

(** One turn of the loop that copies the template (resource.c:3571-3577). *)
Definition null_write (vk_mutable_descriptor_type offset : Z)
    (w : VkWriteDescriptorSet) : VkWriteDescriptorSet :=
  {| dstSet := dstSet w;
     dstBinding := dstBinding w;
     dstArrayElement := offset;
     descriptorCount := descriptorCount w;
     descriptorType := if descriptorType w =? VK_DESCRIPTOR_TYPE_MUTABLE_VALVE
                       then vk_mutable_descriptor_type else descriptorType w;
     payload := payload w |}.

(** The type the null write works with: the caller's on a heap with mutable
    descriptors, the dummy type 0 otherwise (resource.c:3559-3560). *)
Definition null_type (vk_mutable_descriptor_type : Z) : Z :=
  if has_mutable_descriptors heap then vk_mutable_descriptor_type else 0.

Definition d3d12_descriptor_heap_write_null_descriptor_template
    (vk_mutable_descriptor_type : Z) : M unit :=
  let vk_mutable_descriptor_type := null_type vk_mutable_descriptor_type in
  let* desc := get_slot in
  if negb (has_flag (flags (metadata desc)) VKD3D_DESCRIPTOR_FLAG_NON_NULL)
     && (current_null_type (metadata desc) =? vk_mutable_descriptor_type)
  then ret tt
  else
    let offset := heap_offset desc in
    run* vkUpdateDescriptorSets
           (null_write vk_mutable_descriptor_type offset <$> template_writes heap) in
    run* set_cookie 0 in
    run* set_flags 0 in
    run* set_set_info_mask (template_set_info_mask heap) in
    run* set_current_null_type vk_mutable_descriptor_type in
    run* set_info desc_info_zero in
    clear_raw_va offset.

Definition d3d12_desc_create_cbv (desc : option D3D12_CONSTANT_BUFFER_VIEW_DESC) : M unit :=
  match desc with
  | None => ret tt
  | Some desc =>
      if negb (Z.land (SizeInBytes desc)
                 (D3D12_CONSTANT_BUFFER_DATA_PLACEMENT_ALIGNMENT - 1) =? 0)
      then ret tt
      else
        let vk_descriptor_type := vkd3d_bindless_state_get_cbv_descriptor_type device in
        if BufferLocation desc =? 0
        then d3d12_descriptor_heap_write_null_descriptor_template vk_descriptor_type
        else
          match vkd3d_va_map_deref device (BufferLocation desc) with
          | None => crash
          | Some resource =>
              let buffer_offset := u64 (BufferLocation desc - ur_va resource) in
              let b := {| buffer := ur_vk_buffer resource;
                          offset := buffer_offset;
                          range := Z.min (SizeInBytes desc)
                                     (u64 (ur_size resource - buffer_offset)) |} in
              let info_index :=
                vkd3d_bindless_state_find_set_info_index device VKD3D_BINDLESS_SET_CBV in
              run* set_cookie (ur_cookie resource) in
              run* set_set_info_mask (u32 (Z.shiftl 1 info_index)) in
              run* set_flags (Z.lor VKD3D_DESCRIPTOR_FLAG_OFFSET_RANGE
                                VKD3D_DESCRIPTOR_FLAG_NON_NULL) in
              run* set_info (desc_info_buffer b) in
              let* descriptor := get_slot in
              vkUpdateDescriptorSets
                [vkd3d_init_write_descriptor_set descriptor
                   (vkd3d_bindless_state_binding_from_info_index device info_index)
                   vk_descriptor_type (info_buffer b)]
          end
  end.

Definition vkd3d_view_flags_from_d3d12_buffer_srv_flags (f : Z) : Z :=
  if f =? D3D12_BUFFER_SRV_FLAG_RAW then VKD3D_VIEW_RAW_BUFFER else 0.

(** resource.c:3670-3698. *)
Definition vkd3d_buffer_view_get_bound_range_ssbo
    (resource : option Resource.d3d12_resource) (offset0 range0 : Z)
    (bound_range : vkd3d_bound_buffer_range)
    : VkDescriptorBufferInfo * vkd3d_bound_buffer_range :=
  match resource with
  | Some resource =>
      let alignment := d3d12_device_get_ssbo_alignment device in
      let mask := u64 (Z.lnot (u64 (alignment - 1))) in
      let aligned_begin := Z.land offset0 mask in
      let aligned_end :=
        Z.min (Z.land (u64 (offset0 + range0 + alignment - 1)) mask)
              (Resource.Width (Resource.desc resource)) in
      ({| buffer := Resource.res_vk_buffer resource;
          offset := u64 (Resource.mem_offset resource + aligned_begin);
          range := u64 (aligned_end - aligned_begin) |},
       {| byte_offset := u32 (offset0 - aligned_begin);
          byte_count := u32 range0;
          element_offset := element_offset bound_range;
          element_count := element_count bound_range |})
  | None =>
      ({| buffer := VK_NULL_HANDLE; offset := 0; range := VK_WHOLE_SIZE |},
       {| byte_offset := 0;
          byte_count := 0;
          element_offset := element_offset bound_range;
          element_count := element_count bound_range |})
  end.

(** [None] is the null pointer or the division by zero of the C code, the
    inner option the result of the function ([false] is [None]). *)
Definition vkd3d_create_buffer_view_for_resource
    (resource : Resource.d3d12_resource) (view_format offset0 size structure_stride fl : Z)
    : option (option ViewMap.vkd3d_view) :=
  let offset0 := u32 offset0 in
  let size := u32 size in
  let structure_stride := u32 structure_stride in
  let found : option (option (Z * Z)) :=
    if (view_format =? DXGI_FORMAT_R32_TYPELESS) && has_flag fl VKD3D_VIEW_RAW_BUFFER then
      match vkd3d_get_format device DXGI_FORMAT_R32_UINT false with
      | Some f => Some (Some (format_address device f, Resource.byte_count f))
      | None => None
      end
    else if (view_format =? DXGI_FORMAT_UNKNOWN) && negb (structure_stride =? 0) then
      match vkd3d_get_format device DXGI_FORMAT_R32_UINT false with
      | Some f => Some (Some (format_address device f, structure_stride))
      | None => Some (Some (0, structure_stride))
      end
    else
      match vkd3d_format_from_d3d12_resource_desc device (Resource.desc resource) view_format with
      | Some f => Some (Some (format_address device f, Resource.byte_count f))
      | None => Some None
      end in
  match found with
  | None => None
  | Some None => Some None
  | Some (Some (format_pointer, element_size)) =>
      if negb (Resource.d3d12_resource_is_buffer resource) then None
      else
        Some (vkd3d_view_map_create_view device resource
                (ViewKey.VKD3D_VIEW_TYPE_BUFFER
                   {| ViewKey.bv_buffer := Resource.res_vk_buffer resource;
                      ViewKey.bv_format := format_pointer;
                      ViewKey.bv_offset :=
                        u64 (Resource.mem_offset resource + offset0 * element_size);
                      ViewKey.bv_size := u64 (size * element_size) |}))
  end.

(** The quantisation of a typed view (resource.c:3716-3772): the bound
    range and the elements the cached view covers.  [None] is a null format
    or a division by zero. *)
Definition quantize_typed (resource : Resource.d3d12_resource)
    (fmt first_element num_elements structured_stride : Z)
    (bound_range : vkd3d_bound_buffer_range)
    : option (Z * Z * Z * vkd3d_bound_buffer_range) :=
  let max_elements := maxTexelBufferElements device in
  let rescaled : option (Z * Z * Z * Z) :=
    if negb (fmt =? 0) then
      match vkd3d_get_format device fmt false with
      | Some f =>
          if Resource.byte_count f =? 0 then None
          else Some (first_element, num_elements, structured_stride,
                     Resource.Width (Resource.desc resource) / Resource.byte_count f)
      | None => None
      end
    else
      Some (u64 (first_element * structured_stride) / 4,
            u64 (num_elements * structured_stride) / 4,
            4,
            Resource.Width (Resource.desc resource) / 4) in
  match rescaled with
  | None => None
  | Some (first_element, num_elements, structured_stride, max_resource_elements) =>
      let whole := {| byte_offset := byte_offset bound_range;
                      byte_count := byte_count bound_range;
                      element_offset := 0;
                      element_count := u32 num_elements |} in
      if max_elements <? num_elements then
        Some (first_element, num_elements, structured_stride, whole)
      else if max_resource_elements <=? num_elements then
        Some (first_element, num_elements, structured_stride, whole)
      else
        let max_element_headroom := u64 (max_elements - num_elements + 1) in
        let element_align :=
          u32 (Z.shiftl 1 (vkd3d_log2i device (u32 max_element_headroom))) in
        let mask := u64 (Z.lnot (u64 (element_align - 1))) in
        let begin_range := Z.land first_element mask in
        let end_range :=
          Z.min (Z.land (u64 (first_element + num_elements + element_align - 1)) mask)
                max_resource_elements in
        Some (begin_range, u64 (end_range - begin_range), structured_stride,
              {| byte_offset := byte_offset bound_range;
                 byte_count := byte_count bound_range;
                 element_offset := u32 (first_element - begin_range);
                 element_count := u32 num_elements |})
  end.

(** The outer option is the crash, the inner one the [false] of the C
    function; on [true] it hands back the bound range and the view. *)
Definition vkd3d_buffer_view_get_aligned_view
    (resource : Resource.d3d12_resource)
    (fmt vk_flags first_element num_elements structured_stride : Z)
    (bound_range : vkd3d_bound_buffer_range)
    : option (option (vkd3d_bound_buffer_range * ViewMap.vkd3d_view)) :=
  let quantized :=
    if typed_offset_buffer device
    then quantize_typed resource fmt first_element num_elements structured_stride bound_range
    else Some (first_element, num_elements, structured_stride, bound_range) in
  match quantized with
  | None => None
  | Some (first_element, num_elements, structured_stride, bound_range) =>
      match vkd3d_create_buffer_view_for_resource resource fmt
              first_element num_elements structured_stride vk_flags with
      | None => None
      | Some None => Some None
      | Some (Some view) => Some (Some (bound_range, view))
      end
  end.

Definition when (c : bool) (m : M unit) : M unit := if c then m else ret tt.

Definition no_bound_range : vkd3d_bound_buffer_range :=
  {| byte_offset := 0; byte_count := 0; element_offset := 0; element_count := 0 |}.

(** The storage-buffer half of a buffer view (resource.c:3853-3881): it
    leaves the write it has prepared and the bound range. *)
Definition buffer_srv_ssbo (resource : Resource.d3d12_resource)
    (desc : D3D12_SHADER_RESOURCE_VIEW_DESC)
    : M (list VkWriteDescriptorSet * vkd3d_bound_buffer_range) :=
  let stride : option Z :=
    if srv_Format desc =? DXGI_FORMAT_UNKNOWN then Some (StructureByteStride desc)
    else match vkd3d_get_format device (srv_Format desc) false with
         | Some f => Some (Resource.byte_count f)
         | None => None
         end in
  match stride with
  | None => crash
  | Some stride =>
      let ranges :=
        vkd3d_buffer_view_get_bound_range_ssbo (Some resource)
          (u64 (FirstElement desc * stride)) (u64 (NumElements desc * stride))
          no_bound_range in
      let info_index :=
        vkd3d_bindless_state_find_set_info_index device
          (Z.lor VKD3D_BINDLESS_SET_SRV VKD3D_BINDLESS_SET_RAW_SSBO) in
      run* set_info (desc_info_buffer (fst ranges)) in
      run* set_cookie (Resource.res_cookie resource) in
      run* or_set_info_mask (u32 (Z.shiftl 1 info_index)) in
      run* or_flags (Z.lor VKD3D_DESCRIPTOR_FLAG_OFFSET_RANGE
                       VKD3D_DESCRIPTOR_FLAG_NON_NULL) in
      run* when (ssbo_offset_buffer device) (or_flags VKD3D_DESCRIPTOR_FLAG_BUFFER_OFFSET) in
      let* descriptor := get_slot in
      ret ([vkd3d_init_write_descriptor_set descriptor
              (vkd3d_bindless_state_binding_from_info_index device info_index)
              VK_DESCRIPTOR_TYPE_STORAGE_BUFFER (info_buffer (fst ranges))],
           snd ranges)
  end.

(** The slots of a heap and the entries of its two tables go by the same
    index, and a slot is inside its heap: the writes to the tables land on
    an entry. *)
Definition vkd3d_create_buffer_srv (resource : option Resource.d3d12_resource)
    (desc : option D3D12_SHADER_RESOURCE_VIEW_DESC) : M unit :=
  match desc with
  | None => ret tt
  | Some desc =>
      if srv_ViewDimension desc =? D3D12_SRV_DIMENSION_RAYTRACING_ACCELERATION_STRUCTURE then
        if Location desc =? 0
        then d3d12_descriptor_heap_write_null_descriptor_template VK_DESCRIPTOR_TYPE_SAMPLED_IMAGE
        else if d3d12_device_supports_ray_tracing_tier_1_0 device then
          let* descriptor := get_slot in
          run* write_raw_va (heap_offset descriptor) (Location desc) in
          run* set_flags (Z.lor VKD3D_DESCRIPTOR_FLAG_RAW_VA_AUX_BUFFER
                            VKD3D_DESCRIPTOR_FLAG_NON_NULL) in
          run* set_set_info_mask 0 in
          set_cookie 0
        else ret tt
      else if negb (srv_ViewDimension desc =? D3D12_SRV_DIMENSION_BUFFER) then ret tt
      else
        match resource with
        | None =>
            d3d12_descriptor_heap_write_null_descriptor_template
              VK_DESCRIPTOR_TYPE_UNIFORM_TEXEL_BUFFER
        | Some resource =>
            run* set_set_info_mask 0 in
            run* set_flags 0 in
            let* ssbo :=
              (if d3d12_device_use_ssbo_raw_buffer device
               then buffer_srv_ssbo resource desc
               else ret ([], no_bound_range)) in
            match vkd3d_buffer_view_get_aligned_view resource (srv_Format desc)
                    (vkd3d_view_flags_from_d3d12_buffer_srv_flags (Buffer_Flags desc))
                    (FirstElement desc) (NumElements desc) (StructureByteStride desc)
                    (snd ssbo) with
            | None => crash
            | Some None => ret tt
            | Some (Some (bound_range, view)) =>
                let info_index :=
                  vkd3d_bindless_state_find_set_info_index device
                    (Z.lor VKD3D_BINDLESS_SET_SRV VKD3D_BINDLESS_SET_BUFFER) in
                run* set_info (desc_info_view view) in
                run* set_cookie (ViewMap.cookie view) in
                run* or_set_info_mask (u32 (Z.shiftl 1 info_index)) in
                run* or_flags (Z.lor VKD3D_DESCRIPTOR_FLAG_VIEW
                                 VKD3D_DESCRIPTOR_FLAG_NON_NULL) in
                run* when (typed_offset_buffer device)
                       (or_flags VKD3D_DESCRIPTOR_FLAG_BUFFER_OFFSET) in
                let* descriptor := get_slot in
                run* when (has_flag (flags (metadata descriptor))
                             VKD3D_DESCRIPTOR_FLAG_BUFFER_OFFSET)
                       (write_buffer_range (heap_offset descriptor) bound_range) in
                vkUpdateDescriptorSets
                  (fst ssbo ++
                   [vkd3d_init_write_descriptor_set descriptor
                      (vkd3d_bindless_state_binding_from_info_index device info_index)
                      VK_DESCRIPTOR_TYPE_UNIFORM_TEXEL_BUFFER
                      (info_buffer_view (ViewMap.vk_handle view))])
            end
        end
  end.

(** resource.c:1785-1804; [None] is the null format. *)
Definition vk_image_aspect_flags_from_d3d12 (format : option Resource.vkd3d_format)
    (plane_idx : Z) : option Z :=
  match format with
  | None => None
  | Some format =>
      let aspect_mask :=
        Nat.iter (Z.to_nat plane_idx) (fun m => Z.land m (u32 (m - 1)))
                 (Resource.vk_aspect_mask format) in
      let aspect_mask :=
        if aspect_mask =? 0 then Resource.vk_aspect_mask format else aspect_mask in
      Some (Z.land aspect_mask (u32 (- aspect_mask)))
  end.

(** resource.c:3403-3451: the format found and the description, or [None]
    for [false]. *)
Definition init_default_texture_view_desc (resource : Resource.d3d12_resource)
    (view_format : Z) : option (Resource.vkd3d_format * ViewKey.vkd3d_texture_view_desc) :=
  match vkd3d_format_from_d3d12_resource_desc device (Resource.desc resource) view_format with
  | None => None
  | Some format =>
      let d := Resource.desc resource in
      let shaped (view_type layer_count : Z) :=
        Some (format,
              {| ViewKey.image := Resource.res_vk_image resource;
                 ViewKey.view_type := view_type;
                 ViewKey.aspect_mask := Resource.vk_aspect_mask format;
                 ViewKey.tv_format := format_address device format;
                 ViewKey.miplevel_idx := 0;
                 ViewKey.miplevel_count := 1;
                 ViewKey.miplevel_clamp := 0;
                 ViewKey.layer_idx := 0;
                 ViewKey.layer_count := layer_count;
                 ViewKey.components :=
                   {| ViewKey.r := VK_COMPONENT_SWIZZLE_IDENTITY;
                      ViewKey.g := VK_COMPONENT_SWIZZLE_IDENTITY;
                      ViewKey.b := VK_COMPONENT_SWIZZLE_IDENTITY;
                      ViewKey.a := VK_COMPONENT_SWIZZLE_IDENTITY |};
                 ViewKey.allowed_swizzle := false |}) in
      if Resource.Dimension d =? D3D12_RESOURCE_DIMENSION_TEXTURE1D then
        shaped (if 1 <? Resource.DepthOrArraySize d
                then VK_IMAGE_VIEW_TYPE_1D_ARRAY else VK_IMAGE_VIEW_TYPE_1D)
               (d3d12_resource_desc_get_layer_count device d)
      else if Resource.Dimension d =? D3D12_RESOURCE_DIMENSION_TEXTURE2D then
        shaped (if 1 <? Resource.DepthOrArraySize d
                then VK_IMAGE_VIEW_TYPE_2D_ARRAY else VK_IMAGE_VIEW_TYPE_2D)
               (d3d12_resource_desc_get_layer_count device d)
      else if Resource.Dimension d =? D3D12_RESOURCE_DIMENSION_TEXTURE3D then
        shaped VK_IMAGE_VIEW_TYPE_3D 1
      else None
  end.

Definition shape_view (k : ViewKey.vkd3d_texture_view_desc)
    (view_type miplevel_idx layer_idx layer_count aspect_mask : Z)
    : ViewKey.vkd3d_texture_view_desc :=
  {| ViewKey.image := ViewKey.image k;
     ViewKey.view_type := view_type;
     ViewKey.aspect_mask := aspect_mask;
     ViewKey.tv_format := ViewKey.tv_format k;
     ViewKey.miplevel_idx := miplevel_idx;
     ViewKey.miplevel_count := ViewKey.miplevel_count k;
     ViewKey.miplevel_clamp := ViewKey.miplevel_clamp k;
     ViewKey.layer_idx := layer_idx;
     ViewKey.layer_count := layer_count;
     ViewKey.components := ViewKey.components k;
     ViewKey.allowed_swizzle := ViewKey.allowed_swizzle k |}.

(** The [switch] on the view dimension (resource.c:4315-4355); a dimension
    of no [case] is reported and the key stays the default one.  [None] is
    the null format of the resource. *)
Definition texture_uav_key (resource : Resource.d3d12_resource)
    (k : ViewKey.vkd3d_texture_view_desc) (desc : D3D12_UNORDERED_ACCESS_VIEW_DESC)
    : option ViewKey.vkd3d_texture_view_desc :=
  let dim := uav_ViewDimension desc in
  if dim =? D3D12_UAV_DIMENSION_TEXTURE1D then
    Some (shape_view k VK_IMAGE_VIEW_TYPE_1D (Texture1D_MipSlice desc)
            (ViewKey.layer_idx k) 1 (ViewKey.aspect_mask k))
  else if dim =? D3D12_UAV_DIMENSION_TEXTURE1DARRAY then
    Some (shape_view k VK_IMAGE_VIEW_TYPE_1D_ARRAY (Texture1DArray_MipSlice desc)
            (Texture1DArray_FirstArraySlice desc) (Texture1DArray_ArraySize desc)
            (ViewKey.aspect_mask k))
  else if dim =? D3D12_UAV_DIMENSION_TEXTURE2D then
    match vk_image_aspect_flags_from_d3d12 (Resource.format resource)
            (Texture2D_PlaneSlice desc) with
    | None => None
    | Some aspect =>
        Some (shape_view k VK_IMAGE_VIEW_TYPE_2D (Texture2D_MipSlice desc)
                (ViewKey.layer_idx k) 1 aspect)
    end
  else if dim =? D3D12_UAV_DIMENSION_TEXTURE2DARRAY then
    match vk_image_aspect_flags_from_d3d12 (Resource.format resource)
            (Texture2DArray_PlaneSlice desc) with
    | None => None
    | Some aspect =>
        Some (shape_view k VK_IMAGE_VIEW_TYPE_2D_ARRAY (Texture2DArray_MipSlice desc)
                (Texture2DArray_FirstArraySlice desc) (Texture2DArray_ArraySize desc) aspect)
    end
  else if dim =? D3D12_UAV_DIMENSION_TEXTURE3D then
    Some (shape_view k VK_IMAGE_VIEW_TYPE_3D (Texture3D_MipSlice desc)
            (ViewKey.layer_idx k) (ViewKey.layer_count k) (ViewKey.aspect_mask k))
  else Some k.

Definition vkd3d_create_texture_uav (resource : option Resource.d3d12_resource)
    (desc : option D3D12_UNORDERED_ACCESS_VIEW_DESC) : M unit :=
  match resource with
  | None => d3d12_descriptor_heap_write_null_descriptor_template VK_DESCRIPTOR_TYPE_STORAGE_IMAGE
  | Some resource =>
      match init_default_texture_view_desc resource
              (match desc with Some desc => uav_Format desc | None => 0 end) with
      | None => ret tt
      | Some (format, k) =>
          if vkd3d_format_is_compressed device format then ret tt
          else
            match (match desc with
                   | Some desc => texture_uav_key resource k desc
                   | None => Some k
                   end) with
            | None => crash
            | Some k =>
                match vkd3d_view_map_create_view device resource
                        (ViewKey.VKD3D_VIEW_TYPE_IMAGE k) with
                | None => ret tt
                | Some view =>
                    let i := {| sampler := VK_NULL_HANDLE;
                                imageView := ViewMap.vk_handle view;
                                imageLayout := VK_IMAGE_LAYOUT_GENERAL |} in
                    let info_index :=
                      vkd3d_bindless_state_find_set_info_index device
                        (Z.lor VKD3D_BINDLESS_SET_UAV VKD3D_BINDLESS_SET_IMAGE) in
                    run* set_info (desc_info_view view) in
                    run* set_cookie (ViewMap.cookie view) in
                    run* set_set_info_mask (u32 (Z.shiftl 1 info_index)) in
                    run* set_flags (Z.lor VKD3D_DESCRIPTOR_FLAG_VIEW
                                      VKD3D_DESCRIPTOR_FLAG_NON_NULL) in
                    let* descriptor := get_slot in
                    vkUpdateDescriptorSets
                      [vkd3d_init_write_descriptor_set descriptor
                         (vkd3d_bindless_state_binding_from_info_index device info_index)
                         VK_DESCRIPTOR_TYPE_STORAGE_IMAGE (info_image i)]
                end
            end
      end
  end.

(** *** The operations, for statements about all of them *)

Inductive operation :=
| write_null (vk_mutable_descriptor_type : Z)
| create_cbv (desc : option D3D12_CONSTANT_BUFFER_VIEW_DESC)
| create_buffer_srv (resource : option Resource.d3d12_resource)
    (desc : option D3D12_SHADER_RESOURCE_VIEW_DESC)
| create_texture_uav (resource : option Resource.d3d12_resource)
    (desc : option D3D12_UNORDERED_ACCESS_VIEW_DESC).

Definition perform (op : operation) : M unit :=
  match op with
  | write_null ty => d3d12_descriptor_heap_write_null_descriptor_template ty
  | create_cbv desc => d3d12_desc_create_cbv desc
  | create_buffer_srv resource desc => vkd3d_create_buffer_srv resource desc
  | create_texture_uav resource desc => vkd3d_create_texture_uav resource desc
  end.

(** The calls that end at a return of the error paths: no description or a
    size off the 256 bytes for a constant buffer; for a buffer view no
    description, a view dimension that is neither a buffer nor an
    acceleration structure, or an acceleration structure on a device without
    ray tracing; for a texture view a format that is not found, a resource
    that is no texture, a compressed format, or no view from the cache. *)
Definition rejected (op : operation) : bool :=
  match op with
  | write_null _ => false
  | create_cbv None => true
  | create_cbv (Some desc) =>
      negb (Z.land (SizeInBytes desc)
              (D3D12_CONSTANT_BUFFER_DATA_PLACEMENT_ALIGNMENT - 1) =? 0)
  | create_buffer_srv _ None => true
  | create_buffer_srv _ (Some desc) =>
      if srv_ViewDimension desc =? D3D12_SRV_DIMENSION_RAYTRACING_ACCELERATION_STRUCTURE
      then negb (Location desc =? 0)
           && negb (d3d12_device_supports_ray_tracing_tier_1_0 device)
      else negb (srv_ViewDimension desc =? D3D12_SRV_DIMENSION_BUFFER)
  | create_texture_uav None _ => false
  | create_texture_uav (Some resource) desc =>
      match init_default_texture_view_desc resource
              (match desc with Some desc => uav_Format desc | None => 0 end) with
      | None => true
      | Some (format, k) =>
          vkd3d_format_is_compressed device format
          || match (match desc with
                    | Some desc => texture_uav_key resource k desc
                    | None => Some k
                    end) with
             | Some k =>
                 match vkd3d_view_map_create_view device resource
                         (ViewKey.VKD3D_VIEW_TYPE_IMAGE k) with
                 | None => true
                 | Some _ => false
                 end
             | None => false
             end
      end
  end.

(** The resources and views an operation can meet carry the cookies given. *)
Definition operation_cookies (op : operation) : list Z :=
  match op with
  | write_null _ => []
  | create_cbv None => []
  | create_cbv (Some desc) =>
      match vkd3d_va_map_deref device (BufferLocation desc) with
      | Some resource => [ur_cookie resource]
      | None => []
      end
  | create_buffer_srv None _ => []
  | create_buffer_srv (Some resource) _ => [Resource.res_cookie resource]
  | create_texture_uav _ _ => []
  end.

End Writes.

(** A slot is in the null state when its NON_NULL flag is clear. *)
Definition is_null (d : d3d12_desc) : bool :=
  negb (has_flag (flags (metadata d)) VKD3D_DESCRIPTOR_FLAG_NON_NULL).

(** A slot is bound to a resource or a view when it holds a view or an
    offset and range. *)
Definition is_bound (d : d3d12_desc) : bool :=
  has_flag (flags (metadata d))
    (Z.lor VKD3D_DESCRIPTOR_FLAG_VIEW VKD3D_DESCRIPTOR_FLAG_OFFSET_RANGE).

(** The reading of the cookie: a slot with cookie 0 is bound to no resource
    and no view. *)
Definition cookie_discipline (d : d3d12_desc) : Prop :=
  cookie (metadata d) = 0 -> is_bound d = false.

(** A slot as [d3d12_descriptor_heap_init_descriptors] leaves it: zeroed,
    then given the set mask of the null template (resource.c:5499-5530). *)
Definition initial_slot (heap : d3d12_descriptor_heap) (index : Z) : d3d12_desc :=
  {| heap_offset := index;
     metadata := {| cookie := 0;
                    set_info_mask := template_set_info_mask heap;
                    flags := 0;
                    current_null_type := 0 |};
     info := desc_info_zero |}.

Definition initial_state (heap : d3d12_descriptor_heap) (index : Z)
    (raw : option (list Z)) (ranges : list vkd3d_bound_buffer_range) : state :=
  {| slot := initial_slot heap index;
     raw_va_aux_buffer := raw;
     buffer_ranges := ranges;
     native_updates := [] |}.

End Descriptor.

(** * Further parts of the code *)

(** ** What a factory call leaves behind *)

Module Outcome.
Import Machine Api Resource.

Definition handed_out (c : created) : option d3d12_resource := snd (fst (fst c)).

Definition log (c : created) : list effect := snd c.

(** Nothing is left of a call: the device references taken are given back,
    no memory is freed, and the resource object is freed unless the call
    ended before the object was allocated. *)
Definition rolled_back (c : created) : Prop :=
  device_references (log c) = 0 /\
  (forall m, called (FreeMemory m) (log c) = false) /\
  (log c = [] \/ called FreeObject (log c) = true).

End Outcome.

(** ** The floating-point fields of a view key *)

Module KeyFloats.
Import Machine Api ViewKey.

(** The fields [vkd3d_view_entry_compare] compares with [==] on [float]
    (resource.c:744, 759-769). *)
Definition compared_floats (k : vkd3d_view_key) : list float :=
  match k with
  | VKD3D_VIEW_TYPE_IMAGE d => [miplevel_clamp d]
  | VKD3D_VIEW_TYPE_SAMPLER d =>
      [MipLODBias d; MinLOD d; MaxLOD d]
      ++ (if needs_border d
          then [c0 (BorderColor d); c1 (BorderColor d);
                c2 (BorderColor d); c3 (BorderColor d)]
          else [])
  | _ => []
  end.

Definition no_nan (k : vkd3d_view_key) : bool :=
  forallb (fun f => negb (float_is_nan f)) (compared_floats k).

(** The bit pattern of the negative zero. *)
Definition negative_zero : Z := 0x80000000.

Definition no_negative_zero (k : vkd3d_view_key) : bool :=
  forallb (fun f => negb (u32 f =? negative_zero)) (compared_floats k).

End KeyFloats.

(** ** Subresource indices (resource.c:1806-1833) *)

Module Subresource.
Import Machine Api.

Record VkImageSubresource := { aspectMask : Z; mipLevel : Z; arrayLayer : Z }.

(** [None] is the null format or a division by zero. *)
Definition vk_image_subresource_from_d3d12 (format : option Resource.vkd3d_format)
    (subresource_idx miplevel_count layer_count : Z) (all_aspects : bool)
    : option VkImageSubresource :=
  match format with
  | None => None
  | Some f =>
      if (miplevel_count =? 0) || (layer_count =? 0) then None
      else
        let mip := subresource_idx mod miplevel_count in
        let layer := (subresource_idx / miplevel_count) mod layer_count in
        if all_aspects
        then Some {| aspectMask := Resource.vk_aspect_mask f;
                     mipLevel := mip; arrayLayer := layer |}
        else
          let per_plane := u32 (miplevel_count * layer_count) in
          if per_plane =? 0 then None
          else
            match Descriptor.vk_image_aspect_flags_from_d3d12 format
                    (subresource_idx / per_plane) with
            | Some aspect =>
                Some {| aspectMask := aspect; mipLevel := mip; arrayLayer := layer |}
            | None => None
            end
  end.

(** [d3d12_resource_desc_get_layer_count] is an inline function of a header
    that is not among the sources; it is handed in. *)
Definition d3d12_resource_get_vk_subresource
    (d3d12_resource_desc_get_layer_count : Resource.D3D12_RESOURCE_DESC -> Z)
    (resource : Resource.d3d12_resource) (subresource_idx : Z) (all_aspects : bool)
    : option VkImageSubresource :=
  vk_image_subresource_from_d3d12 (Resource.format resource) subresource_idx
    (Resource.MipLevels (Resource.desc resource))
    (d3d12_resource_desc_get_layer_count (Resource.desc resource)) all_aspects.

End Subresource.

(** ** Texture views: swizzles and the range of mip levels
    (resource.c:3264-3318, 3355-3401, 3453-3502) *)

Module TextureView.
Import Machine Api ViewKey.

Definition VK_COMPONENT_SWIZZLE_IDENTITY := 0.
Definition VK_COMPONENT_SWIZZLE_ZERO := 1.
Definition VK_COMPONENT_SWIZZLE_ONE := 2.
Definition VK_COMPONENT_SWIZZLE_R := 3.
Definition VK_COMPONENT_SWIZZLE_G := 4.
Definition VK_COMPONENT_SWIZZLE_B := 5.
Definition VK_COMPONENT_SWIZZLE_A := 6.

Definition VK_IMAGE_ASPECT_STENCIL_BIT := 0x4.
Definition VK_REMAINING_MIP_LEVELS := 0xFFFFFFFF.
Definition DXGI_FORMAT_A8_UNORM := 65.
Definition DXGI_FORMAT_B8G8R8X8_UNORM := 88.
Definition DXGI_FORMAT_B8G8R8X8_UNORM_SRGB := 93.

Definition rgba : VkComponentMapping :=
  {| r := VK_COMPONENT_SWIZZLE_R; g := VK_COMPONENT_SWIZZLE_G;
     b := VK_COMPONENT_SWIZZLE_B; a := VK_COMPONENT_SWIZZLE_A |}.

(** The three [if]s follow one another; a later one overrides an earlier
    one. *)
Definition vkd3d_set_view_swizzle_for_format (format : Resource.vkd3d_format)
    (allowed_swizzle : bool) : VkComponentMapping :=
  let c := rgba in
  let c :=
    if (Resource.vk_aspect_mask format =? VK_IMAGE_ASPECT_STENCIL_BIT) && allowed_swizzle
    then {| r := VK_COMPONENT_SWIZZLE_ZERO; g := VK_COMPONENT_SWIZZLE_R;
            b := VK_COMPONENT_SWIZZLE_ZERO; a := VK_COMPONENT_SWIZZLE_ZERO |}
    else c in
  let c :=
    if (Resource.dxgi_format format =? DXGI_FORMAT_A8_UNORM) && allowed_swizzle
    then {| r := VK_COMPONENT_SWIZZLE_ZERO; g := VK_COMPONENT_SWIZZLE_ZERO;
            b := VK_COMPONENT_SWIZZLE_ZERO; a := VK_COMPONENT_SWIZZLE_R |}
    else c in
  if ((Resource.dxgi_format format =? DXGI_FORMAT_B8G8R8X8_UNORM)
      || (Resource.dxgi_format format =? DXGI_FORMAT_B8G8R8X8_UNORM_SRGB))
     && allowed_swizzle
  then {| r := VK_COMPONENT_SWIZZLE_R; g := VK_COMPONENT_SWIZZLE_G;
          b := VK_COMPONENT_SWIZZLE_B; a := VK_COMPONENT_SWIZZLE_ONE |}
  else c.

(** [None] is the failed [assert]. *)
Definition swizzle_vk_component (components : VkComponentMapping)
    (component swizzle : Z) : option Z :=
  let component :=
    if swizzle =? VK_COMPONENT_SWIZZLE_IDENTITY then component
    else if swizzle =? VK_COMPONENT_SWIZZLE_R then r components
    else if swizzle =? VK_COMPONENT_SWIZZLE_G then g components
    else if swizzle =? VK_COMPONENT_SWIZZLE_B then b components
    else if swizzle =? VK_COMPONENT_SWIZZLE_A then a components
    else if (swizzle =? VK_COMPONENT_SWIZZLE_ONE) || (swizzle =? VK_COMPONENT_SWIZZLE_ZERO)
    then swizzle
    else component in
  if component =? VK_COMPONENT_SWIZZLE_IDENTITY then None else Some component.

Definition vk_component_mapping_compose (dst second : VkComponentMapping)
    : option VkComponentMapping :=
  match swizzle_vk_component dst (r dst) (r second),
        swizzle_vk_component dst (g dst) (g second),
        swizzle_vk_component dst (b dst) (b second),
        swizzle_vk_component dst (a dst) (a second) with
  | Some r', Some g', Some b', Some a' => Some {| r := r'; g := g'; b := b'; a := a' |}
  | _, _, _, _ => None
  end.

(** What a component mapping means to the one who reads through the view:
    each channel read is the channel of the same name, a channel named, or a
    constant. *)
Record texel := { red : Z; green : Z; blue : Z; alpha : Z }.

Section Reading.

Variable zero one : Z.

Definition read_channel (own : texel -> Z) (swizzle : Z) (t : texel) : Z :=
  if swizzle =? VK_COMPONENT_SWIZZLE_ZERO then zero
  else if swizzle =? VK_COMPONENT_SWIZZLE_ONE then one
  else if swizzle =? VK_COMPONENT_SWIZZLE_R then red t
  else if swizzle =? VK_COMPONENT_SWIZZLE_G then green t
  else if swizzle =? VK_COMPONENT_SWIZZLE_B then blue t
  else if swizzle =? VK_COMPONENT_SWIZZLE_A then alpha t
  else own t.

Definition read_through (c : VkComponentMapping) (t : texel) : texel :=
  {| red := read_channel red (r c) t; green := read_channel green (g c) t;
     blue := read_channel blue (b c) t; alpha := read_channel alpha (a c) t |}.

End Reading.

(** A component mapping names a channel or a constant everywhere. *)
Definition explicit (swizzle : Z) : bool :=
  (VK_COMPONENT_SWIZZLE_ZERO <=? swizzle) && (swizzle <=? VK_COMPONENT_SWIZZLE_A).

Definition all_explicit (c : VkComponentMapping) : bool :=
  explicit (r c) && explicit (g c) && explicit (b c) && explicit (a c).

(** The comparison [f >= 1.0f] on the bit pattern: the sign is clear and
    the pattern lies between that of 1.0 and that of the infinity (a NaN
    compares false). *)
Definition float_ge_one (f : float) : bool :=
  let bits := u32 f in
  (0x3F800000 <=? bits) && (bits <=? 0x7F800000).

(** The conversion [(uint32_t)f] of a float that is at least 1.0: the
    fraction is dropped.  [None] where C leaves the conversion undefined,
    that is when the integer part does not fit 32 bits (the infinity
    included). *)
Definition float_to_uint32 (f : float) : option Z :=
  let bits := u32 f in
  let exponent := Z.land (Z.shiftr bits 23) 0xFF in
  let significand := Z.lor (Z.land bits 0x7FFFFF) 0x800000 in
  if 158 <? exponent then None
  else if 150 <=? exponent then Some (Z.shiftl significand (exponent - 150))
  else Some (Z.shiftr significand (150 - exponent)).

Record VkImageSubresourceRange := {
  aspectMask : Z;
  baseMipLevel : Z;
  levelCount : Z;
  baseArrayLayer : Z;
  layerCount : Z
}.

Record VkImageViewCreateInfo := {
  ci_flags : Z;
  ci_image : Z;
  ci_viewType : Z;
  ci_format : Z;
  ci_components : VkComponentMapping;
  subresourceRange : VkImageSubresourceRange
}.

(** resource.c:3484-3500 on the two members it changes: the first level
    and the number of levels. *)
Definition clamp_levels (clamp : float) (base count : Z) : option (Z * Z) :=
  if float_ge_one clamp then
    match float_to_uint32 clamp with
    | None => None
    | Some converted =>
        let clamp_base_level := Z.max converted base in
        if negb (count =? VK_REMAINING_MIP_LEVELS) then
          let end_level := u32 (base + count) in
          let new_base_level := Z.min (u32 (end_level - 1)) clamp_base_level in
          Some (new_base_level, u32 (end_level - new_base_level))
        else Some (clamp_base_level, count)
    end
  else Some (base, count).

(** resource.c:3462-3500: what [vkd3d_create_texture_view] hands to
    [vkCreateImageView].  [None] is a failed assertion of the composition
    or an undefined conversion of the clamp. *)
Definition texture_view_create_info (format : Resource.vkd3d_format)
    (desc : vkd3d_texture_view_desc) : option VkImageViewCreateInfo :=
  let swizzle := vkd3d_set_view_swizzle_for_format format (allowed_swizzle desc) in
  match (if allowed_swizzle desc
         then vk_component_mapping_compose swizzle (components desc)
         else Some swizzle),
        clamp_levels (miplevel_clamp desc) (miplevel_idx desc) (miplevel_count desc) with
  | Some composed, Some (base, count) =>
      Some {| ci_flags := 0;
              ci_image := image desc;
              ci_viewType := view_type desc;
              ci_format := Resource.vk_format format;
              ci_components := composed;
              subresourceRange :=
                {| aspectMask := aspect_mask desc;
                   baseMipLevel := base;
                   levelCount := count;
                   baseArrayLayer := layer_idx desc;
                   layerCount := layer_count desc |} |}
  | _, _ => None
  end.

End TextureView.

(** ** Memory types of the device (resource.c:5844-6206) *)

Module MemoryInfo.
Import Machine Api.

Definition VK_MEMORY_HEAP_DEVICE_LOCAL_BIT := 0x1.
Definition VK_MEMORY_PROPERTY_DEVICE_LOCAL_BIT := 0x1.
Definition VK_MEMORY_PROPERTY_HOST_VISIBLE_BIT := 0x2.
Definition UINT32_MAX := 0xFFFFFFFF.

Record VkMemoryType := { propertyFlags : Z; heapIndex : Z }.
Record VkMemoryHeap := { size : Z; flags : Z }.

(** [VkPhysicalDeviceMemoryProperties]: the entries the driver filled in;
    [memoryTypeCount] and [memoryHeapCount] are the lengths. *)
Record VkPhysicalDeviceMemoryProperties := {
  memoryTypes : list VkMemoryType;
  memoryHeaps : list VkMemoryHeap
}.

Record vkd3d_memory_topology := {
  largest_device_local_heap_size : Z;
  largest_host_only_heap_size : Z;
  largest_device_local_heap_index : Z;
  largest_host_only_heap_index : Z;
  device_local_heap_count : Z;
  host_only_heap_count : Z;
  exists_device_only_type : bool;
  exists_host_only_type : bool
}.

(** [for (i = first; ...; i++)] over the entries of an array. *)
Fixpoint for_each {A S : Type} (body : Z -> A -> S -> S) (i : Z) (l : list A) (s : S) : S :=
  match l with
  | [] => s
  | x :: l' => for_each body (i + 1) l' (body i x s)
  end.

Definition topology_of_heap (i : Z) (heap : VkMemoryHeap) (t : vkd3d_memory_topology)
    : vkd3d_memory_topology :=
  let heap_size := size heap in
  if has_flag (flags heap) VK_MEMORY_HEAP_DEVICE_LOCAL_BIT then
    let larger := largest_device_local_heap_size t <? heap_size in
    {| largest_device_local_heap_size :=
         if larger then heap_size else largest_device_local_heap_size t;
       largest_host_only_heap_size := largest_host_only_heap_size t;
       largest_device_local_heap_index :=
         if larger then i else largest_device_local_heap_index t;
       largest_host_only_heap_index := largest_host_only_heap_index t;
       device_local_heap_count := u32 (device_local_heap_count t + 1);
       host_only_heap_count := host_only_heap_count t;
       exists_device_only_type := exists_device_only_type t;
       exists_host_only_type := exists_host_only_type t |}
  else
    let larger := largest_host_only_heap_size t <? heap_size in
    {| largest_device_local_heap_size := largest_device_local_heap_size t;
       largest_host_only_heap_size :=
         if larger then heap_size else largest_host_only_heap_size t;
       largest_device_local_heap_index := largest_device_local_heap_index t;
       largest_host_only_heap_index :=
         if larger then i else largest_host_only_heap_index t;
       device_local_heap_count := device_local_heap_count t;
       host_only_heap_count := u32 (host_only_heap_count t + 1);
       exists_device_only_type := exists_device_only_type t;
       exists_host_only_type := exists_host_only_type t |}.

Definition topology_of_type (i : Z) (type : VkMemoryType) (t : vkd3d_memory_topology)
    : vkd3d_memory_topology :=
  let flags := propertyFlags type in
  let heap_index := heapIndex type in
  if (heap_index =? largest_device_local_heap_index t)
     && has_flag flags VK_MEMORY_PROPERTY_DEVICE_LOCAL_BIT
     && negb (has_flag flags VK_MEMORY_PROPERTY_HOST_VISIBLE_BIT)
  then
    {| largest_device_local_heap_size := largest_device_local_heap_size t;
       largest_host_only_heap_size := largest_host_only_heap_size t;
       largest_device_local_heap_index := largest_device_local_heap_index t;
       largest_host_only_heap_index := largest_host_only_heap_index t;
       device_local_heap_count := device_local_heap_count t;
       host_only_heap_count := host_only_heap_count t;
       exists_device_only_type := true;
       exists_host_only_type := exists_host_only_type t |}
  else if (heap_index =? largest_host_only_heap_index t)
          && negb (has_flag flags VK_MEMORY_PROPERTY_DEVICE_LOCAL_BIT)
          && has_flag flags VK_MEMORY_PROPERTY_HOST_VISIBLE_BIT
  then
    {| largest_device_local_heap_size := largest_device_local_heap_size t;
       largest_host_only_heap_size := largest_host_only_heap_size t;
       largest_device_local_heap_index := largest_device_local_heap_index t;
       largest_host_only_heap_index := largest_host_only_heap_index t;
       device_local_heap_count := device_local_heap_count t;
       host_only_heap_count := host_only_heap_count t;
       exists_device_only_type := exists_device_only_type t;
       exists_host_only_type := true |}
  else t.

(** The [memset]. *)
Definition no_topology : vkd3d_memory_topology :=
  {| largest_device_local_heap_size := 0; largest_host_only_heap_size := 0;
     largest_device_local_heap_index := 0; largest_host_only_heap_index := 0;
     device_local_heap_count := 0; host_only_heap_count := 0;
     exists_device_only_type := false; exists_host_only_type := false |}.

Definition vkd3d_memory_info_get_topology (memory_properties : VkPhysicalDeviceMemoryProperties)
    : vkd3d_memory_topology :=
  let t := for_each topology_of_heap 0 (memoryHeaps memory_properties) no_topology in
  for_each topology_of_type 0 (memoryTypes memory_properties) t.

Definition pinned_mask :=
  Z.lor VK_MEMORY_PROPERTY_HOST_VISIBLE_BIT VK_MEMORY_PROPERTY_DEVICE_LOCAL_BIT.

(** Whether the loop of [vkd3d_memory_info_find_global_mask] blocks a
    memory type. *)
Definition is_blocked (topology : vkd3d_memory_topology) (type : VkMemoryType) : bool :=
  negb (heapIndex type =? largest_device_local_heap_index topology)
  && negb (heapIndex type =? largest_host_only_heap_index topology)
  && (Z.land (propertyFlags type) pinned_mask =? pinned_mask).

(** [1u << i]; the arrays of the driver have 32 memory types at most, which
    keeps the shift defined. *)
Definition bit (i : Z) : Z := u32 (Z.shiftl 1 i).

(** [no_upload_hvv] is [vkd3d_config_flags & VKD3D_CONFIG_FLAG_NO_UPLOAD_HVV]. *)
Definition vkd3d_memory_info_find_global_mask (no_upload_hvv : bool)
    (topology : vkd3d_memory_topology)
    (memory_properties : VkPhysicalDeviceMemoryProperties) : Z :=
  if negb no_upload_hvv then UINT32_MAX
  else if (device_local_heap_count topology <=? 1) || (host_only_heap_count topology =? 0)
  then UINT32_MAX
  else if negb (exists_device_only_type topology) || negb (exists_host_only_type topology)
  then UINT32_MAX
  else
    let mask :=
      for_each (fun i type mask => if is_blocked topology type then Z.lor mask (bit i) else mask)
               0 (memoryTypes memory_properties) 0 in
    u32 (Z.lnot mask).

(** What [vkd3d_memory_info_init_budgets] writes: the mask and the entries
    of [type_budget] and [type_current] it assigns, by index. *)
Record budgets := {
  budget_sensitive_mask : Z;
  type_budget : gmap Z Z;
  type_current : gmap Z Z
}.

(** [None] is a read of [memoryHeaps] past the entries the driver filled
    in. *)
Definition budget_of_type (memory_properties : VkPhysicalDeviceMemoryProperties)
    (topology : vkd3d_memory_topology) (i : Z) (type : VkMemoryType)
    (info : option budgets) : option budgets :=
  match info with
  | None => None
  | Some info =>
      let heaps := memoryHeaps memory_properties in
      match heaps !! Z.to_nat (heapIndex type),
            heaps !! Z.to_nat (largest_device_local_heap_index topology) with
      | Some heap, Some largest =>
          let heap_index_needs_budget :=
            (u64 (3 * size largest) / 4 <? size heap)
            && has_flag (flags heap) VK_MEMORY_HEAP_DEVICE_LOCAL_BIT in
          if (Z.land (propertyFlags type) pinned_mask =? pinned_mask) && heap_index_needs_budget
          then Some {| budget_sensitive_mask := Z.lor (budget_sensitive_mask info) (bit i);
                       type_budget := <[i := size heap / 16]> (type_budget info);
                       type_current := <[i := 0]> (type_current info) |}
          else Some info
      | _, _ => None
      end
  end.

Definition vkd3d_memory_info_init_budgets (topology : vkd3d_memory_topology)
    (memory_properties : VkPhysicalDeviceMemoryProperties) : option budgets :=
  let info := {| budget_sensitive_mask := 0; type_budget := ∅; type_current := ∅ |} in
  if (device_local_heap_count topology =? 0) || (host_only_heap_count topology =? 0)
  then Some info
  else if negb (exists_device_only_type topology) || negb (exists_host_only_type topology)
  then Some info
  else for_each (budget_of_type memory_properties topology) 0
                (memoryTypes memory_properties) (Some info).

(** The two kinds of heap the first loop tells apart, and the two kinds of
    memory type the second loop looks for. *)
Definition device_local (heap : VkMemoryHeap) : bool :=
  has_flag (flags heap) VK_MEMORY_HEAP_DEVICE_LOCAL_BIT.

Definition host_only (heap : VkMemoryHeap) : bool := negb (device_local heap).

Definition device_only_type (type : VkMemoryType) : bool :=
  has_flag (propertyFlags type) VK_MEMORY_PROPERTY_DEVICE_LOCAL_BIT
  && negb (has_flag (propertyFlags type) VK_MEMORY_PROPERTY_HOST_VISIBLE_BIT).

Definition host_only_type (type : VkMemoryType) : bool :=
  negb (has_flag (propertyFlags type) VK_MEMORY_PROPERTY_DEVICE_LOCAL_BIT)
  && has_flag (propertyFlags type) VK_MEMORY_PROPERTY_HOST_VISIBLE_BIT.

(** [index] and [size] name the largest heap of a kind: no heap of the kind
    is larger; when the size is not zero the heap at [index] is of the kind,
    has this size and is the first to have it; when the size is zero (no
    heap of the kind, or only empty ones) the index is zero. *)
Definition largest_of (kind : VkMemoryHeap -> bool) (heaps : list VkMemoryHeap)
    (index size : Z) : Prop :=
  0 <= size /\
  (forall i heap, heaps !! i = Some heap -> kind heap = true -> MemoryInfo.size heap <= size) /\
  (0 < size ->
   0 <= index /\
   (exists heap, heaps !! Z.to_nat index = Some heap /\ kind heap = true
                 /\ MemoryInfo.size heap = size) /\
   (forall i heap, heaps !! i = Some heap -> kind heap = true ->
                   (i < Z.to_nat index)%nat -> MemoryInfo.size heap < size)) /\
  (size = 0 -> index = 0).

Definition summarises (heaps : list VkMemoryHeap) (t : vkd3d_memory_topology) : Prop :=
  largest_of device_local heaps
             (largest_device_local_heap_index t) (largest_device_local_heap_size t) /\
  largest_of host_only heaps
             (largest_host_only_heap_index t) (largest_host_only_heap_size t) /\
  device_local_heap_count t = Z.of_nat (length (List.filter device_local heaps)) /\
  host_only_heap_count t = Z.of_nat (length (List.filter host_only heaps)).

(** What a budget entry of memory type [j] says of the device: the type is
    HOST_VISIBLE and DEVICE_LOCAL, its heap is device-local and larger than
    three quarters of the largest device-local heap, and the budget is a
    sixteenth of the heap. *)
Definition budget_is_justified (memory_properties : VkPhysicalDeviceMemoryProperties)
    (topology : vkd3d_memory_topology) (j budget : Z) : Prop :=
  exists type heap largest,
    memoryTypes memory_properties !! Z.to_nat j = Some type /\
    memoryHeaps memory_properties !! Z.to_nat (heapIndex type) = Some heap /\
    memoryHeaps memory_properties !! Z.to_nat (largest_device_local_heap_index topology)
      = Some largest /\
    Z.land (propertyFlags type) pinned_mask = pinned_mask /\
    device_local heap = true /\
    u64 (3 * size largest) / 4 < size heap /\
    budget = size heap / 16.

(** The mask and the two tables agree on memory type [j]. *)
Definition budget_entry_agrees (memory_properties : VkPhysicalDeviceMemoryProperties)
    (topology : vkd3d_memory_topology) (info : budgets) (j : Z) : Prop :=
  match type_budget info !! j with
  | Some budget =>
      Z.testbit (budget_sensitive_mask info) j = true /\
      type_current info !! j = Some 0 /\
      budget_is_justified memory_properties topology j budget
  | None =>
      Z.testbit (budget_sensitive_mask info) j = false /\
      type_current info !! j = None
  end.

(** *** [vkd3d_memory_info_init] (resource.c:6012-6206) *)

Definition VK_BUFFER_USAGE_TRANSFER_SRC_BIT := 0x1.
Definition VK_BUFFER_USAGE_TRANSFER_DST_BIT := 0x2.
Definition VK_BUFFER_USAGE_UNIFORM_TEXEL_BUFFER_BIT := 0x4.
Definition VK_BUFFER_USAGE_STORAGE_TEXEL_BUFFER_BIT := 0x8.
Definition VK_BUFFER_USAGE_UNIFORM_BUFFER_BIT := 0x10.
Definition VK_BUFFER_USAGE_STORAGE_BUFFER_BIT := 0x20.
Definition VK_BUFFER_USAGE_INDEX_BUFFER_BIT := 0x40.
Definition VK_BUFFER_USAGE_VERTEX_BUFFER_BIT := 0x80.
Definition VK_BUFFER_USAGE_INDIRECT_BUFFER_BIT := 0x100.
Definition VK_BUFFER_USAGE_ACCELERATION_STRUCTURE_BUILD_INPUT_READ_ONLY_BIT_KHR := 0x80000.
Definition VK_BUFFER_USAGE_ACCELERATION_STRUCTURE_STORAGE_BIT_KHR := 0x100000.

Definition VK_IMAGE_USAGE_TRANSFER_SRC_BIT := 0x1.
Definition VK_IMAGE_USAGE_TRANSFER_DST_BIT := 0x2.
Definition VK_IMAGE_USAGE_SAMPLED_BIT := 0x4.
Definition VK_IMAGE_USAGE_STORAGE_BIT := 0x8.
Definition VK_IMAGE_USAGE_COLOR_ATTACHMENT_BIT := 0x10.
Definition VK_IMAGE_USAGE_DEPTH_STENCIL_ATTACHMENT_BIT := 0x20.

Definition VK_IMAGE_TYPE_2D := 1.
Definition VK_FORMAT_R8G8B8A8_UNORM := 37.
Definition VK_FORMAT_D32_SFLOAT_S8_UINT := 130.
Definition VK_SAMPLE_COUNT_1_BIT := 1.
Definition VK_IMAGE_TILING_OPTIMAL := 0.
Definition VK_IMAGE_TILING_LINEAR := 1.
Definition VK_SHARING_MODE_EXCLUSIVE := 0.
Definition VK_IMAGE_LAYOUT_PREINITIALIZED := 8.
Definition VK_SUCCESS := 0.

(** The members the function assigns; the [memset] leaves the others
    zero. *)
Record VkBufferCreateInfo := { bi_size : Z; bi_usage : Z }.

Record VkImageCreateInfo := {
  imageType : Z;
  ii_format : Z;
  extent : Z * Z * Z;
  mipLevels : Z;
  arrayLayers : Z;
  samples : Z;
  tiling : Z;
  ii_usage : Z;
  sharingMode : Z;
  initialLayout : Z
}.

Record vkd3d_memory_info_domain := {
  buffer_type_mask : Z;
  sampled_type_mask : Z;
  rt_ds_type_mask : Z
}.

(** [struct vkd3d_memory_info] as the function leaves it; the two domains
    are [None] while they have not been written. *)
Record vkd3d_memory_info := {
  global_mask : Z;
  budget : budgets;
  non_cpu_accessible_domain : option vkd3d_memory_info_domain;
  cpu_accessible_domain : option vkd3d_memory_info_domain
}.

(** The calls the function makes, in order. *)
Inductive call :=
| MutexInit
| CreateBuffer (info : VkBufferCreateInfo)
| GetBufferMemoryRequirements (buffer : Z)
| DestroyBuffer (buffer : Z)
| CreateImage (info : VkImageCreateInfo)
| GetImageMemoryRequirements (image : Z)
| DestroyImage (image : Z).

Section Init.

(** The device: its memory properties, whether it has the acceleration
    structure feature, what [pthread_mutex_init] answers, and the entry
    points of the driver: a creation answers a [VkResult] and a handle, the
    memory requirements of an object are given as their [memoryTypeBits]. *)
Variable memory_properties : VkPhysicalDeviceMemoryProperties.
Variable accelerationStructure : bool.
Variable pthread_mutex_init : Z.
Variable vkCreateBuffer : VkBufferCreateInfo -> Z * Z.
Variable vkGetBufferMemoryRequirements : Z -> Z.
Variable vkCreateImage : VkImageCreateInfo -> Z * Z.
Variable vkGetImageMemoryRequirements : Z -> Z.
Variable vkd3d_is_linear_tiling_supported : VkImageCreateInfo -> bool.
Variable hresult_from_vk_result : Z -> HRESULT.

(** [vkd3d_config_flags & VKD3D_CONFIG_FLAG_NO_UPLOAD_HVV] and
    [vkd3d_config_flags & VKD3D_CONFIG_FLAG_IGNORE_RTV_HOST_VISIBLE]. *)
Variable no_upload_hvv : bool.
Variable ignore_rtv_host_visible : bool.

Definition with_tiling (info : VkImageCreateInfo) (tiling initialLayout : Z) :=
  {| imageType := imageType info; ii_format := ii_format info; extent := extent info;
     mipLevels := mipLevels info; arrayLayers := arrayLayers info; samples := samples info;
     tiling := tiling; ii_usage := ii_usage info; sharingMode := sharingMode info;
     initialLayout := initialLayout |}.

Definition with_usage (info : VkImageCreateInfo) (format usage : Z) :=
  {| imageType := imageType info; ii_format := format; extent := extent info;
     mipLevels := mipLevels info; arrayLayers := arrayLayers info; samples := samples info;
     tiling := tiling info; ii_usage := usage; sharingMode := sharingMode info;
     initialLayout := initialLayout info |}.

(** The probe of a linear image: the memory types of the image when the
    tiling is supported and the creation answers [VK_SUCCESS], 0
    otherwise. *)
Definition linear_type_mask (image_info : VkImageCreateInfo) (log : list call)
    : Z * list call :=
  if vkd3d_is_linear_tiling_supported image_info then
    let '(vr, image) := vkCreateImage image_info in
    let log := log ++ [CreateImage image_info] in
    if vr =? VK_SUCCESS
    then (vkGetImageMemoryRequirements image,
          log ++ [GetImageMemoryRequirements image; DestroyImage image])
    else (0, log)
  else (0, log).

Definition host_visible_mask : Z :=
  for_each (fun i type mask =>
              if has_flag (propertyFlags type) VK_MEMORY_PROPERTY_HOST_VISIBLE_BIT
              then Z.lor mask (bit i) else mask)
           0 (memoryTypes memory_properties) 0.

(** The result, the structure as it was left and the calls made; [None]
    is a read past the heaps of the device in
    [vkd3d_memory_info_init_budgets]. *)
Definition vkd3d_memory_info_init : option (HRESULT * vkd3d_memory_info * list call) :=
  let topology := vkd3d_memory_info_get_topology memory_properties in
  let global_mask := vkd3d_memory_info_find_global_mask no_upload_hvv topology memory_properties in
  match vkd3d_memory_info_init_budgets topology memory_properties with
  | None => None
  | Some budget =>
      let info := {| global_mask := global_mask; budget := budget;
                     non_cpu_accessible_domain := None; cpu_accessible_domain := None |} in
      let log := [MutexInit] in
      if negb (pthread_mutex_init =? 0) then Some (E_OUTOFMEMORY, info, log) else
      let usage :=
        Z.lor VK_BUFFER_USAGE_TRANSFER_SRC_BIT
        (Z.lor VK_BUFFER_USAGE_TRANSFER_DST_BIT
        (Z.lor VK_BUFFER_USAGE_UNIFORM_BUFFER_BIT
        (Z.lor VK_BUFFER_USAGE_STORAGE_BUFFER_BIT
        (Z.lor VK_BUFFER_USAGE_UNIFORM_TEXEL_BUFFER_BIT
        (Z.lor VK_BUFFER_USAGE_STORAGE_TEXEL_BUFFER_BIT
        (Z.lor VK_BUFFER_USAGE_INDEX_BUFFER_BIT
        (Z.lor VK_BUFFER_USAGE_VERTEX_BUFFER_BIT
               VK_BUFFER_USAGE_INDIRECT_BUFFER_BIT))))))) in
      let usage :=
        if accelerationStructure
        then Z.lor usage
               (Z.lor VK_BUFFER_USAGE_ACCELERATION_STRUCTURE_STORAGE_BIT_KHR
                      VK_BUFFER_USAGE_ACCELERATION_STRUCTURE_BUILD_INPUT_READ_ONLY_BIT_KHR)
        else usage in
      let buffer_info := {| bi_size := 65536; bi_usage := usage |} in
      let '(vr, buffer) := vkCreateBuffer buffer_info in
      let log := log ++ [CreateBuffer buffer_info] in
      if vr <? 0 then Some (hresult_from_vk_result vr, info, log) else
      let log := log ++ [GetBufferMemoryRequirements buffer; DestroyBuffer buffer] in
      let buffer_type_mask := vkGetBufferMemoryRequirements buffer in
      let image_info :=
        {| imageType := VK_IMAGE_TYPE_2D; ii_format := VK_FORMAT_R8G8B8A8_UNORM;
           extent := (16, 16, 1); mipLevels := 1; arrayLayers := 1;
           samples := VK_SAMPLE_COUNT_1_BIT; tiling := VK_IMAGE_TILING_OPTIMAL;
           ii_usage := Z.lor VK_IMAGE_USAGE_TRANSFER_DST_BIT
                       (Z.lor VK_IMAGE_USAGE_TRANSFER_SRC_BIT
                       (Z.lor VK_IMAGE_USAGE_SAMPLED_BIT VK_IMAGE_USAGE_STORAGE_BIT));
           sharingMode := VK_SHARING_MODE_EXCLUSIVE;
           initialLayout := VK_IMAGE_LAYOUT_UNDEFINED |} in
      let '(vr, image) := vkCreateImage image_info in
      let log := log ++ [CreateImage image_info] in
      if vr <? 0 then Some (hresult_from_vk_result vr, info, log) else
      let log := log ++ [GetImageMemoryRequirements image; DestroyImage image] in
      let sampled_type_mask := vkGetImageMemoryRequirements image in
      let image_info :=
        with_usage (with_tiling image_info VK_IMAGE_TILING_LINEAR VK_IMAGE_LAYOUT_PREINITIALIZED)
                   (ii_format image_info)
                   (Z.lor VK_IMAGE_USAGE_TRANSFER_DST_BIT
                   (Z.lor VK_IMAGE_USAGE_TRANSFER_SRC_BIT VK_IMAGE_USAGE_SAMPLED_BIT)) in
      let '(sampled_type_mask_cpu, log) := linear_type_mask image_info log in
      let image_info :=
        with_usage (with_tiling image_info VK_IMAGE_TILING_OPTIMAL VK_IMAGE_LAYOUT_UNDEFINED)
                   VK_FORMAT_R8G8B8A8_UNORM
                   (Z.lor VK_IMAGE_USAGE_TRANSFER_DST_BIT
                   (Z.lor VK_IMAGE_USAGE_TRANSFER_SRC_BIT
                   (Z.lor VK_IMAGE_USAGE_COLOR_ATTACHMENT_BIT
                   (Z.lor VK_IMAGE_USAGE_SAMPLED_BIT VK_IMAGE_USAGE_STORAGE_BIT)))) in
      let '(vr, image) := vkCreateImage image_info in
      let log := log ++ [CreateImage image_info] in
      if vr <? 0 then Some (hresult_from_vk_result vr, info, log) else
      let log := log ++ [GetImageMemoryRequirements image; DestroyImage image] in
      let rt_ds_type_mask := vkGetImageMemoryRequirements image in
      let image_info :=
        with_tiling image_info VK_IMAGE_TILING_LINEAR VK_IMAGE_LAYOUT_PREINITIALIZED in
      let '(rt_ds_type_mask_cpu, log) := linear_type_mask image_info log in
      let image_info :=
        with_usage (with_tiling image_info VK_IMAGE_TILING_OPTIMAL VK_IMAGE_LAYOUT_UNDEFINED)
                   VK_FORMAT_D32_SFLOAT_S8_UINT
                   (Z.lor VK_IMAGE_USAGE_TRANSFER_DST_BIT
                   (Z.lor VK_IMAGE_USAGE_TRANSFER_SRC_BIT
                   (Z.lor VK_IMAGE_USAGE_DEPTH_STENCIL_ATTACHMENT_BIT
                          VK_IMAGE_USAGE_SAMPLED_BIT))) in
      let '(vr, image) := vkCreateImage image_info in
      let log := log ++ [CreateImage image_info] in
      if vr <? 0 then Some (hresult_from_vk_result vr, info, log) else
      let log := log ++ [GetImageMemoryRequirements image; DestroyImage image] in
      let rt_ds_type_mask := Z.land rt_ds_type_mask (vkGetImageMemoryRequirements image) in
      let buffer_type_mask := Z.land buffer_type_mask global_mask in
      let sampled_type_mask := Z.land sampled_type_mask global_mask in
      let rt_ds_type_mask := Z.land rt_ds_type_mask global_mask in
      let sampled_type_mask_cpu := Z.land sampled_type_mask_cpu global_mask in
      let rt_ds_type_mask_cpu := Z.land rt_ds_type_mask_cpu global_mask in
      let cpu_rt_ds := Z.land rt_ds_type_mask_cpu host_visible_mask in
      let cpu_sampled := Z.land sampled_type_mask_cpu host_visible_mask in
      Some (S_OK,
            {| global_mask := global_mask; budget := budget;
               non_cpu_accessible_domain :=
                 Some {| buffer_type_mask := buffer_type_mask;
                         sampled_type_mask := sampled_type_mask;
                         rt_ds_type_mask := rt_ds_type_mask |};
               cpu_accessible_domain :=
                 Some {| buffer_type_mask := Z.land buffer_type_mask host_visible_mask;
                         sampled_type_mask := cpu_sampled;
                         rt_ds_type_mask :=
                           if (cpu_rt_ds =? 0) || ignore_rtv_host_visible
                           then cpu_sampled else cpu_rt_ds |} |},
            log)
  end.

End Init.

(** [mask] allows memory type [j]. *)
Definition allows (mask j : Z) : bool := Z.testbit mask j.

(** Every object a creation call of the log answered for is destroyed
    later in the log, once. *)
Fixpoint destroyed_images (log : list call) : list Z :=
  match log with
  | [] => []
  | DestroyImage image :: log => image :: destroyed_images log
  | _ :: log => destroyed_images log
  end.

Fixpoint destroyed_buffers (log : list call) : list Z :=
  match log with
  | [] => []
  | DestroyBuffer buffer :: log => buffer :: destroyed_buffers log
  | _ :: log => destroyed_buffers log
  end.

Fixpoint created_images (vkCreateImage : VkImageCreateInfo -> Z * Z) (log : list call) : list Z :=
  match log with
  | [] => []
  | CreateImage info :: log =>
      if fst (vkCreateImage info) =? VK_SUCCESS
      then snd (vkCreateImage info) :: created_images vkCreateImage log
      else created_images vkCreateImage log
  | _ :: log => created_images vkCreateImage log
  end.

Fixpoint created_buffers (vkCreateBuffer : VkBufferCreateInfo -> Z * Z) (log : list call)
    : list Z :=
  match log with
  | [] => []
  | CreateBuffer info :: log =>
      if fst (vkCreateBuffer info) =? VK_SUCCESS
      then snd (vkCreateBuffer info) :: created_buffers vkCreateBuffer log
      else created_buffers vkCreateBuffer log
  | _ :: log => created_buffers vkCreateBuffer log
  end.

(** The objects the creation calls of a log answered [VK_SUCCESS] for are
    those the log destroys, in the same order. *)
Definition balanced (vkCreateBuffer : VkBufferCreateInfo -> Z * Z)
    (vkCreateImage : VkImageCreateInfo -> Z * Z) (log : list call) : Prop :=
  created_images vkCreateImage log = destroyed_images log /\
  created_buffers vkCreateBuffer log = destroyed_buffers log.

(** Every memory type a domain allows for some use. *)
Definition domain_allows (domain : vkd3d_memory_info_domain) (j : Z) : bool :=
  allows (buffer_type_mask domain) j || allows (sampled_type_mask domain) j
  || allows (rt_ds_type_mask domain) j.

Definition host_visible_type (memory_properties : VkPhysicalDeviceMemoryProperties) (j : Z)
    : bool :=
  match memoryTypes memory_properties !! Z.to_nat j with
  | Some type => has_flag (propertyFlags type) VK_MEMORY_PROPERTY_HOST_VISIBLE_BIT
  | None => false
  end.

End MemoryInfo.

(** ** Mapping a resource (resource.c:1251-1255, 1399-1536) *)

Module Mapping.
Import Machine Api Resource.

Definition E_NOTIMPL : HRESULT := 0x80004001 - 2 ^ 32.
Definition VK_MEMORY_PROPERTY_HOST_COHERENT_BIT := 0x4.

Record D3D12_RANGE := { Begin : Z; End_ : Z }.

Record VkMappedMemoryRange := { memory : Z; offset : Z; size : Z }.

(** The members of [resource->mem] the resource record above does not
    carry: the host address of the allocation and the index of its memory
    type. *)
Record mapped_resource := {
  resource : d3d12_resource;
  cpu_address : Z;
  vk_memory_type : Z
}.

Inductive call :=
| InvalidateMappedMemoryRanges (range : VkMappedMemoryRange)
| FlushMappedMemoryRanges (range : VkMappedMemoryRange).

Section Map.

Variable device : d3d12_device.
Variable memory_properties : MemoryInfo.VkPhysicalDeviceMemoryProperties.

(** [d3d12_resource_get_sub_resource_count], from a header that is not at
    hand. *)
Variable d3d12_resource_get_sub_resource_count : d3d12_resource -> Z.

(** The heap properties of a resource that was created without any are the
    zeroed member its factory's [memset] leaves (resource.c:2433, 2772). *)
Definition zeroed_heap_properties : D3D12_HEAP_PROPERTIES :=
  {| HeapType := 0; CPUPageProperty := 0; MemoryPoolPreference := 0;
     CreationNodeMask := 0; VisibleNodeMask := 0 |}.

Definition d3d12_resource_is_cpu_accessible (r : d3d12_resource) : bool :=
  negb (has_flag (flags r) VKD3D_RESOURCE_RESERVED)
  && is_cpu_accessible_heap device
       match heap_properties r with
       | Some properties => properties
       | None => zeroed_heap_properties
       end.

(** The outer [None] is a read past the memory types of the device; the
    inner one is [false]. *)
Definition d3d12_resource_get_mapped_memory_range (r : mapped_resource)
    (range : option D3D12_RANGE) : option (option VkMappedMemoryRange) :=
  if match range with Some range => End_ range <=? Begin range | None => false end
  then Some None
  else
    match MemoryInfo.memoryTypes memory_properties !! Z.to_nat (vk_memory_type r) with
    | None => None
    | Some type =>
        if has_flag (MemoryInfo.propertyFlags type) VK_MEMORY_PROPERTY_HOST_COHERENT_BIT
        then Some None
        else if Dimension (desc (resource r)) =? D3D12_RESOURCE_DIMENSION_BUFFER then
          let vk_mapped_range :=
            {| memory := mem_vk_memory (resource r);
               offset := mem_offset (resource r);
               size := Width (desc (resource r)) |} in
          match range with
          | Some range =>
              Some (Some {| memory := memory vk_mapped_range;
                            offset := u64 (offset vk_mapped_range + Begin range);
                            size := u64 (End_ range - Begin range) |})
          | None => Some (Some vk_mapped_range)
          end
        else Some None
    end.

Definition d3d12_resource_invalidate_range (r : mapped_resource)
    (read_range : option D3D12_RANGE) : option (list call) :=
  match d3d12_resource_get_mapped_memory_range r read_range with
  | None => None
  | Some None => Some []
  | Some (Some mapped_range) => Some [InvalidateMappedMemoryRanges mapped_range]
  end.

Definition d3d12_resource_flush_range (r : mapped_resource)
    (written_range : option D3D12_RANGE) : option (list call) :=
  match d3d12_resource_get_mapped_memory_range r written_range with
  | None => None
  | Some None => Some []
  | Some (Some mapped_range) => Some [FlushMappedMemoryRanges mapped_range]
  end.

Definition d3d12_resource_texture_validate_map (r : d3d12_resource) : bool :=
  let invalid_map :=
    (Dimension (desc r) =? D3D12_RESOURCE_DIMENSION_TEXTURE3D) && (1 <? MipLevels (desc r)) in
  negb invalid_map.

(** [d3d12_resource_Map]: [data] tells whether the caller passed a place
    for the pointer.  The result is the status, the pointer stored there if
    any, and the calls made; [None] is the failed assertion of
    [d3d12_resource_get_map_ptr] or the read past the memory types. *)
Definition d3d12_resource_Map (r : mapped_resource) (sub_resource : Z)
    (read_range : option D3D12_RANGE) (data : bool)
    : option (HRESULT * option Z * list call) :=
  if negb (d3d12_resource_is_cpu_accessible (resource r))
  then Some (E_INVALIDARG, None, [])
  else
    let sub_resource_count := u32 (d3d12_resource_get_sub_resource_count (resource r)) in
    if sub_resource_count <=? sub_resource then Some (E_INVALIDARG, None, [])
    else if d3d12_resource_is_texture (resource r)
            && (data || negb (d3d12_resource_texture_validate_map (resource r)))
    then Some (E_INVALIDARG, None, [])
    else if has_flag (flags (resource r)) VKD3D_RESOURCE_RESERVED
    then Some (E_NOTIMPL, None, [])
    else
      match (if data
             then if cpu_address r =? 0 then None else Some (Some (cpu_address r))
             else Some None) with
      | None => None
      | Some pointer =>
          match d3d12_resource_invalidate_range r read_range with
          | None => None
          | Some calls => Some (S_OK, pointer, calls)
          end
      end.

Definition d3d12_resource_Unmap (r : mapped_resource) (sub_resource : Z)
    (written_range : option D3D12_RANGE) : option (list call) :=
  let sub_resource_count := u32 (d3d12_resource_get_sub_resource_count (resource r)) in
  if sub_resource_count <=? sub_resource then Some []
  else d3d12_resource_flush_range r written_range.

End Map.

(** The bytes of device memory a range names. *)
Definition within (range : VkMappedMemoryRange) (first last : Z) : Prop :=
  first <= offset range /\ offset range + size range <= last.

End Mapping.

(** ** The life of a view (resource.c:786-799, 2835-2873) *)

Module ViewLife.
Import Machine Api ViewMap.

Definition set_views (w : world) (views' : gmap Z vkd3d_view) (native' : gset Z) : world :=
  {| map := map w; used_count := used_count w; views := views'; native := native';
     next := next w; cookies := cookies w |}.

(** [None] is a use of a freed object. *)
Definition vkd3d_view_incref (view : Z) (w : world) : option world :=
  match views w !! view with
  | None => None
  | Some v =>
      Some (set_views w
              (<[view := {| refcount := u32 (refcount v + 1); cookie := cookie v;
                            vk_handle := vk_handle v |}]> (views w))
              (native w))
  end.

(** The native object goes, then the host object.  [vkd3d_view_decref]
    above has this as its last step. *)
Definition vkd3d_view_destroy (view : Z) (w : world) : option world :=
  match views w !! view with
  | None => None
  | Some v => Some (set_views w (delete view (views w)) (native w ∖ {[vk_handle v]}))
  end.

(** The loop over the occupied entries of the map. *)
Fixpoint destroy_entries (entries : list (ViewKey.vkd3d_view_key * Z)) (w : world)
    : option world :=
  match entries with
  | [] => Some w
  | (_, view) :: entries =>
      match vkd3d_view_destroy view w with
      | Some w' => destroy_entries entries w'
      | None => None
      end
  end.

(** Modelled from the spec: [hash_map_clear] lives in hashmap.h, which is
    not part of the sources at hand; the specification has it that after
    the views are destroyed "the map is then cleared". *)
Definition hash_map_clear (w : world) : world :=
  {| map := []; used_count := 0; views := views w; native := native w;
     next := next w; cookies := cookies w |}.

Definition vkd3d_view_map_destroy (w : world) : option world :=
  match destroy_entries (map w) w with
  | Some w' => Some (hash_map_clear w')
  | None => None
  end.

(** The views the entries of the map name, and their native handles. *)
Definition entry_views (w : world) : list Z := snd <$> map w.

Definition entry_handles (w : world) : list Z :=
  omap (fun view => vk_handle <$> views w !! view) (entry_views w).

End ViewLife.

(** ** The data buffer of a descriptor heap (resource.c:5212-5326) *)

Module HeapData.
Import Machine Api Resource.

Definition D3D12_DESCRIPTOR_HEAP_TYPE_CBV_SRV_UAV := 0.
Definition D3D12_DESCRIPTOR_HEAP_FLAG_SHADER_VISIBLE := 0x1.
Definition D3D12_HEAP_FLAG_ALLOW_ONLY_BUFFERS := 0xC0.
Definition VK_MEMORY_PROPERTY_HOST_VISIBLE_BIT := 0x2.
Definition VK_MEMORY_PROPERTY_HOST_COHERENT_BIT := 0x4.
Definition VK_MEMORY_PROPERTY_HOST_CACHED_BIT := 0x8.
Definition VK_MEMORY_PROPERTY_DEVICE_LOCAL_BIT := 0x1.

(** [sizeof(VkDeviceAddress)], a 64-bit integer. *)
Definition sizeof_VkDeviceAddress := 8.

Record D3D12_DESCRIPTOR_HEAP_DESC := {
  Type_ : Z;
  NumDescriptors : Z;
  dh_Flags : Z;
  NodeMask : Z
}.

Record vkd3d_host_visible_buffer_range := {
  descriptor : Descriptor.VkDescriptorBufferInfo;
  host_ptr : Z
}.

(** The members of [struct d3d12_descriptor_heap] the function writes;
    [vk_memory] is [device_allocation.vk_memory]. *)
Record d3d12_descriptor_heap := {
  vk_buffer : Z;
  vk_memory : Z;
  host_memory : Z;
  raw_va_aux_buffer : vkd3d_host_visible_buffer_range;
  buffer_ranges : vkd3d_host_visible_buffer_range;
  descriptor_heap_info : vkd3d_host_visible_buffer_range
}.

Inductive call :=
| CreateBuffer (heap_info : D3D12_HEAP_PROPERTIES) (heap_flags : Z) (desc : D3D12_RESOURCE_DESC)
| AllocateBufferMemory (buffer property_flags : Z)
| MapMemory (memory : Z)
| Calloc (size : Z).

Section InitData.

(** The limits of the device, the two tests of the bindless flags, the
    descriptor debugging of vkd3d (whether it was compiled in, whether its
    checks are active, and its two sizes), the two configuration flags and
    the calls the function makes. *)
Variable minStorageBufferOffsetAlignment nonCoherentAtomSize : Z.
Variable bindless_raw_va_aux_buffer : bool.
Variable bindless_offset_buffer : bool.
Variable VKD3D_ENABLE_DESCRIPTOR_QA : bool.
Variable vkd3d_descriptor_debug_active_qa_checks : bool.
Variable VKD3D_DESCRIPTOR_DEBUG_NUM_PAD_DESCRIPTORS : Z.
Variable vkd3d_descriptor_debug_heap_info_size : Z -> Z.
Variable force_host_cached no_upload_hvv : bool.
Variable vkd3d_create_buffer : D3D12_HEAP_PROPERTIES -> Z -> D3D12_RESOURCE_DESC -> HRESULT * Z.
Variable vkd3d_allocate_buffer_memory : Z -> Z -> HRESULT * Z.
Variable vkMapMemory : Z -> Z * Z.
Variable vkd3d_calloc : Z -> Z.
Variable hresult_from_vk_result : Z -> HRESULT.

(** [void_ptr_offset] and [sizeof(struct vkd3d_bound_buffer_range)], from
    headers that are not at hand. *)
Variable void_ptr_offset : Z -> Z -> Z.
Variable sizeof_vkd3d_bound_buffer_range : Z.

(** The new [*offset] and the range. *)
Definition d3d12_descriptor_heap_get_buffer_range (descriptor_heap : d3d12_descriptor_heap)
    (offset size : Z) : Z * vkd3d_host_visible_buffer_range :=
  if negb (size =? 0) then
    (u64 (offset + size),
     {| descriptor := {| Descriptor.buffer := vk_buffer descriptor_heap;
                         Descriptor.offset := offset;
                         Descriptor.range := size |};
        host_ptr := void_ptr_offset (host_memory descriptor_heap) offset |})
  else
    (offset,
     {| descriptor := {| Descriptor.buffer := VK_NULL_HANDLE;
                         Descriptor.offset := 0;
                         Descriptor.range := VK_WHOLE_SIZE |};
        host_ptr := 0 |}).

Definition set_buffer (h : d3d12_descriptor_heap) (buffer : Z) :=
  {| vk_buffer := buffer; vk_memory := vk_memory h; host_memory := host_memory h;
     raw_va_aux_buffer := raw_va_aux_buffer h; buffer_ranges := buffer_ranges h;
     descriptor_heap_info := descriptor_heap_info h |}.

Definition set_memory (h : d3d12_descriptor_heap) (memory : Z) :=
  {| vk_buffer := vk_buffer h; vk_memory := memory; host_memory := host_memory h;
     raw_va_aux_buffer := raw_va_aux_buffer h; buffer_ranges := buffer_ranges h;
     descriptor_heap_info := descriptor_heap_info h |}.

Definition set_host_memory (h : d3d12_descriptor_heap) (address : Z) :=
  {| vk_buffer := vk_buffer h; vk_memory := vk_memory h; host_memory := address;
     raw_va_aux_buffer := raw_va_aux_buffer h; buffer_ranges := buffer_ranges h;
     descriptor_heap_info := descriptor_heap_info h |}.

Definition sizes (desc : D3D12_DESCRIPTOR_HEAP_DESC) : Z * Z * Z :=
  let alignment := Z.max minStorageBufferOffsetAlignment nonCoherentAtomSize in
  if Type_ desc =? D3D12_DESCRIPTOR_HEAP_TYPE_CBV_SRV_UAV then
    let raw_va_buffer_size :=
      if bindless_raw_va_aux_buffer then
        let size := align (u64 (NumDescriptors desc * sizeof_VkDeviceAddress)) alignment in
        if vkd3d_descriptor_debug_active_qa_checks
        then u64 (size + align (u64 (VKD3D_DESCRIPTOR_DEBUG_NUM_PAD_DESCRIPTORS
                                     * sizeof_VkDeviceAddress)) alignment)
        else size
      else 0 in
    let offset_buffer_size :=
      if bindless_offset_buffer
      then align (u64 (NumDescriptors desc * sizeof_vkd3d_bound_buffer_range)) alignment
      else 0 in
    let descriptor_heap_info_size :=
      if vkd3d_descriptor_debug_active_qa_checks
      then align (vkd3d_descriptor_debug_heap_info_size (NumDescriptors desc)) alignment
      else 0 in
    (raw_va_buffer_size, offset_buffer_size, descriptor_heap_info_size)
  else (0, 0, 0).

Definition d3d12_descriptor_heap_init_data_buffer (descriptor_heap : d3d12_descriptor_heap)
    (desc : D3D12_DESCRIPTOR_HEAP_DESC) : HRESULT * d3d12_descriptor_heap * list call :=
  let '(raw_va_buffer_size, offset_buffer_size, descriptor_heap_info_size) := sizes desc in
  let buffer_size := u64 (u64 (raw_va_buffer_size + offset_buffer_size)
                          + descriptor_heap_info_size) in
  if buffer_size =? 0 then (S_OK, descriptor_heap, []) else
  let ranges (h : d3d12_descriptor_heap) (log : list call) :=
    let offset := 0 in
    let '(offset, raw_va) := d3d12_descriptor_heap_get_buffer_range h offset raw_va_buffer_size in
    let '(offset, ranges) := d3d12_descriptor_heap_get_buffer_range h offset offset_buffer_size in
    let info :=
      if VKD3D_ENABLE_DESCRIPTOR_QA
      then snd (d3d12_descriptor_heap_get_buffer_range h offset descriptor_heap_info_size)
      else descriptor_heap_info h in
    (S_OK,
     {| vk_buffer := vk_buffer h; vk_memory := vk_memory h; host_memory := host_memory h;
        raw_va_aux_buffer := raw_va; buffer_ranges := ranges;
        descriptor_heap_info := info |},
     log) in
  if has_flag (dh_Flags desc) D3D12_DESCRIPTOR_HEAP_FLAG_SHADER_VISIBLE then
    let buffer_desc :=
      {| Dimension := D3D12_RESOURCE_DIMENSION_BUFFER; Alignment := 0;
         Width := buffer_size; Height := 1; DepthOrArraySize := 1; MipLevels := 1;
         Format := 0; SampleDesc := {| Count := 1; Quality := 0 |};
         Layout := D3D12_TEXTURE_LAYOUT_ROW_MAJOR;
         Flags := D3D12_RESOURCE_FLAG_ALLOW_UNORDERED_ACCESS |} in
    let heap_info :=
      {| HeapType := D3D12_HEAP_TYPE_UPLOAD; CPUPageProperty := 0;
         MemoryPoolPreference := 0; CreationNodeMask := 0; VisibleNodeMask := 0 |} in
    let heap_flags := D3D12_HEAP_FLAG_ALLOW_ONLY_BUFFERS in
    let '(hr, buffer) := vkd3d_create_buffer heap_info heap_flags buffer_desc in
    let log := [CreateBuffer heap_info heap_flags buffer_desc] in
    if FAILED hr then (hr, descriptor_heap, log) else
    let h := set_buffer descriptor_heap buffer in
    let property_flags :=
      Z.lor VK_MEMORY_PROPERTY_HOST_VISIBLE_BIT VK_MEMORY_PROPERTY_HOST_COHERENT_BIT in
    let property_flags :=
      if force_host_cached then Z.lor property_flags VK_MEMORY_PROPERTY_HOST_CACHED_BIT
      else if negb no_upload_hvv then Z.lor property_flags VK_MEMORY_PROPERTY_DEVICE_LOCAL_BIT
      else property_flags in
    let '(hr, memory) := vkd3d_allocate_buffer_memory buffer property_flags in
    let log := log ++ [AllocateBufferMemory buffer property_flags] in
    if FAILED hr then (hr, h, log) else
    let h := set_memory h memory in
    let '(vr, address) := vkMapMemory memory in
    let log := log ++ [MapMemory memory] in
    if negb (vr =? 0) then (hresult_from_vk_result vr, h, log) else
    ranges (set_host_memory h address) log
  else
    let h := set_memory (set_buffer descriptor_heap VK_NULL_HANDLE) 0 in
    ranges (set_host_memory h (vkd3d_calloc buffer_size)) [Calloc buffer_size].

End InitData.

(** The bytes a range of the data buffer takes; a range on the null buffer
    takes none. *)
Definition first_byte (r : vkd3d_host_visible_buffer_range) : Z :=
  Descriptor.offset (descriptor r).

Definition end_byte (r : vkd3d_host_visible_buffer_range) : Z :=
  Descriptor.offset (descriptor r) + Descriptor.range (descriptor r).

Definition is_absent (r : vkd3d_host_visible_buffer_range) : Prop :=
  descriptor r = {| Descriptor.buffer := VK_NULL_HANDLE; Descriptor.offset := 0;
                    Descriptor.range := VK_WHOLE_SIZE |}
  /\ host_ptr r = 0.

(** The size of the buffer the function asked for, from its calls. *)
Definition asked_size (log : list call) : option Z :=
  match log with
  | CreateBuffer _ _ desc :: _ => Some (Width desc)
  | Calloc size :: _ => Some size
  | _ => None
  end.

End HeapData.

(** ** Query heaps (resource.c:5649-5673, 5731-5842) *)

Module QueryHeap.
Import Machine Api Resource.

Definition D3D12_QUERY_HEAP_TYPE_TIMESTAMP := 1.
Definition D3D12_QUERY_HEAP_TYPE_PIPELINE_STATISTICS := 2.
Definition VK_QUERY_TYPE_PIPELINE_STATISTICS := 1.
Definition VK_QUERY_TYPE_TIMESTAMP := 2.
Definition VK_MEMORY_HEAP_DEVICE_LOCAL_BIT := 0x1.
Definition D3D12_HEAP_FLAG_ALLOW_ONLY_BUFFERS := 0xC0.

(** The eleven statistics the pool is asked for, bits 0 to 10 of
    [VkQueryPipelineStatisticFlagBits]. *)
Definition pipeline_statistics := 0x7FF.

Record D3D12_QUERY_HEAP_DESC := { Type_ : Z; Count : Z; NodeMask : Z }.

Record VkQueryPoolCreateInfo := {
  pool_flags : Z;
  queryType : Z;
  queryCount : Z;
  pipelineStatistics : Z
}.

Record d3d12_query_heap := {
  refcount : Z;
  desc : D3D12_QUERY_HEAP_DESC;
  vk_query_pool : Z;
  vk_buffer : Z;
  vk_memory : Z;
  initialized : Z
}.

Inductive call :=
| Malloc
| Free
| CreateQueryPool (info : VkQueryPoolCreateInfo)
| DestroyQueryPool (pool : Z)
| CreateBuffer (heap_properties : D3D12_HEAP_PROPERTIES) (heap_flags : Z)
               (desc : D3D12_RESOURCE_DESC)
| DestroyBuffer (buffer : Z)
| AllocateBufferMemory (buffer flags : Z)
| FreeDeviceMemory (memory : Z)
| PrivateStoreInit
| PrivateStoreDestroy
| DeviceAddRef
| DeviceRelease.

Section Create.

(** The host allocator, two helpers of a header that is not at hand, and
    the calls into the driver and the rest of the library. *)
Variable vkd3d_malloc : bool.
Variable d3d12_query_heap_type_is_inline : Z -> bool.
Variable d3d12_query_heap_type_get_data_size : Z -> Z.
Variable vkCreateQueryPool : VkQueryPoolCreateInfo -> Z * Z.
Variable vkd3d_create_buffer : D3D12_HEAP_PROPERTIES -> Z -> D3D12_RESOURCE_DESC -> HRESULT * Z.
Variable vkd3d_allocate_buffer_memory : Z -> Z -> HRESULT * Z.
Variable vkd3d_private_store_init : HRESULT.
Variable hresult_from_vk_result : Z -> HRESULT.

Definition with_pool (o : d3d12_query_heap) (pool : Z) :=
  {| refcount := refcount o; desc := desc o; vk_query_pool := pool; vk_buffer := vk_buffer o;
     vk_memory := vk_memory o; initialized := initialized o |}.

Definition with_buffer (o : d3d12_query_heap) (buffer memory initialized : Z) :=
  {| refcount := refcount o; desc := desc o; vk_query_pool := vk_query_pool o;
     vk_buffer := buffer; vk_memory := memory; initialized := initialized |}.

(** The status, the heap handed out and the calls made. *)
Definition d3d12_query_heap_create (d : D3D12_QUERY_HEAP_DESC)
    : HRESULT * option d3d12_query_heap * list call :=
  if negb vkd3d_malloc then (E_OUTOFMEMORY, None, [Malloc]) else
  let log := [Malloc] in
  let object := {| refcount := 1; desc := d; vk_query_pool := 0; vk_buffer := 0;
                   vk_memory := 0; initialized := 0 |} in
  let finish (object : d3d12_query_heap) (log : list call) :=
    let hr := vkd3d_private_store_init in
    let log := log ++ [PrivateStoreInit] in
    if FAILED hr then (hr, None, log ++ [Free])
    else (S_OK, Some object, log ++ [DeviceAddRef]) in
  if negb (d3d12_query_heap_type_is_inline (Type_ d)) then
    let pool (queryType pipelineStatistics : Z) :=
      let pool_info := {| pool_flags := 0; queryType := queryType; queryCount := Count d;
                          pipelineStatistics := pipelineStatistics |} in
      let '(vr, vk_pool) := vkCreateQueryPool pool_info in
      let log := log ++ [CreateQueryPool pool_info] in
      if vr <? 0 then (hresult_from_vk_result vr, None, log ++ [Free])
      else finish (with_pool object vk_pool) log in
    if Type_ d =? D3D12_QUERY_HEAP_TYPE_TIMESTAMP then pool VK_QUERY_TYPE_TIMESTAMP 0
    else if Type_ d =? D3D12_QUERY_HEAP_TYPE_PIPELINE_STATISTICS
    then pool VK_QUERY_TYPE_PIPELINE_STATISTICS pipeline_statistics
    else (E_INVALIDARG, None, log ++ [Free])
  else
    let heap_properties :=
      {| HeapType := D3D12_HEAP_TYPE_DEFAULT; CPUPageProperty := 0;
         MemoryPoolPreference := 0; CreationNodeMask := 0; VisibleNodeMask := 0 |} in
    let buffer_desc :=
      {| Dimension := D3D12_RESOURCE_DIMENSION_BUFFER; Alignment := 0;
         Width := u64 (d3d12_query_heap_type_get_data_size (Type_ d) * Count d);
         Height := 1; DepthOrArraySize := 1; MipLevels := 1; Format := DXGI_FORMAT_UNKNOWN;
         SampleDesc := {| Resource.Count := 1; Quality := 0 |};
         Layout := D3D12_TEXTURE_LAYOUT_ROW_MAJOR;
         Flags := D3D12_RESOURCE_FLAG_ALLOW_UNORDERED_ACCESS |} in
    let '(hr, buffer) :=
      vkd3d_create_buffer heap_properties D3D12_HEAP_FLAG_ALLOW_ONLY_BUFFERS buffer_desc in
    let log :=
      log ++ [CreateBuffer heap_properties D3D12_HEAP_FLAG_ALLOW_ONLY_BUFFERS buffer_desc] in
    if FAILED hr then (hr, None, log ++ [Free]) else
    let '(hr, memory) := vkd3d_allocate_buffer_memory buffer VK_MEMORY_HEAP_DEVICE_LOCAL_BIT in
    let log := log ++ [AllocateBufferMemory buffer VK_MEMORY_HEAP_DEVICE_LOCAL_BIT] in
    if FAILED hr then (hr, None, log ++ [DestroyBuffer buffer; Free])
    else finish (with_buffer object buffer memory 1) log.

End Create.

(** [d3d12_query_heap_Release]: the count returned, the heap if it lives
    on, and the calls made. *)
Definition d3d12_query_heap_Release (heap : d3d12_query_heap)
    : Z * option d3d12_query_heap * list call :=
  let refcount' := u32 (refcount heap - 1) in
  if refcount' =? 0 then
    (refcount', None,
     [PrivateStoreDestroy; DestroyQueryPool (vk_query_pool heap);
      DestroyBuffer (vk_buffer heap); FreeDeviceMemory (vk_memory heap); Free; DeviceRelease])
  else
    (refcount',
     Some {| refcount := refcount'; desc := desc heap; vk_query_pool := vk_query_pool heap;
             vk_buffer := vk_buffer heap; vk_memory := vk_memory heap;
             initialized := initialized heap |},
     []).

Definition call_eqb (c c' : call) : bool :=
  match c, c' with
  | Malloc, Malloc | Free, Free | PrivateStoreInit, PrivateStoreInit
  | PrivateStoreDestroy, PrivateStoreDestroy | DeviceAddRef, DeviceAddRef
  | DeviceRelease, DeviceRelease => true
  | DestroyQueryPool p, DestroyQueryPool p' => p =? p'
  | DestroyBuffer b, DestroyBuffer b' => b =? b'
  | FreeDeviceMemory m, FreeDeviceMemory m' => m =? m'
  | _, _ => false
  end.

Definition called (c : call) (log : list call) : bool := existsb (call_eqb c) log.

Definition count_calls (c : call) (log : list call) : nat :=
  length (List.filter (call_eqb c) log).

End QueryHeap.

(** ** Descriptor sets of the static samplers (resource.c:1013-1104) *)

Module SamplerSets.
Import Machine Api.

Definition VK_SUCCESS := 0.
Definition VK_ERROR_FRAGMENTED_POOL := -12.
Definition VK_ERROR_OUT_OF_POOL_MEMORY := -1000069000.
Definition VK_DESCRIPTOR_POOL_CREATE_FREE_DESCRIPTOR_SET_BIT := 0x1.

Record VkDescriptorPoolSize := { type : Z; descriptorCount : Z }.

Record VkDescriptorPoolCreateInfo := {
  flags : Z;
  maxSets : Z;
  pPoolSizes : list VkDescriptorPoolSize
}.

(** The pools of [struct vkd3d_sampler_state], in the order of the array;
    [vk_descriptor_pool_count] is the length. *)
Record vkd3d_sampler_state := { vk_descriptor_pools : list Z }.

Inductive call :=
| Lock
| Unlock
| AllocateDescriptorSets (pool layout : Z)
| CreateDescriptorPool (info : VkDescriptorPoolCreateInfo)
| DestroyDescriptorPool (pool : Z)
| FreeDescriptorSets (pool set : Z).

Section Allocate.

(** What the mutex, the driver and the array of the pools answer: a
    descriptor set allocation and a pool creation answer a [VkResult] and
    the handle they store. *)
Variable pthread_mutex_lock : Z.
Variable hresult_from_errno : Z -> HRESULT.
Variable hresult_from_vk_result : Z -> HRESULT.
Variable vkAllocateDescriptorSets : Z -> Z -> Z * Z.
Variable vkCreateDescriptorPool : VkDescriptorPoolCreateInfo -> Z * Z.
Variable vkd3d_array_reserve : Z -> bool.

Definition pool_info : VkDescriptorPoolCreateInfo :=
  {| flags := VK_DESCRIPTOR_POOL_CREATE_FREE_DESCRIPTOR_SET_BIT;
     maxSets := 4096;
     pPoolSizes := [{| type := VK_DESCRIPTOR_TYPE_SAMPLER; descriptorCount := 16384 |}] |}.

Definition vkd3d_sampler_state_create_descriptor_pool : Z * Z :=
  vkCreateDescriptorPool pool_info.

(** The loop over the pools: the last result, what [*vk_set] and
    [*vk_pool] hold, and the calls. *)
Fixpoint try_pools (pools : list Z) (vk_layout vr vk_set vk_pool : Z) (log : list call)
    : Z * Z * Z * list call :=
  match pools with
  | [] => (vr, vk_set, vk_pool, log)
  | pool :: pools =>
      let '(vr, vk_set) := vkAllocateDescriptorSets pool vk_layout in
      let log := log ++ [AllocateDescriptorSets pool vk_layout] in
      if vr =? VK_SUCCESS then (vr, vk_set, pool, log)
      else try_pools pools vk_layout vr vk_set vk_pool log
  end.

(** [vk_set] and [vk_pool] are what the two places hold before the call;
    the result is the status, the state, what the two places hold
    afterwards, and the calls. *)
Definition vkd3d_sampler_state_allocate_descriptor_set (state : vkd3d_sampler_state)
    (vk_layout vk_set vk_pool : Z)
    : HRESULT * vkd3d_sampler_state * Z * Z * list call :=
  let rc := pthread_mutex_lock in
  if negb (rc =? 0) then (hresult_from_errno rc, state, vk_set, vk_pool, [Lock]) else
  let '(vr, vk_set, vk_pool, log) :=
    try_pools (vk_descriptor_pools state) vk_layout VK_ERROR_OUT_OF_POOL_MEMORY
              vk_set vk_pool [Lock] in
  if (vr =? VK_ERROR_OUT_OF_POOL_MEMORY) || (vr =? VK_ERROR_FRAGMENTED_POOL) then
    let '(vr, descriptorPool) := vkd3d_sampler_state_create_descriptor_pool in
    let log := log ++ [CreateDescriptorPool pool_info] in
    if negb (vr =? VK_SUCCESS)
    then (hresult_from_vk_result vr, state, vk_set, vk_pool, log ++ [Unlock])
    else if negb (vkd3d_array_reserve
                    (Z.of_nat (length (vk_descriptor_pools state)) + 1))
    then (E_OUTOFMEMORY, state, vk_set, vk_pool,
          log ++ [DestroyDescriptorPool descriptorPool; Unlock])
    else
      let state := {| vk_descriptor_pools := vk_descriptor_pools state ++ [descriptorPool] |} in
      let '(vr, vk_set) := vkAllocateDescriptorSets descriptorPool vk_layout in
      (hresult_from_vk_result vr, state, vk_set, descriptorPool,
       log ++ [AllocateDescriptorSets descriptorPool vk_layout; Unlock])
  else (hresult_from_vk_result vr, state, vk_set, vk_pool, log ++ [Unlock]).

(** A failure to lock is reported and the call goes on. *)
Definition vkd3d_sampler_state_free_descriptor_set (vk_set vk_pool : Z) : list call :=
  [Lock]
  ++ (if negb (vk_pool =? 0) && negb (vk_set =? 0) then [FreeDescriptorSets vk_pool vk_set]
      else [])
  ++ [Unlock].

End Allocate.

Definition is_lock (c : call) : bool := match c with Lock => true | _ => false end.
Definition is_unlock (c : call) : bool := match c with Unlock => true | _ => false end.

(** No pool of the list gives a descriptor set of the layout. *)
Definition exhausted (vkAllocateDescriptorSets : Z -> Z -> Z * Z) (vk_layout : Z)
    (pools : list Z) : Prop :=
  Forall (fun pool => fst (vkAllocateDescriptorSets pool vk_layout) <> VK_SUCCESS) pools.

Definition creates_pool (c : call) : bool :=
  match c with CreateDescriptorPool _ => true | _ => false end.

End SamplerSets.

(** ** Concrete collaborators used to exercise the model *)

Module Examples.
Import Machine Api Resource.

Definition rgba8 : vkd3d_format :=
  {| dxgi_format := 28; vk_format := 37; byte_count := 4; block_width := 1;
     block_height := 1; block_byte_count := 1; vk_aspect_mask := 1 |}.

(** A device whose driver reports 1 MiB with 128 KiB alignment for every
    image and on which every call succeeds. *)
Definition device : d3d12_device :=
  {| vkd3d_format_from_d3d12_resource_desc := fun _ _ => Some rgba8;
     vkd3d_format_is_compressed := fun f => negb (block_byte_count f =? 1);
     is_valid_resource_state := fun _ => true;
     is_cpu_accessible_heap := fun hp => negb (HeapType hp =? D3D12_HEAP_TYPE_DEFAULT);
     d3d12_resource_desc_get_depth := fun _ _ => 1;
     vkd3d_log2i := Z.log2;
     vkd3d_malloc_object := true;
     vkd3d_private_store_init := S_OK;
     vkd3d_create_image := fun _ _ _ => (S_OK, 7);
     vkd3d_create_buffer := fun _ _ _ => (S_OK, 9);
     vkGetImageMemoryRequirements := fun _ =>
       {| req_size := 1048576; req_alignment := 131072; memoryTypeBits := 1 |};
     vkBindImageMemory := fun _ _ _ => 0;
     hresult_from_vk_result := fun vr => if vr <? 0 then E_FAIL else S_OK;
     attachmentFragmentShadingRate := false;
     vkd3d_resource_make_vrs_view := fun _ => (S_OK, 0);
     bufferDeviceAddress := true |}.

(** A 256x256 single-mip 2D texture and a 64 KiB + 1 byte buffer. *)
Definition texture_desc : D3D12_RESOURCE_DESC :=
  {| Dimension := D3D12_RESOURCE_DIMENSION_TEXTURE2D; Alignment := 0; Width := 256;
     Height := 256; DepthOrArraySize := 1; MipLevels := 1; Format := 28;
     SampleDesc := {| Count := 1; Quality := 0 |}; Layout := D3D12_TEXTURE_LAYOUT_UNKNOWN;
     Flags := 0 |}.

Definition buffer_desc (width : Z) : D3D12_RESOURCE_DESC :=
  {| Dimension := D3D12_RESOURCE_DIMENSION_BUFFER; Alignment := 0; Width := width;
     Height := 1; DepthOrArraySize := 1; MipLevels := 1; Format := DXGI_FORMAT_UNKNOWN;
     SampleDesc := {| Count := 1; Quality := 0 |};
     Layout := D3D12_TEXTURE_LAYOUT_ROW_MAJOR; Flags := 0 |}.

Definition no_info : D3D12_RESOURCE_ALLOCATION_INFO :=
  {| SizeInBytes := 0; info_Alignment := 0 |}.

(** The same device with a driver that reports one byte, byte-aligned. *)
Definition tiny_device : d3d12_device :=
  {| vkd3d_format_from_d3d12_resource_desc := vkd3d_format_from_d3d12_resource_desc device;
     vkd3d_format_is_compressed := vkd3d_format_is_compressed device;
     is_valid_resource_state := is_valid_resource_state device;
     is_cpu_accessible_heap := is_cpu_accessible_heap device;
     d3d12_resource_desc_get_depth := d3d12_resource_desc_get_depth device;
     vkd3d_log2i := vkd3d_log2i device;
     vkd3d_malloc_object := true;
     vkd3d_private_store_init := S_OK;
     vkd3d_create_image := vkd3d_create_image device;
     vkd3d_create_buffer := vkd3d_create_buffer device;
     vkGetImageMemoryRequirements := fun _ =>
       {| req_size := 1; req_alignment := 1; memoryTypeBits := 1 |};
     vkBindImageMemory := vkBindImageMemory device;
     hresult_from_vk_result := hresult_from_vk_result device;
     attachmentFragmentShadingRate := false;
     vkd3d_resource_make_vrs_view := vkd3d_resource_make_vrs_view device;
     bufferDeviceAddress := true |}.

(** The same device with a driver that asks for twice the memory for the
    image of a heap that is not of the default type: the image of a
    CPU-accessible heap is created with another tiling. *)
Definition linear_device : d3d12_device :=
  {| vkd3d_format_from_d3d12_resource_desc := vkd3d_format_from_d3d12_resource_desc device;
     vkd3d_format_is_compressed := vkd3d_format_is_compressed device;
     is_valid_resource_state := is_valid_resource_state device;
     is_cpu_accessible_heap := is_cpu_accessible_heap device;
     d3d12_resource_desc_get_depth := d3d12_resource_desc_get_depth device;
     vkd3d_log2i := vkd3d_log2i device;
     vkd3d_malloc_object := true;
     vkd3d_private_store_init := S_OK;
     vkd3d_create_image := fun hp _ _ =>
       (S_OK, match hp with
              | Some p => if HeapType p =? D3D12_HEAP_TYPE_DEFAULT then 7 else 8
              | None => 7
              end);
     vkd3d_create_buffer := vkd3d_create_buffer device;
     vkGetImageMemoryRequirements := fun image =>
       {| req_size := if image =? 8 then 2097152 else 1048576;
          req_alignment := 131072; memoryTypeBits := 1 |};
     vkBindImageMemory := vkBindImageMemory device;
     hresult_from_vk_result := hresult_from_vk_result device;
     attachmentFragmentShadingRate := false;
     vkd3d_resource_make_vrs_view := vkd3d_resource_make_vrs_view device;
     bufferDeviceAddress := true |}.

(** Heaps with backing memory. *)
Definition heap_of (heap_flags size : Z) : d3d12_heap :=
  {| heap_Properties := default_heap_properties; heap_Flags := heap_flags;
     heap_vk_memory := 11; heap_offset_in_memory := 0; heap_vk_buffer := 12;
     heap_va := 0x10000000; heap_size := size |}.

(** A heap of the custom type, with write-back pages in system memory. *)
Definition custom_heap_of (size : Z) : d3d12_heap :=
  {| heap_Properties := {| HeapType := D3D12_HEAP_TYPE_CUSTOM; CPUPageProperty := 3;
                           MemoryPoolPreference := 1; CreationNodeMask := 0;
                           VisibleNodeMask := 0 |};
     heap_Flags := 0; heap_vk_memory := 11; heap_offset_in_memory := 0;
     heap_vk_buffer := 12; heap_va := 0x10000000; heap_size := size |}.

Definition no_committed : d3d12_device -> Cookie.globals -> D3D12_RESOURCE_DESC ->
    D3D12_HEAP_PROPERTIES -> Z -> Z -> bool -> created :=
  fun _ g _ _ _ _ _ => (E_FAIL, None, g, []).

(** A committed texture as [d3d12_resource_create] and the committed path
    leave it, with a chosen pair of reference counts and flags. *)
Definition texture_resource (refcount0 internal0 flags0 : Z) : d3d12_resource :=
  {| refcount := refcount0; internal_refcount := internal0; desc := texture_desc;
     flags := flags0; format := Some rgba8; res_cookie := 1; res_vk_image := 7;
     res_vk_buffer := 0; res_va := 0; res_size := 0; mem_vk_memory := 11;
     mem_offset := 0; vrs_view := 0; initial_state := 0;
     heap_properties := Some default_heap_properties; heap_flags := 0;
     initial_layout_transition := 1 |}.

Definition committed_flags : Z :=
  Z.lor VKD3D_RESOURCE_COMMITTED VKD3D_RESOURCE_ALLOCATION.

(** A reserved buffer of the given width. *)
Definition reserved_buffer (width : Z) : d3d12_resource :=
  {| refcount := 1; internal_refcount := 1; desc := buffer_desc width;
     flags := VKD3D_RESOURCE_RESERVED; format := None; res_cookie := 1;
     res_vk_image := 0; res_vk_buffer := 9; res_va := 0; res_size := 0;
     mem_vk_memory := 0; mem_offset := 0; vrs_view := 0; initial_state := 0;
     heap_properties := None; heap_flags := 0; initial_layout_transition := 0 |}.

(** Sampler descriptions: clamp or border addressing, with a border colour
    of opaque black or opaque white (1.0f is 0x3F800000). *)
Definition black : ViewKey.float4 :=
  {| ViewKey.c0 := 0; ViewKey.c1 := 0; ViewKey.c2 := 0; ViewKey.c3 := 0x3F800000 |}.

Definition white : ViewKey.float4 :=
  {| ViewKey.c0 := 0x3F800000; ViewKey.c1 := 0x3F800000; ViewKey.c2 := 0x3F800000;
     ViewKey.c3 := 0x3F800000 |}.

(** Opaque black with a red component of -0.0f. *)
Definition black_below_zero : ViewKey.float4 :=
  {| ViewKey.c0 := 0x80000000; ViewKey.c1 := 0; ViewKey.c2 := 0; ViewKey.c3 := 0x3F800000 |}.

Definition sampler (address : Z) (border : ViewKey.float4) : ViewKey.D3D12_SAMPLER_DESC :=
  {| ViewKey.Filter := 0x15; ViewKey.AddressU := address; ViewKey.AddressV := address;
     ViewKey.AddressW := address; ViewKey.MipLODBias := 0; ViewKey.MaxAnisotropy := 1;
     ViewKey.ComparisonFunc := 8; ViewKey.BorderColor := border; ViewKey.MinLOD := 0;
     ViewKey.MaxLOD := 0x447A0000 |}.

(** A stand-in for the hash helpers of hashmap.h. *)
Definition hash_uint64 (x : Z) : Z := Machine.u32 (Z.lxor x (Z.shiftr x 32)).
Definition hash_combine (old new : Z) : Z :=
  Machine.u32 (Z.lxor old (new + 0x9E3779B9 + Z.shiftl old 6 + Z.shiftr old 2)).

(** Samplers with an address mode of their own in each direction, and with
    a level-of-detail bias of their own (-0.0f is 0x80000000, a quiet NaN
    0x7FC00000). *)
Definition sampler_uvw (u v w : Z) (border : ViewKey.float4) : ViewKey.D3D12_SAMPLER_DESC :=
  {| ViewKey.Filter := 0x15; ViewKey.AddressU := u; ViewKey.AddressV := v;
     ViewKey.AddressW := w; ViewKey.MipLODBias := 0; ViewKey.MaxAnisotropy := 1;
     ViewKey.ComparisonFunc := 8; ViewKey.BorderColor := border; ViewKey.MinLOD := 0;
     ViewKey.MaxLOD := 0x447A0000 |}.

Definition biased_sampler (bias : ViewKey.float) (border : ViewKey.float4)
  : ViewKey.D3D12_SAMPLER_DESC :=
  {| ViewKey.Filter := 0x15; ViewKey.AddressU := Api.D3D12_TEXTURE_ADDRESS_MODE_CLAMP;
     ViewKey.AddressV := Api.D3D12_TEXTURE_ADDRESS_MODE_CLAMP;
     ViewKey.AddressW := Api.D3D12_TEXTURE_ADDRESS_MODE_CLAMP;
     ViewKey.MipLODBias := bias; ViewKey.MaxAnisotropy := 1;
     ViewKey.ComparisonFunc := 8; ViewKey.BorderColor := border; ViewKey.MinLOD := 0;
     ViewKey.MaxLOD := 0x447A0000 |}.

(** One caller after the other, and the race in which both miss, both
    create, and the second to insert loses. *)
Definition in_turn : list ViewMap.thread_id :=
  [ViewMap.T1; ViewMap.T1; ViewMap.T1; ViewMap.T1;
   ViewMap.T2; ViewMap.T2; ViewMap.T2; ViewMap.T2].

Definition racing : list ViewMap.thread_id :=
  [ViewMap.T1; ViewMap.T2; ViewMap.T1; ViewMap.T2;
   ViewMap.T1; ViewMap.T2; ViewMap.T2; ViewMap.T1; ViewMap.T2].

(** Two callers on the empty cache of a driver that creates every view:
    what each returns, the count of occupied entries and the entries. *)
Definition two_callers (k1 k2 : ViewKey.vkd3d_view_key) (schedule : list ViewMap.thread_id)
  : option (ViewMap.pc * ViewMap.pc * Z * list (ViewKey.vkd3d_view_key * Z)) :=
  match ViewMap.run hash_uint64 hash_combine (fun _ => true) true true k1 k2 schedule
          (ViewMap.start ViewMap.empty_world) with
  | Some s => Some (ViewMap.pc1 s, ViewMap.pc2 s, ViewMap.used_count (ViewMap.shared s),
                    ViewMap.map (ViewMap.shared s))
  | None => None
  end.

(** The key of a clamping sampler with the given level-of-detail bias. *)
Definition biased_key (bias : ViewKey.float) : ViewKey.vkd3d_view_key :=
  ViewKey.VKD3D_VIEW_TYPE_SAMPLER (biased_sampler bias black).

(** BC1, a block-compressed format: 4 by 4 texels in 8 bytes. *)
Definition bc1 : vkd3d_format :=
  {| dxgi_format := 71; vk_format := 133; byte_count := 1; block_width := 4;
     block_height := 4; block_byte_count := 8; vk_aspect_mask := 1 |}.

(** A device for the descriptor writes: constant buffers go to uniform
    buffers in set 0, raw buffers to set 1, typed buffers to set 2 and
    images to set 3; one 64 KiB buffer with cookie 5 lives at address
    0x10000, and the view cache serves every key with the view of cookie
    9. *)
Definition constants : Descriptor.vkd3d_unique_resource :=
  {| Descriptor.ur_vk_buffer := 7; Descriptor.ur_va := 0x10000;
     Descriptor.ur_size := 0x10000; Descriptor.ur_cookie := 5 |}.

Definition cached_view : ViewMap.vkd3d_view :=
  {| ViewMap.refcount := 1; ViewMap.cookie := 9; ViewMap.vk_handle := 11 |}.

Definition bindless : Descriptor.d3d12_device :=
  {| Descriptor.vkd3d_bindless_state_get_cbv_descriptor_type :=
       VK_DESCRIPTOR_TYPE_UNIFORM_BUFFER;
     Descriptor.vkd3d_bindless_state_find_set_info_index :=
       fun c =>
         if c =? Descriptor.VKD3D_BINDLESS_SET_CBV then 0
         else if c =? Z.lor Descriptor.VKD3D_BINDLESS_SET_SRV
                        Descriptor.VKD3D_BINDLESS_SET_RAW_SSBO then 1
         else if c =? Z.lor Descriptor.VKD3D_BINDLESS_SET_SRV
                        Descriptor.VKD3D_BINDLESS_SET_BUFFER then 2
         else 3;
     Descriptor.vkd3d_bindless_state_binding_from_info_index :=
       fun i => {| Descriptor.set := i; Descriptor.binding := 0 |};
     Descriptor.ssbo_offset_buffer := false;
     Descriptor.typed_offset_buffer := false;
     Descriptor.d3d12_device_use_ssbo_raw_buffer := true;
     Descriptor.d3d12_device_supports_ray_tracing_tier_1_0 := true;
     Descriptor.d3d12_device_get_ssbo_alignment := 16;
     Descriptor.maxTexelBufferElements := 2 ^ 27;
     Descriptor.vkd3d_va_map_deref :=
       fun a => if (0x10000 <=? a) && (a <? 0x20000) then Some constants else None;
     Descriptor.vkd3d_get_format := fun _ _ => Some rgba8;
     Descriptor.vkd3d_format_from_d3d12_resource_desc :=
       fun _ view_format => if view_format =? 71 then Some bc1 else Some rgba8;
     Descriptor.vkd3d_format_is_compressed := fun f => negb (block_byte_count f =? 1);
     Descriptor.format_address := dxgi_format;
     Descriptor.d3d12_resource_desc_get_layer_count := DepthOrArraySize;
     Descriptor.vkd3d_log2i := Z.log2;
     Descriptor.vkd3d_view_map_create_view := fun _ _ => Some cached_view |}.

(** The same device with a view cache that is out of memory. *)
Definition bindless_without_views : Descriptor.d3d12_device :=
  {| Descriptor.vkd3d_bindless_state_get_cbv_descriptor_type :=
       VK_DESCRIPTOR_TYPE_UNIFORM_BUFFER;
     Descriptor.vkd3d_bindless_state_find_set_info_index :=
       Descriptor.vkd3d_bindless_state_find_set_info_index bindless;
     Descriptor.vkd3d_bindless_state_binding_from_info_index :=
       Descriptor.vkd3d_bindless_state_binding_from_info_index bindless;
     Descriptor.ssbo_offset_buffer := false;
     Descriptor.typed_offset_buffer := false;
     Descriptor.d3d12_device_use_ssbo_raw_buffer := true;
     Descriptor.d3d12_device_supports_ray_tracing_tier_1_0 := true;
     Descriptor.d3d12_device_get_ssbo_alignment := 16;
     Descriptor.maxTexelBufferElements := 2 ^ 27;
     Descriptor.vkd3d_va_map_deref := Descriptor.vkd3d_va_map_deref bindless;
     Descriptor.vkd3d_get_format := fun _ _ => Some rgba8;
     Descriptor.vkd3d_format_from_d3d12_resource_desc :=
       fun _ view_format => if view_format =? 71 then Some bc1 else Some rgba8;
     Descriptor.vkd3d_format_is_compressed := fun f => negb (block_byte_count f =? 1);
     Descriptor.format_address := dxgi_format;
     Descriptor.d3d12_resource_desc_get_layer_count := DepthOrArraySize;
     Descriptor.vkd3d_log2i := Z.log2;
     Descriptor.vkd3d_view_map_create_view := fun _ _ => None |}.

Definition template_write (set0 ty : Z) : Descriptor.VkWriteDescriptorSet :=
  {| Descriptor.dstSet := set0; Descriptor.dstBinding := 0;
     Descriptor.dstArrayElement := 0; Descriptor.descriptorCount := 1;
     Descriptor.descriptorType := ty; Descriptor.payload := None |}.

(** A heap on a driver with mutable descriptors: the null template writes
    the mutable set and the storage-buffer set. *)
Definition mutable_heap : Descriptor.d3d12_descriptor_heap :=
  {| Descriptor.vk_descriptor_sets := fun i => 100 + i;
     Descriptor.template_writes :=
       [template_write 100 VK_DESCRIPTOR_TYPE_MUTABLE_VALVE;
        template_write 101 VK_DESCRIPTOR_TYPE_STORAGE_BUFFER];
     Descriptor.template_set_info_mask := 3;
     Descriptor.has_mutable_descriptors := true |}.

(** A heap on a driver without them: one set per descriptor type. *)
Definition plain_heap : Descriptor.d3d12_descriptor_heap :=
  {| Descriptor.vk_descriptor_sets := fun i => 100 + i;
     Descriptor.template_writes :=
       [template_write 100 VK_DESCRIPTOR_TYPE_UNIFORM_BUFFER;
        template_write 101 VK_DESCRIPTOR_TYPE_STORAGE_BUFFER;
        template_write 102 VK_DESCRIPTOR_TYPE_SAMPLED_IMAGE;
        template_write 103 VK_DESCRIPTOR_TYPE_STORAGE_IMAGE;
        template_write 104 VK_DESCRIPTOR_TYPE_UNIFORM_TEXEL_BUFFER;
        template_write 105 VK_DESCRIPTOR_TYPE_STORAGE_TEXEL_BUFFER];
     Descriptor.template_set_info_mask := 63;
     Descriptor.has_mutable_descriptors := false |}.

(** Slot 2 of a heap of four slots, as the heap is created. *)
Definition slot2 (heap : Descriptor.d3d12_descriptor_heap) : Descriptor.state :=
  Descriptor.initial_state heap 2 (Some [0; 0; 0; 0])
    [Descriptor.no_bound_range; Descriptor.no_bound_range;
     Descriptor.no_bound_range; Descriptor.no_bound_range].

Definition cbv (location size : Z) : Descriptor.D3D12_CONSTANT_BUFFER_VIEW_DESC :=
  {| Descriptor.BufferLocation := location; Descriptor.SizeInBytes := size |}.

Definition buffer_srv (dimension : Z) : Descriptor.D3D12_SHADER_RESOURCE_VIEW_DESC :=
  {| Descriptor.srv_Format := 28; Descriptor.srv_ViewDimension := dimension;
     Descriptor.FirstElement := 0; Descriptor.NumElements := 16;
     Descriptor.StructureByteStride := 0; Descriptor.Buffer_Flags := 0;
     Descriptor.Location := 0 |}.

Definition texture_uav (view_format dimension : Z)
  : Descriptor.D3D12_UNORDERED_ACCESS_VIEW_DESC :=
  {| Descriptor.uav_Format := view_format; Descriptor.uav_ViewDimension := dimension;
     Descriptor.word0 := 0; Descriptor.word1 := 0;
     Descriptor.word2 := 0; Descriptor.word3 := 0 |}.

End Examples.

(** ** Further concrete cases *)

Module Cases.
Import Machine Api.

(** D24_UNORM_S8_UINT: a depth plane and a stencil plane. *)
Definition depth_stencil : Resource.vkd3d_format :=
  {| Resource.dxgi_format := 45; Resource.vk_format := 129; Resource.byte_count := 4;
     Resource.block_width := 1; Resource.block_height := 1; Resource.block_byte_count := 1;
     Resource.vk_aspect_mask := 6 |}.

Definition depth_texture : Resource.d3d12_resource :=
  {| Resource.refcount := 1; Resource.internal_refcount := 1;
     Resource.desc := Examples.texture_desc; Resource.flags := Examples.committed_flags;
     Resource.format := Some depth_stencil; Resource.res_cookie := 1;
     Resource.res_vk_image := 7; Resource.res_vk_buffer := 0; Resource.res_va := 0;
     Resource.res_size := 0; Resource.mem_vk_memory := 11; Resource.mem_offset := 0;
     Resource.vrs_view := 0; Resource.initial_state := 0;
     Resource.heap_properties := Some Resource.default_heap_properties;
     Resource.heap_flags := 0; Resource.initial_layout_transition := 1 |}.

(** An unordered access view of a plane of a 2D texture. *)
Definition plane_uav (plane : Z) : Descriptor.D3D12_UNORDERED_ACCESS_VIEW_DESC :=
  {| Descriptor.uav_Format := 45;
     Descriptor.uav_ViewDimension := Descriptor.D3D12_UAV_DIMENSION_TEXTURE2D;
     Descriptor.word0 := 0; Descriptor.word1 := plane;
     Descriptor.word2 := 0; Descriptor.word3 := 0 |}.

(** A 4 KiB buffer in an upload heap, 256 bytes into its allocation. *)
Definition upload_heap_properties : Resource.D3D12_HEAP_PROPERTIES :=
  {| Resource.HeapType := D3D12_HEAP_TYPE_UPLOAD; Resource.CPUPageProperty := 0;
     Resource.MemoryPoolPreference := 0; Resource.CreationNodeMask := 0;
     Resource.VisibleNodeMask := 0 |}.

Definition upload_buffer : Resource.d3d12_resource :=
  {| Resource.refcount := 1; Resource.internal_refcount := 1;
     Resource.desc := Examples.buffer_desc 4096; Resource.flags := Examples.committed_flags;
     Resource.format := None; Resource.res_cookie := 2;
     Resource.res_vk_image := 0; Resource.res_vk_buffer := 9; Resource.res_va := 0x20000;
     Resource.res_size := 4096; Resource.mem_vk_memory := 11; Resource.mem_offset := 256;
     Resource.vrs_view := 0; Resource.initial_state := 0;
     Resource.heap_properties := Some upload_heap_properties;
     Resource.heap_flags := 0; Resource.initial_layout_transition := 0 |}.

(** A shader resource view of the acceleration structure at 0x10200. *)
Definition acceleration_structure_srv : Descriptor.D3D12_SHADER_RESOURCE_VIEW_DESC :=
  {| Descriptor.srv_Format := 0;
     Descriptor.srv_ViewDimension := D3D12_SRV_DIMENSION_RAYTRACING_ACCELERATION_STRUCTURE;
     Descriptor.FirstElement := 0; Descriptor.NumElements := 0;
     Descriptor.StructureByteStride := 0; Descriptor.Buffer_Flags := 0;
     Descriptor.Location := 0x10200 |}.


(** The device of the resources with a driver that refuses to bind image
    memory. *)
Definition refusing_device : Resource.d3d12_device :=
  {| Resource.vkd3d_format_from_d3d12_resource_desc :=
       Resource.vkd3d_format_from_d3d12_resource_desc Examples.device;
     Resource.vkd3d_format_is_compressed := Resource.vkd3d_format_is_compressed Examples.device;
     Resource.is_valid_resource_state := Resource.is_valid_resource_state Examples.device;
     Resource.is_cpu_accessible_heap := Resource.is_cpu_accessible_heap Examples.device;
     Resource.d3d12_resource_desc_get_depth :=
       Resource.d3d12_resource_desc_get_depth Examples.device;
     Resource.vkd3d_log2i := Resource.vkd3d_log2i Examples.device;
     Resource.vkd3d_malloc_object := true;
     Resource.vkd3d_private_store_init := S_OK;
     Resource.vkd3d_create_image := Resource.vkd3d_create_image Examples.device;
     Resource.vkd3d_create_buffer := Resource.vkd3d_create_buffer Examples.device;
     Resource.vkGetImageMemoryRequirements :=
       Resource.vkGetImageMemoryRequirements Examples.device;
     Resource.vkBindImageMemory := fun _ _ _ => -2;
     Resource.hresult_from_vk_result := Resource.hresult_from_vk_result Examples.device;
     Resource.attachmentFragmentShadingRate := false;
     Resource.vkd3d_resource_make_vrs_view :=
       Resource.vkd3d_resource_make_vrs_view Examples.device;
     Resource.bufferDeviceAddress := true |}.

(** A swizzle that exchanges red and blue, and a texel to read. *)
Definition bgra : ViewKey.VkComponentMapping :=
  {| ViewKey.r := TextureView.VK_COMPONENT_SWIZZLE_B;
     ViewKey.g := TextureView.VK_COMPONENT_SWIZZLE_G;
     ViewKey.b := TextureView.VK_COMPONENT_SWIZZLE_R;
     ViewKey.a := TextureView.VK_COMPONENT_SWIZZLE_IDENTITY |}.

Definition alpha_only : ViewKey.VkComponentMapping :=
  {| ViewKey.r := TextureView.VK_COMPONENT_SWIZZLE_ZERO;
     ViewKey.g := TextureView.VK_COMPONENT_SWIZZLE_ZERO;
     ViewKey.b := TextureView.VK_COMPONENT_SWIZZLE_ZERO;
     ViewKey.a := TextureView.VK_COMPONENT_SWIZZLE_R |}.

Definition texel : TextureView.texel :=
  {| TextureView.red := 10; TextureView.green := 20; TextureView.blue := 30;
     TextureView.alpha := 40 |}.

(** Mip levels 1 to 4 of an image with a clamp of 2.5. *)
Definition clamped_view : ViewKey.vkd3d_texture_view_desc :=
  {| ViewKey.image := 7; ViewKey.view_type := 1; ViewKey.aspect_mask := 1;
     ViewKey.tv_format := 28; ViewKey.miplevel_idx := 1; ViewKey.miplevel_count := 4;
     ViewKey.miplevel_clamp := 0x40200000; ViewKey.layer_idx := 0; ViewKey.layer_count := 1;
     ViewKey.components := bgra; ViewKey.allowed_swizzle := true |}.

(** A device with resizable BAR seen as two device-local heaps of nearly
    the same size, and system memory: memory type 0 is device-local on heap
    0, type 1 is host-visible on heap 2, type 2 is device-local and
    host-visible on heap 1. *)
Definition rebar : MemoryInfo.VkPhysicalDeviceMemoryProperties :=
  {| MemoryInfo.memoryTypes :=
       [ {| MemoryInfo.propertyFlags := 1; MemoryInfo.heapIndex := 0 |};
         {| MemoryInfo.propertyFlags := 2; MemoryInfo.heapIndex := 2 |};
         {| MemoryInfo.propertyFlags := 3; MemoryInfo.heapIndex := 1 |} ];
     MemoryInfo.memoryHeaps :=
       [ {| MemoryInfo.size := 0x200000000; MemoryInfo.flags := 1 |};
         {| MemoryInfo.size := 0x1F0000000; MemoryInfo.flags := 1 |};
         {| MemoryInfo.size := 0x400000000; MemoryInfo.flags := 0 |} ] |}.

(** A driver on which every probe succeeds and every object may live on
    the three memory types. *)
Definition create_buffer (info : MemoryInfo.VkBufferCreateInfo) : Z * Z := (0, 21).
Definition create_image (info : MemoryInfo.VkImageCreateInfo) : Z * Z :=
  (0, 22 + MemoryInfo.tiling info).
Definition type_bits (object : Z) : Z := 7.
Definition linear_tiling (info : MemoryInfo.VkImageCreateInfo) : bool := true.
Definition hresult_of (vr : Z) : HRESULT := if vr =? 0 then S_OK else E_FAIL.

Definition memory_info_init :=
  MemoryInfo.vkd3d_memory_info_init rebar false 0 create_buffer type_bits create_image
    type_bits linear_tiling hresult_of true false.

(** The upload buffer with its host address, on memory type 1. *)
Definition mapped_upload_buffer : Mapping.mapped_resource :=
  {| Mapping.resource := upload_buffer; Mapping.cpu_address := 0x7000;
     Mapping.vk_memory_type := 1 |}.

Definition one_sub_resource (r : Resource.d3d12_resource) : Z := 1.

Definition bytes_16_to_80 : Mapping.D3D12_RANGE :=
  {| Mapping.Begin := 16; Mapping.End_ := 80 |}.

(** A view cache of two samplers. *)
Definition cache : ViewMap.world :=
  {| ViewMap.map :=
       [ (ViewKey.VKD3D_VIEW_TYPE_SAMPLER
            (Examples.sampler D3D12_TEXTURE_ADDRESS_MODE_CLAMP Examples.black), 1);
         (ViewKey.VKD3D_VIEW_TYPE_SAMPLER
            (Examples.sampler D3D12_TEXTURE_ADDRESS_MODE_BORDER Examples.white), 2) ];
     ViewMap.used_count := 2;
     ViewMap.views :=
       <[1 := {| ViewMap.refcount := 1; ViewMap.cookie := 1; ViewMap.vk_handle := 1 |}]>
         (<[2 := {| ViewMap.refcount := 1; ViewMap.cookie := 2; ViewMap.vk_handle := 2 |}]> ∅);
     ViewMap.native := {[1; 2]};
     ViewMap.next := 3;
     ViewMap.cookies := Cookie.initial |}.

(** A shader-visible heap of a hundred descriptors on a device that wants
    both tables, with an alignment of 64 bytes. *)
Definition hundred_descriptors : HeapData.D3D12_DESCRIPTOR_HEAP_DESC :=
  {| HeapData.Type_ := HeapData.D3D12_DESCRIPTOR_HEAP_TYPE_CBV_SRV_UAV;
     HeapData.NumDescriptors := 100;
     HeapData.dh_Flags := HeapData.D3D12_DESCRIPTOR_HEAP_FLAG_SHADER_VISIBLE;
     HeapData.NodeMask := 0 |}.

Definition absent_range : HeapData.vkd3d_host_visible_buffer_range :=
  {| HeapData.descriptor :=
       {| Descriptor.buffer := 0; Descriptor.offset := 0; Descriptor.range := 0 |};
     HeapData.host_ptr := 0 |}.

Definition new_heap : HeapData.d3d12_descriptor_heap :=
  {| HeapData.vk_buffer := 0; HeapData.vk_memory := 0; HeapData.host_memory := 0;
     HeapData.raw_va_aux_buffer := absent_range; HeapData.buffer_ranges := absent_range;
     HeapData.descriptor_heap_info := absent_range |}.

Definition init_data_buffer :=
  HeapData.d3d12_descriptor_heap_init_data_buffer 16 64 true true false false 0 (fun _ => 0)
    false false (fun _ _ _ => (S_OK, 31)) (fun _ _ => (S_OK, 32)) (fun _ => (0, 0x8000))
    (fun _ => 0x9000) hresult_of Z.add 16 new_heap hundred_descriptors.

(** A heap of 64 timestamp queries. *)
Definition timestamps : QueryHeap.D3D12_QUERY_HEAP_DESC :=
  {| QueryHeap.Type_ := QueryHeap.D3D12_QUERY_HEAP_TYPE_TIMESTAMP; QueryHeap.Count := 64;
     QueryHeap.NodeMask := 0 |}.

Definition query_heap_create :=
  QueryHeap.d3d12_query_heap_create true (fun type => type =? 0) (fun _ => 8)
    (fun _ => (0, 41)) (fun _ _ _ => (S_OK, 42)) (fun _ _ => (S_OK, 43)) S_OK hresult_of.

(** Two pools of sampler descriptor sets, the first of them full. *)
Definition two_pools : SamplerSets.vkd3d_sampler_state :=
  {| SamplerSets.vk_descriptor_pools := [51; 52] |}.

Definition allocate_sets (pool layout : Z) : Z * Z :=
  if pool =? 51 then (SamplerSets.VK_ERROR_OUT_OF_POOL_MEMORY, 0) else (0, 600 + pool).

Definition create_pool (info : SamplerSets.VkDescriptorPoolCreateInfo) : Z * Z := (0, 53).

Definition allocate_descriptor_set :=
  SamplerSets.vkd3d_sampler_state_allocate_descriptor_set 0 hresult_of
    (fun vr => if vr <? 0 then E_FAIL else S_OK) allocate_sets create_pool (fun _ => true).

End Cases.

(** * Properties *)

(** ** Machine arithmetic *)

Section MachineFacts.
Import Machine.

Lemma wrap_small bits x : 0 <= x < 2 ^ bits -> wrap bits x = x.
Proof. intros H. unfold wrap. apply Z.mod_small. exact H. Qed.

Lemma u64_small x : in_u64 x -> u64 x = x.
Proof. apply wrap_small. Qed.

Lemma u32_small x : in_u32 x -> u32 x = x.
Proof. apply wrap_small. Qed.

Lemma u64_range x : in_u64 (u64 x).
Proof. unfold in_u64, u64, wrap. apply Z.mod_pos_bound. lia. Qed.

Lemma u32_range x : in_u32 (u32 x).
Proof. unfold in_u32, u32, wrap. apply Z.mod_pos_bound. lia. Qed.

Lemma s64_small x : - 2 ^ 63 <= x < 2 ^ 63 -> s64 x = x.
Proof.
  intros H. unfold s64, wrap.
  destruct (Z_lt_le_dec x 0) as [Hneg | Hpos].
  - replace (x mod 2 ^ 64) with (x + 2 ^ 64).
    + destruct (Z.ltb_spec (x + 2 ^ 64) (2 ^ 63)); lia.
    + apply Z.mod_unique_pos with (q := -1); lia.
  - rewrite Z.mod_small by lia.
    destruct (Z.ltb_spec x (2 ^ 63)); lia.
Qed.

(** [align] on a power of two is the least multiple not below the address. *)
Lemma lnot_pow2_mask k : 0 <= k < 64 ->
  u64 (Z.lnot (2 ^ k - 1)) = 2 ^ 64 - 2 ^ k.
Proof.
  intros Hk. unfold u64, wrap.
  assert (Hp : 0 < 2 ^ k) by (apply Z.pow_pos_nonneg; lia).
  assert (Hle : 2 ^ k < 2 ^ 64) by (apply Z.pow_lt_mono_r; lia).
  replace (Z.lnot (2 ^ k - 1)) with (- 2 ^ k) by (unfold Z.lnot; lia).
  symmetry. apply Z.mod_unique_pos with (q := -1); lia.
Qed.

Lemma land_high_mask x k : 0 <= k < 64 -> in_u64 x ->
  Z.land x (2 ^ 64 - 2 ^ k) = 2 ^ k * (x / 2 ^ k).
Proof.
  intros Hk Hx.
  assert (Hp : 0 < 2 ^ k) by (apply Z.pow_pos_nonneg; lia).
  apply Z.bits_inj'. intros n Hn.
  rewrite Z.land_spec.
  replace (2 ^ 64 - 2 ^ k) with (Z.ldiff (Z.ones 64) (Z.ones k)).
  - rewrite Z.ldiff_spec, !Z.testbit_ones_nonneg by lia.
    rewrite Z.mul_comm, <- Z.shiftl_mul_pow2, <- Z.shiftr_div_pow2 by lia.
    destruct (Z.ltb_spec n k) as [Hlt | Hge].
    + rewrite Z.shiftl_spec_low by lia.
      rewrite andb_false_r. simpl.
      replace ((0 <=? n) && false) with false by (destruct (0 <=? n); reflexivity).
      simpl. rewrite andb_false_r. reflexivity.
    + rewrite Z.shiftl_spec by lia. rewrite Z.shiftr_spec by lia.
      replace (n - k + k) with n by lia.
      replace (0 <=? n) with true by (symmetry; apply Z.leb_le; lia).
      simpl. rewrite andb_true_r.
      destruct (Z.ltb_spec n 64) as [H64 | H64].
      * simpl. rewrite andb_true_r. reflexivity.
      * simpl. rewrite andb_false_r. symmetry.
        apply Z.bits_above_log2; [apply Hx |].
        destruct (Z.eq_dec x 0) as [-> | Hnz]; [simpl; lia |].
        apply Z.log2_lt_pow2; [destruct Hx; lia |].
        eapply Z.lt_le_trans; [apply Hx |].
        apply Z.pow_le_mono_r; lia.
  - assert (Hsub : Z.land (Z.ones 64) (Z.ones k) = Z.ones k).
    { apply Z.bits_inj'. intros m Hm. rewrite Z.land_spec.
      rewrite !Z.testbit_ones_nonneg by lia.
      destruct (Z.ltb_spec m k); destruct (Z.ltb_spec m 64); simpl; try reflexivity; lia. }
    rewrite <- (Z.sub_nocarry_ldiff (Z.ones 64) (Z.ones k)).
    + rewrite !Z.ones_equiv. lia.
    + apply Z.bits_inj'. intros m Hm.
      rewrite Z.ldiff_spec, Z.bits_0, !Z.testbit_ones_nonneg by lia.
      destruct (Z.ltb_spec m k); destruct (Z.ltb_spec m 64); simpl; try reflexivity; lia.
Qed.

Lemma align_pow2 addr k : 0 <= k < 64 -> in_u64 addr ->
  align addr (2 ^ k) = 2 ^ k * (u64 (addr + (2 ^ k - 1)) / 2 ^ k).
Proof.
  intros Hk Ha. unfold align.
  rewrite lnot_pow2_mask by exact Hk.
  apply land_high_mask; [exact Hk | apply u64_range].
Qed.

End MachineFacts.

(** ** The cookie allocator *)

Section CookieFacts.
Import Machine Cookie.

Lemma s64_succ x : s64 (s64 x + 1) = s64 (x + 1).
Proof.
  unfold s64, wrap.
  destruct (Z.ltb_spec (x mod 2 ^ 64) (2 ^ 63)) as [H | H].
  - rewrite Zplus_mod_idemp_l. reflexivity.
  - replace (x mod 2 ^ 64 - 2 ^ 64 + 1) with ((x mod 2 ^ 64 + 1) + (-1) * 2 ^ 64) by lia.
    rewrite Z_mod_plus_full, Zplus_mod_idemp_l. reflexivity.
Qed.

Lemma after_calls_counter n :
  global_cookie_counter (after_calls n) = s64 (Z.of_N n).
Proof.
  unfold after_calls. induction n as [| n IH] using N.peano_ind.
  - reflexivity.
  - rewrite N.iter_succ.
    change (global_cookie_counter (snd (vkd3d_allocate_cookie ?g)))
      with (s64 (global_cookie_counter g + 1)).
    rewrite IH, s64_succ. f_equal. lia.
Qed.

Lemma nth_cookie_closed n : (0 < n)%N -> nth_cookie n = s64 (Z.of_N n).
Proof.
  intros Hn. unfold nth_cookie.
  change (fst (vkd3d_allocate_cookie ?g)) with (s64 (global_cookie_counter g + 1)).
  rewrite after_calls_counter, s64_succ.
  f_equal. lia.
Qed.

Lemma nth_cookie_in_range n :
  (0 < n)%N -> Z.of_N n < 2 ^ 63 -> nth_cookie n = Z.of_N n.
Proof.
  intros Hn Hb. rewrite nth_cookie_closed by exact Hn.
  apply s64_small. lia.
Qed.

End CookieFacts.

(** ** Allocation info *)

Section AllocationInfoFacts.
Import Machine Api Resource.

Lemma target_alignment_normalised dev d :
  target_alignment (normalised_desc dev d) = target_alignment d.
Proof. unfold normalised_desc. destruct (MipLevels d =? 0); reflexivity. Qed.

Lemma allocation_info_unfold dev d ai0 :
  Dimension d <> D3D12_RESOURCE_DIMENSION_BUFFER ->
  d3d12_resource_validate_desc dev d = S_OK ->
  FAILED (native_status dev d) = false ->
  vkd3d_get_image_allocation_info dev d ai0 =
    let req := native_requirements dev d in
    if target_alignment d <? req_alignment req
    then Some (native_status dev d,
               {| SizeInBytes := u64 (req_size req + u64 (req_alignment req - target_alignment d));
                  info_Alignment := target_alignment d |})
    else Some (native_status dev d,
               {| SizeInBytes := req_size req; info_Alignment := req_alignment req |}).
Proof.
  intros Hdim Hval Hok.
  unfold vkd3d_get_image_allocation_info, native_requirements, native_status in *.
  fold (normalised_desc dev d) in *.
  destruct (Z.eqb_spec (Dimension d) D3D12_RESOURCE_DIMENSION_BUFFER) as [E | _];
    [contradiction |].
  rewrite Hval, Z.eqb_refl. cbn [negb].
  destruct (vkd3d_create_image dev (Some default_heap_properties) 0 (normalised_desc dev d))
    as [hr image] eqn:Hc.
  cbn [fst snd] in *. rewrite Hok.
  rewrite target_alignment_normalised. reflexivity.
Qed.

(** C6.  For a valid texture description whose throw-away image the driver
    could create, [vkd3d_get_image_allocation_info] succeeds and reports:
    when the native alignment exceeds the target alignment (the declared
    [Alignment], or the default placement alignment when that is zero), the
    native size plus (native alignment - target alignment), computed as the
    code does in [UINT64], and the target as alignment; otherwise the native
    size and alignment unchanged.  When the sum fits 64 bits the reported
    size is exactly the native size plus the difference. *)
Theorem allocation_info_inflates_and_clamps dev d ai0 :
  Dimension d <> D3D12_RESOURCE_DIMENSION_BUFFER ->
  d3d12_resource_validate_desc dev d = S_OK ->
  FAILED (native_status dev d) = false ->
  let req := native_requirements dev d in
  let target := if Alignment d =? 0
                then D3D12_DEFAULT_RESOURCE_PLACEMENT_ALIGNMENT else Alignment d in
  exists ai,
    vkd3d_get_image_allocation_info dev d ai0 = Some (native_status dev d, ai) /\
    (target < req_alignment req ->
       SizeInBytes ai = u64 (req_size req + (req_alignment req - target)) /\
       info_Alignment ai = target /\
       (0 <= req_size req -> req_size req + (req_alignment req - target) < 2 ^ 64 ->
        SizeInBytes ai = req_size req + (req_alignment req - target))) /\
    (req_alignment req <= target ->
       SizeInBytes ai = req_size req /\ info_Alignment ai = req_alignment req).
Proof.
  intros Hdim Hval Hok req target.
  rewrite (allocation_info_unfold dev d ai0 Hdim Hval Hok).
  fold req. change (target_alignment d) with target.
  cbv zeta.
  destruct (Z.ltb_spec target (req_alignment req)) as [Hlt | Hge].
  - eexists. split; [reflexivity |]. cbn [SizeInBytes info_Alignment]. split.
    + intros _.
      assert (Hsum : u64 (req_size req + u64 (req_alignment req - target))
                     = u64 (req_size req + (req_alignment req - target))).
      { unfold u64, wrap. apply Zplus_mod_idemp_r. }
      split; [exact Hsum | split; [reflexivity |]].
      intros Hnn Hfit. rewrite Hsum. apply u64_small. unfold in_u64. lia.
    + intros Hle. lia.
  - eexists. split; [reflexivity |]. cbn [SizeInBytes info_Alignment]. split.
    + intros Hlt. lia.
    + intros _. split; reflexivity.
Qed.

Lemma allocation_info_inflates_and_clamps_witness :
  exists ai,
    vkd3d_get_image_allocation_info Examples.device Examples.texture_desc Examples.no_info
      = Some (S_OK, ai) /\
    SizeInBytes ai = 1048576 + (131072 - 65536) /\ info_Alignment ai = 65536.
Proof.
  destruct (allocation_info_inflates_and_clamps Examples.device Examples.texture_desc
              Examples.no_info) as [ai [Hrun [Hinfl _]]];
    [ discriminate | reflexivity | reflexivity |].
  exists ai. split; [exact Hrun |].
  destruct Hinfl as [_ [Ha Hexact]]; [reflexivity |].
  split; [apply Hexact; vm_compute; [discriminate | reflexivity] | exact Ha].
Defined.

End AllocationInfoFacts.

(** ** Placed resources *)

Section PlacedFacts.
Import Machine Api Resource.

Variable committed :
  d3d12_device -> Cookie.globals -> D3D12_RESOURCE_DESC -> D3D12_HEAP_PROPERTIES ->
  Z -> Z -> bool -> created.

Lemma validate_heap_cases d heap :
  d3d12_resource_validate_heap d heap =
    if category_denied d heap || cross_adapter_mismatch d heap then E_INVALIDARG else S_OK.
Proof.
  unfold d3d12_resource_validate_heap, category_denied, cross_adapter_mismatch.
  destruct (has_flag (heap_Flags heap) (deny_flag_of d)); [reflexivity |].
  cbn [orb].
  destruct (has_flag (heap_Flags heap) D3D12_HEAP_FLAG_SHARED_CROSS_ADAPTER
            && negb (has_flag (Flags d) D3D12_RESOURCE_FLAG_ALLOW_CROSS_ADAPTER));
    reflexivity.
Qed.

Lemma placed_rejects_heap dev g d heap off st clr :
  category_denied d heap || cross_adapter_mismatch d heap = true ->
  d3d12_resource_create_placed committed dev g d heap off st clr
    = (E_INVALIDARG, None, g, []).
Proof.
  intros H. unfold d3d12_resource_create_placed.
  rewrite validate_heap_cases, H. reflexivity.
Qed.

Lemma resource_create_goes_through dev g fl d hp hf st clr :
  d3d12_resource_validate_create_info dev d hp st clr = S_OK ->
  vkd3d_malloc_object dev = true ->
  FAILED (vkd3d_private_store_init dev) = false ->
  exists object,
    d3d12_resource_create dev g fl d hp hf st clr
      = (S_OK, Some object, snd (Cookie.vkd3d_allocate_cookie g), [DeviceAddRef]) /\
    desc object = d /\ flags object =
      (if st =? D3D12_RESOURCE_STATE_RAYTRACING_ACCELERATION_STRUCTURE
       then Z.lor fl VKD3D_RESOURCE_ACCELERATION_STRUCTURE else fl) /\
    heap_properties object = hp /\
    res_cookie object = fst (Cookie.vkd3d_allocate_cookie g) /\
    refcount object = 1 /\ internal_refcount object = 1.
Proof.
  intros Hv Hm Hp. unfold d3d12_resource_create.
  rewrite Hv, Hm, Hp. cbn [FAILED S_OK Z.ltb Z.compare negb].
  eexists. split; [reflexivity |]. cbn. repeat split; reflexivity.
Qed.

Lemma placed_flag_not_reserved st :
  has_flag (if st =? D3D12_RESOURCE_STATE_RAYTRACING_ACCELERATION_STRUCTURE
            then Z.lor VKD3D_RESOURCE_PLACED VKD3D_RESOURCE_ACCELERATION_STRUCTURE
            else VKD3D_RESOURCE_PLACED) VKD3D_RESOURCE_RESERVED = false.
Proof. destruct (st =? _); reflexivity. Qed.

(** On a heap that passes the heap checks and with every other step going
    through, the status is decided by the size check alone. *)
Lemma placed_status_by_capacity dev g d heap off st clr :
  category_denied d heap || cross_adapter_mismatch d heap = false ->
  placement_goes_through dev d heap st clr ->
  status (d3d12_resource_create_placed committed dev g d heap off st clr)
    = if capacity_exceeded dev d heap off then E_INVALIDARG else S_OK.
Proof.
  intros Hheap (Hmem & Hval & Hmalloc & Hstore & Himg & Hbind & Hvrs).
  unfold d3d12_resource_create_placed.
  rewrite validate_heap_cases, Hheap. cbn [FAILED S_OK Z.ltb Z.compare].
  destruct (Z.eqb_spec (heap_vk_memory heap) VK_NULL_HANDLE) as [E | _]; [contradiction |].
  destruct (resource_create_goes_through dev g VKD3D_RESOURCE_PLACED d
              (Some (heap_Properties heap)) (heap_Flags heap) st clr Hval Hmalloc Hstore)
    as (object & -> & Hdesc & Hflags & Hhp & _).
  unfold capacity_exceeded, d3d12_resource_is_texture at 1. rewrite Hdesc.
  destruct (Z.eqb_spec (Dimension d) D3D12_RESOURCE_DIMENSION_BUFFER) as [Hbuf | Htex];
    cbn [negb].
  - (* buffer *)
    destruct (heap_size heap <? u64 (off + Width d)); [reflexivity |].
    unfold vkd3d_memory_allocation_slice, d3d12_resource_is_texture.
    cbn [set_mem desc]. rewrite Hdesc.
    destruct (Z.eqb_spec (Dimension d) D3D12_RESOURCE_DIMENSION_BUFFER); [| contradiction].
    cbn [negb].
    destruct (vkd3d_resource_can_be_vrs dev (Some (heap_Properties heap)) d); [| reflexivity].
    match goal with
    | |- context [vkd3d_resource_make_vrs_view dev ?i] =>
        specialize (Hvrs i); destruct (vkd3d_resource_make_vrs_view dev i) as [hr view]
    end.
    cbn [fst] in Hvrs. rewrite Hvrs. reflexivity.
  - (* texture *)
    specialize (Himg Htex).
    unfold d3d12_resource_create_vk_resource, placed_requirements.
    rewrite Hflags, placed_flag_not_reserved, Hdesc, Hhp.
    destruct (Z.eqb_spec (Dimension d) D3D12_RESOURCE_DIMENSION_BUFFER); [contradiction |].
    destruct (vkd3d_create_image dev (Some (heap_Properties heap)) D3D12_HEAP_FLAG_NONE
                (normalised_desc dev d)) as [hr image].
    cbn [fst snd] in *. rewrite Himg.
    change (FAILED S_OK) with false. cbv iota.
    cbn [set_desc_image res_vk_image].
    destruct (heap_size heap <?
              u64 (align off (req_alignment (vkGetImageMemoryRequirements dev image))
                   + req_size (vkGetImageMemoryRequirements dev image)));
      [reflexivity |].
    unfold vkd3d_memory_allocation_slice, d3d12_resource_is_texture.
    cbn [set_mem set_desc_image desc res_vk_image mem_vk_memory mem_offset].
    assert (Hn : Dimension (normalised_desc dev d) = Dimension d).
    { unfold normalised_desc. destruct (MipLevels d =? 0); reflexivity. }
    rewrite Hn.
    destruct (Z.eqb_spec (Dimension d) D3D12_RESOURCE_DIMENSION_BUFFER); [contradiction |].
    cbn [negb].
    match goal with
    | |- context [vkBindImageMemory dev ?a ?b ?c <? 0] =>
        destruct (Z.ltb_spec (vkBindImageMemory dev a b c) 0) as [Hneg | _];
          [specialize (Hbind a b c); lia |]
    end.
    cbn [Z.eqb negb].
    destruct (vkd3d_resource_can_be_vrs dev (Some (heap_Properties heap)) d); [| reflexivity].
    match goal with
    | |- context [vkd3d_resource_make_vrs_view dev ?i] =>
        specialize (Hvrs i); destruct (vkd3d_resource_make_vrs_view dev i) as [hr' view]
    end.
    cbn [fst] in Hvrs. rewrite Hvrs. reflexivity.
Qed.

Lemma align_pow2_zero k : 0 <= k < 64 -> align 0 (2 ^ k) = 0.
Proof.
  intros Hk. rewrite align_pow2 by (unfold in_u64; lia).
  assert (Hp : 0 < 2 ^ k) by (apply Z.pow_pos_nonneg; lia).
  assert (Hle : 2 ^ k < 2 ^ 64) by (apply Z.pow_lt_mono_r; lia).
  rewrite u64_small by (unfold in_u64; lia).
  rewrite Z.div_small by lia. lia.
Qed.

Lemma align_pow2_bounds x k :
  0 <= k < 64 -> 0 <= x -> x + 2 ^ k <= 2 ^ 64 ->
  x <= align x (2 ^ k) < x + 2 ^ k.
Proof.
  intros Hk Hx Hfit.
  assert (Hp : 0 < 2 ^ k) by (apply Z.pow_pos_nonneg; lia).
  rewrite align_pow2 by (unfold in_u64; lia).
  rewrite u64_small by (unfold in_u64; lia).
  pose proof (Z.mul_div_le (x + (2 ^ k - 1)) (2 ^ k) Hp).
  pose proof (Z.mul_succ_div_gt (x + (2 ^ k - 1)) (2 ^ k) Hp).
  lia.
Qed.

(** The size reported by the allocation-info query, in closed form. *)
Lemma reported_size dev d ai0 hr ai :
  Dimension d <> D3D12_RESOURCE_DIMENSION_BUFFER ->
  d3d12_resource_validate_desc dev d = S_OK ->
  FAILED (native_status dev d) = false ->
  vkd3d_get_image_allocation_info dev d ai0 = Some (hr, ai) ->
  SizeInBytes ai =
    if target_alignment d <? req_alignment (native_requirements dev d)
    then u64 (req_size (native_requirements dev d)
              + u64 (req_alignment (native_requirements dev d) - target_alignment d))
    else req_size (native_requirements dev d).
Proof.
  intros Hdim Hval Hok Hrun.
  rewrite (allocation_info_unfold dev d ai0 Hdim Hval Hok) in Hrun. cbv zeta in Hrun.
  destruct (target_alignment d <? req_alignment (native_requirements dev d));
    injection Hrun as _ <-; reflexivity.
Qed.

(** A texture description that validates has one of the placement
    alignments, or none. *)
Lemma validated_alignment dev d :
  Dimension d <> D3D12_RESOURCE_DIMENSION_BUFFER ->
  d3d12_resource_validate_desc dev d = S_OK ->
  0 <= Alignment d.
Proof.
  intros Hdim. unfold d3d12_resource_validate_desc.
  destruct (Z.eqb_spec (Dimension d) D3D12_RESOURCE_DIMENSION_BUFFER); [contradiction |].
  destruct ((Dimension d =? D3D12_RESOURCE_DIMENSION_TEXTURE1D)
            || (Dimension d =? D3D12_RESOURCE_DIMENSION_TEXTURE2D)
            || (Dimension d =? D3D12_RESOURCE_DIMENSION_TEXTURE3D)); [| discriminate].
  destruct ((Dimension d =? D3D12_RESOURCE_DIMENSION_TEXTURE1D) && negb (Height d =? 1));
    [discriminate |].
  destruct (Count (SampleDesc d) =? 0); [discriminate |].
  destruct (vkd3d_format_from_d3d12_resource_desc dev d 0) as [format |]; [| discriminate].
  destruct (d3d12_resource_validate_texture_format dev d format); cbn [negb orb];
    [| discriminate].
  destruct (d3d12_resource_validate_texture_alignment d format) eqn:Ha; cbn [negb];
    [| discriminate].
  intros _. revert Ha. unfold d3d12_resource_validate_texture_alignment.
  destruct (Z.eqb_spec (Alignment d) 0) as [-> | _]; [intros _; lia |].
  destruct (Z.eqb_spec (Alignment d) D3D12_DEFAULT_RESOURCE_PLACEMENT_ALIGNMENT)
    as [-> | _]; [intros _; unfold D3D12_DEFAULT_RESOURCE_PLACEMENT_ALIGNMENT; lia |].
  destruct (Z.eqb_spec (Alignment d) D3D12_SMALL_RESOURCE_PLACEMENT_ALIGNMENT)
    as [-> | _]; [intros _; unfold D3D12_SMALL_RESOURCE_PLACEMENT_ALIGNMENT; lia |].
  destruct (Z.eqb_spec (Alignment d) D3D12_DEFAULT_MSAA_RESOURCE_PLACEMENT_ALIGNMENT)
    as [-> | _];
    [intros _; unfold D3D12_DEFAULT_MSAA_RESOURCE_PLACEMENT_ALIGNMENT; lia |].
  cbn [negb andb orb]. rewrite orb_true_r. discriminate.
Qed.

(** Round trip: a heap sized exactly to the reported size takes the texture
    at offset 0 and refuses it at the last byte. *)
Lemma placed_round_trip dev g d heap st clr ai0 hr ai k :
  Dimension d <> D3D12_RESOURCE_DIMENSION_BUFFER ->
  d3d12_resource_validate_desc dev d = S_OK ->
  FAILED (native_status dev d) = false ->
  vkd3d_get_image_allocation_info dev d ai0 = Some (hr, ai) ->
  heap_size heap = SizeInBytes ai ->
  category_denied d heap || cross_adapter_mismatch d heap = false ->
  placement_goes_through dev d heap st clr ->
  placed_requirements dev d heap = native_requirements dev d ->
  req_alignment (native_requirements dev d) = 2 ^ k -> 0 <= k < 62 ->
  2 <= req_size (native_requirements dev d) < 2 ^ 62 ->
  status (d3d12_resource_create_placed committed dev g d heap 0 st clr) = S_OK /\
  status (d3d12_resource_create_placed committed dev g d heap
            (u64 (SizeInBytes ai - 1)) st clr) = E_INVALIDARG.
Proof.
  intros Hdim Hval Hok Hrun Hsize Hheap Hgo Hsame HA Hk Hsz.
  pose proof (validated_alignment dev d Hdim Hval) as Hal.
  pose proof (reported_size dev d ai0 hr ai Hdim Hval Hok Hrun) as HS.
  set (req := native_requirements dev d) in *.
  assert (Hp : 0 < 2 ^ k) by (apply Z.pow_pos_nonneg; lia).
  assert (Hle : 2 ^ k < 2 ^ 62) by (apply Z.pow_lt_mono_r; lia).
  assert (HT : 0 < target_alignment d).
  { unfold target_alignment. destruct (Z.eqb_spec (Alignment d) 0);
      [reflexivity | lia]. }
  assert (HSb : req_size req <= SizeInBytes ai <= req_size req + 2 ^ k).
  { rewrite HS. destruct (Z.ltb_spec (target_alignment d) (req_alignment req)) as [Hlt | Hge].
    - rewrite HA in *.
      rewrite (u64_small (2 ^ k - target_alignment d)) by (unfold in_u64; lia).
      rewrite u64_small by (unfold in_u64; lia). lia.
    - lia. }
  rewrite !placed_status_by_capacity by assumption.
  unfold capacity_exceeded.
  destruct (Z.eqb_spec (Dimension d) D3D12_RESOURCE_DIMENSION_BUFFER); [contradiction |].
  rewrite Hsame. fold req. rewrite HA, Hsize. cbv zeta. split.
  - rewrite align_pow2_zero by lia.
    rewrite u64_small by (unfold in_u64; lia).
    destruct (Z.ltb_spec (SizeInBytes ai) (0 + req_size req)); [lia | reflexivity].
  - rewrite (u64_small (SizeInBytes ai - 1)) by (unfold in_u64; lia).
    pose proof (align_pow2_bounds (SizeInBytes ai - 1) k) as Hb.
    assert (H64 : 2 ^ 62 * 4 = 2 ^ 64) by reflexivity.
    specialize (Hb ltac:(lia) ltac:(lia) ltac:(lia)).
    rewrite u64_small by (unfold in_u64; lia).
    destruct (Z.ltb_spec (SizeInBytes ai)
                (align (SizeInBytes ai - 1) (2 ^ k) + req_size req)); [reflexivity | lia].
Qed.

(** On a power of two and without wrap-around, [align] gives the least
    multiple of the alignment that is not below the offset. *)
Lemma align_pow2_least x k :
  0 <= k < 64 -> 0 <= x -> x + 2 ^ k <= 2 ^ 64 ->
  x <= align x (2 ^ k) < x + 2 ^ k /\ align x (2 ^ k) mod 2 ^ k = 0.
Proof.
  intros Hk Hx Hfit. split; [apply align_pow2_bounds; assumption |].
  assert (Hp : 0 < 2 ^ k) by (apply Z.pow_pos_nonneg; lia).
  rewrite align_pow2 by (unfold in_u64; lia).
  rewrite Z.mul_comm. apply Z.mod_mul. lia.
Qed.

(** C7 (as amended).  [d3d12_resource_create_placed] answers
    [E_INVALIDARG] whenever the heap denies the category of the resource or
    is a cross-adapter heap for a resource without [ALLOW_CROSS_ADAPTER].
    On a heap that passes these checks and has backing memory, when the
    resource object and the native image are created and bound, and as
    long as offset, alignment and size add up to no more than 2^64, so that
    nothing wraps around: a buffer's offset is taken as given, a texture's
    offset is re-aligned upward to the next multiple of the native
    alignment, a power of two, and the call answers [E_INVALIDARG] exactly
    when that offset plus the required size exceeds the heap's capacity,
    [S_OK] otherwise.  In particular, when the driver reports for the image
    of the placed texture the requirements it reported for the image that
    [vkd3d_get_image_allocation_info] created, a texture whose description
    validates is accepted at offset 0 of a heap sized exactly to the
    reported [SizeInBytes], and refused with [E_INVALIDARG] at offset
    [SizeInBytes - 1] when the native size is at least two bytes. *)
Theorem placed_invalid_argument_cases dev g d heap off st clr :
  (category_denied d heap || cross_adapter_mismatch d heap = true ->
     status (d3d12_resource_create_placed committed dev g d heap off st clr)
       = E_INVALIDARG) /\
  (category_denied d heap || cross_adapter_mismatch d heap = false ->
   placement_goes_through dev d heap st clr ->
     (* a buffer: the offset as given *)
     (Dimension d = D3D12_RESOURCE_DIMENSION_BUFFER ->
      0 <= off -> 0 <= Width d -> off + Width d < 2 ^ 64 ->
      (status (d3d12_resource_create_placed committed dev g d heap off st clr)
         = E_INVALIDARG <-> heap_size heap < off + Width d) /\
      (off + Width d <= heap_size heap ->
       status (d3d12_resource_create_placed committed dev g d heap off st clr) = S_OK)) /\
     (* a texture: the offset re-aligned upward *)
     (Dimension d <> D3D12_RESOURCE_DIMENSION_BUFFER ->
      forall k,
        req_alignment (placed_requirements dev d heap) = 2 ^ k -> 0 <= k < 64 ->
        0 <= off -> 0 <= req_size (placed_requirements dev d heap) ->
        off + 2 ^ k + req_size (placed_requirements dev d heap) <= 2 ^ 64 ->
        exists aligned,
          off <= aligned < off + 2 ^ k /\ aligned mod 2 ^ k = 0 /\
          (status (d3d12_resource_create_placed committed dev g d heap off st clr)
             = E_INVALIDARG
           <-> heap_size heap < aligned + req_size (placed_requirements dev d heap)) /\
          (aligned + req_size (placed_requirements dev d heap) <= heap_size heap ->
           status (d3d12_resource_create_placed committed dev g d heap off st clr)
             = S_OK)) /\
     (* the round trip through the allocation-info query *)
     (forall ai0 hr ai k,
        Dimension d <> D3D12_RESOURCE_DIMENSION_BUFFER ->
        d3d12_resource_validate_desc dev d = S_OK ->
        FAILED (native_status dev d) = false ->
        vkd3d_get_image_allocation_info dev d ai0 = Some (hr, ai) ->
        heap_size heap = SizeInBytes ai ->
        placed_requirements dev d heap = native_requirements dev d ->
        req_alignment (native_requirements dev d) = 2 ^ k -> 0 <= k < 62 ->
        2 <= req_size (native_requirements dev d) < 2 ^ 62 ->
        status (d3d12_resource_create_placed committed dev g d heap 0 st clr) = S_OK /\
        status (d3d12_resource_create_placed committed dev g d heap
                  (u64 (SizeInBytes ai - 1)) st clr) = E_INVALIDARG)).
Proof.
  split.
  - intros H. rewrite placed_rejects_heap by exact H. reflexivity.
  - intros Hheap Hgo. split; [| split].
    + intros Hbuf Hoff Hw Hfit.
      rewrite placed_status_by_capacity by assumption.
      unfold capacity_exceeded. rewrite Hbuf, Z.eqb_refl.
      rewrite u64_small by (unfold in_u64; lia).
      destruct (Z.ltb_spec (heap_size heap) (off + Width d)) as [Hlt | Hge].
      * split; [split; intros; [exact Hlt | reflexivity] | intros; lia].
      * split; [split; intros H; [discriminate H | lia] | reflexivity].
    + intros Htex k HA Hk Hoff Hsz Hfit.
      destruct (align_pow2_least off k Hk Hoff ltac:(lia)) as [Hb Hm].
      exists (align off (2 ^ k)). split; [exact Hb |]. split; [exact Hm |].
      rewrite placed_status_by_capacity by assumption.
      unfold capacity_exceeded.
      destruct (Z.eqb_spec (Dimension d) D3D12_RESOURCE_DIMENSION_BUFFER); [contradiction |].
      cbv zeta. rewrite HA.
      rewrite u64_small by (unfold in_u64; lia).
      destruct (Z.ltb_spec (heap_size heap)
                  (align off (2 ^ k) + req_size (placed_requirements dev d heap)))
        as [Hlt | Hge].
      * split; [split; intros; [exact Hlt | reflexivity] | intros; lia].
      * split; [split; intros H; [discriminate H | lia] | reflexivity].
    + intros ai0 hr ai k Hdim Hval Hok Hrun Hsize Hsame HA Hk Hsz.
      eapply placed_round_trip; eassumption.
Qed.

End PlacedFacts.

Lemma examples_placement_goes_through size :
  Resource.placement_goes_through Examples.device Examples.texture_desc
    (Examples.heap_of 0 size) 0 false.
Proof.
  unfold Resource.placement_goes_through.
  repeat split; try reflexivity; try discriminate.
Qed.

Lemma placed_invalid_argument_cases_witness :
  Resource.status
    (Resource.d3d12_resource_create_placed Examples.no_committed Examples.device
       Cookie.initial Examples.texture_desc
       (Examples.heap_of Api.D3D12_HEAP_FLAG_DENY_NON_RT_DS_TEXTURES 1114112) 0 0 false)
    = Api.E_INVALIDARG /\
  Resource.status
    (Resource.d3d12_resource_create_placed Examples.no_committed Examples.device
       Cookie.initial Examples.texture_desc (Examples.heap_of 0 1114112) 0 0 false)
    = Api.S_OK /\
  Resource.status
    (Resource.d3d12_resource_create_placed Examples.no_committed Examples.device
       Cookie.initial Examples.texture_desc (Examples.heap_of 0 1114112) 1114111 0 false)
    = Api.E_INVALIDARG /\
  (* offset 1 is re-aligned to 131072, from where 1 MiB does not fit *)
  Resource.status
    (Resource.d3d12_resource_create_placed Examples.no_committed Examples.device
       Cookie.initial Examples.texture_desc (Examples.heap_of 0 1114112) 1 0 false)
    = Api.E_INVALIDARG.
Proof.
  split; [| split; [| split]].
  - destruct (placed_invalid_argument_cases Examples.no_committed Examples.device
                Cookie.initial Examples.texture_desc
                (Examples.heap_of Api.D3D12_HEAP_FLAG_DENY_NON_RT_DS_TEXTURES 1114112)
                0 0 false) as [H _].
    apply H. reflexivity.
  - destruct (placed_invalid_argument_cases Examples.no_committed Examples.device
                Cookie.initial Examples.texture_desc (Examples.heap_of 0 1114112)
                0 0 false) as [_ H].
    destruct (H eq_refl (examples_placement_goes_through 1114112)) as (_ & _ & Hrt).
    apply (Hrt Examples.no_info Api.S_OK
             {| Resource.SizeInBytes := 1114112; Resource.info_Alignment := 65536 |} 17);
      try reflexivity; try discriminate; vm_compute; split; congruence.
  - destruct (placed_invalid_argument_cases Examples.no_committed Examples.device
                Cookie.initial Examples.texture_desc (Examples.heap_of 0 1114112)
                0 0 false) as [_ H].
    destruct (H eq_refl (examples_placement_goes_through 1114112)) as (_ & _ & Hrt).
    apply (Hrt Examples.no_info Api.S_OK
             {| Resource.SizeInBytes := 1114112; Resource.info_Alignment := 65536 |} 17);
      try reflexivity; try discriminate; vm_compute; split; congruence.
  - destruct (placed_invalid_argument_cases Examples.no_committed Examples.device
                Cookie.initial Examples.texture_desc (Examples.heap_of 0 1114112)
                1 0 false) as [_ H].
    destruct (H eq_refl (examples_placement_goes_through 1114112)) as (_ & Htex & _).
    destruct (Htex ltac:(discriminate) 17 eq_refl ltac:(lia) ltac:(lia)
                ltac:(vm_compute; discriminate) ltac:(vm_compute; discriminate))
      as (aligned & Hb & Hm & Hiff & _).
    apply Hiff.
    change (Resource.heap_size (Examples.heap_of 0 1114112)) with 1114112.
    change (Resource.req_size
              (Resource.placed_requirements Examples.device Examples.texture_desc
                 (Examples.heap_of 0 1114112))) with 1048576.
    change (2 ^ 17) with 131072 in *.
    assert (aligned = 131072); [| lia].
    pose proof (Z.div_mod aligned 131072 ltac:(lia)) as Hdm.
    rewrite Hm in Hdm.
    assert (aligned / 131072 = 1); [| lia].
    assert (0 < aligned / 131072 < 2); [| lia].
    split; [apply Z.div_str_pos; lia | apply Z.div_lt_upper_bound; lia].
Defined.

(** The claim as stated fails in four places.  A cross-adapter heap refuses
    a resource whose category it allows and which fits.  With a driver that
    reports a one-byte image, the last byte of an exactly sized heap is
    offset 0, where placement succeeds.  An offset so large that
    re-aligning it wraps around to 0 is accepted, although the texture
    would end far beyond the heap.  And on a heap whose properties make the
    driver ask for more memory than it asked for the image of the
    allocation-info query, the texture does not fit at offset 0 of a heap
    of the reported size. *)
Lemma placed_invalid_argument_counterexample :
  (let heap := Examples.heap_of Api.D3D12_HEAP_FLAG_SHARED_CROSS_ADAPTER (2 ^ 30) in
   Resource.status
     (Resource.d3d12_resource_create_placed Examples.no_committed Examples.device
        Cookie.initial Examples.texture_desc heap 0 0 false) = Api.E_INVALIDARG /\
   Resource.capacity_exceeded Examples.device Examples.texture_desc heap 0 = false /\
   Resource.category_denied Examples.texture_desc heap = false) /\
  (Resource.vkd3d_get_image_allocation_info Examples.tiny_device Examples.texture_desc
     Examples.no_info
     = Some (Api.S_OK, {| Resource.SizeInBytes := 1; Resource.info_Alignment := 1 |}) /\
   Resource.status
     (Resource.d3d12_resource_create_placed Examples.no_committed Examples.tiny_device
        Cookie.initial Examples.texture_desc (Examples.heap_of 0 1)
        (Machine.u64 (1 - 1)) 0 false) = Api.S_OK) /\
  (Machine.align (2 ^ 64 - 65536) 131072 = 0 /\
   Resource.status
     (Resource.d3d12_resource_create_placed Examples.no_committed Examples.device
        Cookie.initial Examples.texture_desc (Examples.heap_of 0 1114112)
        (2 ^ 64 - 65536) 0 false) = Api.S_OK) /\
  (Resource.vkd3d_get_image_allocation_info Examples.linear_device Examples.texture_desc
     Examples.no_info
     = Some (Api.S_OK,
             {| Resource.SizeInBytes := 1114112; Resource.info_Alignment := 65536 |}) /\
   Resource.placed_requirements Examples.linear_device Examples.texture_desc
     (Examples.custom_heap_of 1114112)
     = {| Resource.req_size := 2097152; Resource.req_alignment := 131072;
          Resource.memoryTypeBits := 1 |} /\
   Resource.status
     (Resource.d3d12_resource_create_placed Examples.no_committed Examples.linear_device
        Cookie.initial Examples.texture_desc (Examples.custom_heap_of 1114112) 0 0 false)
     = Api.E_INVALIDARG).
Proof. vm_compute. repeat split; reflexivity. Qed.

(** ** Reference counting *)

Section LifetimeFacts.
Import Machine Api Resource.

Lemma device_references_app l1 l2 :
  device_references (l1 ++ l2) = device_references l1 + device_references l2.
Proof.
  induction l1 as [| e l1 IH]; [reflexivity |].
  destruct e; cbn [app device_references]; rewrite IH; lia.
Qed.

Lemma called_app e l1 l2 : called e (l1 ++ l2) = called e l1 || called e l2.
Proof. unfold called. apply existsb_app. Qed.

Lemma destroy_external dev r :
  has_flag (flags r) VKD3D_RESOURCE_EXTERNAL = true ->
  d3d12_resource_destroy dev r = [ViewMapDestroy; UnregisterCookie (res_cookie r)].
Proof. intros H. unfold d3d12_resource_destroy. rewrite H. reflexivity. Qed.

Lemma destroy_owned dev r :
  has_flag (flags r) VKD3D_RESOURCE_EXTERNAL = false ->
  called FreeObject (d3d12_resource_destroy dev r) = true /\
  device_references (d3d12_resource_destroy dev r) = -1 /\
  (d3d12_resource_is_texture r = true ->
   called (DestroyImage (res_vk_image r)) (d3d12_resource_destroy dev r) = true) /\
  (d3d12_resource_is_texture r = false ->
   has_flag (flags r) VKD3D_RESOURCE_RESERVED = true ->
   called (DestroyBuffer (res_vk_buffer r)) (d3d12_resource_destroy dev r) = true) /\
  (has_flag (flags r) VKD3D_RESOURCE_ALLOCATION = true -> mem_vk_memory r <> 0 ->
   called (FreeMemory (mem_vk_memory r)) (d3d12_resource_destroy dev r) = true).
Proof.
  intros Hext. unfold d3d12_resource_destroy. rewrite Hext.
  repeat split.
  - rewrite !called_app. cbn. rewrite !orb_true_r. reflexivity.
  - rewrite !device_references_app.
    destruct (has_flag (flags r) VKD3D_RESOURCE_RESERVED);
      destruct (res_va r =? 0); destruct (bufferDeviceAddress dev);
      destruct (d3d12_resource_is_texture r);
      destruct (has_flag (flags r) VKD3D_RESOURCE_ALLOCATION && negb (mem_vk_memory r =? 0));
      destruct (vrs_view r =? 0); reflexivity.
  - intros Ht. rewrite Ht, !called_app. cbn [called existsb effect_eqb].
    rewrite Z.eqb_refl. cbn. rewrite !orb_true_r. reflexivity.
  - intros Ht Hres. rewrite Ht, Hres, !called_app. cbn [called existsb effect_eqb].
    rewrite Z.eqb_refl. cbn. rewrite !orb_true_r. reflexivity.
  - intros Ha Hm. rewrite Ha. destruct (Z.eqb_spec (mem_vk_memory r) 0); [contradiction |].
    rewrite !called_app. cbn [andb negb called existsb effect_eqb].
    rewrite Z.eqb_refl. cbn. rewrite !orb_true_r. reflexivity.
Qed.

Lemma destroy_external_keeps_native dev r x :
  has_flag (flags r) VKD3D_RESOURCE_EXTERNAL = true ->
  called (DestroyImage x) (d3d12_resource_destroy dev r) = false /\
  called (DestroyBuffer x) (d3d12_resource_destroy dev r) = false /\
  called (FreeMemory x) (d3d12_resource_destroy dev r) = false.
Proof. intros H. rewrite (destroy_external dev r H). repeat split; reflexivity. Qed.

(** What a counting call adds to the calls made when it does not destroy
    the resource: nothing, or the acquisition of the device reference. *)
Lemma kept_calls_destroy_nothing l l' x :
  l' = l \/ l' = l ++ [DeviceAddRef] ->
  called (DestroyImage x) l' = called (DestroyImage x) l /\
  called (DestroyBuffer x) l' = called (DestroyBuffer x) l /\
  called (FreeMemory x) l' = called (FreeMemory x) l.
Proof.
  intros [-> | ->]; [repeat split; reflexivity |].
  rewrite !called_app. cbn [called existsb effect_eqb]. rewrite !orb_false_r.
  repeat split; reflexivity.
Qed.

Lemma counting_call_cases dev s s' :
  destroyed s = false ->
  0 < internal_refcount (object s) < 2 ^ 32 - 1 ->
  s' = snd (d3d12_resource_AddRef s) \/ s' = snd (d3d12_resource_Release dev s) \/
  s' = snd (d3d12_resource_incref s) \/ s' = snd (d3d12_resource_decref dev s) ->
  (destroyed s' = true <-> internal_refcount (object s') = 0) /\
  (destroyed s' = false -> calls s' = calls s \/ calls s' = calls s ++ [DeviceAddRef]) /\
  (destroyed s' = true -> calls s' = calls s ++ d3d12_resource_destroy dev (object s')).
Proof.
  intros Hlive Hint Hop.
  assert (Hinc : InterlockedIncrement (internal_refcount (object s))
                 = internal_refcount (object s) + 1).
  { unfold InterlockedIncrement. apply u32_small. unfold in_u32. lia. }
  assert (Hdec : InterlockedDecrement (internal_refcount (object s))
                 = internal_refcount (object s) - 1).
  { unfold InterlockedDecrement. apply u32_small. unfold in_u32. lia. }
  destruct Hop as [-> | [-> | [-> | ->]]].
  - unfold d3d12_resource_AddRef.
    destruct (InterlockedIncrement (refcount (object s)) =? 1);
      cbn [d3d12_resource_incref snd object set_refcount set_internal_refcount
           internal_refcount calls destroyed];
      rewrite ?Hinc, Hlive; repeat split; intros; try discriminate; try lia; auto.
  - unfold d3d12_resource_Release.
    destruct (InterlockedDecrement (refcount (object s)) =? 0).
    + unfold d3d12_resource_decref.
      cbn [object set_refcount internal_refcount calls destroyed]. rewrite Hdec.
      destruct (Z.eqb_spec (internal_refcount (object s) - 1) 0) as [Hz | Hnz];
        cbn [snd object set_internal_refcount internal_refcount calls destroyed];
        rewrite ?Hlive; repeat split; intros; try discriminate; try lia; auto.
    + cbn [snd object set_refcount internal_refcount calls destroyed].
      rewrite Hlive; repeat split; intros; try discriminate; try lia; auto.
  - cbn [d3d12_resource_incref snd object set_internal_refcount internal_refcount
         calls destroyed].
    rewrite Hinc, Hlive; repeat split; intros; try discriminate; try lia; auto.
  - unfold d3d12_resource_decref. rewrite Hdec.
    destruct (Z.eqb_spec (internal_refcount (object s) - 1) 0) as [Hz | Hnz];
      cbn [snd object set_internal_refcount internal_refcount calls destroyed];
      rewrite ?Hlive; repeat split; intros; try discriminate; try lia; auto.
Qed.

(** C2 (as amended).  For a live resource whose internal count is positive
    and below 2^32 - 1, so that incrementing it does not wrap to zero:
    - a public [AddRef] crossing 0 to 1 acquires one reference on the device
      and increments the internal count;
    - a public [Release] reaching 0 decrements the internal count;
    - each of the four counting calls leaves the resource destroyed exactly
      when it leaves the internal count at zero; then
      [d3d12_resource_destroy] has run, and otherwise no native image, no
      buffer and no memory has been destroyed by the call;
    - [d3d12_resource_destroy] destroys the native image, or the buffer of
      a reserved buffer, frees the owned memory, releases one device
      reference and frees the structure of a resource that is not external;
      it leaves the native image of an external resource alone. *)
Theorem refcount_lifetime dev s :
  destroyed s = false ->
  0 < internal_refcount (object s) < 2 ^ 32 - 1 ->
  (refcount (object s) = 0 ->
     let '(n, s') := d3d12_resource_AddRef s in
     n = 1 /\ refcount (object s') = 1 /\
     internal_refcount (object s') = internal_refcount (object s) + 1 /\
     device_references (calls s') = device_references (calls s) + 1 /\
     destroyed s' = false) /\
  (refcount (object s) = 1 ->
     let '(n, s') := d3d12_resource_Release dev s in
     n = 0 /\ refcount (object s') = 0 /\
     internal_refcount (object s') = internal_refcount (object s) - 1) /\
  (forall s',
     s' = snd (d3d12_resource_AddRef s) \/ s' = snd (d3d12_resource_Release dev s) \/
     s' = snd (d3d12_resource_incref s) \/ s' = snd (d3d12_resource_decref dev s) ->
     (destroyed s' = true <-> internal_refcount (object s') = 0) /\
     (destroyed s' = true -> calls s' = calls s ++ d3d12_resource_destroy dev (object s')) /\
     (destroyed s' = false ->
      forall x,
        called (DestroyImage x) (calls s') = called (DestroyImage x) (calls s) /\
        called (DestroyBuffer x) (calls s') = called (DestroyBuffer x) (calls s) /\
        called (FreeMemory x) (calls s') = called (FreeMemory x) (calls s))) /\
  (forall r,
     (has_flag (flags r) VKD3D_RESOURCE_EXTERNAL = false ->
        called FreeObject (d3d12_resource_destroy dev r) = true /\
        device_references (d3d12_resource_destroy dev r) = -1 /\
        (d3d12_resource_is_texture r = true ->
         called (DestroyImage (res_vk_image r)) (d3d12_resource_destroy dev r) = true) /\
        (d3d12_resource_is_texture r = false ->
         has_flag (flags r) VKD3D_RESOURCE_RESERVED = true ->
         called (DestroyBuffer (res_vk_buffer r)) (d3d12_resource_destroy dev r) = true) /\
        (has_flag (flags r) VKD3D_RESOURCE_ALLOCATION = true -> mem_vk_memory r <> 0 ->
         called (FreeMemory (mem_vk_memory r)) (d3d12_resource_destroy dev r) = true)) /\
     (has_flag (flags r) VKD3D_RESOURCE_EXTERNAL = true ->
        forall x,
          called (DestroyImage x) (d3d12_resource_destroy dev r) = false /\
          called (DestroyBuffer x) (d3d12_resource_destroy dev r) = false /\
          called (FreeMemory x) (d3d12_resource_destroy dev r) = false)).
Proof.
  intros Hlive Hint.
  assert (Hinc : InterlockedIncrement (internal_refcount (object s))
                 = internal_refcount (object s) + 1).
  { unfold InterlockedIncrement. apply u32_small. unfold in_u32. lia. }
  assert (Hdec : InterlockedDecrement (internal_refcount (object s))
                 = internal_refcount (object s) - 1).
  { unfold InterlockedDecrement. apply u32_small. unfold in_u32. lia. }
  split; [| split; [| split]].
  - intros H0. unfold d3d12_resource_AddRef. rewrite H0.
    change (InterlockedIncrement 0) with 1. cbn [Z.eqb Pos.eqb].
    cbn [d3d12_resource_incref snd object set_refcount set_internal_refcount
         internal_refcount refcount calls destroyed].
    rewrite Hinc, device_references_app. cbn [device_references].
    repeat split; try reflexivity; try assumption.
  - intros H1. unfold d3d12_resource_Release. rewrite H1.
    change (InterlockedDecrement 1) with 0. cbn [Z.eqb].
    unfold d3d12_resource_decref.
    cbn [object set_refcount internal_refcount calls destroyed]. rewrite Hdec.
    destruct (Z.eqb_spec (internal_refcount (object s) - 1) 0) as [Hz | Hnz];
      cbn [snd object set_internal_refcount internal_refcount refcount calls destroyed];
      repeat split; reflexivity.
  - intros s' Hop.
    destruct (counting_call_cases dev s s' Hlive Hint Hop) as (Hiff & Hkept & Hgone).
    split; [exact Hiff |]. split; [exact Hgone |].
    intros Hd x. apply kept_calls_destroy_nothing, Hkept, Hd.
  - intros r. split; [apply destroy_owned |].
    intros Hext x. apply destroy_external_keeps_native, Hext.
Qed.

End LifetimeFacts.

Lemma refcount_lifetime_witness :
  exists s',
    s' = snd (Resource.d3d12_resource_Release Examples.device
                (Resource.fresh (Examples.texture_resource 1 1 Examples.committed_flags))) /\
    Resource.refcount (Resource.object s') = 0 /\
    Resource.internal_refcount (Resource.object s') = 0 /\
    Resource.destroyed s' = true.
Proof.
  pose proof (refcount_lifetime Examples.device
                (Resource.fresh (Examples.texture_resource 1 1 Examples.committed_flags))
                eq_refl) as H.
  destruct H as (_ & Hrel & Hall & _); [vm_compute; split; reflexivity |].
  specialize (Hrel eq_refl).
  specialize (Hall _ (or_intror (or_introl eq_refl))).
  destruct (Resource.d3d12_resource_Release Examples.device
              (Resource.fresh (Examples.texture_resource 1 1 Examples.committed_flags)))
    as [n t].
  destruct Hrel as (_ & Hr & Hi).
  exists t. split; [reflexivity | split; [exact Hr | split; [exact Hi |]]].
  apply (proj1 Hall). exact Hi.
Defined.

(** The claim as stated fails on an external resource, which wraps a native
    image it does not own: when its internal count reaches zero the
    resource is destroyed and the native image is not. *)
Lemma refcount_lifetime_counterexample :
  let s := Resource.fresh (Examples.texture_resource 0 1 Resource.VKD3D_RESOURCE_EXTERNAL) in
  let '(n, s') := Resource.d3d12_resource_decref Examples.device s in
  n = 0 /\ Resource.internal_refcount (Resource.object s') = 0 /\
  Resource.destroyed s' = true /\
  Resource.native_object_released (Resource.object s') (Resource.calls s') = false.
Proof. vm_compute. repeat split; reflexivity. Qed.

(** A public handle that is dropped and taken again while another holder
    keeps the resource alive costs one device reference that no later call
    gives back: after the last holder is gone the resource is destroyed and
    the device is still referenced once. *)
Lemma readded_reference_is_kept :
  let s0 := Resource.fresh (Examples.texture_resource 1 1 Examples.committed_flags) in
  let s1 := snd (Resource.d3d12_resource_incref s0) in
  let s2 := snd (Resource.d3d12_resource_Release Examples.device s1) in
  let s3 := snd (Resource.d3d12_resource_AddRef s2) in
  let s4 := snd (Resource.d3d12_resource_Release Examples.device s3) in
  let s5 := snd (Resource.d3d12_resource_decref Examples.device s4) in
  Resource.destroyed s5 = true /\
  Resource.device_references (Resource.calls s5) = 1.
Proof. vm_compute. split; reflexivity. Qed.

(** ** Sparse tiling *)

Section SparseFacts.
Import Machine Api Resource Sparse.

Variable tile_product_bits : Z.
Variable vkd3d_malloc : Z -> bool.
Variable sub_resource_count_per_plane : D3D12_RESOURCE_DESC -> Z.

Lemma align_tile_size w :
  0 <= w -> w + 65535 < 2 ^ 64 ->
  align w VKD3D_TILE_SIZE / VKD3D_TILE_SIZE = tiles_needed w.
Proof.
  intros Hw Hfit. unfold tiles_needed, VKD3D_TILE_SIZE.
  change 65536 with (2 ^ 16).
  rewrite align_pow2 by (unfold in_u64; lia).
  rewrite u64_small by (unfold in_u64; lia).
  rewrite Z.mul_comm, Z.div_mul by lia. reflexivity.
Qed.

Lemma tiles_needed_bounds w :
  0 <= w ->
  0 <= tiles_needed w /\ VKD3D_TILE_SIZE * (tiles_needed w - 1) < w + 0 ^ w
  /\ w <= VKD3D_TILE_SIZE * tiles_needed w.
Proof.
  intros Hw. unfold tiles_needed, VKD3D_TILE_SIZE.
  pose proof (Z.mul_div_le (w + (65536 - 1)) 65536 ltac:(lia)).
  pose proof (Z.mul_succ_div_gt (w + (65536 - 1)) 65536 ltac:(lia)).
  assert (0 <= (w + (65536 - 1)) / 65536) by (apply Z.div_pos; lia).
  assert (0 <= 0 ^ w) by (apply Z.pow_nonneg; lia).
  lia.
Qed.

Lemma buffer_tiles_lookup width count i :
  0 <= i < count ->
  buffer_tiles tile_product_bits width count !! Z.to_nat i
    = Some (buffer_tile tile_product_bits width i).
Proof.
  intros Hi. unfold buffer_tiles.
  rewrite list_lookup_fmap, lookup_seq_lt by lia.
  cbn. rewrite Z2Nat.id by lia. reflexivity.
Qed.

Lemma buffer_tiles_length width count :
  length (buffer_tiles tile_product_bits width count) = Z.to_nat count.
Proof. unfold buffer_tiles. rewrite length_fmap, length_seq. reflexivity. Qed.

Lemma buffer_tile_in_range width i :
  0 <= i -> VKD3D_TILE_SIZE * i < width -> width < 2 ^ 64 ->
  VKD3D_TILE_SIZE * i < 2 ^ tile_product_bits -> 0 <= tile_product_bits <= 64 ->
  buffer_tile tile_product_bits width i =
    {| buffer_offset := VKD3D_TILE_SIZE * i;
       buffer_length := Z.min VKD3D_TILE_SIZE (width - VKD3D_TILE_SIZE * i);
       vk_memory := VK_NULL_HANDLE; vk_offset := 0 |}.
Proof.
  intros Hi Hlt Hw Hprod Hbits. unfold buffer_tile, tile_byte_offset, VKD3D_TILE_SIZE in *.
  rewrite (wrap_small tile_product_bits) by lia.
  rewrite (u64_small (65536 * i)) by (unfold in_u64; lia).
  rewrite u64_small by (unfold in_u64; lia). reflexivity.
Qed.

(** C8 (as amended).  For a reserved buffer whose width [W] is at most
    [2^48 - 65536] bytes and at most what the tile-offset product can hold,
    and when the two host allocations succeed, the tile table holds exactly
    [ceil (W / VKD3D_TILE_SIZE)] tiles; tile [i] covers byte offset
    [VKD3D_TILE_SIZE * i] with length [min VKD3D_TILE_SIZE (W - VKD3D_TILE_SIZE * i)],
    so tile 0 covers the bytes from 0 to [min VKD3D_TILE_SIZE W]; and every
    tile starts unbound, with a null memory handle and a zero memory
    offset. *)
Theorem reserved_buffer_tile_table r W :
  Dimension (desc r) = D3D12_RESOURCE_DIMENSION_BUFFER ->
  has_flag (flags r) VKD3D_RESOURCE_RESERVED = true ->
  Width (desc r) = W ->
  0 <= W <= 2 ^ 48 - 65536 ->
  0 <= tile_product_bits <= 64 -> W <= 2 ^ tile_product_bits ->
  (forall n, vkd3d_malloc n = true) ->
  exists sparse,
    d3d12_resource_init_sparse_info tile_product_bits vkd3d_malloc
      sub_resource_count_per_plane r = Some (S_OK, sparse) /\
    tile_count sparse = tiles_needed W /\
    length (tiles sparse) = Z.to_nat (tiles_needed W) /\
    (forall i, 0 <= i < tiles_needed W ->
       tiles sparse !! Z.to_nat i =
         Some {| buffer_offset := VKD3D_TILE_SIZE * i;
                 buffer_length := Z.min VKD3D_TILE_SIZE (W - VKD3D_TILE_SIZE * i);
                 vk_memory := VK_NULL_HANDLE; vk_offset := 0 |}) /\
    (0 < W ->
       tiles sparse !! 0%nat =
         Some {| buffer_offset := 0; buffer_length := Z.min VKD3D_TILE_SIZE W;
                 vk_memory := VK_NULL_HANDLE; vk_offset := 0 |}).
Proof.
  intros Hdim Hres HW Hrange Hbits Hprod Hmalloc.
  destruct (tiles_needed_bounds W ltac:(lia)) as (Hn0 & Hnlast & Hncover).
  assert (H48 : 2 ^ 48 = 281474976710656) by reflexivity.
  assert (H64 : 2 ^ 64 = 18446744073709551616) by reflexivity.
  assert (Hcount : u32 (align W VKD3D_TILE_SIZE / VKD3D_TILE_SIZE) = tiles_needed W).
  { rewrite align_tile_size by lia. apply u32_small. unfold in_u32.
    split; [exact Hn0 |]. unfold tiles_needed, VKD3D_TILE_SIZE.
    apply Z.div_lt_upper_bound; lia. }
  assert (Htile : forall i, 0 <= i < tiles_needed W ->
            buffer_tile tile_product_bits W i =
              {| buffer_offset := VKD3D_TILE_SIZE * i;
                 buffer_length := Z.min VKD3D_TILE_SIZE (W - VKD3D_TILE_SIZE * i);
                 vk_memory := VK_NULL_HANDLE; vk_offset := 0 |}).
  { intros i Hi.
    assert (Hlt : VKD3D_TILE_SIZE * i < W).
    { destruct (Z.eq_dec W 0) as [Hz | Hnz];
        [rewrite Hz in Hi; change (tiles_needed 0) with 0 in Hi; lia |].
      rewrite Z.pow_0_l in Hnlast by lia. unfold VKD3D_TILE_SIZE in *. nia. }
    apply buffer_tile_in_range; unfold VKD3D_TILE_SIZE in *; lia. }
  unfold d3d12_resource_init_sparse_info, d3d12_resource_get_tiling.
  rewrite Hres, !Hmalloc, Hdim, Z.eqb_refl, HW, Hcount. cbn [negb total_tile_count].
  rewrite Hmalloc. cbn [negb].
  eexists. split; [reflexivity |].
  cbn [tile_count tiles total_tile_count].
  split; [reflexivity | split; [apply buffer_tiles_length | split]].
  - intros i Hi. rewrite buffer_tiles_lookup by exact Hi. f_equal. apply Htile, Hi.
  - intros Hpos.
    assert (H1 : 0 <= 0 < tiles_needed W).
    { split; [lia |]. unfold VKD3D_TILE_SIZE in *. lia. }
    change 0%nat with (Z.to_nat 0).
    rewrite buffer_tiles_lookup by exact H1. f_equal.
    rewrite (Htile 0 H1). f_equal. f_equal. unfold VKD3D_TILE_SIZE. lia.
Qed.

End SparseFacts.

Lemma reserved_buffer_tile_table_witness :
  exists sparse,
    Sparse.d3d12_resource_init_sparse_info 32 (fun _ => true) (fun _ => 1)
      (Examples.reserved_buffer 196603) = Some (Api.S_OK, sparse) /\
    Sparse.tile_count sparse = 3 /\
    Sparse.tiles sparse !! 2%nat =
      Some {| Sparse.buffer_offset := 131072; Sparse.buffer_length := 65531;
              Sparse.vk_memory := 0; Sparse.vk_offset := 0 |}.
Proof.
  destruct (reserved_buffer_tile_table 32 (fun _ => true) (fun _ => 1)
              (Examples.reserved_buffer 196603) 196603)
    as (sparse & Hrun & Hcount & _ & Htiles & _);
    try reflexivity; try (vm_compute; split; discriminate); try (vm_compute; discriminate).
  exists sparse. split; [exact Hrun | split; [exact Hcount |]].
  exact (Htiles 2 ltac:(vm_compute; split; [discriminate | reflexivity])).
Defined.

(** The claim as stated fails for widths the counters cannot hold: a buffer
    of [2^48] bytes needs [2^32] tiles, and the [unsigned int] tile count
    comes out as 0. *)
Lemma reserved_buffer_tile_table_counterexample :
  exists t,
    Sparse.d3d12_resource_get_tiling (Examples.reserved_buffer (2 ^ 48)) = Some t /\
    Sparse.total_tile_count t = 0 /\
    Sparse.tiles_needed (2 ^ 48) = 2 ^ 32.
Proof. eexists. split; [reflexivity | split; reflexivity]. Qed.

(** With a plain 32-bit literal for the tile size, the first tile beyond
    4 GiB is given byte offset 0. *)
Lemma tile_offset_wraps_with_plain_literal :
  Sparse.tile_byte_offset 32 65536 = 0 /\ Sparse.tile_byte_offset 64 65536 = 2 ^ 32.
Proof. split; reflexivity. Qed.

(** ** View keys *)

Section ViewKeyFacts.
Import Machine Api ViewKey.

Variable hash_uint64 : Z -> Z.
Variable hash_combine : Z -> Z -> Z.

Lemma float_eq_refl f : float_eq f f = negb (float_is_nan f).
Proof.
  unfold float_eq. destruct (float_is_nan f); [reflexivity |].
  cbn [orb negb]. destruct (float_is_zero f); [reflexivity |].
  cbn [andb]. apply Z.eqb_refl.
Qed.

Lemma float_eq_sym a b : float_eq a b = float_eq b a.
Proof.
  unfold float_eq.
  rewrite (orb_comm (float_is_nan a)), (andb_comm (float_is_zero a)), (Z.eqb_sym (u32 a)).
  reflexivity.
Qed.

Lemma border_color_eq_sym x y : border_color_eq x y = border_color_eq y x.
Proof.
  unfold border_color_eq.
  rewrite (float_eq_sym (c0 x)), (float_eq_sym (c1 x)), (float_eq_sym (c2 x)),
    (float_eq_sym (c3 x)).
  reflexivity.
Qed.

Lemma eqb_bool_sym (x y : bool) : Bool.eqb x y = Bool.eqb y x.
Proof. destruct x, y; reflexivity. Qed.

Lemma needs_border_with_border s c : needs_border (with_border s c) = needs_border s.
Proof. reflexivity. Qed.

(** The test for a border address mode, one address mode at a time. *)
Lemma needs_border_cases s :
  needs_border s = true
  <-> AddressU s = D3D12_TEXTURE_ADDRESS_MODE_BORDER
      \/ AddressV s = D3D12_TEXTURE_ADDRESS_MODE_BORDER
      \/ AddressW s = D3D12_TEXTURE_ADDRESS_MODE_BORDER.
Proof.
  unfold needs_border, d3d12_sampler_needs_border_color.
  rewrite !orb_true_iff, !Z.eqb_eq. tauto.
Qed.

Lemma no_border_cases s :
  needs_border s = false
  <-> AddressU s <> D3D12_TEXTURE_ADDRESS_MODE_BORDER
      /\ AddressV s <> D3D12_TEXTURE_ADDRESS_MODE_BORDER
      /\ AddressW s <> D3D12_TEXTURE_ADDRESS_MODE_BORDER.
Proof.
  pose proof (needs_border_cases s) as H.
  destruct (needs_border s); split; intros Hn; try reflexivity; try discriminate.
  - exfalso. destruct (proj1 H eq_refl) as [E | [E | E]]; tauto.
  - split; [| split]; intros E; assert (true = false) by (symmetry; apply H; tauto);
      discriminate.
Qed.

(** The comparison of the border colours, one component at a time. *)
Lemma border_color_eq_cases x y :
  border_color_eq x y = true
  <-> float_eq (c0 x) (c0 y) = true /\ float_eq (c1 x) (c1 y) = true
      /\ float_eq (c2 x) (c2 y) = true /\ float_eq (c3 x) (c3 y) = true.
Proof. unfold border_color_eq. rewrite !andb_true_iff. tauto. Qed.

Lemma border_color_differs x y :
  float_eq (c0 x) (c0 y) = false \/ float_eq (c1 x) (c1 y) = false
  \/ float_eq (c2 x) (c2 y) = false \/ float_eq (c3 x) (c3 y) = false ->
  border_color_eq x y = false.
Proof.
  unfold border_color_eq. intros [H | [H | [H | H]]]; rewrite H;
    rewrite ?andb_false_r; reflexivity.
Qed.

Lemma sampler_compare_split k e :
  vkd3d_view_entry_compare (VKD3D_VIEW_TYPE_SAMPLER k) (VKD3D_VIEW_TYPE_SAMPLER e)
    = same_but_border k e
      && (negb (needs_border k) || border_color_eq (BorderColor k) (BorderColor e)).
Proof.
  cbn [vkd3d_view_entry_compare]. unfold same_but_border.
  destruct (Filter k =? Filter e), (AddressU k =? AddressU e),
    (AddressV k =? AddressV e), (AddressW k =? AddressW e),
    (float_eq (MipLODBias k) (MipLODBias e)), (MaxAnisotropy k =? MaxAnisotropy e),
    (ComparisonFunc k =? ComparisonFunc e),
    (negb (needs_border k) || border_color_eq (BorderColor k) (BorderColor e)),
    (float_eq (MinLOD k) (MinLOD e)), (float_eq (MaxLOD k) (MaxLOD e)); reflexivity.
Qed.

(** A description agrees with itself in the fields other than the border
    colour unless one of its three level-of-detail numbers is a NaN. *)
Lemma same_but_border_refl k c :
  float_is_nan (MipLODBias k) = false -> float_is_nan (MinLOD k) = false ->
  float_is_nan (MaxLOD k) = false ->
  same_but_border k (with_border k c) = true.
Proof.
  intros H1 H2 H3. unfold same_but_border, with_border.
  cbn [Filter AddressU AddressV AddressW MipLODBias MaxAnisotropy ComparisonFunc MinLOD MaxLOD].
  rewrite !Z.eqb_refl, !float_eq_refl, H1, H2, H3. reflexivity.
Qed.

Lemma sampler_hash_without_border k c :
  needs_border k = false ->
  vkd3d_view_entry_hash hash_uint64 hash_combine (VKD3D_VIEW_TYPE_SAMPLER (with_border k c))
  = vkd3d_view_entry_hash hash_uint64 hash_combine (VKD3D_VIEW_TYPE_SAMPLER k).
Proof.
  intros Hn. cbn [vkd3d_view_entry_hash]. unfold sampler_hash_words.
  rewrite needs_border_with_border, Hn. reflexivity.
Qed.

(** C9 (as amended).  The sampler comparison tests every field of the
    description with the comparison operator of its type, and the sampler
    hash folds every field in, a floating-point field by its bit pattern; both leave the four
    components of the border colour out precisely when none of the address
    modes U, V and W is the border mode, and with such a mode the comparison
    asks that each of the four components compares equal.  Without a border
    mode a change of border colour changes neither the comparison nor the
    hash.  Hence, for a description whose level-of-detail bias and bounds
    are not NaN and a second border colour that compares different from its
    own in at least one component, the key and the key with the second
    border colour compare equal if and only if none of U, V and W is the
    border mode, and likewise the hash map's test (equal hashes and a
    successful comparison), which is what lets one cached sampler serve
    both. *)
Theorem sampler_key_border_color k e :
  (* every field but the border colour is compared, the border colour only
     with a border address mode, and then component by component *)
  (vkd3d_view_entry_compare (VKD3D_VIEW_TYPE_SAMPLER k) (VKD3D_VIEW_TYPE_SAMPLER e) = true
   <-> Filter k = Filter e /\ AddressU k = AddressU e /\ AddressV k = AddressV e /\
       AddressW k = AddressW e /\ float_eq (MipLODBias k) (MipLODBias e) = true /\
       MaxAnisotropy k = MaxAnisotropy e /\ ComparisonFunc k = ComparisonFunc e /\
       float_eq (MinLOD k) (MinLOD e) = true /\ float_eq (MaxLOD k) (MaxLOD e) = true /\
       (AddressU k = D3D12_TEXTURE_ADDRESS_MODE_BORDER
        \/ AddressV k = D3D12_TEXTURE_ADDRESS_MODE_BORDER
        \/ AddressW k = D3D12_TEXTURE_ADDRESS_MODE_BORDER ->
        float_eq (c0 (BorderColor k)) (c0 (BorderColor e)) = true /\
        float_eq (c1 (BorderColor k)) (c1 (BorderColor e)) = true /\
        float_eq (c2 (BorderColor k)) (c2 (BorderColor e)) = true /\
        float_eq (c3 (BorderColor k)) (c3 (BorderColor e)) = true)) /\
  (* the hash takes the same fields *)
  (vkd3d_view_entry_hash hash_uint64 hash_combine (VKD3D_VIEW_TYPE_SAMPLER k)
   = fold_left hash_combine
       ([u32 (AddressU k); u32 (AddressV k); u32 (AddressW k);
         float_bits_to_uint32 (MipLODBias k); u32 (MaxAnisotropy k);
         u32 (ComparisonFunc k)]
        ++ (if (AddressU k =? D3D12_TEXTURE_ADDRESS_MODE_BORDER)
               || (AddressV k =? D3D12_TEXTURE_ADDRESS_MODE_BORDER)
               || (AddressW k =? D3D12_TEXTURE_ADDRESS_MODE_BORDER)
            then map float_bits_to_uint32
                   [c0 (BorderColor k); c1 (BorderColor k);
                    c2 (BorderColor k); c3 (BorderColor k)]
            else [])
        ++ [float_bits_to_uint32 (MinLOD k); float_bits_to_uint32 (MaxLOD k)])
       (u32 (Filter k))) /\
  (* without a border mode the border colour is ignored by both *)
  (AddressU k <> D3D12_TEXTURE_ADDRESS_MODE_BORDER ->
   AddressV k <> D3D12_TEXTURE_ADDRESS_MODE_BORDER ->
   AddressW k <> D3D12_TEXTURE_ADDRESS_MODE_BORDER ->
   forall c c',
     vkd3d_view_entry_compare (VKD3D_VIEW_TYPE_SAMPLER (with_border k c))
       (VKD3D_VIEW_TYPE_SAMPLER (with_border e c'))
     = vkd3d_view_entry_compare (VKD3D_VIEW_TYPE_SAMPLER k) (VKD3D_VIEW_TYPE_SAMPLER e) /\
     vkd3d_view_entry_hash hash_uint64 hash_combine (VKD3D_VIEW_TYPE_SAMPLER (with_border k c))
     = vkd3d_view_entry_hash hash_uint64 hash_combine (VKD3D_VIEW_TYPE_SAMPLER k)) /\
  (* keys that differ only in border colour *)
  (forall c',
     float_is_nan (MipLODBias k) = false -> float_is_nan (MinLOD k) = false ->
     float_is_nan (MaxLOD k) = false ->
     float_eq (c0 (BorderColor k)) (c0 c') = false
     \/ float_eq (c1 (BorderColor k)) (c1 c') = false
     \/ float_eq (c2 (BorderColor k)) (c2 c') = false
     \/ float_eq (c3 (BorderColor k)) (c3 c') = false ->
     (vkd3d_view_entry_compare (VKD3D_VIEW_TYPE_SAMPLER k)
        (VKD3D_VIEW_TYPE_SAMPLER (with_border k c')) = true
      <-> AddressU k <> D3D12_TEXTURE_ADDRESS_MODE_BORDER
          /\ AddressV k <> D3D12_TEXTURE_ADDRESS_MODE_BORDER
          /\ AddressW k <> D3D12_TEXTURE_ADDRESS_MODE_BORDER) /\
     (ViewMap.matches hash_uint64 hash_combine (VKD3D_VIEW_TYPE_SAMPLER k)
        (VKD3D_VIEW_TYPE_SAMPLER (with_border k c')) = true
      <-> AddressU k <> D3D12_TEXTURE_ADDRESS_MODE_BORDER
          /\ AddressV k <> D3D12_TEXTURE_ADDRESS_MODE_BORDER
          /\ AddressW k <> D3D12_TEXTURE_ADDRESS_MODE_BORDER)).
Proof.
  split; [| split; [| split]].
  - rewrite sampler_compare_split. unfold same_but_border.
    rewrite !andb_true_iff, !Z.eqb_eq, orb_true_iff, negb_true_iff.
    rewrite <- needs_border_cases, <- border_color_eq_cases.
    destruct (needs_border k); intuition congruence.
  - cbn [vkd3d_view_entry_hash]. unfold sampler_hash_words.
    change ((AddressU k =? D3D12_TEXTURE_ADDRESS_MODE_BORDER)
            || (AddressV k =? D3D12_TEXTURE_ADDRESS_MODE_BORDER)
            || (AddressW k =? D3D12_TEXTURE_ADDRESS_MODE_BORDER))
      with (needs_border k).
    destruct (needs_border k); reflexivity.
  - intros HU HV HW c c'.
    assert (Hn : needs_border k = false) by (apply no_border_cases; tauto).
    split.
    + rewrite !sampler_compare_split, needs_border_with_border, Hn. reflexivity.
    + apply sampler_hash_without_border, Hn.
  - intros c' H1 H2 H3 Hdiff.
    assert (Hcmp : vkd3d_view_entry_compare (VKD3D_VIEW_TYPE_SAMPLER k)
                     (VKD3D_VIEW_TYPE_SAMPLER (with_border k c'))
                   = negb (needs_border k)).
    { rewrite sampler_compare_split, same_but_border_refl by assumption.
      change (BorderColor (with_border k c')) with c'.
      rewrite (border_color_differs _ _ Hdiff), orb_false_r. reflexivity. }
    rewrite <- no_border_cases. unfold ViewMap.matches. rewrite Hcmp.
    destruct (needs_border k) eqn:Hn; cbn [negb].
    + rewrite andb_false_r. split; split; intros H; discriminate H.
    + rewrite (sampler_hash_without_border k c' Hn), Z.eqb_refl.
      split; split; reflexivity.
Qed.

End ViewKeyFacts.

Lemma sampler_key_border_color_witness :
  (* only W is the border mode: black and white borders are told apart *)
  ViewKey.vkd3d_view_entry_compare
    (ViewKey.VKD3D_VIEW_TYPE_SAMPLER
       (Examples.sampler_uvw Api.D3D12_TEXTURE_ADDRESS_MODE_WRAP
          Api.D3D12_TEXTURE_ADDRESS_MODE_CLAMP Api.D3D12_TEXTURE_ADDRESS_MODE_BORDER
          Examples.black))
    (ViewKey.VKD3D_VIEW_TYPE_SAMPLER
       (Examples.sampler_uvw Api.D3D12_TEXTURE_ADDRESS_MODE_WRAP
          Api.D3D12_TEXTURE_ADDRESS_MODE_CLAMP Api.D3D12_TEXTURE_ADDRESS_MODE_BORDER
          Examples.white)) <> true /\
  (* no border mode: they are one key to the comparison and to the map *)
  ViewKey.vkd3d_view_entry_compare
    (ViewKey.VKD3D_VIEW_TYPE_SAMPLER
       (Examples.sampler_uvw Api.D3D12_TEXTURE_ADDRESS_MODE_WRAP
          Api.D3D12_TEXTURE_ADDRESS_MODE_MIRROR Api.D3D12_TEXTURE_ADDRESS_MODE_CLAMP
          Examples.black))
    (ViewKey.VKD3D_VIEW_TYPE_SAMPLER
       (Examples.sampler_uvw Api.D3D12_TEXTURE_ADDRESS_MODE_WRAP
          Api.D3D12_TEXTURE_ADDRESS_MODE_MIRROR Api.D3D12_TEXTURE_ADDRESS_MODE_CLAMP
          Examples.white)) = true /\
  ViewMap.matches Examples.hash_uint64 Examples.hash_combine
    (ViewKey.VKD3D_VIEW_TYPE_SAMPLER
       (Examples.sampler_uvw Api.D3D12_TEXTURE_ADDRESS_MODE_WRAP
          Api.D3D12_TEXTURE_ADDRESS_MODE_MIRROR Api.D3D12_TEXTURE_ADDRESS_MODE_CLAMP
          Examples.black))
    (ViewKey.VKD3D_VIEW_TYPE_SAMPLER
       (Examples.sampler_uvw Api.D3D12_TEXTURE_ADDRESS_MODE_WRAP
          Api.D3D12_TEXTURE_ADDRESS_MODE_MIRROR Api.D3D12_TEXTURE_ADDRESS_MODE_CLAMP
          Examples.white)) = true.
Proof.
  pose proof (proj2 (proj2 (proj2 (sampler_key_border_color Examples.hash_uint64
                Examples.hash_combine
                (Examples.sampler_uvw Api.D3D12_TEXTURE_ADDRESS_MODE_WRAP
                   Api.D3D12_TEXTURE_ADDRESS_MODE_CLAMP Api.D3D12_TEXTURE_ADDRESS_MODE_BORDER
                   Examples.black)
                (Examples.sampler_uvw Api.D3D12_TEXTURE_ADDRESS_MODE_WRAP
                   Api.D3D12_TEXTURE_ADDRESS_MODE_CLAMP Api.D3D12_TEXTURE_ADDRESS_MODE_BORDER
                   Examples.black))))
              Examples.white eq_refl eq_refl eq_refl (or_introl eq_refl)) as [Hborder _].
  pose proof (proj2 (proj2 (proj2 (sampler_key_border_color Examples.hash_uint64
                Examples.hash_combine
                (Examples.sampler_uvw Api.D3D12_TEXTURE_ADDRESS_MODE_WRAP
                   Api.D3D12_TEXTURE_ADDRESS_MODE_MIRROR Api.D3D12_TEXTURE_ADDRESS_MODE_CLAMP
                   Examples.black)
                (Examples.sampler_uvw Api.D3D12_TEXTURE_ADDRESS_MODE_WRAP
                   Api.D3D12_TEXTURE_ADDRESS_MODE_MIRROR Api.D3D12_TEXTURE_ADDRESS_MODE_CLAMP
                   Examples.black))))
              Examples.white eq_refl eq_refl eq_refl (or_introl eq_refl)) as [Hplain Hmap].
  split; [| split].
  - intros H. apply Hborder in H. destruct H as (_ & _ & HW). apply HW. reflexivity.
  - apply Hplain. repeat split; discriminate.
  - apply Hmap. repeat split; discriminate.
Defined.

(** The claim's last sentence fails at the edges of floating point.  Two
    keys that differ only in border colour and use no border mode are not
    equal to the comparison when their level-of-detail bias is a NaN; with
    a border mode, border colours that differ only in the sign of a zero
    compare equal although an address mode uses the border colour, while
    their hashes differ. *)
Lemma sampler_key_border_color_counterexample :
  ViewKey.vkd3d_view_entry_compare
    (ViewKey.VKD3D_VIEW_TYPE_SAMPLER (Examples.biased_sampler 0x7FC00000 Examples.black))
    (ViewKey.VKD3D_VIEW_TYPE_SAMPLER (Examples.biased_sampler 0x7FC00000 Examples.white))
    = false /\
  ViewKey.vkd3d_view_entry_compare
    (ViewKey.VKD3D_VIEW_TYPE_SAMPLER
       (Examples.sampler Api.D3D12_TEXTURE_ADDRESS_MODE_BORDER Examples.black))
    (ViewKey.VKD3D_VIEW_TYPE_SAMPLER
       (Examples.sampler Api.D3D12_TEXTURE_ADDRESS_MODE_BORDER Examples.black_below_zero))
    = true /\
  ViewKey.vkd3d_view_entry_hash Examples.hash_uint64 Examples.hash_combine
    (ViewKey.VKD3D_VIEW_TYPE_SAMPLER
       (Examples.sampler Api.D3D12_TEXTURE_ADDRESS_MODE_BORDER Examples.black))
  <> ViewKey.vkd3d_view_entry_hash Examples.hash_uint64 Examples.hash_combine
       (ViewKey.VKD3D_VIEW_TYPE_SAMPLER
          (Examples.sampler Api.D3D12_TEXTURE_ADDRESS_MODE_BORDER Examples.black_below_zero)).
Proof.
  split; [reflexivity |]. split; [reflexivity |]. vm_compute. discriminate.
Qed.

(** ** The view cache *)

Section ViewMapFacts.
Import Machine Api ViewKey ViewMap.

Variable hash_uint64 : Z -> Z.
Variable hash_combine : Z -> Z -> Z.
Variable vk_create : vkd3d_view_key -> bool.

Local Abbreviation key_test := (matches hash_uint64 hash_combine).
Local Abbreviation find_in := (hash_map_find hash_uint64 hash_combine).
Local Abbreviation sys_step := (system_step hash_uint64 hash_combine vk_create true true).

(** The comparison does not depend on which key is the stored one, and it
    answers false on a key of an unexpected type. *)
Lemma vkd3d_view_entry_compare_sym k e :
  vkd3d_view_entry_compare k e = vkd3d_view_entry_compare e k.
Proof.
  destruct k as [k | k | k | k | t], e as [e | e | e | e | u]; try reflexivity;
    cbn [vkd3d_view_entry_compare]; unfold buffer_desc_compare.
  - rewrite (Z.eqb_sym (bv_buffer k)), (Z.eqb_sym (bv_format k)),
      (Z.eqb_sym (bv_offset k)), (Z.eqb_sym (bv_size k)). reflexivity.
  - rewrite (Z.eqb_sym (bv_buffer k)), (Z.eqb_sym (bv_format k)),
      (Z.eqb_sym (bv_offset k)), (Z.eqb_sym (bv_size k)). reflexivity.
  - rewrite (Z.eqb_sym (image k)), (Z.eqb_sym (view_type k)), (Z.eqb_sym (tv_format k)),
      (Z.eqb_sym (miplevel_idx k)), (Z.eqb_sym (miplevel_count k)),
      (float_eq_sym (miplevel_clamp k)), (Z.eqb_sym (layer_idx k)),
      (Z.eqb_sym (layer_count k)), (Z.eqb_sym (r (components k))),
      (Z.eqb_sym (g (components k))), (Z.eqb_sym (b (components k))),
      (Z.eqb_sym (a (components k))), (eqb_bool_sym (allowed_swizzle k)).
    reflexivity.
  - rewrite (Z.eqb_sym (Filter k)), (Z.eqb_sym (AddressU k)), (Z.eqb_sym (AddressV k)),
      (Z.eqb_sym (AddressW k)), (float_eq_sym (MipLODBias k)),
      (Z.eqb_sym (MaxAnisotropy k)), (Z.eqb_sym (ComparisonFunc k)),
      (float_eq_sym (MinLOD k)), (float_eq_sym (MaxLOD k)),
      (border_color_eq_sym (BorderColor k)).
    unfold needs_border.
    destruct (Z.eqb_spec (AddressU e) (AddressU k)) as [-> |];
      [| rewrite !andb_false_r; reflexivity].
    destruct (Z.eqb_spec (AddressV e) (AddressV k)) as [-> |];
      [| rewrite !andb_false_r; reflexivity].
    destruct (Z.eqb_spec (AddressW e) (AddressW k)) as [-> |];
      [| rewrite !andb_false_r; reflexivity].
    reflexivity.
Qed.

Lemma compared_keys_are_known k e :
  vkd3d_view_entry_compare k e = true -> is_known_type k = true /\ is_known_type e = true.
Proof.
  destruct k as [k | k | k | k | t], e as [e | e | e | e | u];
    intros H; try discriminate H; split; reflexivity.
Qed.

(** Keys that compare equal and hash alike pass the map's test, whichever
    of them is the stored one. *)
Lemma key_test_both_ways k1 k2 :
  vkd3d_view_entry_compare k1 k2 = true ->
  vkd3d_view_entry_hash hash_uint64 hash_combine k1
    = vkd3d_view_entry_hash hash_uint64 hash_combine k2 ->
  key_test k1 k2 = true /\ key_test k2 k1 = true.
Proof.
  intros Hcmp Hhash. unfold matches.
  rewrite <- (vkd3d_view_entry_compare_sym k1 k2), Hcmp, Hhash, Z.eqb_refl.
  split; reflexivity.
Qed.

Lemma hash_map_find_app k m l :
  find_in k m = None -> find_in k (m ++ l) = find_in k l.
Proof.
  unfold hash_map_find. induction m as [| e m IH]; [reflexivity |].
  cbn [find app]. destruct (key_test k (fst e)); [discriminate | exact IH].
Qed.

Lemma hash_map_find_single k k' v :
  find_in k [(k', v)] = if key_test k k' then Some v else None.
Proof. unfold hash_map_find. cbn. destruct (key_test k k'); reflexivity. Qed.

(** A successful creation hands out the next address, with one reference
    and its own native view, and touches nothing else. *)
Lemma create_view_succeeds k w :
  is_known_type k = true -> vk_create k = true ->
  exists w' c,
    create_view vk_create true k w = (Some (next w), w') /\
    map w' = map w /\ used_count w' = used_count w /\ next w' = next w + 1 /\
    views w' !! next w = Some {| refcount := 1; cookie := c; vk_handle := next w |} /\
    (forall x, x <> next w -> views w' !! x = views w !! x) /\
    (forall x, x ∈ native w' <-> x = next w \/ x ∈ native w).
Proof.
  intros Hk Hc.
  destruct k; try discriminate Hk; unfold create_view; rewrite Hc;
    unfold vkd3d_view_create, add_native, set_handle;
    destruct (Cookie.vkd3d_allocate_cookie (cookies w)) as [c g] eqn:Ec;
    cbn [map used_count views native next cookies];
    try rewrite Ec;
    (eexists; exists c; split; [reflexivity |]);
    cbn [map used_count views native next cookies];
    repeat split; try reflexivity;
    try (rewrite ?lookup_alter_eq, lookup_insert_eq; reflexivity);
    try (intros x Hx; rewrite ?lookup_alter_ne, ?lookup_insert_ne by congruence; reflexivity);
    try set_solver.
Qed.

Variable w0 : world.
Hypothesis w0_well_formed : well_formed w0.

Ltac split_conj := repeat match goal with |- _ /\ _ => split end.

(** One step of the first caller keeps the invariant and brings it closer to
    its return. *)
Lemma first_caller_step k1 k2 p q w :
  key_test k1 k2 = true ->
  find_in k1 (map w0) = None ->
  is_known_type k1 = true -> vk_create k1 = true ->
  invariant w0 k1 k2 {| pc1 := p; pc2 := q; shared := w |} ->
  exists p' w',
    thread_step hash_uint64 hash_combine vk_create true true k1 p w = Some (p', w') /\
    invariant w0 k1 k2 {| pc1 := p'; pc2 := q; shared := w' |} /\
    (rank p' <= pred (rank p))%nat.
Proof.
  intros Hm Hf Hk Hc (inst & Hmap & Hused & Hd12 & Hd1 & Hd2 & Hnew & Hold & Hnext & Hok1 & Hok2).
  destruct w0_well_formed as (Hwfv & Hwfn & _).
  unfold brought in *. cbn [pc1 pc2 shared] in *.
  destruct p as [| | v | red x | res]; cbn [thread_step rank pred own pc_ok] in *.
  - (* Lookup *)
    rewrite Hmap, hash_map_find_app by exact Hf.
    destruct inst as [[[|] v] |]; cbn [entry key_of].
    + exfalso. exact (Hok1 v eq_refl).
    + rewrite hash_map_find_single, Hm.
      eexists _, _. split; [reflexivity |]. split; [| cbn; lia].
      exists (Some (T2, v)). unfold brought. cbn [pc1 pc2 shared own pc_ok winner].
      split_conj; try assumption; try reflexivity; try (intros; discriminate).
    + eexists _, _. split; [reflexivity |]. split; [| cbn; lia].
      exists None. unfold brought. cbn [pc1 pc2 shared own pc_ok winner].
      split_conj; try assumption; try reflexivity; try (intros; discriminate).
  - (* Create *)
    destruct (create_view_succeeds k1 w Hk Hc)
      as (w' & c & -> & Hmap' & Hused' & Hnext' & Hview & Hviews & Hnative).
    eexists _, _. split; [reflexivity |]. split; [| cbn; lia].
    exists inst. unfold brought. cbn [pc1 pc2 shared own pc_ok].
    assert (Hbelow : forall a, own q = Some a \/ winner inst = Some a -> a < next w).
    { intros a Ha. apply (Hnew a). tauto. }
    rewrite Hmap', Hused', Hnext'.
    split; [exact Hmap |]. split; [exact Hused |].
    split; [intros a [= <-] Hq; specialize (Hbelow (next w) (or_introl Hq)); lia |].
    split; [intros a [= <-] Hq; specialize (Hbelow (next w) (or_intror Hq)); lia |].
    split; [exact Hd2 |].
    split; [| split; [| split; [lia | split; assumption]]].
    + intros a [[= <-] | Ha].
      * split; [lia |]. split; [apply Hnative; left; reflexivity |].
        exists c. exact Hview.
      * pose proof (Hbelow a Ha) as Hlt.
        destruct (Hnew a (or_intror Ha)) as (Hr & Hn & c' & Hv).
        split; [lia |]. split; [apply Hnative; right; exact Hn |].
        exists c'. rewrite Hviews by lia. exact Hv.
    + intros a Ha.
      assert (Hne : a <> next w) by (intros ->; apply Ha; left; reflexivity).
      destruct (Hold a) as [Hv Hn];
        [intros [H | H]; [discriminate | apply Ha; right; exact H] |].
      rewrite Hviews by exact Hne. split; [exact Hv |].
      rewrite Hnative. rewrite <- Hn. tauto.
  - (* Insert *)
    unfold hash_map_insert. rewrite Hmap, hash_map_find_app by exact Hf.
    destruct inst as [[[|] x] |]; cbn [entry key_of].
    + exfalso. exact (Hok1 x eq_refl).
    + rewrite hash_map_find_single, Hm.
      destruct (Z.eqb_spec x v) as [-> | Hne];
        [exfalso; exact (Hd1 v eq_refl eq_refl) |].
      eexists _, _. split; [reflexivity |]. split; [| cbn; lia].
      exists (Some (T2, x)). unfold brought. cbn [pc1 pc2 shared own pc_ok winner other].
      split_conj; try assumption; try reflexivity.
    + cbn [hash_map_find find fmap option_fmap option_map]. rewrite Z.eqb_refl.
      eexists _, _. split; [reflexivity |]. split; [| cbn; lia].
      exists (Some (T1, v)). unfold brought.
      cbn [pc1 pc2 shared own pc_ok winner map used_count views native next entry key_of].
      rewrite app_nil_r, Hused.
      split; [reflexivity |]. split; [reflexivity |].
      split; [intros; discriminate |]. split; [intros; discriminate |].
      split; [intros a Hq [= <-]; exact (Hd12 v eq_refl Hq) |].
      split; [| split; [| split; [exact Hnext | split; [reflexivity |]]]].
      * intros a [H | [H | H]]; [discriminate | |]; apply Hnew; tauto.
      * intros a Ha. apply Hold. cbn [winner]. intros [H | [H | H]];
          [apply Ha; right; right; exact H | apply Ha; right; left; exact H | discriminate].
      * destruct q as [| | v' | red' x' | [res' |]]; cbn [pc_ok winner other] in *;
          try (intros; discriminate); try discriminate; try contradiction.
  - (* Decref *)
    subst inst. cbn [winner] in *.
    destruct (Hnew red (or_introl eq_refl)) as (Hr & Hn & c & Hv).
    unfold vkd3d_view_decref. rewrite Hv. cbn [refcount vk_handle].
    change (u32 (1 - 1) =? 0) with true. cbv iota.
    eexists _, _. split; [reflexivity |]. split; [| cbn; lia].
    exists (Some (T2, x)). unfold brought.
    cbn [pc1 pc2 shared own pc_ok winner map used_count views native next entry key_of other]
      in *.
    split; [exact Hmap |]. split; [exact Hused |].
    split; [intros; discriminate |]. split; [intros; discriminate |].
    split; [exact Hd2 |].
    split; [| split; [| split; [exact Hnext | split; [reflexivity | exact Hok2]]]].
    + intros a Ha.
      assert (Hne : a <> red).
      { intros ->. destruct Ha as [H | [H | H]]; [discriminate | |].
        - exact (Hd12 red eq_refl H).
        - exact (Hd1 red eq_refl H). }
      destruct (Hnew a) as (Hr' & Hn' & c' & Hv');
        [destruct Ha as [H | H]; [discriminate | right; exact H] |].
      split; [exact Hr' |]. split; [set_solver |].
      exists c'. rewrite lookup_delete_ne by congruence. exact Hv'.
    + intros a Ha.
      destruct (Z.eq_dec a red) as [-> | Hne].
      * rewrite lookup_delete_eq. split.
        -- destruct (views w0 !! red) as [v0 |] eqn:E; [| reflexivity].
           specialize (Hwfv red ltac:(rewrite E; eauto)). lia.
        -- split; [set_solver |]. intros Hin. specialize (Hwfn red Hin). lia.
      * destruct (Hold a) as [Hv' Hn'].
        { intros [H | H]; [congruence | apply Ha; right; exact H]. }
        rewrite lookup_delete_ne by congruence. split; [exact Hv' |].
        rewrite <- Hn'. set_solver.
  - (* Done *)
    eexists _, _. split; [reflexivity |]. split; [| cbn; lia].
    exists inst. unfold brought. cbn [pc1 pc2 shared own pc_ok].
    split_conj; try assumption; try reflexivity.
Qed.

Lemma invariant_swap k1 k2 s :
  invariant w0 k1 k2 s -> invariant w0 k2 k1 (swap s).
Proof.
  intros (inst & Hmap & Hused & Hd12 & Hd1 & Hd2 & Hnew & Hold & Hnext & Hok1 & Hok2).
  exists (swap_installed inst).
  assert (Hw : winner (swap_installed inst) = winner inst)
    by (destruct inst as [[[|] v] |]; reflexivity).
  assert (He : entry k2 k1 (swap_installed inst) = entry k1 k2 inst)
    by (destruct inst as [[[|] v] |]; reflexivity).
  assert (Hok : forall t p, pc_ok t p inst -> pc_ok (other t) p (swap_installed inst)).
  { intros t p H. destruct p as [| | v | red x | [res |]]; cbn [pc_ok] in *;
      try (rewrite Hw; exact H); try exact H;
      try (destruct inst as [[u v'] |]; cbn [swap_installed];
           [intros v0 [= E1 E2]; apply (H v0); f_equal; f_equal;
            destruct u, t; cbn in E1; congruence
           | intros; discriminate]).
    subst inst. destruct t; reflexivity. }
  unfold brought in *. cbn [swap pc1 pc2 shared]. rewrite Hw, He.
  split; [exact Hmap |].
  split; [destruct inst as [[[|] v] |]; exact Hused |].
  split; [intros a H2 H1; exact (Hd12 a H1 H2) |].
  split; [exact Hd2 |]. split; [exact Hd1 |].
  split; [intros a Ha; apply Hnew; tauto |].
  split; [intros a Ha; apply Hold; tauto |].
  split; [exact Hnext |].
  split; [exact (Hok T2 _ Hok2) | exact (Hok T1 _ Hok1)].
Qed.

Section Race.

Variable k1 k2 : vkd3d_view_key.
Hypothesis match12 : key_test k1 k2 = true.
Hypothesis match21 : key_test k2 k1 = true.
Hypothesis miss1 : find_in k1 (map w0) = None.
Hypothesis miss2 : find_in k2 (map w0) = None.
Hypothesis known1 : is_known_type k1 = true.
Hypothesis known2 : is_known_type k2 = true.
Hypothesis created1 : vk_create k1 = true.
Hypothesis created2 : vk_create k2 = true.

Lemma invariant_start : invariant w0 k1 k2 (start w0).
Proof.
  exists None. unfold brought. cbn.
  split; [rewrite app_nil_r; reflexivity |]. split; [reflexivity |].
  split_conj; try (intros; discriminate); try lia.
  - intros a [H | [H | H]]; discriminate.
  - intros a _. split; [reflexivity | tauto].
Qed.

Lemma system_step_keeps t s :
  invariant w0 k1 k2 s ->
  exists s',
    sys_step k1 k2 t s = Some s' /\ invariant w0 k1 k2 s' /\
    (rank (pc_of t s') <= pred (rank (pc_of t s)))%nat /\
    pc_of (other t) s' = pc_of (other t) s.
Proof.
  intros Hinv. destruct s as [p q w]. destruct t; cbn [system_step pc1 pc2 shared].
  - destruct (first_caller_step k1 k2 p q w match12 miss1 known1 created1 Hinv)
      as (p' & w' & -> & Hinv' & Hrank).
    eexists. split; [reflexivity |]. split; [exact Hinv' |]. split; [exact Hrank | reflexivity].
  - apply invariant_swap in Hinv. cbn [swap pc1 pc2 shared] in Hinv.
    destruct (first_caller_step k2 k1 q p w match21 miss2 known2 created2 Hinv)
      as (q' & w' & -> & Hinv' & Hrank).
    apply invariant_swap in Hinv'. cbn [swap pc1 pc2 shared] in Hinv'.
    eexists. split; [reflexivity |]. split; [exact Hinv' |]. split; [exact Hrank | reflexivity].
Qed.

Lemma run_keeps schedule : forall s,
  invariant w0 k1 k2 s ->
  exists s',
    run hash_uint64 hash_combine vk_create true true k1 k2 schedule s = Some s' /\ invariant w0 k1 k2 s' /\
    (rank (pc1 s') <= rank (pc1 s) - count_turns T1 schedule)%nat /\
    (rank (pc2 s') <= rank (pc2 s) - count_turns T2 schedule)%nat.
Proof.
  induction schedule as [| t rest IH]; intros s Hinv.
  - exists s. cbn. split; [reflexivity |]. split; [exact Hinv |]. lia.
  - destruct (system_step_keeps t s Hinv) as (s1 & Hstep & Hinv1 & Hrank & Hother).
    destruct (IH s1 Hinv1) as (s' & Hrun & Hinv' & Hr1 & Hr2).
    exists s'. cbn [run]. rewrite Hstep. split; [exact Hrun |]. split; [exact Hinv' |].
    destruct t; cbn [pc_of other count_turns thread_eqb] in *; rewrite ?Hother in *; lia.
Qed.

(** When both callers have returned, they hold the one view that went into
    the map, and the world has changed by exactly that view. *)
Lemma finished_callers s :
  invariant w0 k1 k2 s -> rank (pc1 s) = O -> rank (pc2 s) = O ->
  exists v c k,
    pc1 s = Done (Some v) /\ pc2 s = Done (Some v) /\
    (k = k1 \/ k = k2) /\
    map (shared s) = map w0 ++ [(k, v)] /\
    used_count (shared s) = u32 (used_count w0 + 1) /\
    views w0 !! v = None /\ (v ∉ native w0) /\
    views (shared s)
      = <[v := {| refcount := 1; cookie := c; vk_handle := v |}]> (views w0) /\
    native (shared s) = {[v]} ∪ native w0.
Proof.
  intros (inst & Hmap & Hused & Hd12 & Hd1 & Hd2 & Hnew & Hold & Hnext & Hok1 & Hok2) H1 H2.
  destruct w0_well_formed as (Hwfv & Hwfn & _).
  destruct s as [p q w]. cbn [pc1 pc2 shared] in *. unfold brought in *.
  cbn [pc1 pc2 shared] in *.
  destruct p as [| | ? | ? ? | [x1 |]]; try discriminate H1; [| contradiction].
  destruct q as [| | ? | ? ? | [x2 |]]; try discriminate H2; [| contradiction].
  cbn [pc_ok own] in *.
  destruct inst as [[t v] |]; [| discriminate]. cbn [winner entry] in *.
  assert (v = x1) by congruence. assert (x2 = x1) by congruence. subst v x2.
  destruct (Hnew x1) as (Hr & Hn & c & Hv); [right; right; reflexivity |].
  exists x1, c, (key_of k1 k2 t).
  split; [reflexivity |]. split; [reflexivity |].
  split; [destruct t; [left | right]; reflexivity |].
  split; [exact Hmap |]. split; [exact Hused |].
  assert (Hfresh : views w0 !! x1 = None).
  { destruct (views w0 !! x1) as [v0 |] eqn:E; [| reflexivity].
    specialize (Hwfv x1 ltac:(rewrite E; eauto)). lia. }
  assert (Hfreshn : x1 ∉ native w0) by (intros Hin; specialize (Hwfn x1 Hin); lia).
  split; [exact Hfresh |]. split; [exact Hfreshn |].
  assert (Hrest : forall a, a <> x1 ->
            views w !! a = views w0 !! a /\ (a ∈ native w <-> a ∈ native w0)).
  { intros a Hne. apply Hold. intros [H | [H | H]]; congruence. }
  split.
  - apply map_eq. intros a. destruct (Z.eq_dec a x1) as [-> | Hne].
    + rewrite lookup_insert_eq. exact Hv.
    + rewrite lookup_insert_ne by congruence. apply Hrest, Hne.
  - apply set_eq. intros a. rewrite elem_of_union, elem_of_singleton.
    destruct (Z.eq_dec a x1) as [-> | Hne]; [tauto |].
    destruct (Hrest a Hne) as [_ Hiff]. tauto.
Qed.

End Race.

(** The caller that finds another's entry on insertion drops its own view
    and returns the entry's. *)
Lemma losing_insert k w v current obj :
  find_in k (map w) = Some current -> current <> v ->
  views w !! v = Some obj -> refcount obj = 1 ->
  run_thread hash_uint64 hash_combine vk_create true true 2 k (Insert v) w
    = Some (Done (Some current),
            {| map := map w; used_count := used_count w;
               views := delete v (views w);
               native := native w ∖ {[vk_handle obj]};
               next := next w; cookies := cookies w |}).
Proof.
  intros Hfind Hne Hview Hone.
  cbn [run_thread thread_step]. unfold hash_map_insert. rewrite Hfind.
  destruct (Z.eqb_spec current v) as [E | _]; [contradiction |].
  cbn [thread_step]. unfold vkd3d_view_decref. rewrite Hview, Hone.
  change (u32 (1 - 1) =? 0) with true. reflexivity.
Qed.

(** C1 (as amended).  Two requests whose keys compare equal and hash
    alike, for a key not yet cached and a view the driver and the host
    allocator can create:
    however the steps of the two calls interleave, the calls run to their
    return, both return the same view, the map has gained exactly one
    occupied entry, and the world holds exactly one more view object, with
    one reference and one native view.  In the losing case of the
    optimistic insert, where the entry found on insertion is another
    caller's, the caller's own freshly created view is released through
    [vkd3d_view_decref], which destroys it, and the view of the entry
    already in the map is returned. *)
Theorem racing_callers_get_one_view (vkd3d_malloc hash_map_can_grow : bool) k1 k2 :
  vkd3d_view_entry_compare k1 k2 = true ->
  vkd3d_view_entry_hash hash_uint64 hash_combine k1
    = vkd3d_view_entry_hash hash_uint64 hash_combine k2 ->
  find_in k1 (map w0) = None -> find_in k2 (map w0) = None ->
  vk_create k1 = true -> vk_create k2 = true ->
  vkd3d_malloc = true -> hash_map_can_grow = true ->
  (forall schedule,
     exists s,
       run hash_uint64 hash_combine vk_create vkd3d_malloc hash_map_can_grow
         k1 k2 schedule (start w0) = Some s /\
       ((4 <= count_turns T1 schedule)%nat -> (4 <= count_turns T2 schedule)%nat ->
        exists v c k,
          pc1 s = Done (Some v) /\ pc2 s = Done (Some v) /\
          (k = k1 \/ k = k2) /\
          map (shared s) = map w0 ++ [(k, v)] /\
          used_count (shared s) = u32 (used_count w0 + 1) /\
          views w0 !! v = None /\ (v ∉ native w0) /\
          views (shared s)
            = <[v := {| refcount := 1; cookie := c; vk_handle := v |}]> (views w0) /\
          native (shared s) = {[v]} ∪ native w0)) /\
  (forall w v current obj,
     find_in k1 (map w) = Some current -> current <> v ->
     views w !! v = Some obj -> refcount obj = 1 ->
     run_thread hash_uint64 hash_combine vk_create vkd3d_malloc hash_map_can_grow
       2 k1 (Insert v) w
       = Some (Done (Some current),
               {| map := map w; used_count := used_count w;
                  views := delete v (views w);
                  native := native w ∖ {[vk_handle obj]};
                  next := next w; cookies := cookies w |})).
Proof.
  intros Hcmp Hhash Hf1 Hf2 Hc1 Hc2 -> ->.
  destruct (key_test_both_ways k1 k2 Hcmp Hhash) as [Hm12 Hm21].
  destruct (compared_keys_are_known k1 k2 Hcmp) as [Hk1 Hk2].
  split.
  - intros schedule.
    destruct (run_keeps k1 k2 Hm12 Hm21 Hf1 Hf2 Hk1 Hk2 Hc1 Hc2 schedule (start w0)
                (invariant_start k1 k2))
      as (s & Hrun & Hinv & Hr1 & Hr2).
    exists s. split; [exact Hrun |]. intros Ht1 Ht2.
    cbn [start pc1 pc2 rank] in Hr1, Hr2.
    apply (finished_callers k1 k2 s Hinv); lia.
  - intros w v current obj. apply losing_insert.
Qed.

End ViewMapFacts.

Lemma empty_world_well_formed : ViewMap.well_formed ViewMap.empty_world.
Proof.
  split; [| split].
  - intros a [v Hv]. cbn in Hv. rewrite lookup_empty in Hv. discriminate.
  - intros a Ha. cbn in Ha. apply not_elem_of_empty in Ha. contradiction.
  - intros k a H. contradiction.
Qed.

Lemma racing_callers_get_one_view_witness :
  exists s v,
    ViewMap.run Examples.hash_uint64 Examples.hash_combine (fun _ => true) true true
      (ViewKey.VKD3D_VIEW_TYPE_SAMPLER
         (Examples.sampler Api.D3D12_TEXTURE_ADDRESS_MODE_CLAMP Examples.black))
      (ViewKey.VKD3D_VIEW_TYPE_SAMPLER
         (Examples.sampler Api.D3D12_TEXTURE_ADDRESS_MODE_CLAMP Examples.white))
      Examples.racing (ViewMap.start ViewMap.empty_world) = Some s /\
    ViewMap.pc1 s = ViewMap.Done (Some v) /\ ViewMap.pc2 s = ViewMap.Done (Some v) /\
    length (ViewMap.map (ViewMap.shared s)) = 1%nat.
Proof.
  destruct (racing_callers_get_one_view Examples.hash_uint64 Examples.hash_combine
              (fun _ => true)
              ViewMap.empty_world empty_world_well_formed true true
              (ViewKey.VKD3D_VIEW_TYPE_SAMPLER
                 (Examples.sampler Api.D3D12_TEXTURE_ADDRESS_MODE_CLAMP Examples.black))
              (ViewKey.VKD3D_VIEW_TYPE_SAMPLER
                 (Examples.sampler Api.D3D12_TEXTURE_ADDRESS_MODE_CLAMP Examples.white)))
    as [Hall _]; try reflexivity.
  destruct (Hall Examples.racing) as (s & Hrun & Hdone).
  destruct Hdone as (v & c & k & H1 & H2 & _ & Hmap & _); [cbn; lia | cbn; lia |].
  exists s, v. split; [exact Hrun |]. split; [exact H1 |]. split; [exact H2 |].
  rewrite Hmap. reflexivity.
Defined.

(** Keys that compare equal need not hash alike: the comparison takes a
    floating-point field by value, the hash by bit pattern.  Two sampler
    keys that differ in the sign of a zero level-of-detail bias compare
    equal, and yet each of two callers, racing or one after the other, ends
    with a view of its own and the map with two entries. *)
Lemma racing_callers_counterexample :
  ViewKey.vkd3d_view_entry_compare (Examples.biased_key 0) (Examples.biased_key 0x80000000)
    = true /\
  ViewKey.vkd3d_view_entry_compare (Examples.biased_key 0x80000000) (Examples.biased_key 0)
    = true /\
  ViewKey.vkd3d_view_entry_hash Examples.hash_uint64 Examples.hash_combine
    (Examples.biased_key 0) = 4223257814 /\
  ViewKey.vkd3d_view_entry_hash Examples.hash_uint64 Examples.hash_combine
    (Examples.biased_key 0x80000000) = 289000662 /\
  Examples.two_callers (Examples.biased_key 0) (Examples.biased_key 0x80000000)
    Examples.in_turn
    = Some (ViewMap.Done (Some 1), ViewMap.Done (Some 2), 2,
            [(Examples.biased_key 0, 1); (Examples.biased_key 0x80000000, 2)]) /\
  Examples.two_callers (Examples.biased_key 0) (Examples.biased_key 0x80000000)
    Examples.racing
    = Some (ViewMap.Done (Some 1), ViewMap.Done (Some 2), 2,
            [(Examples.biased_key 0, 1); (Examples.biased_key 0x80000000, 2)]).
Proof. repeat split; vm_compute; reflexivity. Qed.

(** The two schedules of the examples, run: taken in turn, the second caller
    finds the first one's view; racing, it creates a view of its own (at
    address 2) and destroys it again. *)
Lemma in_turn_and_racing_runs :
  let k1 := ViewKey.VKD3D_VIEW_TYPE_SAMPLER
              (Examples.sampler Api.D3D12_TEXTURE_ADDRESS_MODE_CLAMP Examples.black) in
  let k2 := ViewKey.VKD3D_VIEW_TYPE_SAMPLER
              (Examples.sampler Api.D3D12_TEXTURE_ADDRESS_MODE_CLAMP Examples.white) in
  let result schedule :=
    match ViewMap.run Examples.hash_uint64 Examples.hash_combine (fun _ => true) true true k1 k2 schedule
            (ViewMap.start ViewMap.empty_world) with
    | Some s => Some (ViewMap.pc1 s, ViewMap.pc2 s, ViewMap.next (ViewMap.shared s),
                      ViewMap.map (ViewMap.shared s))
    | None => None
    end in
  result Examples.in_turn
    = Some (ViewMap.Done (Some 1), ViewMap.Done (Some 1), 2, [(k1, 1)]) /\
  result Examples.racing
    = Some (ViewMap.Done (Some 1), ViewMap.Done (Some 1), 3, [(k1, 1)]).
Proof. split; vm_compute; reflexivity. Qed.

(** ** Descriptor writes *)

Section DescriptorFacts.
Import Machine Api Descriptor.

Ltac run_writes :=
  unfold bind, ret, crash, when, get_slot, set_cookie, set_flags, or_flags,
    set_set_info_mask, or_set_info_mask, set_current_null_type, set_metadata,
    set_info, vkUpdateDescriptorSets, clear_raw_va, write_raw_va, write_buffer_range;
  cbn [slot metadata info heap_offset raw_va_aux_buffer buffer_ranges native_updates
       cookie flags set_info_mask current_null_type].

Lemma null_write_skipped heap ty s :
  is_null (slot s) = true ->
  current_null_type (metadata (slot s)) = null_type heap ty ->
  d3d12_descriptor_heap_write_null_descriptor_template heap ty s = Some (tt, s).
Proof.
  intros Hnull Hty.
  unfold d3d12_descriptor_heap_write_null_descriptor_template, is_null in *.
  run_writes. rewrite Hnull, Hty, Z.eqb_refl. reflexivity.
Qed.

Lemma null_write_issued heap ty s :
  is_null (slot s) = false \/ current_null_type (metadata (slot s)) <> null_type heap ty ->
  exists s',
    d3d12_descriptor_heap_write_null_descriptor_template heap ty s = Some (tt, s') /\
    native_updates s' =
      native_updates s ++
        [null_write (null_type heap ty) (heap_offset (slot s)) <$> template_writes heap] /\
    metadata (slot s') =
      {| cookie := 0; set_info_mask := template_set_info_mask heap; flags := 0;
         current_null_type := null_type heap ty |} /\
    info (slot s') = desc_info_zero /\
    heap_offset (slot s') = heap_offset (slot s) /\
    buffer_ranges s' = buffer_ranges s /\
    raw_va_aux_buffer s' =
      (fun table => <[Z.to_nat (heap_offset (slot s)) := 0]> table) <$> raw_va_aux_buffer s.
Proof.
  intros Hcase.
  unfold d3d12_descriptor_heap_write_null_descriptor_template, is_null in *.
  run_writes.
  assert (negb (has_flag (flags (metadata (slot s))) VKD3D_DESCRIPTOR_FLAG_NON_NULL)
          && (current_null_type (metadata (slot s)) =? null_type heap ty) = false) as ->.
  { destruct Hcase as [H | H].
    - rewrite H. reflexivity.
    - apply Z.eqb_neq in H. rewrite H. apply andb_false_r. }
  destruct (raw_va_aux_buffer s) as [table |] eqn:Eraw;
    run_writes; rewrite ?Eraw; eexists; repeat split; cbn; rewrite ?Eraw; reflexivity.
Qed.

Variable device : d3d12_device.
Variable heap : d3d12_descriptor_heap.

(** C3 (as amended).  The null write works with an effective type: the
    placeholder subtype of the caller on a heap with mutable descriptors,
    the dummy type 0 on a heap without.  On a slot that is null and whose
    recorded null type is the effective type, the write returns with the
    state as it was: no native update.  On any other slot it issues exactly
    one native update, the writes of the heap's null template at the slot's
    offset, and leaves the slot with cookie 0, flags 0, the template's set
    mask, the effective type as its current null type and a zeroed info;
    the slot's entry of the raw address table is cleared where the heap has
    that table. *)
Theorem null_descriptor_write (ty : Z) (s : state) :
  (is_null (slot s) = true ->
   current_null_type (metadata (slot s)) = null_type heap ty ->
   d3d12_descriptor_heap_write_null_descriptor_template heap ty s = Some (tt, s)) /\
  (is_null (slot s) = false \/ current_null_type (metadata (slot s)) <> null_type heap ty ->
   exists s',
     d3d12_descriptor_heap_write_null_descriptor_template heap ty s = Some (tt, s') /\
     native_updates s' =
       native_updates s ++
         [null_write (null_type heap ty) (heap_offset (slot s)) <$> template_writes heap] /\
     metadata (slot s') =
       {| cookie := 0; set_info_mask := template_set_info_mask heap; flags := 0;
          current_null_type := null_type heap ty |} /\
     info (slot s') = desc_info_zero /\
     heap_offset (slot s') = heap_offset (slot s) /\
     buffer_ranges s' = buffer_ranges s /\
     raw_va_aux_buffer s' =
       (fun table => <[Z.to_nat (heap_offset (slot s)) := 0]> table) <$> raw_va_aux_buffer s).
Proof.
  split.
  - apply null_write_skipped.
  - apply null_write_issued.
Qed.

Lemma create_cbv_binds (desc : D3D12_CONSTANT_BUFFER_VIEW_DESC)
    (resource : vkd3d_unique_resource) (s : state) :
  Z.land (SizeInBytes desc) (D3D12_CONSTANT_BUFFER_DATA_PLACEMENT_ALIGNMENT - 1) = 0 ->
  BufferLocation desc <> 0 ->
  vkd3d_va_map_deref device (BufferLocation desc) = Some resource ->
  let b := {| buffer := ur_vk_buffer resource;
              offset := u64 (BufferLocation desc - ur_va resource);
              range := Z.min (SizeInBytes desc)
                         (u64 (ur_size resource
                               - u64 (BufferLocation desc - ur_va resource))) |} in
  let info_index :=
    vkd3d_bindless_state_find_set_info_index device VKD3D_BINDLESS_SET_CBV in
  let w := vkd3d_init_write_descriptor_set heap (slot s)
             (vkd3d_bindless_state_binding_from_info_index device info_index)
             (vkd3d_bindless_state_get_cbv_descriptor_type device) (info_buffer b) in
  d3d12_desc_create_cbv device heap (Some desc) s =
    Some (tt, {| slot := {| heap_offset := heap_offset (slot s);
                            metadata :=
                              {| cookie := ur_cookie resource;
                                 set_info_mask := u32 (Z.shiftl 1 info_index);
                                 flags := Z.lor VKD3D_DESCRIPTOR_FLAG_OFFSET_RANGE
                                            VKD3D_DESCRIPTOR_FLAG_NON_NULL;
                                 current_null_type := current_null_type (metadata (slot s)) |};
                            info := desc_info_buffer b |};
                 raw_va_aux_buffer := raw_va_aux_buffer s;
                 buffer_ranges := buffer_ranges s;
                 native_updates := native_updates s ++ [[w]] |}).
Proof.
  intros Hsize Hloc Hres b info_index w.
  unfold d3d12_desc_create_cbv.
  rewrite Hsize, Hres. apply Z.eqb_neq in Hloc. rewrite Hloc.
  reflexivity.
Qed.

(** C4 (as amended).  [d3d12_desc_create_cbv] compares no cookie.  Binding a
    slot to a non-null location with a size that is a multiple of 256 and
    that the address map resolves issues one native update of one write and
    records the cookie of the owning resource; binding the same slot to the
    same location and size again issues one more native update with the same
    write, and leaves the slot and the side tables of the heap as the first
    call left them. *)
Theorem rebound_cbv_is_written_again (desc : D3D12_CONSTANT_BUFFER_VIEW_DESC)
    (resource : vkd3d_unique_resource) (s : state) :
  Z.land (SizeInBytes desc) (D3D12_CONSTANT_BUFFER_DATA_PLACEMENT_ALIGNMENT - 1) = 0 ->
  BufferLocation desc <> 0 ->
  vkd3d_va_map_deref device (BufferLocation desc) = Some resource ->
  exists s1 s2 w,
    d3d12_desc_create_cbv device heap (Some desc) s = Some (tt, s1) /\
    d3d12_desc_create_cbv device heap (Some desc) s1 = Some (tt, s2) /\
    native_updates s1 = native_updates s ++ [[w]] /\
    native_updates s2 = native_updates s1 ++ [[w]] /\
    cookie (metadata (slot s1)) = ur_cookie resource /\
    descriptorType w = vkd3d_bindless_state_get_cbv_descriptor_type device /\
    dstArrayElement w = heap_offset (slot s) /\
    slot s2 = slot s1 /\
    raw_va_aux_buffer s2 = raw_va_aux_buffer s /\
    buffer_ranges s2 = buffer_ranges s.
Proof.
  intros Hsize Hloc Hres.
  pose proof (create_cbv_binds desc resource s Hsize Hloc Hres) as H1.
  cbv zeta in H1.
  eexists. eexists. eexists.
  split; [exact H1 |].
  split; [rewrite (create_cbv_binds desc resource _ Hsize Hloc Hres); reflexivity |].
  cbn. repeat split; reflexivity.
Qed.

(** C5 (as amended).  A call that ends at a return of the error paths (see
    [rejected]) returns with the state as it found it: no native update is
    issued, and the slot, its metadata and the side tables of the heap are
    what they were before the call.  The slot is not reset: a slot that was
    bound stays bound, a slot that was null stays null. *)
Theorem rejected_operation_changes_nothing (op : operation) (s : state) :
  rejected device op = true ->
  perform device heap op s = Some (tt, s).
Proof.
  intros Hrej. destruct op as [ty | [desc |] | resource [desc |] | [resource |] desc];
    cbn [rejected perform] in *; try discriminate Hrej; try reflexivity.
  - unfold d3d12_desc_create_cbv. rewrite Hrej. reflexivity.
  - unfold vkd3d_create_buffer_srv.
    destruct (srv_ViewDimension desc =? D3D12_SRV_DIMENSION_RAYTRACING_ACCELERATION_STRUCTURE).
    + apply andb_true_iff in Hrej as [Hloc Hrt].
      apply negb_true_iff in Hloc, Hrt. rewrite Hloc, Hrt. reflexivity.
    + rewrite Hrej. reflexivity.
  - unfold vkd3d_create_texture_uav.
    destruct (init_default_texture_view_desc device resource _) as [[format k] |];
      [| reflexivity].
    destruct (vkd3d_format_is_compressed device format); [reflexivity |].
    cbn [orb] in Hrej.
    destruct (match desc with
              | Some desc0 => texture_uav_key resource k desc0
              | None => Some k
              end) as [k' |]; [| discriminate Hrej].
    destruct (vkd3d_view_map_create_view device resource _); [discriminate Hrej |].
    reflexivity.
Qed.

Lemma null_write_keeps_discipline ty s s' :
  cookie_discipline (slot s) ->
  d3d12_descriptor_heap_write_null_descriptor_template heap ty s = Some (tt, s') ->
  cookie_discipline (slot s').
Proof.
  intros Hs Hrun.
  destruct (is_null (slot s)) eqn:Hnull;
    [destruct (Z.eq_dec (current_null_type (metadata (slot s))) (null_type heap ty)) as [Hty | Hty] |].
  - rewrite (null_write_skipped heap ty s Hnull Hty) in Hrun.
    injection Hrun as <-. exact Hs.
  - destruct (null_write_issued heap ty s (or_intror Hty)) as (s1 & Hrun1 & _ & Hmeta & _).
    rewrite Hrun1 in Hrun. injection Hrun as <-.
    unfold cookie_discipline, is_bound. rewrite Hmeta. reflexivity.
  - destruct (null_write_issued heap ty s (or_introl Hnull)) as (s1 & Hrun1 & _ & Hmeta & _).
    rewrite Hrun1 in Hrun. injection Hrun as <-.
    unfold cookie_discipline, is_bound. rewrite Hmeta. reflexivity.
Qed.

Lemma buffer_srv_ssbo_slot resource desc s writes s' :
  buffer_srv_ssbo device heap resource desc s = Some (writes, s') ->
  cookie (metadata (slot s')) = Resource.res_cookie resource.
Proof.
  unfold buffer_srv_ssbo.
  destruct (if srv_Format desc =? DXGI_FORMAT_UNKNOWN then _ else _) as [stride |];
    [| discriminate].
  run_writes. destruct (ssbo_offset_buffer device); intros [= _ <-]; reflexivity.
Qed.

Lemma bind_Some {A B} (m : M A) (k : A -> M B) s r :
  bind m k s = Some r -> exists x s1, m s = Some (x, s1) /\ k x s1 = Some r.
Proof.
  unfold bind. destruct (m s) as [[x s1] |]; [| discriminate].
  intros H. exists x, s1. split; [reflexivity | exact H].
Qed.

Lemma aligned_view_is_cached resource fmt fl first num stride range0 range1 view :
  vkd3d_buffer_view_get_aligned_view device resource fmt fl first num stride range0
    = Some (Some (range1, view)) ->
  exists r k, vkd3d_view_map_create_view device r k = Some view.
Proof.
  unfold vkd3d_buffer_view_get_aligned_view.
  destruct (if typed_offset_buffer device then _ else _) as [[[[f n] st] br] |];
    [| discriminate].
  destruct (vkd3d_create_buffer_view_for_resource device resource fmt f n st fl)
    as [[v |] |] eqn:Hview; try discriminate.
  intros [= _ <-].
  unfold vkd3d_create_buffer_view_for_resource in Hview.
  destruct (if (fmt =? DXGI_FORMAT_R32_TYPELESS) && _ then _ else _)
    as [[[p e] |] |]; try discriminate.
  destruct (negb _); [discriminate |].
  injection Hview as Hview. eauto.
Qed.

Lemma cookie_discipline_kept op s s' :
  Forall (fun c => c <> 0) (operation_cookies device op) ->
  (forall r k v, vkd3d_view_map_create_view device r k = Some v -> ViewMap.cookie v <> 0) ->
  cookie_discipline (slot s) ->
  perform device heap op s = Some (tt, s') ->
  cookie_discipline (slot s').
Proof.
  intros Hcookies Hviews Hs Hrun.
  destruct op as [ty | [desc |] | resource [desc |] | [resource |] desc];
    cbn [perform operation_cookies] in *.
  - eapply null_write_keeps_discipline; eassumption.
  - unfold d3d12_desc_create_cbv in Hrun.
    destruct (negb _) in Hrun; [injection Hrun as <-; exact Hs |].
    destruct (BufferLocation desc =? 0);
      [eapply null_write_keeps_discipline; eassumption |].
    destruct (vkd3d_va_map_deref device (BufferLocation desc)) as [r |]; [| discriminate Hrun].
    inversion Hcookies as [| c l Hc _]; subst.
    revert Hrun. run_writes. intros [= <-]. intros Hzero. cbn in Hzero. contradiction.
  - injection Hrun as <-. exact Hs.
  - unfold vkd3d_create_buffer_srv in Hrun.
    destruct (srv_ViewDimension desc =? D3D12_SRV_DIMENSION_RAYTRACING_ACCELERATION_STRUCTURE).
    { destruct (Location desc =? 0);
        [eapply null_write_keeps_discipline; eassumption |].
      destruct (d3d12_device_supports_ray_tracing_tier_1_0 device);
        [| injection Hrun as <-; exact Hs].
      revert Hrun. run_writes.
      destruct (raw_va_aux_buffer s); [| discriminate].
      intros [= <-]. intros _. reflexivity. }
    destruct (negb _) in Hrun; [injection Hrun as <-; exact Hs |].
    destruct resource as [resource |];
      [| eapply null_write_keeps_discipline; eassumption].
    inversion Hcookies as [| c l Hc _]; subst.
    apply bind_Some in Hrun as (? & s1 & H1 & Hrun). injection H1 as _ <-.
    apply bind_Some in Hrun as (? & s2 & H2 & Hrun). injection H2 as _ <-.
    apply bind_Some in Hrun as (ssbo & s3 & H3 & Hrun).
    destruct (vkd3d_buffer_view_get_aligned_view device resource _ _ _ _ _ _)
      as [[[range1 view] |] |] eqn:Hview; [| | discriminate Hrun].
    + apply aligned_view_is_cached in Hview as (r & k & Hview).
      apply Hviews in Hview.
      revert Hrun. run_writes.
      destruct (typed_offset_buffer device); run_writes;
        destruct (has_flag _ VKD3D_DESCRIPTOR_FLAG_BUFFER_OFFSET); run_writes;
        intros [= <-]; intros Hzero; cbn in Hzero; contradiction.
    + injection Hrun as <-.
      destruct (d3d12_device_use_ssbo_raw_buffer device).
      * apply buffer_srv_ssbo_slot in H3.
        intros Hzero. rewrite H3 in Hzero. contradiction.
      * injection H3 as _ <-. intros _. reflexivity.
  - injection Hrun as <-. exact Hs.
  - unfold vkd3d_create_texture_uav in Hrun.
    destruct (init_default_texture_view_desc device resource _) as [[format k] |];
      [| injection Hrun as <-; exact Hs].
    destruct (vkd3d_format_is_compressed device format);
      [injection Hrun as <-; exact Hs |].
    destruct (match desc with
              | Some desc0 => texture_uav_key resource k desc0
              | None => Some k
              end) as [k' |]; [| discriminate Hrun].
    destruct (vkd3d_view_map_create_view device resource _) as [view |] eqn:Hview;
      [| injection Hrun as <-; exact Hs].
    apply Hviews in Hview.
    revert Hrun. run_writes. intros [= <-]. intros Hzero. cbn in Hzero. contradiction.
  - unfold vkd3d_create_texture_uav in Hrun.
    eapply null_write_keeps_discipline; eassumption.
Qed.

End DescriptorFacts.

Lemma null_descriptor_write_witness :
  exists s',
    Descriptor.d3d12_descriptor_heap_write_null_descriptor_template Examples.mutable_heap
      Api.VK_DESCRIPTOR_TYPE_STORAGE_IMAGE (Examples.slot2 Examples.mutable_heap)
      = Some (tt, s') /\
    length (Descriptor.native_updates s') = 1%nat /\
    Descriptor.current_null_type (Descriptor.metadata (Descriptor.slot s'))
      = Api.VK_DESCRIPTOR_TYPE_STORAGE_IMAGE.
Proof.
  destruct (null_descriptor_write Examples.mutable_heap Api.VK_DESCRIPTOR_TYPE_STORAGE_IMAGE
              (Examples.slot2 Examples.mutable_heap)) as [_ Hissued].
  destruct Hissued as (s' & Hrun & Hupdates & Hmeta & _).
  - right. vm_compute. discriminate.
  - exists s'. split; [exact Hrun |]. split.
    + rewrite Hupdates. reflexivity.
    + rewrite Hmeta. reflexivity.
Defined.

(** On a heap without mutable descriptors a slot that was bound is nulled
    with the placeholder of a sampled image: the type recorded is 0.  A
    null write with the placeholder of a storage image, a different one,
    then issues no native update and records nothing. *)
Lemma null_descriptor_write_counterexample :
  exists s1 s2 s3,
    Descriptor.exec (Descriptor.d3d12_desc_create_cbv Examples.bindless Examples.plain_heap
                       (Some (Examples.cbv 0x10100 256)))
      (Examples.slot2 Examples.plain_heap) = Some s1 /\
    Descriptor.exec (Descriptor.d3d12_descriptor_heap_write_null_descriptor_template
                       Examples.plain_heap Api.VK_DESCRIPTOR_TYPE_SAMPLED_IMAGE) s1
      = Some s2 /\
    Descriptor.exec (Descriptor.d3d12_descriptor_heap_write_null_descriptor_template
                       Examples.plain_heap Api.VK_DESCRIPTOR_TYPE_STORAGE_IMAGE) s2
      = Some s3 /\
    Descriptor.is_null (Descriptor.slot s2) = true /\
    Descriptor.current_null_type (Descriptor.metadata (Descriptor.slot s2)) = 0 /\
    Descriptor.native_updates s3 = Descriptor.native_updates s2 /\
    Descriptor.current_null_type (Descriptor.metadata (Descriptor.slot s3))
      <> Api.VK_DESCRIPTOR_TYPE_STORAGE_IMAGE.
Proof.
  do 3 eexists.
  split; [vm_compute; reflexivity |].
  split; [vm_compute; reflexivity |].
  split; [vm_compute; reflexivity |].
  repeat split; vm_compute; congruence.
Qed.

Lemma rebound_cbv_is_written_again_witness :
  exists s1 s2,
    Descriptor.d3d12_desc_create_cbv Examples.bindless Examples.mutable_heap
      (Some (Examples.cbv 0x10100 256)) (Examples.slot2 Examples.mutable_heap)
      = Some (tt, s1) /\
    Descriptor.d3d12_desc_create_cbv Examples.bindless Examples.mutable_heap
      (Some (Examples.cbv 0x10100 256)) s1 = Some (tt, s2) /\
    length (Descriptor.native_updates s1) = 1%nat /\
    length (Descriptor.native_updates s2) = 2%nat /\
    Descriptor.slot s2 = Descriptor.slot s1.
Proof.
  destruct (rebound_cbv_is_written_again Examples.bindless Examples.mutable_heap
              (Examples.cbv 0x10100 256) Examples.constants
              (Examples.slot2 Examples.mutable_heap))
    as (s1 & s2 & w & H1 & H2 & Hu1 & Hu2 & _ & _ & _ & Hslot & _).
  - reflexivity.
  - discriminate.
  - reflexivity.
  - exists s1, s2. split; [exact H1 |]. split; [exact H2 |].
    split; [rewrite Hu1; reflexivity |].
    split; [rewrite Hu2, Hu1; reflexivity |]. exact Hslot.
Defined.

(** The slot holds the cookie of the resource and no raw address when the
    same location and size are bound again: the second call still issues a
    native update. *)
Lemma rebound_cbv_counterexample :
  exists s1 s2,
    Descriptor.exec (Descriptor.d3d12_desc_create_cbv Examples.bindless Examples.mutable_heap
                       (Some (Examples.cbv 0x10100 256)))
      (Examples.slot2 Examples.mutable_heap) = Some s1 /\
    Descriptor.exec (Descriptor.d3d12_desc_create_cbv Examples.bindless Examples.mutable_heap
                       (Some (Examples.cbv 0x10100 256))) s1 = Some s2 /\
    Descriptor.cookie (Descriptor.metadata (Descriptor.slot s1))
      = Descriptor.ur_cookie Examples.constants /\
    Api.has_flag (Descriptor.flags (Descriptor.metadata (Descriptor.slot s1)))
      Descriptor.VKD3D_DESCRIPTOR_FLAG_RAW_VA_AUX_BUFFER = false /\
    length (Descriptor.native_updates s1) = 1%nat /\
    length (Descriptor.native_updates s2) = 2%nat.
Proof.
  do 2 eexists.
  split; [vm_compute; reflexivity |].
  split; [vm_compute; reflexivity |].
  repeat split; vm_compute; reflexivity.
Qed.

Lemma rejected_operation_changes_nothing_witness :
  let compressed :=
    Descriptor.create_texture_uav (Some (Examples.texture_resource 1 1 0))
      (Some (Examples.texture_uav 71 Descriptor.D3D12_UAV_DIMENSION_TEXTURE2D)) in
  Descriptor.rejected Examples.bindless compressed = true /\
  Descriptor.perform Examples.bindless Examples.mutable_heap compressed
    (Examples.slot2 Examples.mutable_heap)
  = Some (tt, Examples.slot2 Examples.mutable_heap).
Proof.
  split; [reflexivity |].
  apply rejected_operation_changes_nothing. reflexivity.
Defined.

(** A slot bound to a constant buffer is handed a size that is no multiple
    of 256, then a texture view of a compressed format: both calls are
    turned down, and the slot is not in the null state afterwards; it still
    holds the constant buffer. *)
Lemma rejected_operation_counterexample :
  let misaligned := Descriptor.create_cbv (Some (Examples.cbv 0x10100 100)) in
  let compressed :=
    Descriptor.create_texture_uav (Some (Examples.texture_resource 1 1 0))
      (Some (Examples.texture_uav 71 Descriptor.D3D12_UAV_DIMENSION_TEXTURE2D)) in
  exists s1 s2 s3,
    Descriptor.exec (Descriptor.d3d12_desc_create_cbv Examples.bindless Examples.mutable_heap
                       (Some (Examples.cbv 0x10100 256)))
      (Examples.slot2 Examples.mutable_heap) = Some s1 /\
    Descriptor.rejected Examples.bindless misaligned = true /\
    Descriptor.exec (Descriptor.perform Examples.bindless Examples.mutable_heap misaligned) s1
      = Some s2 /\
    Descriptor.rejected Examples.bindless compressed = true /\
    Descriptor.exec (Descriptor.perform Examples.bindless Examples.mutable_heap compressed) s2
      = Some s3 /\
    Descriptor.is_null (Descriptor.slot s2) = false /\
    Descriptor.is_null (Descriptor.slot s3) = false /\
    Descriptor.cookie (Descriptor.metadata (Descriptor.slot s3))
      = Descriptor.ur_cookie Examples.constants.
Proof.
  do 3 eexists.
  split; [vm_compute; reflexivity |].
  split; [reflexivity |].
  split; [vm_compute; reflexivity |].
  split; [reflexivity |].
  split; [vm_compute; reflexivity |].
  repeat split; vm_compute; reflexivity.
Qed.

(** A view dimension that the [switch] of a texture view does not know is
    reported and nothing more: the view is created from the default key and
    the slot is bound. *)
Lemma texture_uav_of_unknown_dimension_is_bound :
  exists s',
    Descriptor.exec (Descriptor.vkd3d_create_texture_uav Examples.bindless
                       Examples.mutable_heap (Some (Examples.texture_resource 1 1 0))
                       (Some (Examples.texture_uav 28 77)))
      (Examples.slot2 Examples.mutable_heap) = Some s' /\
    Descriptor.rejected Examples.bindless
      (Descriptor.create_texture_uav (Some (Examples.texture_resource 1 1 0))
         (Some (Examples.texture_uav 28 77))) = false /\
    Descriptor.is_null (Descriptor.slot s') = false /\
    Descriptor.cookie (Descriptor.metadata (Descriptor.slot s'))
      = ViewMap.cookie Examples.cached_view /\
    length (Descriptor.native_updates s') = 1%nat.
Proof.
  eexists. split; [vm_compute; reflexivity |].
  repeat split; vm_compute; reflexivity.
Qed.

(** A buffer view whose typed half gets no view from the cache returns after
    the raw half has rewritten the metadata: the slot then names the
    resource, with an offset and range, though no native update was
    issued. *)
Lemma buffer_view_failure_keeps_metadata :
  exists s',
    Descriptor.exec (Descriptor.vkd3d_create_buffer_srv Examples.bindless_without_views
                       Examples.mutable_heap (Some (Examples.reserved_buffer 65536))
                       (Some (Examples.buffer_srv Api.D3D12_SRV_DIMENSION_BUFFER)))
      (Examples.slot2 Examples.mutable_heap) = Some s' /\
    Descriptor.native_updates s' = [] /\
    Descriptor.is_null (Descriptor.slot s') = false /\
    Descriptor.is_bound (Descriptor.slot s') = true /\
    Descriptor.cookie (Descriptor.metadata (Descriptor.slot s'))
      = Resource.res_cookie (Examples.reserved_buffer 65536).
Proof.
  eexists. split; [vm_compute; reflexivity |].
  repeat split; vm_compute; reflexivity.
Qed.

(** ** Cookies *)

Lemma resource_create_cookie dev g fl d hp hf st clr hr object g' log :
  Resource.d3d12_resource_create dev g fl d hp hf st clr = (hr, Some object, g', log) ->
  Resource.res_cookie object = fst (Cookie.vkd3d_allocate_cookie g) /\
  g' = snd (Cookie.vkd3d_allocate_cookie g).
Proof.
  unfold Resource.d3d12_resource_create.
  destruct (Api.FAILED (Resource.d3d12_resource_validate_create_info dev d hp st clr));
    [discriminate |].
  destruct (negb (Resource.vkd3d_malloc_object dev)); [discriminate |].
  destruct (Api.FAILED (Resource.vkd3d_private_store_init dev)); [discriminate |].
  destruct (Cookie.vkd3d_allocate_cookie g) as [c g1].
  intros [= _ <- <- _]. split; reflexivity.
Qed.

Lemma view_create_cookie handle w :
  ViewMap.cookie <$> (ViewMap.views (snd (ViewMap.vkd3d_view_create handle w))
                        !! fst (ViewMap.vkd3d_view_create handle w))
  = Some (fst (Cookie.vkd3d_allocate_cookie (ViewMap.cookies w))).
Proof.
  unfold ViewMap.vkd3d_view_create.
  destruct (Cookie.vkd3d_allocate_cookie (ViewMap.cookies w)) as [c g].
  cbn. rewrite lookup_insert_eq. reflexivity.
Qed.

Lemma allocate_cookie_in_range g :
  0 <= Cookie.global_cookie_counter g < 2 ^ 63 - 1 ->
  fst (Cookie.vkd3d_allocate_cookie g) = Cookie.global_cookie_counter g + 1 /\
  Cookie.global_cookie_counter (snd (Cookie.vkd3d_allocate_cookie g))
    = Cookie.global_cookie_counter g + 1.
Proof.
  intros Hg. cbn. unfold Cookie.InterlockedIncrement64.
  rewrite s64_small by lia. split; reflexivity.
Qed.

(** C10 (as amended).  The counter is a signed 64-bit integer that starts at
    0.  As long as fewer than 2^63 cookies have been handed out, call number
    [n] of [vkd3d_allocate_cookie] returns [n]: the values start at 1,
    increase strictly and are not 0.  Within that range a resource that
    [d3d12_resource_create] returns and a view that [vkd3d_view_create]
    makes carry the value the allocator returned, which is not 0.  A slot of
    a new heap has cookie 0 and is bound to nothing, and the null write and
    the creation of a constant buffer view, a buffer view and a texture view
    keep this: when the resources and views they meet have cookies other
    than 0, a slot with cookie 0 holds neither a view nor an offset and
    range afterwards. *)
Theorem cookie_zero_means_unbound :
  (forall n : N, (0 < n)%N -> Z.of_N n < 2 ^ 63 ->
     Cookie.nth_cookie n = Z.of_N n /\
     Cookie.nth_cookie n <> 0 /\
     forall m : N, (0 < m < n)%N -> Cookie.nth_cookie m < Cookie.nth_cookie n) /\
  (forall dev g fl d hp hf st clr hr object g' log,
     0 <= Cookie.global_cookie_counter g < 2 ^ 63 - 1 ->
     Resource.d3d12_resource_create dev g fl d hp hf st clr = (hr, Some object, g', log) ->
     Resource.res_cookie object = Cookie.global_cookie_counter g + 1 /\
     Resource.res_cookie object <> 0 /\
     Cookie.global_cookie_counter g' = Cookie.global_cookie_counter g + 1) /\
  (forall handle w,
     0 <= Cookie.global_cookie_counter (ViewMap.cookies w) < 2 ^ 63 - 1 ->
     exists view,
       ViewMap.views (snd (ViewMap.vkd3d_view_create handle w))
         !! fst (ViewMap.vkd3d_view_create handle w) = Some view /\
       ViewMap.cookie view = Cookie.global_cookie_counter (ViewMap.cookies w) + 1 /\
       ViewMap.cookie view <> 0) /\
  (forall heap index, Descriptor.cookie_discipline (Descriptor.initial_slot heap index)) /\
  (forall device heap op s s',
     Forall (fun c => c <> 0) (Descriptor.operation_cookies device op) ->
     (forall r k v, Descriptor.vkd3d_view_map_create_view device r k = Some v ->
                    ViewMap.cookie v <> 0) ->
     Descriptor.cookie_discipline (Descriptor.slot s) ->
     Descriptor.perform device heap op s = Some (tt, s') ->
     Descriptor.cookie_discipline (Descriptor.slot s')).
Proof.
  split; [| split; [| split; [| split]]].
  - intros n Hn Hb. rewrite nth_cookie_in_range by assumption.
    split; [reflexivity |]. split; [lia |].
    intros m Hm. rewrite nth_cookie_in_range by lia. lia.
  - intros dev g fl d hp hf st clr hr object g' log Hg Hcreate.
    apply resource_create_cookie in Hcreate as [Hc ->].
    destruct (allocate_cookie_in_range g Hg) as [H1 H2].
    rewrite Hc, H1, H2. split; [reflexivity |]. split; [lia | reflexivity].
  - intros handle w Hg.
    pose proof (view_create_cookie handle w) as Hview.
    destruct (ViewMap.views (snd (ViewMap.vkd3d_view_create handle w))
                !! fst (ViewMap.vkd3d_view_create handle w)) as [view |];
      [| discriminate Hview].
    injection Hview as Hview.
    destruct (allocate_cookie_in_range (ViewMap.cookies w) Hg) as [H1 _].
    change (Cookie.InterlockedIncrement64 _)
      with (fst (Cookie.vkd3d_allocate_cookie (ViewMap.cookies w))) in Hview.
    exists view. split; [reflexivity |]. rewrite Hview, H1. split; [reflexivity | lia].
  - intros heap index _. reflexivity.
  - intros device heap op s s'. apply cookie_discipline_kept.
Qed.

Lemma cookie_zero_means_unbound_witness :
  Cookie.nth_cookie 3 = 3 /\
  (exists s',
     Descriptor.perform Examples.bindless Examples.mutable_heap
       (Descriptor.create_cbv (Some (Examples.cbv 0x10100 256)))
       (Examples.slot2 Examples.mutable_heap) = Some (tt, s') /\
     Descriptor.cookie_discipline (Descriptor.slot s')).
Proof.
  destruct cookie_zero_means_unbound as (Hnth & _ & _ & Hinitial & Hkept).
  split.
  - apply (Hnth 3%N); [reflexivity | reflexivity].
  - eexists. split; [vm_compute; reflexivity |].
    eapply (Hkept Examples.bindless Examples.mutable_heap
              (Descriptor.create_cbv (Some (Examples.cbv 0x10100 256)))
              (Examples.slot2 Examples.mutable_heap)).
    + repeat constructor. discriminate.
    + intros r k v [= <-]. discriminate.
    + apply Hinitial.
    + vm_compute. reflexivity.
Defined.

(** Call number 2^63 returns the least 64-bit integer, less than what the
    call before it returned, and call number 2^64 returns 0. *)
Lemma cookie_zero_means_unbound_counterexample :
  Cookie.nth_cookie (2 ^ 63) = - 2 ^ 63 /\
  Cookie.nth_cookie (2 ^ 63) < Cookie.nth_cookie (2 ^ 63 - 1) /\
  Cookie.nth_cookie (2 ^ 64) = 0.
Proof.
  rewrite !nth_cookie_closed by reflexivity.
  repeat split; vm_compute; reflexivity.
Qed.

(** * Further properties of the code *)

(** ** Masks of powers of two *)

Section MaskFacts.
Import Machine.

(** [x & ~(2^k - 1)] in 64 bits: the multiple of [2^k] at or below [x]. *)
Lemma align_down_pow2 x k : 0 <= k < 64 -> in_u64 x ->
  Z.land x (u64 (Z.lnot (u64 (2 ^ k - 1)))) = 2 ^ k * (x / 2 ^ k).
Proof.
  intros Hk Hx.
  assert (Hp : 0 < 2 ^ k) by (apply Z.pow_pos_nonneg; lia).
  assert (Hle : 2 ^ k < 2 ^ 64) by (apply Z.pow_lt_mono_r; lia).
  rewrite (u64_small (2 ^ k - 1)) by (unfold in_u64; lia).
  rewrite lnot_pow2_mask by exact Hk.
  apply land_high_mask; assumption.
Qed.

Lemma align_down_bounds x k : 0 <= k -> 0 <= x ->
  2 ^ k * (x / 2 ^ k) <= x < 2 ^ k * (x / 2 ^ k) + 2 ^ k.
Proof.
  intros Hk Hx.
  assert (Hp : 0 < 2 ^ k) by (apply Z.pow_pos_nonneg; lia).
  pose proof (Z.div_mod x (2 ^ k) ltac:(lia)) as Hdm.
  pose proof (Z.mod_pos_bound x (2 ^ k) Hp) as Hm.
  lia.
Qed.

(** [(x + 2^k - 1) & ~(2^k - 1)]: the multiple of [2^k] at or above [x]. *)
Lemma align_up_bounds x k : 0 <= k -> 0 <= x ->
  x <= 2 ^ k * ((x + 2 ^ k - 1) / 2 ^ k) < x + 2 ^ k.
Proof.
  intros Hk Hx.
  assert (Hp : 0 < 2 ^ k) by (apply Z.pow_pos_nonneg; lia).
  pose proof (align_down_bounds (x + 2 ^ k - 1) k Hk ltac:(lia)) as H.
  lia.
Qed.

End MaskFacts.

(** ** Descriptor writes, continued *)

Section DescriptorMore.
Import Machine Api Descriptor.

Ltac run_writes :=
  unfold bind, ret, crash, when, get_slot, set_cookie, set_flags, or_flags,
    set_set_info_mask, or_set_info_mask, set_current_null_type, set_metadata,
    set_info, vkUpdateDescriptorSets, clear_raw_va, write_raw_va, write_buffer_range;
  cbn [slot metadata info heap_offset raw_va_aux_buffer buffer_ranges native_updates
       cookie flags set_info_mask current_null_type].

Variable device : d3d12_device.
Variable heap : d3d12_descriptor_heap.

(** X1.  The null write is idempotent: whatever the slot held, a second
    null write with the same placeholder type right after the first returns
    with the state as the first one left it and issues no native update;
    and the first one issues at most one. *)
Theorem null_write_is_idempotent (ty : Z) (s : state) :
  exists s1,
    d3d12_descriptor_heap_write_null_descriptor_template heap ty s = Some (tt, s1) /\
    d3d12_descriptor_heap_write_null_descriptor_template heap ty s1 = Some (tt, s1) /\
    is_null (slot s1) = true /\
    (length (native_updates s1) <= length (native_updates s) + 1)%nat.
Proof.
  destruct (is_null (slot s)) eqn:Hnull;
    [destruct (Z.eq_dec (current_null_type (metadata (slot s))) (null_type heap ty))
       as [Hty | Hty] |].
  - exists s. rewrite (null_write_skipped heap ty s Hnull Hty).
    repeat split; [exact Hnull | lia].
  - destruct (null_write_issued heap ty s (or_intror Hty))
      as (s1 & Hrun & Hupd & Hmeta & _).
    exists s1. split; [exact Hrun |].
    assert (Hn1 : is_null (slot s1) = true) by (unfold is_null; rewrite Hmeta; reflexivity).
    split; [| split; [exact Hn1 |]].
    + apply null_write_skipped; [exact Hn1 | rewrite Hmeta; reflexivity].
    + rewrite Hupd, length_app. cbn. lia.
  - destruct (null_write_issued heap ty s (or_introl Hnull))
      as (s1 & Hrun & Hupd & Hmeta & _).
    exists s1. split; [exact Hrun |].
    assert (Hn1 : is_null (slot s1) = true) by (unfold is_null; rewrite Hmeta; reflexivity).
    split; [| split; [exact Hn1 |]].
    + apply null_write_skipped; [exact Hn1 | rewrite Hmeta; reflexivity].
    + rewrite Hupd, length_app. cbn. lia.
Qed.

(** X2.  A constant buffer view of a location inside the buffer the address
    map resolves it to never reaches past the end of that buffer: the range
    bound starts at the location's offset in the buffer, is no longer than
    the size asked for, and ends at or before the end of the buffer.  The
    native write carries that same range. *)
Theorem cbv_range_stays_in_buffer (desc : D3D12_CONSTANT_BUFFER_VIEW_DESC)
    (resource : vkd3d_unique_resource) (s : state) :
  Z.land (SizeInBytes desc) (D3D12_CONSTANT_BUFFER_DATA_PLACEMENT_ALIGNMENT - 1) = 0 ->
  0 <= SizeInBytes desc ->
  BufferLocation desc <> 0 ->
  vkd3d_va_map_deref device (BufferLocation desc) = Some resource ->
  0 <= ur_va resource ->
  ur_va resource <= BufferLocation desc < ur_va resource + ur_size resource ->
  ur_va resource + ur_size resource <= 2 ^ 64 ->
  exists s' b w,
    d3d12_desc_create_cbv device heap (Some desc) s = Some (tt, s') /\
    info (slot s') = desc_info_buffer b /\
    native_updates s' = native_updates s ++ [[w]] /\
    payload w = Some (info_buffer b) /\
    buffer b = ur_vk_buffer resource /\
    offset b = BufferLocation desc - ur_va resource /\
    range b = Z.min (SizeInBytes desc) (ur_size resource - offset b) /\
    0 <= range b <= SizeInBytes desc /\
    offset b + range b <= ur_size resource.
Proof.
  intros Hsize Hnn Hloc Hres Hva Hin Hfit.
  rewrite (create_cbv_binds device heap desc resource s Hsize Hloc Hres).
  assert (H64 : 2 ^ 64 = 18446744073709551616) by reflexivity.
  assert (Hoff : u64 (BufferLocation desc - ur_va resource)
                 = BufferLocation desc - ur_va resource).
  { apply u64_small. unfold in_u64. lia. }
  assert (Hrest : u64 (ur_size resource - (BufferLocation desc - ur_va resource))
                  = ur_size resource - (BufferLocation desc - ur_va resource)).
  { apply u64_small. unfold in_u64. lia. }
  eexists. eexists. eexists. split; [reflexivity |].
  cbn [slot info native_updates payload vkd3d_init_write_descriptor_set buffer offset range].
  rewrite !Hoff, Hrest.
  repeat split; try reflexivity; cbn [buffer offset range]; lia.
Qed.

(** X3.  A shader resource view of an acceleration structure is a bare
    address: on a device with ray tracing, creating one at a non-null
    location stores the location in the slot's entry of the raw address
    table, issues no native update and leaves the slot with cookie 0, no set
    written and the flags RAW_VA_AUX_BUFFER and NON_NULL.  A null write to
    that slot then puts the entry of the table back to 0 with one native
    update. *)
Theorem acceleration_structure_srv_round_trip
    (resource : option Resource.d3d12_resource)
    (desc : D3D12_SHADER_RESOURCE_VIEW_DESC) (ty : Z) (s : state) (table : list Z) :
  srv_ViewDimension desc = D3D12_SRV_DIMENSION_RAYTRACING_ACCELERATION_STRUCTURE ->
  Location desc <> 0 ->
  d3d12_device_supports_ray_tracing_tier_1_0 device = true ->
  raw_va_aux_buffer s = Some table ->
  (Z.to_nat (heap_offset (slot s)) < length table)%nat ->
  exists s1 s2,
    vkd3d_create_buffer_srv device heap resource (Some desc) s = Some (tt, s1) /\
    native_updates s1 = native_updates s /\
    raw_va_aux_buffer s1 = Some (<[Z.to_nat (heap_offset (slot s)) := Location desc]> table) /\
    (<[Z.to_nat (heap_offset (slot s)) := Location desc]> table)
      !! Z.to_nat (heap_offset (slot s)) = Some (Location desc) /\
    cookie (metadata (slot s1)) = 0 /\
    set_info_mask (metadata (slot s1)) = 0 /\
    flags (metadata (slot s1))
      = Z.lor VKD3D_DESCRIPTOR_FLAG_RAW_VA_AUX_BUFFER VKD3D_DESCRIPTOR_FLAG_NON_NULL /\
    info (slot s1) = info (slot s) /\
    d3d12_descriptor_heap_write_null_descriptor_template heap ty s1 = Some (tt, s2) /\
    raw_va_aux_buffer s2 = Some (<[Z.to_nat (heap_offset (slot s)) := 0]> table) /\
    length (native_updates s2) = S (length (native_updates s)) /\
    is_null (slot s2) = true.
Proof.
  intros Hdim Hloc Hrt Hraw Hidx.
  unfold vkd3d_create_buffer_srv.
  rewrite Hdim, Z.eqb_refl, Hrt. apply Z.eqb_neq in Hloc. rewrite Hloc.
  run_writes. rewrite Hraw.
  eexists. 
  destruct (null_write_issued heap ty
              {| slot := {| heap_offset := heap_offset (slot s);
                            metadata :=
                              {| cookie := 0; set_info_mask := 0;
                                 flags := Z.lor VKD3D_DESCRIPTOR_FLAG_RAW_VA_AUX_BUFFER
                                            VKD3D_DESCRIPTOR_FLAG_NON_NULL;
                                 current_null_type := current_null_type (metadata (slot s)) |};
                            info := info (slot s) |};
                 raw_va_aux_buffer :=
                   Some (<[Z.to_nat (heap_offset (slot s)) := Location desc]> table);
                 buffer_ranges := buffer_ranges s;
                 native_updates := native_updates s |})
    as (s2 & Hrun & Hupd & Hmeta & _ & _ & _ & Hraw2).
  { left. reflexivity. }
  exists s2. split; [reflexivity |].
  cbn [slot metadata info heap_offset raw_va_aux_buffer native_updates cookie flags
       set_info_mask] in *.
  split; [reflexivity |]. split; [reflexivity |].
  split; [apply list_lookup_insert_eq; exact Hidx |].
  split; [reflexivity |]. split; [reflexivity |]. split; [reflexivity |].
  split; [reflexivity |]. split; [exact Hrun |].
  split; [rewrite Hraw2; cbn; rewrite list_insert_insert_eq; reflexivity |].
  split; [rewrite Hupd, length_app; cbn; lia |].
  unfold is_null. rewrite Hmeta. reflexivity.
Qed.

(** X4.  The storage-buffer range of a raw or structured buffer view
    covers the bytes asked for and stays inside the resource: with a
    power-of-two alignment and a request that lies within the width of the
    resource, the native range starts at the multiple of the alignment at or
    below the first byte, ends at or after the last byte and at or before the
    end of the resource, and the byte offset kept in the bound range is what
    leads from the start of the native range back to the first byte; it is
    less than the alignment. *)
Theorem ssbo_range_covers_request (resource : Resource.d3d12_resource)
    (offset0 range0 k : Z) :
  d3d12_device_get_ssbo_alignment device = 2 ^ k -> 0 <= k < 32 ->
  0 <= offset0 -> 0 <= range0 < 2 ^ 32 ->
  offset0 + range0 <= Resource.Width (Resource.desc resource) ->
  0 <= Resource.mem_offset resource ->
  Resource.mem_offset resource + Resource.Width (Resource.desc resource) + 2 ^ 32 < 2 ^ 64 ->
  let result :=
    vkd3d_buffer_view_get_bound_range_ssbo device (Some resource) offset0 range0
      no_bound_range in
  let b := fst result in
  let bound := snd result in
  buffer b = Resource.res_vk_buffer resource /\
  offset b = Resource.mem_offset resource + 2 ^ k * (offset0 / 2 ^ k) /\
  offset b + byte_offset bound = Resource.mem_offset resource + offset0 /\
  0 <= byte_offset bound < 2 ^ k /\
  byte_count bound = range0 /\
  Resource.mem_offset resource + offset0 + range0 <= offset b + range b /\
  offset b + range b
    <= Resource.mem_offset resource + Resource.Width (Resource.desc resource).
Proof.
  intros Halign Hk Hoff Hrange Hin Hmem Hfit result b bound.
  subst b bound result. unfold vkd3d_buffer_view_get_bound_range_ssbo.
  cbn [fst snd buffer offset range byte_offset byte_count].
  rewrite Halign.
  set (W := Resource.Width (Resource.desc resource)) in *.
  set (M := Resource.mem_offset resource) in *.
  assert (H64 : 2 ^ 64 = 18446744073709551616) by reflexivity.
  assert (H32 : 2 ^ 32 = 4294967296) by reflexivity.
  assert (Hp : 0 < 2 ^ k) by (apply Z.pow_pos_nonneg; lia).
  assert (Hp32 : 2 ^ k < 2 ^ 32) by (apply Z.pow_lt_mono_r; lia).
  rewrite (align_down_pow2 offset0 k) by (unfold in_u64; lia).
  rewrite (u64_small (offset0 + range0 + 2 ^ k - 1)) by (unfold in_u64; lia).
  rewrite (align_down_pow2 (offset0 + range0 + 2 ^ k - 1) k) by (unfold in_u64; lia).
  pose proof (align_down_bounds offset0 k ltac:(lia) Hoff) as Hdown.
  pose proof (align_up_bounds (offset0 + range0) k ltac:(lia) ltac:(lia)) as Hup.
  assert (Hlo : 0 <= 2 ^ k * (offset0 / 2 ^ k)).
  { apply Z.mul_nonneg_nonneg; [lia | apply Z.div_pos; lia]. }
  set (lo := 2 ^ k * (offset0 / 2 ^ k)) in *.
  set (hi := 2 ^ k * ((offset0 + range0 + 2 ^ k - 1) / 2 ^ k)) in *.
  rewrite (u64_small (M + lo)) by (unfold in_u64; lia).
  rewrite (u64_small (Z.min hi W - lo)) by (unfold in_u64; lia).
  rewrite (u32_small (offset0 - lo)) by (unfold in_u32; lia).
  rewrite (u32_small range0) by (unfold in_u32; lia).
  repeat split; try reflexivity; lia.
Qed.


End DescriptorMore.

(** ** Placement, continued *)

Section PlacedMore.
Import Machine Api Resource.

Variable committed :
  d3d12_device -> Cookie.globals -> D3D12_RESOURCE_DESC -> D3D12_HEAP_PROPERTIES ->
  Z -> Z -> bool -> created.

Lemma no_memory_freed_without_allocation dev r m :
  has_flag (flags r) VKD3D_RESOURCE_ALLOCATION = false ->
  called (FreeMemory m) (d3d12_resource_destroy dev r) = false.
Proof.
  intros Ha. unfold d3d12_resource_destroy. rewrite Ha. cbn [andb].
  destruct (has_flag (flags r) VKD3D_RESOURCE_EXTERNAL); [reflexivity |].
  rewrite !called_app.
  destruct (has_flag (flags r) VKD3D_RESOURCE_RESERVED);
    destruct (res_va r =? 0); destruct (bufferDeviceAddress dev);
    destruct (d3d12_resource_is_texture r); destruct (vrs_view r =? 0); reflexivity.
Qed.

(** What the roll back of a placed resource leaves in the log. *)
Lemma placed_rollback dev o st m :
  flags o = (if st =? D3D12_RESOURCE_STATE_RAYTRACING_ACCELERATION_STRUCTURE
             then Z.lor VKD3D_RESOURCE_PLACED VKD3D_RESOURCE_ACCELERATION_STRUCTURE
             else VKD3D_RESOURCE_PLACED) ->
  device_references ([DeviceAddRef] ++ d3d12_resource_destroy dev o) = 0 /\
  called (FreeMemory m) ([DeviceAddRef] ++ d3d12_resource_destroy dev o) = false /\
  called FreeObject ([DeviceAddRef] ++ d3d12_resource_destroy dev o) = true.
Proof.
  intros Hfl.
  assert (Hext : has_flag (flags o) VKD3D_RESOURCE_EXTERNAL = false)
    by (rewrite Hfl; destruct (st =? _); reflexivity).
  assert (Hall : has_flag (flags o) VKD3D_RESOURCE_ALLOCATION = false)
    by (rewrite Hfl; destruct (st =? _); reflexivity).
  destruct (destroy_owned dev o Hext) as (Hfree & Hrefs & _).
  rewrite device_references_app, !called_app, Hrefs, Hfree,
    (no_memory_freed_without_allocation dev o m Hall).
  repeat split; reflexivity.
Qed.

Lemma placed_failure_rolled_back dev o st hr g :
  flags o = (if st =? D3D12_RESOURCE_STATE_RAYTRACING_ACCELERATION_STRUCTURE
             then Z.lor VKD3D_RESOURCE_PLACED VKD3D_RESOURCE_ACCELERATION_STRUCTURE
             else VKD3D_RESOURCE_PLACED) ->
  Outcome.rolled_back (hr, None, g, [DeviceAddRef] ++ d3d12_resource_destroy dev o).
Proof.
  intros Ho. unfold Outcome.rolled_back, Outcome.log. cbn [snd].
  split; [apply (placed_rollback dev o st 0 Ho) |].
  split; [intros m; apply (placed_rollback dev o st m Ho) |].
  right. apply (placed_rollback dev o st 0 Ho).
Qed.

(** X6.  Placement on a heap with memory either hands out the resource or
    leaves nothing behind.  When it returns a resource the status is [S_OK],
    the one call made on the device is the reference taken for the
    resource, and the resource sits in the heap's memory.  When it returns
    none, every device reference taken has been given back, and no memory
    has been freed: the heap keeps its allocation; unless the call failed
    before the resource object was complete, the object has been freed. *)
Theorem failed_placement_is_rolled_back dev g d heap off st clr :
  heap_vk_memory heap <> VK_NULL_HANDLE ->
  let result := d3d12_resource_create_placed committed dev g d heap off st clr in
  match Outcome.handed_out result with
  | Some o =>
      status result = S_OK /\ Outcome.log result = [DeviceAddRef] /\
      mem_vk_memory o = heap_vk_memory heap /\
      res_cookie o = fst (Cookie.vkd3d_allocate_cookie g)
  | None => Outcome.rolled_back result
  end.
Proof.
  intros Hmem result. subst result. unfold d3d12_resource_create_placed.
  assert (Hnone : forall hr g0 l, (l = [] \/ l = [ViewMapDestroy; FreeObject]) ->
            Outcome.rolled_back (hr, None, g0, l)).
  { intros hr g0 l [-> | ->]; unfold Outcome.rolled_back, Outcome.log; cbn;
      repeat split; auto. }
  destruct (FAILED (d3d12_resource_validate_heap d heap));
    [apply Hnone; auto |].
  destruct (Z.eqb_spec (heap_vk_memory heap) VK_NULL_HANDLE) as [E | _]; [contradiction |].
  unfold d3d12_resource_create.
  destruct (FAILED (d3d12_resource_validate_create_info dev d (Some (heap_Properties heap))
                      st clr)); [apply Hnone; auto |].
  destruct (negb (vkd3d_malloc_object dev)); [apply Hnone; auto |].
  destruct (FAILED (vkd3d_private_store_init dev)); [apply Hnone; auto |].
  destruct (Cookie.vkd3d_allocate_cookie g) as [c g'] eqn:Hc.
  cbn [fst].
  set (object := {| refcount := 1; internal_refcount := 1; desc := d;
                    flags := _; format := _; res_cookie := c; res_vk_image := 0;
                    res_vk_buffer := 0; res_va := 0; res_size := 0; mem_vk_memory := 0;
                    mem_offset := 0; vrs_view := 0; initial_state := st;
                    heap_properties := Some (heap_Properties heap);
                    heap_flags := heap_Flags heap; initial_layout_transition := 0 |}).
  assert (Hfl : flags object =
                (if st =? D3D12_RESOURCE_STATE_RAYTRACING_ACCELERATION_STRUCTURE
                 then Z.lor VKD3D_RESOURCE_PLACED VKD3D_RESOURCE_ACCELERATION_STRUCTURE
                 else VKD3D_RESOURCE_PLACED)) by reflexivity.
  assert (Hck : res_cookie object = c) by reflexivity.
  clearbody object.
  match goal with
  | |- context [match ?x with inl _ => _ | inr _ => _ end] =>
      match type of x with
      | ((HRESULT * d3d12_resource) + (d3d12_resource * Z))%type => set (checked := x)
      end
  end.
  assert (Hchecked : match checked with
                     | inl (_, o) | inr (o, _) =>
                         flags o = flags object /\ res_cookie o = c
                     end).
  { subst checked. destruct (d3d12_resource_is_texture object).
    - unfold d3d12_resource_create_vk_resource.
      destruct (Dimension (desc object) =? D3D12_RESOURCE_DIMENSION_BUFFER).
      + destruct (vkd3d_create_buffer dev _ D3D12_HEAP_FLAG_NONE (desc object))
          as [hr buffer].
        destruct (FAILED hr) eqn:Hhr; cbv beta iota; rewrite ?Hhr;
          [split; [reflexivity | exact Hck] |].
        change (FAILED S_OK) with false. cbv beta iota.
        destruct (heap_size heap <? _); split; try reflexivity; exact Hck.
      + destruct (vkd3d_create_image dev _ D3D12_HEAP_FLAG_NONE
                    (normalised_desc dev (desc object))) as [hr image].
        destruct (FAILED hr) eqn:Hhr; cbv beta iota; rewrite ?Hhr;
          [split; [reflexivity | exact Hck] |].
        change (FAILED S_OK) with false. cbv beta iota.
        destruct (heap_size heap <? _); split; try reflexivity; exact Hck.
    - destruct (heap_size heap <? _); split; try reflexivity; exact Hck. }
  clearbody checked.
  destruct checked as [[hr o] | [o off']]; destruct Hchecked as [Hflo Hcko].
  { apply (placed_failure_rolled_back dev o st). rewrite Hflo. exact Hfl. }
  set (placed := vkd3d_memory_allocation_slice o heap off').
  assert (Hplaced : flags placed = flags object /\ res_cookie placed = c /\
                    mem_vk_memory placed = heap_vk_memory heap).
  { subst placed. unfold vkd3d_memory_allocation_slice. cbn. auto. }
  clearbody placed. destruct Hplaced as (Hflp & Hckp & Hmemp).
  match goal with
  | |- context [match ?x with inl _ => _ | inr _ => _ end] =>
      match type of x with
      | ((HRESULT * d3d12_resource) + d3d12_resource)%type => set (bound := x)
      end
  end.
  assert (Hbound : match bound with
                   | inl (_, o1) | inr o1 =>
                       flags o1 = flags object /\ res_cookie o1 = c /\
                       mem_vk_memory o1 = heap_vk_memory heap
                   end).
  { subst bound. destruct (d3d12_resource_is_texture placed).
    - destruct (negb _); auto.
    - cbn. auto. }
  clearbody bound.
  destruct bound as [[hr o1] | o1]; destruct Hbound as (Hfl1 & Hck1 & Hmem1).
  { apply (placed_failure_rolled_back dev o1 st). rewrite Hfl1. exact Hfl. }
  destruct (vkd3d_resource_can_be_vrs dev (Some (heap_Properties heap)) d).
  - destruct (vkd3d_resource_make_vrs_view dev (res_vk_image o1)) as [hr view].
    destruct (FAILED hr).
    + apply (placed_failure_rolled_back dev o1 st). rewrite Hfl1. exact Hfl.
    + cbn. repeat split; assumption.
  - cbn. repeat split; assumption.
Qed.

(** X7.  When the driver refuses to bind the image of a placed texture,
    the status the caller gets is not made from the driver's error: the
    value kept is the outcome of the comparison with zero, so the call
    answers with the status of the Vulkan result 1, whatever the driver
    said; no resource is handed out and the resource built so far is rolled
    back. *)
Theorem failed_bind_is_reported_as_one dev g d heap off st clr :
  category_denied d heap || cross_adapter_mismatch d heap = false ->
  heap_vk_memory heap <> VK_NULL_HANDLE ->
  d3d12_resource_validate_create_info dev d (Some (heap_Properties heap)) st clr = S_OK ->
  vkd3d_malloc_object dev = true ->
  FAILED (vkd3d_private_store_init dev) = false ->
  Dimension d <> D3D12_RESOURCE_DIMENSION_BUFFER ->
  FAILED (fst (vkd3d_create_image dev (Some (heap_Properties heap)) D3D12_HEAP_FLAG_NONE
                 (normalised_desc dev d))) = false ->
  capacity_exceeded dev d heap off = false ->
  (forall image memory offset, vkBindImageMemory dev image memory offset < 0) ->
  let result := d3d12_resource_create_placed committed dev g d heap off st clr in
  status result = hresult_from_vk_result dev 1 /\
  Outcome.handed_out result = None /\
  Outcome.rolled_back result.
Proof.
  intros Hheap Hmem Hval Hmalloc Hstore Htex Himg Hcap Hbind result.
  assert (Hres : exists g' o,
            result = (hresult_from_vk_result dev 1, None, g',
                      [DeviceAddRef] ++ d3d12_resource_destroy dev o) /\
            flags o = (if st =? D3D12_RESOURCE_STATE_RAYTRACING_ACCELERATION_STRUCTURE
                       then Z.lor VKD3D_RESOURCE_PLACED VKD3D_RESOURCE_ACCELERATION_STRUCTURE
                       else VKD3D_RESOURCE_PLACED)).
  { subst result. unfold d3d12_resource_create_placed.
    rewrite validate_heap_cases, Hheap. cbn [FAILED S_OK Z.ltb Z.compare].
    destruct (Z.eqb_spec (heap_vk_memory heap) VK_NULL_HANDLE) as [E | _];
      [contradiction |].
    destruct (resource_create_goes_through dev g VKD3D_RESOURCE_PLACED d
                (Some (heap_Properties heap)) (heap_Flags heap) st clr Hval Hmalloc Hstore)
      as (object & -> & Hdesc & Hflags & Hhp & _).
    revert Hcap. unfold capacity_exceeded, d3d12_resource_is_texture at 1. rewrite Hdesc.
    destruct (Z.eqb_spec (Dimension d) D3D12_RESOURCE_DIMENSION_BUFFER) as [Hbuf | _];
      [contradiction |].
    cbn [negb].
    unfold d3d12_resource_create_vk_resource, placed_requirements.
    rewrite Hflags, placed_flag_not_reserved, Hdesc, Hhp.
    destruct (Z.eqb_spec (Dimension d) D3D12_RESOURCE_DIMENSION_BUFFER); [contradiction |].
    destruct (vkd3d_create_image dev (Some (heap_Properties heap)) D3D12_HEAP_FLAG_NONE
                (normalised_desc dev d)) as [hr image].
    cbn [fst snd] in *. rewrite Himg.
    change (FAILED S_OK) with false. cbv iota.
    cbn [set_desc_image res_vk_image].
    intros ->.
    unfold vkd3d_memory_allocation_slice, d3d12_resource_is_texture.
    cbn [set_mem set_desc_image desc res_vk_image mem_vk_memory mem_offset].
    assert (Hn : Dimension (normalised_desc dev d) = Dimension d).
    { unfold normalised_desc. destruct (MipLevels d =? 0); reflexivity. }
    rewrite Hn.
    destruct (Z.eqb_spec (Dimension d) D3D12_RESOURCE_DIMENSION_BUFFER); [contradiction |].
    cbn [negb].
    match goal with
    | |- context [vkBindImageMemory dev ?a ?b ?c <? 0] =>
        destruct (Z.ltb_spec (vkBindImageMemory dev a b c) 0) as [_ | Hpos];
          [| specialize (Hbind a b c); lia]
    end.
    cbn [Z.eqb negb].
    eexists. eexists. split; [reflexivity |]. cbn [flags set_mem set_desc_image].
    exact Hflags. }
  destruct Hres as (g' & o & Hres & Hfl). rewrite Hres.
  split; [reflexivity |]. split; [reflexivity |].
  apply (placed_failure_rolled_back dev o st). exact Hfl.
Qed.

End PlacedMore.

(** ** View keys, continued *)

Section ViewKeyMore.
Import Machine Api ViewKey KeyFloats.

(** X8.  The comparison of view keys is symmetric, and a key of a known
    type compares equal to itself exactly when none of the floating-point
    fields the comparison reads is a NaN: a key with a NaN there is never
    found again in the cache. *)
Theorem view_key_compare_symmetric_and_reflexive_without_nan (k e : vkd3d_view_key) :
  vkd3d_view_entry_compare k e = vkd3d_view_entry_compare e k /\
  (ViewMap.is_known_type k = true -> vkd3d_view_entry_compare k k = no_nan k).
Proof.
  split.
  - destruct k as [k | k | k | k | t], e as [e | e | e | e | u]; try reflexivity;
      cbn [vkd3d_view_entry_compare]; unfold buffer_desc_compare.
    + rewrite (Z.eqb_sym (bv_buffer k)), (Z.eqb_sym (bv_format k)),
        (Z.eqb_sym (bv_offset k)), (Z.eqb_sym (bv_size k)). reflexivity.
    + rewrite (Z.eqb_sym (bv_buffer k)), (Z.eqb_sym (bv_format k)),
        (Z.eqb_sym (bv_offset k)), (Z.eqb_sym (bv_size k)). reflexivity.
    + rewrite (Z.eqb_sym (image k)), (Z.eqb_sym (view_type k)), (Z.eqb_sym (tv_format k)),
        (Z.eqb_sym (miplevel_idx k)), (Z.eqb_sym (miplevel_count k)),
        (float_eq_sym (miplevel_clamp k)), (Z.eqb_sym (layer_idx k)),
        (Z.eqb_sym (layer_count k)), (Z.eqb_sym (r (components k))),
        (Z.eqb_sym (g (components k))), (Z.eqb_sym (b (components k))),
        (Z.eqb_sym (a (components k))), (eqb_bool_sym (allowed_swizzle k)).
      reflexivity.
    + rewrite (Z.eqb_sym (Filter k)), (Z.eqb_sym (AddressU k)), (Z.eqb_sym (AddressV k)),
        (Z.eqb_sym (AddressW k)), (float_eq_sym (MipLODBias k)),
        (Z.eqb_sym (MaxAnisotropy k)), (Z.eqb_sym (ComparisonFunc k)),
        (float_eq_sym (MinLOD k)), (float_eq_sym (MaxLOD k)),
        (border_color_eq_sym (BorderColor k)).
      unfold needs_border.
      destruct (Z.eqb_spec (AddressU e) (AddressU k)) as [-> |];
        [| rewrite !andb_false_r; reflexivity].
      destruct (Z.eqb_spec (AddressV e) (AddressV k)) as [-> |];
        [| rewrite !andb_false_r; reflexivity].
      destruct (Z.eqb_spec (AddressW e) (AddressW k)) as [-> |];
        [| rewrite !andb_false_r; reflexivity].
      reflexivity.
  - intros Hk. destruct k as [k | k | k | k | t]; try discriminate Hk;
      cbn [vkd3d_view_entry_compare]; unfold no_nan, compared_floats, buffer_desc_compare;
      rewrite ?Z.eqb_refl, ?float_eq_refl; cbn [forallb andb].
    + reflexivity.
    + reflexivity.
    + destruct (allowed_swizzle k); cbn; rewrite ?andb_true_r; reflexivity.
    + unfold border_color_eq. rewrite !float_eq_refl.
      destruct (needs_border k); cbn [negb orb app forallb];
        destruct (float_is_nan (MipLODBias k)), (float_is_nan (MinLOD k)),
          (float_is_nan (MaxLOD k)); cbn; try reflexivity;
        destruct (float_is_nan (c0 (BorderColor k))), (float_is_nan (c1 (BorderColor k))),
          (float_is_nan (c2 (BorderColor k))), (float_is_nan (c3 (BorderColor k)));
        reflexivity.
Qed.

Lemma zero_float_bits f :
  float_is_zero f = true -> u32 f = 0 \/ u32 f = negative_zero.
Proof.
  unfold float_is_zero, u32, wrap, negative_zero. intros H. apply Z.eqb_eq in H.
  change 0x7FFFFFFF with (Z.ones 31) in H. rewrite Z.land_ones in H by lia.
  assert (H31 : 2 ^ 31 = 2147483648) by reflexivity.
  assert (H32 : 2 ^ 32 = 4294967296) by reflexivity.
  pose proof (Z.mod_pos_bound f (2 ^ 32) ltac:(lia)) as Hb.
  assert (Hmm : (f mod 2 ^ 32) mod 2 ^ 31 = f mod 2 ^ 31).
  { pose proof (Z.div_mod f (2 ^ 32) ltac:(lia)) as Hf.
    set (x := f mod 2 ^ 32) in *. set (q := f / 2 ^ 32) in *.
    rewrite Hf at 1.
    replace (2 ^ 32 * q + x) with (x + (2 * q) * 2 ^ 31) by lia.
    rewrite Z.mod_add by lia. reflexivity. }
  rewrite H in Hmm.
  pose proof (Z.div_mod (f mod 2 ^ 32) (2 ^ 31) ltac:(lia)) as Hdm.
  rewrite Hmm in Hdm.
  assert (Hq : 0 <= (f mod 2 ^ 32) / 2 ^ 31 < 2).
  { split; [apply Z.div_pos; lia | apply Z.div_lt_upper_bound; lia]. }
  lia.
Qed.

Lemma float_eq_bits a b :
  float_eq a b = true ->
  (u32 a =? negative_zero) = false -> (u32 b =? negative_zero) = false ->
  float_bits_to_uint32 a = float_bits_to_uint32 b.
Proof.
  unfold float_eq, float_bits_to_uint32. intros H Ha Hb.
  destruct (float_is_nan a || float_is_nan b); [discriminate |].
  destruct (float_is_zero a) eqn:Za; destruct (float_is_zero b) eqn:Zb; cbn [andb] in H.
  - apply Z.eqb_neq in Ha, Hb.
    destruct (zero_float_bits a Za), (zero_float_bits b Zb); congruence.
  - apply Z.eqb_eq. exact H.
  - apply Z.eqb_eq. exact H.
  - apply Z.eqb_eq. exact H.
Qed.

Section HashMore.

Variable hash_uint64 : Z -> Z.
Variable hash_combine : Z -> Z -> Z.

(** X9.  Keys that compare equal hash alike, as a hash map needs it, as
    long as no floating-point field the comparison reads is the negative
    zero: the comparison takes the two zeros for equal, the hash tells their
    bit patterns apart. *)
Theorem equal_view_keys_hash_alike (k e : vkd3d_view_key) :
  vkd3d_view_entry_compare k e = true ->
  no_negative_zero k = true -> no_negative_zero e = true ->
  vkd3d_view_entry_hash hash_uint64 hash_combine k
    = vkd3d_view_entry_hash hash_uint64 hash_combine e.
Proof.
  intros Hcmp Hk He.
  destruct k as [k | k | k | k | t], e as [e | e | e | e | u]; try discriminate Hcmp;
    cbn [vkd3d_view_entry_compare] in Hcmp; unfold buffer_desc_compare in Hcmp;
    repeat (apply andb_true_iff in Hcmp as [Hcmp ?]);
    repeat match goal with
           | H : (_ =? _) = true |- _ => apply Z.eqb_eq in H
           | H : Bool.eqb _ _ = true |- _ => apply Bool.eqb_prop in H
           end;
    cbn [vkd3d_view_entry_hash].
  - congruence.
  - congruence.
  - unfold no_negative_zero, compared_floats in Hk, He. cbn [forallb] in Hk, He.
    rewrite andb_true_r in Hk, He. apply negb_true_iff in Hk, He.
    match goal with
    | H : float_eq _ _ = true |- _ => apply float_eq_bits in H; [| assumption | assumption]
    end.
    congruence.
  - unfold sampler_hash_words.
    assert (Hnb : needs_border k = needs_border e) by (unfold needs_border; congruence).
    unfold no_negative_zero, compared_floats in Hk, He. rewrite <- Hnb in He.
    rewrite forallb_app in Hk, He. cbn [forallb] in Hk, He.
    apply andb_true_iff in Hk as [Hk Hkb], He as [He Heb].
    repeat (apply andb_true_iff in Hk as [? Hk]).
    repeat (apply andb_true_iff in He as [? He]).
    repeat match goal with
           | H : negb _ = true |- _ => apply negb_true_iff in H
           end.
    repeat match goal with
           | H : float_eq _ _ = true |- _ =>
               apply float_eq_bits in H; [| assumption | assumption]
           end.
    rewrite <- Hnb.
    destruct (needs_border k).
    + cbn [forallb] in Hkb, Heb.
      repeat (apply andb_true_iff in Hkb as [? Hkb]).
      repeat (apply andb_true_iff in Heb as [? Heb]).
      repeat match goal with
             | H : negb _ = true |- _ => apply negb_true_iff in H
             end.
      match goal with
      | H : negb true || border_color_eq _ _ = true |- _ =>
          cbn [negb orb] in H; unfold border_color_eq in H;
          repeat (apply andb_true_iff in H as [H ?])
      end.
      repeat match goal with
             | H : float_eq _ _ = true |- _ =>
                 apply float_eq_bits in H; [| assumption | assumption]
             end.
      congruence.
    + congruence.
Qed.

End HashMore.

End ViewKeyMore.

(** ** The keys of texture views *)

Section TextureKeys.
Import Machine Api Descriptor.

Variable device : d3d12_device.

Lemma default_view_desc_clamp resource fmt format k :
  init_default_texture_view_desc device resource fmt = Some (format, k) ->
  ViewKey.miplevel_clamp k = 0.
Proof.
  unfold init_default_texture_view_desc.
  destruct (vkd3d_format_from_d3d12_resource_desc device (Resource.desc resource) fmt);
    [| discriminate].
  destruct (Resource.Dimension (Resource.desc resource) =? D3D12_RESOURCE_DIMENSION_TEXTURE1D);
    [intros [= _ <-]; reflexivity |].
  destruct (Resource.Dimension (Resource.desc resource) =? D3D12_RESOURCE_DIMENSION_TEXTURE2D);
    [intros [= _ <-]; reflexivity |].
  destruct (Resource.Dimension (Resource.desc resource) =? D3D12_RESOURCE_DIMENSION_TEXTURE3D);
    [intros [= _ <-]; reflexivity | discriminate].
Qed.

Lemma image_keys_alike_but_aspect (k : ViewKey.vkd3d_texture_view_desc)
    (view_type miplevel layer layers aspect1 aspect2 : Z) hash_uint64 hash_combine :
  ViewKey.miplevel_clamp k = 0 ->
  ViewKey.vkd3d_view_entry_compare
    (ViewKey.VKD3D_VIEW_TYPE_IMAGE (shape_view k view_type miplevel layer layers aspect1))
    (ViewKey.VKD3D_VIEW_TYPE_IMAGE (shape_view k view_type miplevel layer layers aspect2))
    = true /\
  ViewKey.vkd3d_view_entry_hash hash_uint64 hash_combine
    (ViewKey.VKD3D_VIEW_TYPE_IMAGE (shape_view k view_type miplevel layer layers aspect1))
  = ViewKey.vkd3d_view_entry_hash hash_uint64 hash_combine
      (ViewKey.VKD3D_VIEW_TYPE_IMAGE (shape_view k view_type miplevel layer layers aspect2)).
Proof.
  intros Hclamp. split; [| reflexivity].
  cbn. rewrite !Z.eqb_refl, Hclamp. destruct (ViewKey.allowed_swizzle k); reflexivity.
Qed.

(** X10.  The plane slice is not part of the key of a texture view: two
    descriptions of a 2D or 2D-array unordered-access view of one resource
    that agree in everything but the plane slice give keys that the cache
    compares equal and hashes alike, though the aspect masks of the two keys
    are those of the two planes.  The cache therefore serves both with one
    view. *)
Theorem plane_slice_is_not_part_of_the_view_key
    (resource : Resource.d3d12_resource) (fmt : Z) (format : Resource.vkd3d_format)
    (k k1 k2 : ViewKey.vkd3d_texture_view_desc)
    (desc1 desc2 : D3D12_UNORDERED_ACCESS_VIEW_DESC) hash_uint64 hash_combine :
  init_default_texture_view_desc device resource fmt = Some (format, k) ->
  uav_ViewDimension desc1 = uav_ViewDimension desc2 ->
  (uav_ViewDimension desc1 = D3D12_UAV_DIMENSION_TEXTURE2D /\
   Texture2D_MipSlice desc1 = Texture2D_MipSlice desc2) \/
  (uav_ViewDimension desc1 = D3D12_UAV_DIMENSION_TEXTURE2DARRAY /\
   Texture2DArray_MipSlice desc1 = Texture2DArray_MipSlice desc2 /\
   Texture2DArray_FirstArraySlice desc1 = Texture2DArray_FirstArraySlice desc2 /\
   Texture2DArray_ArraySize desc1 = Texture2DArray_ArraySize desc2) ->
  texture_uav_key resource k desc1 = Some k1 ->
  texture_uav_key resource k desc2 = Some k2 ->
  ViewKey.vkd3d_view_entry_compare
    (ViewKey.VKD3D_VIEW_TYPE_IMAGE k1) (ViewKey.VKD3D_VIEW_TYPE_IMAGE k2) = true /\
  ViewKey.vkd3d_view_entry_hash hash_uint64 hash_combine (ViewKey.VKD3D_VIEW_TYPE_IMAGE k1)
  = ViewKey.vkd3d_view_entry_hash hash_uint64 hash_combine (ViewKey.VKD3D_VIEW_TYPE_IMAGE k2) /\
  vk_image_aspect_flags_from_d3d12 (Resource.format resource)
    (if uav_ViewDimension desc1 =? D3D12_UAV_DIMENSION_TEXTURE2D
     then Texture2D_PlaneSlice desc1 else Texture2DArray_PlaneSlice desc1)
    = Some (ViewKey.aspect_mask k1) /\
  vk_image_aspect_flags_from_d3d12 (Resource.format resource)
    (if uav_ViewDimension desc2 =? D3D12_UAV_DIMENSION_TEXTURE2D
     then Texture2D_PlaneSlice desc2 else Texture2DArray_PlaneSlice desc2)
    = Some (ViewKey.aspect_mask k2).
Proof.
  intros Hdefault Hdim Hsame H1 H2.
  pose proof (default_view_desc_clamp resource fmt format k Hdefault) as Hclamp.
  unfold texture_uav_key in H1, H2. rewrite <- Hdim in H2 |- *.
  destruct Hsame as [[Hd Hmip] | (Hd & Hmip & Hfirst & Hsize)]; rewrite Hd in H1, H2 |- *;
    cbn [Z.eqb Pos.eqb] in H1, H2.
  - rewrite Z.eqb_refl.
    destruct (vk_image_aspect_flags_from_d3d12 (Resource.format resource)
                (Texture2D_PlaneSlice desc1)) as [a1 |]; [| discriminate H1].
    destruct (vk_image_aspect_flags_from_d3d12 (Resource.format resource)
                (Texture2D_PlaneSlice desc2)) as [a2 |]; [| discriminate H2].
    injection H1 as <-. injection H2 as <-. rewrite Hmip.
    destruct (image_keys_alike_but_aspect k VK_IMAGE_VIEW_TYPE_2D
                (Texture2D_MipSlice desc2) (ViewKey.layer_idx k) 1 a1 a2
                hash_uint64 hash_combine Hclamp) as [Hc Hh].
    repeat split; assumption || reflexivity.
  - change (D3D12_UAV_DIMENSION_TEXTURE2DARRAY =? D3D12_UAV_DIMENSION_TEXTURE2D) with false.
    cbv iota.
    destruct (vk_image_aspect_flags_from_d3d12 (Resource.format resource)
                (Texture2DArray_PlaneSlice desc1)) as [a1 |]; [| discriminate H1].
    destruct (vk_image_aspect_flags_from_d3d12 (Resource.format resource)
                (Texture2DArray_PlaneSlice desc2)) as [a2 |]; [| discriminate H2].
    injection H1 as <-. injection H2 as <-. rewrite Hmip, Hfirst, Hsize.
    destruct (image_keys_alike_but_aspect k VK_IMAGE_VIEW_TYPE_2D_ARRAY
                (Texture2DArray_MipSlice desc2) (Texture2DArray_FirstArraySlice desc2)
                (Texture2DArray_ArraySize desc2) a1 a2
                hash_uint64 hash_combine Hclamp) as [Hc Hh].
    repeat split; assumption || reflexivity.
Qed.

End TextureKeys.

(** ** Planes and subresources *)

Section SubresourceFacts.
Import Machine Api.

(** A positive number is a power of two times an odd number. *)
Lemma lowest_bit_factor (p : positive) :
  exists k q, 0 <= k /\ 0 <= q /\ Z.pos p = 2 ^ k * (2 * q + 1).
Proof.
  induction p as [p _ | p IH | ].
  - exists 0, (Z.pos p). repeat split; lia.
  - destruct IH as (k & q & Hk & Hq & Hp).
    exists (k + 1), q. repeat split; try lia.
    rewrite Z.pow_add_r by lia. change (2 ^ 1) with 2. lia.
  - exists 0, 0. repeat split; lia.
Qed.

Lemma testbit_pow2_odd k q n :
  0 <= k -> 0 <= n ->
  Z.testbit (2 ^ k * (2 * q + 1)) n =
    if n <? k then false else if n =? k then true else Z.testbit q (n - k - 1).
Proof.
  intros Hk Hn. rewrite Z.mul_comm, <- Z.shiftl_mul_pow2 by lia.
  destruct (Z.ltb_spec n k) as [Hlt | Hge].
  - apply Z.shiftl_spec_low. exact Hlt.
  - rewrite Z.shiftl_spec by lia.
    destruct (Z.eqb_spec n k) as [-> | Hne].
    + rewrite Z.sub_diag. apply Z.testbit_odd_0.
    + remember (n - k - 1) as j eqn:Hj.
      replace (n - k) with (Z.succ j) by lia.
      apply Z.testbit_odd_succ. lia.
Qed.

(** [m & -m] is the lowest bit set in [m]. *)
Lemma land_opp_lowest_bit k q :
  0 <= k -> 0 <= q ->
  Z.land (2 ^ k * (2 * q + 1)) (- (2 ^ k * (2 * q + 1))) = 2 ^ k.
Proof.
  intros Hk Hq. apply Z.bits_inj'. intros n Hn.
  rewrite Z.land_spec, Z.pow2_bits_eqb by lia.
  replace (- (2 ^ k * (2 * q + 1))) with (2 ^ k * (2 * (- q - 1) + 1)) by lia.
  rewrite !testbit_pow2_odd by lia.
  destruct (Z.ltb_spec n k); [destruct (Z.eqb_spec k n); [lia | reflexivity] |].
  destruct (Z.eqb_spec n k) as [-> | Hne]; [rewrite Z.eqb_refl; reflexivity |].
  destruct (Z.eqb_spec k n); [lia |].
  replace (- q - 1) with (Z.lnot q) by (unfold Z.lnot; lia).
  rewrite Z.lnot_spec by lia. apply andb_negb_r.
Qed.

(** A number whose bits are among those of a 32-bit mask is a 32-bit
    number. *)
Lemma bits_within_u32 m mask :
  0 <= m -> 0 <= mask < 2 ^ 32 ->
  (forall n, 0 <= n -> Z.testbit m n = true -> Z.testbit mask n = true) ->
  m < 2 ^ 32.
Proof.
  intros Hm Hmask Hbits.
  destruct (Z.eq_dec m 0) as [-> | Hnz]; [lia |].
  assert (Hlog : Z.log2 m < 32).
  { destruct (Z_lt_le_dec (Z.log2 m) 32) as [Hlt | Hge]; [exact Hlt |].
    assert (Hset : Z.testbit m (Z.log2 m) = true) by (apply Z.bit_log2; lia).
    apply Hbits in Hset; [| apply Z.log2_nonneg].
    rewrite Z.bits_above_log2 in Hset; [discriminate | lia |].
    destruct (Z.eq_dec mask 0) as [-> | Hmnz]; [cbn; lia |].
    apply Z.lt_le_trans with 32; [| exact Hge].
    apply Z.log2_lt_pow2; lia. }
  apply Z.log2_lt_pow2; lia.
Qed.

(** One turn of the loop that drops the lowest plane keeps the bits within
    the mask. *)
Lemma drop_lowest_bit_within m mask :
  0 <= m ->
  (forall n, 0 <= n -> Z.testbit m n = true -> Z.testbit mask n = true) ->
  0 <= Z.land m (u32 (m - 1)) /\
  (forall n, 0 <= n -> Z.testbit (Z.land m (u32 (m - 1))) n = true ->
             Z.testbit mask n = true).
Proof.
  intros Hm Hbits. split.
  - apply Z.land_nonneg. left. exact Hm.
  - intros n Hn H. rewrite Z.land_spec in H. apply andb_true_iff in H as [H _].
    apply Hbits; assumption.
Qed.

Lemma dropped_planes_within mask plane :
  0 <= mask ->
  let m := Nat.iter plane (fun m => Z.land m (u32 (m - 1))) mask in
  0 <= m /\
  (forall n, 0 <= n -> Z.testbit m n = true -> Z.testbit mask n = true).
Proof.
  intros Hmask. induction plane as [| plane IH]; cbn.
  - split; [exact Hmask | auto].
  - destruct IH as [Hm Hbits]. apply drop_lowest_bit_within; assumption.
Qed.

(** X11.  The aspect of a plane is one bit of the format's aspect mask: for
    a format with a non-empty 32-bit aspect mask and any plane index,
    [vk_image_aspect_flags_from_d3d12] returns a single bit that is set in the
    mask; for plane 0 it is the lowest bit set in the mask. *)
Theorem plane_aspect_is_one_bit_of_the_mask (format : Resource.vkd3d_format) (plane : Z) :
  0 < Resource.vk_aspect_mask format < 2 ^ 32 ->
  exists k,
    0 <= k < 32 /\
    Descriptor.vk_image_aspect_flags_from_d3d12 (Some format) plane = Some (2 ^ k) /\
    Z.testbit (Resource.vk_aspect_mask format) k = true /\
    (plane <= 0 ->
     forall j, 0 <= j < k -> Z.testbit (Resource.vk_aspect_mask format) j = false).
Proof.
  intros Hmask. unfold Descriptor.vk_image_aspect_flags_from_d3d12.
  set (mask := Resource.vk_aspect_mask format) in *.
  destruct (dropped_planes_within mask (Z.to_nat plane) ltac:(lia)) as [Hm Hbits].
  set (m := Nat.iter (Z.to_nat plane) (fun m => Z.land m (u32 (m - 1))) mask) in *.
  set (a := if m =? 0 then mask else m).
  assert (Ha : 0 < a /\
               (forall n, 0 <= n -> Z.testbit a n = true -> Z.testbit mask n = true) /\
               (plane <= 0 -> a = mask)).
  { subst a. destruct (Z.eqb_spec m 0) as [E | E].
    - repeat split; [lia | auto].
    - repeat split; [lia | exact Hbits |].
      intros Hp. subst m. replace (Z.to_nat plane) with 0%nat by lia. reflexivity. }
  clearbody a. destruct Ha as (Hapos & Habits & Hazero).
  assert (Ha32 : a < 2 ^ 32) by (apply (bits_within_u32 a mask); [lia | lia | exact Habits]).
  destruct a as [| p | p]; try lia.
  destruct (lowest_bit_factor p) as (k & q & Hk & Hq & Hp).
  assert (Hbitk : Z.testbit (Z.pos p) k = true).
  { rewrite Hp, testbit_pow2_odd by lia.
    destruct (Z.ltb_spec k k); [lia |]. rewrite Z.eqb_refl. reflexivity. }
  assert (Hk32 : k < 32).
  { destruct (Z_lt_le_dec k 32) as [Hlt | Hge]; [exact Hlt |].
    rewrite Z.bits_above_log2 in Hbitk; [discriminate | lia |].
    apply Z.lt_le_trans with 32; [apply Z.log2_lt_pow2; lia | exact Hge]. }
  exists k. split; [lia |]. split; [| split].
  - f_equal. rewrite <- (land_opp_lowest_bit k q Hk Hq), <- Hp.
    apply Z.bits_inj'. intros n Hn. rewrite !Z.land_spec.
    destruct (Z.ltb_spec n 32) as [Hlt | Hge].
    + unfold u32, wrap. rewrite Z.mod_pow2_bits_low by lia. reflexivity.
    + assert (Hhigh : Z.testbit (Z.pos p) n = false).
      { apply Z.bits_above_log2; [lia |].
        apply Z.lt_le_trans with 32; [apply Z.log2_lt_pow2; lia | exact Hge]. }
      rewrite Hhigh. reflexivity.
  - apply Habits; [lia | exact Hbitk].
  - intros Hplane j Hj. rewrite <- (Hazero Hplane), Hp, testbit_pow2_odd by lia.
    destruct (Z.ltb_spec j k); [reflexivity | lia].
Qed.

(** X12.  Decoding a subresource index gives back what it was made of: for
    a resource of [M] mip levels and [L] layers, the index
    [mip + M * (layer + L * plane)] decodes to mip level [mip], array layer
    [layer] and the aspect of plane [plane], or all aspects of the format
    when all are asked for. *)
Theorem subresource_index_round_trip (format : Resource.vkd3d_format)
    (mip layer plane M L aspect : Z) :
  0 <= mip < M -> 0 <= layer < L -> 0 <= plane -> M * L < 2 ^ 32 ->
  Descriptor.vk_image_aspect_flags_from_d3d12 (Some format) plane = Some aspect ->
  Subresource.vk_image_subresource_from_d3d12 (Some format)
    (mip + M * (layer + L * plane)) M L false
    = Some {| Subresource.aspectMask := aspect; Subresource.mipLevel := mip;
              Subresource.arrayLayer := layer |} /\
  Subresource.vk_image_subresource_from_d3d12 (Some format)
    (mip + M * (layer + L * plane)) M L true
    = Some {| Subresource.aspectMask := Resource.vk_aspect_mask format;
              Subresource.mipLevel := mip; Subresource.arrayLayer := layer |}.
Proof.
  intros Hmip Hlayer Hplane Hfit Haspect.
  unfold Subresource.vk_image_subresource_from_d3d12.
  destruct (Z.eqb_spec M 0); [lia |]. destruct (Z.eqb_spec L 0); [lia |].
  cbn [orb].
  assert (Hml : 0 < M * L) by nia.
  assert (Hmod : (mip + M * (layer + L * plane)) mod M = mip).
  { replace (mip + M * (layer + L * plane)) with (mip + (layer + L * plane) * M) by lia.
    rewrite Z.mod_add by lia. apply Z.mod_small. lia. }
  assert (Hdiv : (mip + M * (layer + L * plane)) / M = layer + L * plane).
  { replace (mip + M * (layer + L * plane)) with (mip + (layer + L * plane) * M) by lia.
    rewrite Z.div_add by lia. rewrite Z.div_small by lia. lia. }
  assert (Hlmod : (layer + L * plane) mod L = layer).
  { replace (layer + L * plane) with (layer + plane * L) by lia.
    rewrite Z.mod_add by lia. apply Z.mod_small. lia. }
  assert (Hplanes : (mip + M * (layer + L * plane)) / (M * L) = plane).
  { rewrite <- Z.div_div by lia. rewrite Hdiv.
    replace (layer + L * plane) with (layer + plane * L) by lia.
    rewrite Z.div_add by lia. rewrite Z.div_small by lia. lia. }
  rewrite Hmod, Hdiv, Hlmod.
  rewrite (u32_small (M * L)) by (unfold in_u32; lia).
  destruct (Z.eqb_spec (M * L) 0); [lia |].
  rewrite Hplanes, Haspect. split; reflexivity.
Qed.

End SubresourceFacts.

(** ** Swizzles *)

Section SwizzleFacts.
Import Machine Api ViewKey TextureView.

Lemma format_swizzle_is_explicit format allowed :
  all_explicit (vkd3d_set_view_swizzle_for_format format allowed) = true.
Proof.
  unfold vkd3d_set_view_swizzle_for_format.
  destruct ((Resource.vk_aspect_mask format =? VK_IMAGE_ASPECT_STENCIL_BIT) && allowed);
    destruct ((Resource.dxgi_format format =? DXGI_FORMAT_A8_UNORM) && allowed);
    destruct (((Resource.dxgi_format format =? DXGI_FORMAT_B8G8R8X8_UNORM)
               || (Resource.dxgi_format format =? DXGI_FORMAT_B8G8R8X8_UNORM_SRGB))
              && allowed); reflexivity.
Qed.

Lemma explicit_cases s :
  explicit s = true ->
  s = VK_COMPONENT_SWIZZLE_ZERO \/ s = VK_COMPONENT_SWIZZLE_ONE \/
  s = VK_COMPONENT_SWIZZLE_R \/ s = VK_COMPONENT_SWIZZLE_G \/
  s = VK_COMPONENT_SWIZZLE_B \/ s = VK_COMPONENT_SWIZZLE_A.
Proof.
  unfold explicit, VK_COMPONENT_SWIZZLE_ZERO, VK_COMPONENT_SWIZZLE_ONE,
    VK_COMPONENT_SWIZZLE_R, VK_COMPONENT_SWIZZLE_G, VK_COMPONENT_SWIZZLE_B,
    VK_COMPONENT_SWIZZLE_A.
  intros H. apply andb_true_iff in H as [H1 H2].
  apply Z.leb_le in H1, H2. lia.
Qed.

Lemma explicit_read_ignores_own zero one own own' s t :
  explicit s = true ->
  read_channel zero one own s t = read_channel zero one own' s t.
Proof.
  intros Hs.
  destruct (explicit_cases s Hs) as [-> | [-> | [-> | [-> | [-> | ->]]]]]; reflexivity.
Qed.

Lemma swizzle_component_reads first own component swizzle zero one t :
  all_explicit first = true -> explicit component = true ->
  read_channel zero one own component t
    = own (read_through zero one first t) ->
  exists c,
    swizzle_vk_component first component swizzle = Some c /\
    explicit c = true /\
    read_channel zero one own c t
      = read_channel zero one own swizzle (read_through zero one first t).
Proof.
  intros Hfirst Hcomp Hown.
  unfold all_explicit in Hfirst.
  apply andb_true_iff in Hfirst as [Hfirst Ha].
  apply andb_true_iff in Hfirst as [Hfirst Hb].
  apply andb_true_iff in Hfirst as [Hr Hg].
  unfold swizzle_vk_component.
  assert (Hne : forall s, explicit s = true -> (s =? VK_COMPONENT_SWIZZLE_IDENTITY) = false).
  { intros s Hs. destruct (explicit_cases s Hs) as [-> | [-> | [-> | [-> | [-> | ->]]]]];
      reflexivity. }
  destruct (Z.eqb_spec swizzle VK_COMPONENT_SWIZZLE_IDENTITY) as [-> | Hi].
  { rewrite (Hne component Hcomp). exists component. repeat split; assumption. }
  destruct (Z.eqb_spec swizzle VK_COMPONENT_SWIZZLE_R) as [-> | Hsr].
  { rewrite (Hne _ Hr). exists (r first). repeat split; [assumption |].
    exact (explicit_read_ignores_own zero one own red (r first) t Hr). }
  destruct (Z.eqb_spec swizzle VK_COMPONENT_SWIZZLE_G) as [-> | Hsg].
  { rewrite (Hne _ Hg). exists (g first). repeat split; [assumption |].
    exact (explicit_read_ignores_own zero one own green (g first) t Hg). }
  destruct (Z.eqb_spec swizzle VK_COMPONENT_SWIZZLE_B) as [-> | Hsb].
  { rewrite (Hne _ Hb). exists (b first). repeat split; [assumption |].
    exact (explicit_read_ignores_own zero one own blue (b first) t Hb). }
  destruct (Z.eqb_spec swizzle VK_COMPONENT_SWIZZLE_A) as [-> | Hsa].
  { rewrite (Hne _ Ha). exists (a first). repeat split; [assumption |].
    exact (explicit_read_ignores_own zero one own alpha (a first) t Ha). }
  destruct (Z.eqb_spec swizzle VK_COMPONENT_SWIZZLE_ONE) as [-> | Hso].
  { cbn. exists VK_COMPONENT_SWIZZLE_ONE. repeat split; reflexivity. }
  destruct (Z.eqb_spec swizzle VK_COMPONENT_SWIZZLE_ZERO) as [-> | Hsz].
  { cbn. exists VK_COMPONENT_SWIZZLE_ZERO. repeat split; reflexivity. }
  cbn [orb]. rewrite (Hne component Hcomp). exists component.
  split; [reflexivity |]. split; [assumption |].
  rewrite Hown. unfold read_channel.
  destruct (Z.eqb_spec swizzle VK_COMPONENT_SWIZZLE_ZERO); [contradiction |].
  destruct (Z.eqb_spec swizzle VK_COMPONENT_SWIZZLE_ONE); [contradiction |].
  destruct (Z.eqb_spec swizzle VK_COMPONENT_SWIZZLE_R); [contradiction |].
  destruct (Z.eqb_spec swizzle VK_COMPONENT_SWIZZLE_G); [contradiction |].
  destruct (Z.eqb_spec swizzle VK_COMPONENT_SWIZZLE_B); [contradiction |].
  destruct (Z.eqb_spec swizzle VK_COMPONENT_SWIZZLE_A); [contradiction |].
  reflexivity.
Qed.

Lemma compose_defined (first second : VkComponentMapping) :
  all_explicit first = true ->
  exists c,
    vk_component_mapping_compose first second = Some c /\ all_explicit c = true.
Proof.
  intros Hfirst.
  pose proof Hfirst as Hparts. unfold all_explicit in Hparts.
  apply andb_true_iff in Hparts as [Hparts Ha].
  apply andb_true_iff in Hparts as [Hparts Hb].
  apply andb_true_iff in Hparts as [Hr Hg].
  set (t := {| red := 0; green := 0; blue := 0; alpha := 0 |}).
  destruct (swizzle_component_reads first red (r first) (r second) 0 1 t Hfirst Hr eq_refl)
    as (cr & Er & Xr & _).
  destruct (swizzle_component_reads first green (g first) (g second) 0 1 t Hfirst Hg eq_refl)
    as (cg & Eg & Xg & _).
  destruct (swizzle_component_reads first blue (b first) (b second) 0 1 t Hfirst Hb eq_refl)
    as (cb & Eb & Xb & _).
  destruct (swizzle_component_reads first alpha (a first) (a second) 0 1 t Hfirst Ha eq_refl)
    as (ca & Ea & Xa & _).
  unfold vk_component_mapping_compose. rewrite Er, Eg, Eb, Ea.
  eexists. split; [reflexivity |].
  unfold all_explicit. cbn [r g b a]. rewrite Xr, Xg, Xb, Xa. reflexivity.
Qed.

(** X13.  Composing component mappings is composing what they do: when the
    first mapping names a channel or a constant for every component, as the
    swizzle of a format always does, [vk_component_mapping_compose] never
    trips its assertion, its result again names a channel or a constant
    everywhere, and reading a texel through the result is reading it through
    the first mapping and then through the second. *)
Theorem composed_swizzle_reads_first_then_second (first second : VkComponentMapping)
    (zero one : Z) :
  all_explicit first = true ->
  exists c,
    vk_component_mapping_compose first second = Some c /\
    all_explicit c = true /\
    forall t, read_through zero one c t
              = read_through zero one second (read_through zero one first t).
Proof.
  intros Hfirst.
  pose proof Hfirst as Hparts. unfold all_explicit in Hparts.
  apply andb_true_iff in Hparts as [Hparts Ha].
  apply andb_true_iff in Hparts as [Hparts Hb].
  apply andb_true_iff in Hparts as [Hr Hg].
  assert (Hstep : forall own component swizzle,
            explicit component = true ->
            (forall t, read_channel zero one own component t
                       = own (read_through zero one first t)) ->
            exists c,
              swizzle_vk_component first component swizzle = Some c /\
              explicit c = true /\
              forall t, read_channel zero one own c t
                        = read_channel zero one own swizzle (read_through zero one first t)).
  { intros own component swizzle Hc Hown.
    destruct (swizzle_component_reads first own component swizzle zero one
                {| red := 0; green := 0; blue := 0; alpha := 0 |} Hfirst Hc (Hown _))
      as (c & Hrun & Hex & _).
    exists c. split; [exact Hrun |]. split; [exact Hex |].
    intros t.
    destruct (swizzle_component_reads first own component swizzle zero one t
                Hfirst Hc (Hown t)) as (c' & Hrun' & _ & Hread).
    rewrite Hrun in Hrun'. injection Hrun' as <-. exact Hread. }
  destruct (Hstep red (r first) (r second) Hr ltac:(reflexivity)) as (cr & Er & Xr & Rr).
  destruct (Hstep green (g first) (g second) Hg ltac:(reflexivity)) as (cg & Eg & Xg & Rg).
  destruct (Hstep blue (b first) (b second) Hb ltac:(reflexivity)) as (cb & Eb & Xb & Rb).
  destruct (Hstep alpha (a first) (a second) Ha ltac:(reflexivity)) as (ca & Ea & Xa & Ra).
  unfold vk_component_mapping_compose. rewrite Er, Eg, Eb, Ea.
  eexists. split; [reflexivity |]. split.
  - unfold all_explicit. cbn [r g b a]. rewrite Xr, Xg, Xb, Xa. reflexivity.
  - intros t. unfold read_through at 1. cbn [r g b a].
    rewrite Rr, Rg, Rb, Ra. reflexivity.
Qed.



Lemma float_to_uint32_defined clamp :
  u32 clamp < 0x4F800000 ->
  exists n, float_to_uint32 clamp = Some n /\ 0 <= n.
Proof.
  intros Hlt. unfold float_to_uint32.
  assert (Hrange : 0 <= u32 clamp) by (pose proof (u32_range clamp) as Hr; unfold in_u32 in Hr; lia).
  set (bits := u32 clamp) in *.
  assert (Hexp : 0 <= Z.land (Z.shiftr bits 23) 0xFF <= 158).
  { rewrite Z.shiftr_div_pow2 by lia.
    change 0xFF with (Z.ones 8). rewrite Z.land_ones by lia.
    assert (0 <= bits / 2 ^ 23 < 159).
    { split; [apply Z.div_pos; lia |].
      apply Z.div_lt_upper_bound; lia. }
    rewrite Z.mod_small by lia. lia. }
  assert (Hsig : 0 <= Z.lor (Z.land bits 0x7FFFFF) 0x800000).
  { apply Z.lor_nonneg. split; [apply Z.land_nonneg; lia | lia]. }
  destruct (Z.ltb_spec 158 (Z.land (Z.shiftr bits 23) 0xFF)); [lia |].
  destruct (Z.leb_spec 150 (Z.land (Z.shiftr bits 23) 0xFF)).
  - eexists. split; [reflexivity |]. apply Z.shiftl_nonneg. exact Hsig.
  - eexists. split; [reflexivity |]. apply Z.shiftr_nonneg. exact Hsig.
Qed.

Lemma clamp_levels_range clamp base count :
  0 <= base -> 1 <= count -> base + count < 2 ^ 32 ->
  count <> VK_REMAINING_MIP_LEVELS ->
  u32 clamp < 0x4F800000 ->
  exists base' count',
    clamp_levels clamp base count = Some (base', count') /\
    base <= base' /\ 1 <= count' /\ base' + count' = base + count /\
    (float_ge_one clamp = false -> base' = base).
Proof.
  intros Hbase Hcount Hend Hrem Hclamp.
  unfold clamp_levels.
  destruct (float_ge_one clamp).
  - destruct (float_to_uint32_defined clamp Hclamp) as (n & -> & Hn).
    apply Z.eqb_neq in Hrem. rewrite Hrem. cbn [negb].
    rewrite (u32_small (base + count)) by (unfold in_u32; lia).
    rewrite (u32_small (base + count - 1)) by (unfold in_u32; lia).
    set (new_base := Z.min (base + count - 1) (Z.max n base)).
    assert (base <= new_base <= base + count - 1) by (unfold new_base; lia).
    rewrite (u32_small (base + count - new_base)) by (unfold in_u32; lia).
    exists new_base, (base + count - new_base).
    split; [reflexivity |]. repeat split; try lia.
  - exists base, count. split; [reflexivity |]. repeat split; lia.
Qed.

(** X14.  The create info of a texture view: for a view of at least one mip
    level whose range fits 32 bits and whose clamp is below 2^32,
    [vkd3d_create_texture_view] always reaches [vkCreateImageView]; the mip
    levels it asks for are a non-empty part of those of the description and
    end where they end (they are the same when the clamp is below 1.0), and
    the components it asks for never hold the identity swizzle. *)
Theorem texture_view_levels_stay_within_the_request (format : Resource.vkd3d_format)
    (desc : vkd3d_texture_view_desc) :
  0 <= miplevel_idx desc -> 1 <= miplevel_count desc ->
  miplevel_idx desc + miplevel_count desc < 2 ^ 32 ->
  miplevel_count desc <> VK_REMAINING_MIP_LEVELS ->
  u32 (miplevel_clamp desc) < 0x4F800000 ->
  exists info,
    texture_view_create_info format desc = Some info /\
    miplevel_idx desc <= baseMipLevel (subresourceRange info) /\
    1 <= levelCount (subresourceRange info) /\
    baseMipLevel (subresourceRange info) + levelCount (subresourceRange info)
      = miplevel_idx desc + miplevel_count desc /\
    (float_ge_one (miplevel_clamp desc) = false ->
     baseMipLevel (subresourceRange info) = miplevel_idx desc) /\
    all_explicit (ci_components info) = true.
Proof.
  intros Hbase Hcount Hend Hrem Hclamp.
  destruct (clamp_levels_range _ _ _ Hbase Hcount Hend Hrem Hclamp)
    as (base' & count' & Hlevels & H1 & H2 & H3 & H4).
  unfold texture_view_create_info. rewrite Hlevels.
  pose proof (format_swizzle_is_explicit format (allowed_swizzle desc)) as Hfmt.
  destruct (allowed_swizzle desc).
  - destruct (compose_defined _ (components desc) Hfmt) as (c & -> & Hc).
    eexists. split; [reflexivity |]. cbn. repeat split; assumption.
  - eexists. split; [reflexivity |]. cbn [subresourceRange baseMipLevel levelCount ci_components].
    repeat split; assumption.
Qed.

End SwizzleFacts.

(** ** Memory types *)

Section MemoryFacts.
Import Machine Api MemoryInfo.

Lemma bit_testbit i j : 0 <= i < 32 -> 0 <= j -> Z.testbit (bit i) j = (i =? j).
Proof.
  intros Hi Hj. unfold bit. rewrite Z.shiftl_1_l.
  rewrite u32_small.
  - rewrite Z.pow2_bits_eqb by lia. reflexivity.
  - unfold in_u32. split; [apply Z.pow_nonneg; lia |].
    apply Z.pow_lt_mono_r; lia.
Qed.

Lemma uint32_max_testbit j : 0 <= j < 32 -> Z.testbit UINT32_MAX j = true.
Proof.
  intros Hj. change UINT32_MAX with (Z.ones 32). apply Z.ones_spec_low. lia.
Qed.

Lemma u32_lnot_testbit mask j :
  0 <= j < 32 -> Z.testbit (u32 (Z.lnot mask)) j = negb (Z.testbit mask j).
Proof.
  intros Hj. unfold u32, wrap. rewrite Z.mod_pow2_bits_low by lia.
  apply Z.lnot_spec. lia.
Qed.

(** The type the loops see at index [j]. *)
Lemma for_each_mask_bits {A} (test : A -> bool) (types : list A) :
  forall i0 mask0 j,
    0 <= i0 -> 0 <= j < 32 -> i0 + Z.of_nat (length types) <= 32 ->
    Z.testbit (for_each (fun i type mask => if test type then Z.lor mask (bit i) else mask)
                        i0 types mask0) j
    = Z.testbit mask0 j
      || ((i0 <=? j) && match types !! Z.to_nat (j - i0) with
                        | Some type => test type
                        | None => false
                        end).
Proof.
  induction types as [| type types IH]; intros i0 mask0 j Hi0 Hj Hlen.
  - cbn. rewrite andb_false_r, orb_false_r. reflexivity.
  - cbn [for_each]. cbn [length] in Hlen.
    rewrite IH by lia.
    destruct (Z.leb_spec i0 j) as [Hle | Hgt].
    + destruct (Z.eq_dec j i0) as [-> | Hne].
      * rewrite Z.sub_diag. change ((type :: types) !! Z.to_nat 0) with (Some type).
        destruct (Z.leb_spec (i0 + 1) i0); [lia |]. cbn [andb]. rewrite orb_false_r.
        destruct (test type).
        -- rewrite Z.lor_spec, bit_testbit by lia. rewrite Z.eqb_refl.
           rewrite orb_true_r. reflexivity.
        -- rewrite orb_false_r. reflexivity.
      * destruct (Z.leb_spec (i0 + 1) j); [| lia]. cbn [andb].
        replace (Z.to_nat (j - i0)) with (S (Z.to_nat (j - (i0 + 1)))) by lia.
        change ((type :: types) !! S (Z.to_nat (j - (i0 + 1))))
          with (types !! Z.to_nat (j - (i0 + 1))).
        assert (Hbit : Z.testbit (if test type then Z.lor mask0 (bit i0) else mask0) j
                       = Z.testbit mask0 j).
        { destruct (test type); [| reflexivity].
          rewrite Z.lor_spec, bit_testbit by lia.
          destruct (Z.eqb_spec i0 j); [lia |]. apply orb_false_r. }
        rewrite Hbit. reflexivity.
    + destruct (Z.leb_spec (i0 + 1) j); [lia |]. cbn [andb]. rewrite !orb_false_r.
      destruct (test type); [| reflexivity].
      rewrite Z.lor_spec, bit_testbit by lia.
      destruct (Z.eqb_spec i0 j); [lia |]. apply orb_false_r.
Qed.

Lemma global_mask_bit
    (no_upload_hvv : bool) (topology : vkd3d_memory_topology)
    (memory_properties : VkPhysicalDeviceMemoryProperties) (j : Z) :
  (length (memoryTypes memory_properties) <= 32)%nat ->
  0 <= j < 32 ->
  Z.testbit (vkd3d_memory_info_find_global_mask no_upload_hvv topology memory_properties) j
  = negb (no_upload_hvv
          && (1 <? device_local_heap_count topology)
          && negb (host_only_heap_count topology =? 0)
          && exists_device_only_type topology && exists_host_only_type topology
          && match memoryTypes memory_properties !! Z.to_nat j with
             | Some type => is_blocked topology type
             | None => false
             end).
Proof.
  intros Hlen Hj. unfold vkd3d_memory_info_find_global_mask.
  destruct no_upload_hvv; cbn [negb andb]; [| apply uint32_max_testbit, Hj].
  destruct (Z.leb_spec (device_local_heap_count topology) 1) as [Hdl | Hdl].
  { destruct (Z.ltb_spec 1 (device_local_heap_count topology)); [lia |].
    cbn [orb andb negb]. apply uint32_max_testbit, Hj. }
  destruct (Z.ltb_spec 1 (device_local_heap_count topology)); [| lia].
  destruct (host_only_heap_count topology =? 0); cbn [orb andb negb];
    [apply uint32_max_testbit, Hj |].
  destruct (exists_device_only_type topology); cbn [orb andb negb];
    [| apply uint32_max_testbit, Hj].
  destruct (exists_host_only_type topology); cbn [orb andb negb];
    [| apply uint32_max_testbit, Hj].
  rewrite u32_lnot_testbit by exact Hj.
  rewrite (for_each_mask_bits (is_blocked topology)) by lia.
  rewrite Z.bits_0, Z.sub_0_r. cbn [orb].
  destruct (Z.leb_spec 0 j); [| lia]. reflexivity.
Qed.

Lemma land_pow2 f k :
  0 <= k -> Z.land f (2 ^ k) = if Z.testbit f k then 2 ^ k else 0.
Proof.
  intros Hk. apply Z.bits_inj'. intros n Hn.
  rewrite Z.land_spec, Z.pow2_bits_eqb by lia.
  destruct (Z.eqb_spec k n) as [<- | Hne].
  - destruct (Z.testbit f k) eqn:Hbit; cbn [andb].
    + rewrite Z.pow2_bits_eqb by lia. symmetry. apply Z.eqb_refl.
    + symmetry. apply Z.bits_0.
  - rewrite andb_false_r. destruct (Z.testbit f k).
    + rewrite Z.pow2_bits_eqb by lia. symmetry. apply Z.eqb_neq. exact Hne.
    + symmetry. apply Z.bits_0.
Qed.

Lemma has_flag_pow2 f k : 0 <= k -> has_flag f (2 ^ k) = Z.testbit f k.
Proof.
  intros Hk. unfold has_flag. rewrite land_pow2 by exact Hk.
  destruct (Z.testbit f k); [| reflexivity].
  assert (0 < 2 ^ k) by (apply Z.pow_pos_nonneg; lia).
  destruct (Z.eqb_spec (2 ^ k) 0); [lia | reflexivity].
Qed.

Lemma pinned_flags f :
  (Z.land f pinned_mask =? pinned_mask)
  = has_flag f VK_MEMORY_PROPERTY_HOST_VISIBLE_BIT
    && has_flag f VK_MEMORY_PROPERTY_DEVICE_LOCAL_BIT.
Proof.
  change VK_MEMORY_PROPERTY_HOST_VISIBLE_BIT with (2 ^ 1).
  change VK_MEMORY_PROPERTY_DEVICE_LOCAL_BIT with (2 ^ 0).
  rewrite !has_flag_pow2 by lia.
  change pinned_mask with 3.
  destruct (Z.eqb_spec (Z.land f 3) 3) as [Heq | Hne].
  - pose proof (f_equal (fun x => Z.testbit x 0) Heq) as H0.
    pose proof (f_equal (fun x => Z.testbit x 1) Heq) as H1.
    cbv beta in H0, H1. rewrite Z.land_spec in H0, H1.
    change (Z.testbit 3 0) with true in H0. change (Z.testbit 3 1) with true in H1.
    rewrite andb_true_r in H0, H1. rewrite H0, H1. reflexivity.
  - destruct (Z.testbit f 1) eqn:H1; destruct (Z.testbit f 0) eqn:H0; try reflexivity.
    exfalso. apply Hne. apply Z.bits_inj'. intros n Hn. rewrite Z.land_spec.
    destruct (Z.eq_dec n 0) as [-> | Hn0]; [rewrite H0; reflexivity |].
    destruct (Z.eq_dec n 1) as [-> | Hn1]; [rewrite H1; reflexivity |].
    rewrite (Z.bits_above_log2 3 n) by (cbn; lia). apply andb_false_r.
Qed.

(** X15.  The global mask, bit by bit: with at most 32 memory types, memory
    type [j] is left out of the mask exactly when the configuration asks to
    keep uploads off the pinned heaps, the device has more than one
    device-local heap and a host-only heap, a device-only and a host-only
    type exist, and type [j] is both HOST_VISIBLE and DEVICE_LOCAL on a heap
    that is neither the largest device-local nor the largest host-only one.
    A bit past the last memory type is always set. *)
Theorem global_mask_blocks_only_pinned_types_of_other_heaps
    (no_upload_hvv : bool) (topology : vkd3d_memory_topology)
    (memory_properties : VkPhysicalDeviceMemoryProperties) (j : Z) :
  (length (memoryTypes memory_properties) <= 32)%nat ->
  0 <= j < 32 ->
  Z.testbit (vkd3d_memory_info_find_global_mask no_upload_hvv topology memory_properties) j
  = false
  <->
  no_upload_hvv = true /\
  1 < device_local_heap_count topology /\
  host_only_heap_count topology <> 0 /\
  exists_device_only_type topology = true /\
  exists_host_only_type topology = true /\
  exists type,
    memoryTypes memory_properties !! Z.to_nat j = Some type /\
    heapIndex type <> largest_device_local_heap_index topology /\
    heapIndex type <> largest_host_only_heap_index topology /\
    has_flag (propertyFlags type) VK_MEMORY_PROPERTY_HOST_VISIBLE_BIT = true /\
    has_flag (propertyFlags type) VK_MEMORY_PROPERTY_DEVICE_LOCAL_BIT = true.
Proof.
  intros Hlen Hj. rewrite global_mask_bit by assumption.
  rewrite negb_false_iff, !andb_true_iff, negb_true_iff, Z.ltb_lt, Z.eqb_neq.
  split.
  - intros (((((Hconfig & Hdl) & Hho) & Hd) & Hh) & Hblocked).
    repeat (split; [assumption |]).
    destruct (memoryTypes memory_properties !! Z.to_nat j) as [type |]; [| discriminate].
    exists type. split; [reflexivity |].
    unfold is_blocked in Hblocked. rewrite pinned_flags in Hblocked.
    rewrite !andb_true_iff, !negb_true_iff, !Z.eqb_neq in Hblocked.
    tauto.
  - intros (Hconfig & Hdl & Hho & Hd & Hh & type & -> & H1 & H2 & H3 & H4).
    repeat (split; [assumption |]).
    unfold is_blocked. rewrite pinned_flags, H3, H4.
    rewrite !andb_true_iff, !negb_true_iff, !Z.eqb_neq. tauto.
Qed.


Lemma largest_of_skip kind heaps index size heap :
  largest_of kind heaps index size ->
  (kind heap = true -> MemoryInfo.size heap <= size) ->
  largest_of kind (heaps ++ [heap]) index size.
Proof.
  intros (Hnn & Hmax & Hat & Hzero) Hsmall.
  split; [exact Hnn |]. split; [| split; [| exact Hzero]].
  - intros i h Hi Hk.
    apply lookup_app_Some in Hi as [Hi | [Hge Hi]]; [exact (Hmax i h Hi Hk) |].
    apply list_lookup_singleton_Some in Hi as [_ <-]. exact (Hsmall Hk).
  - intros Hpos. destruct (Hat Hpos) as (Hidx & (h & Hh & Hk & Hs) & Hfirst).
    split; [exact Hidx |]. split.
    + exists h. split; [| split; assumption].
      apply lookup_app_Some. left. exact Hh.
    + intros i h' Hi Hk' Hlt.
      apply lookup_app_Some in Hi as [Hi | [Hge Hi]]; [exact (Hfirst i h' Hi Hk' Hlt) |].
      apply lookup_lt_Some in Hh. lia.
Qed.

Lemma largest_of_take kind heaps index size heap :
  largest_of kind heaps index size ->
  kind heap = true -> size < MemoryInfo.size heap ->
  largest_of kind (heaps ++ [heap]) (Z.of_nat (length heaps)) (MemoryInfo.size heap).
Proof.
  intros (Hnn & Hmax & Hat & Hzero) Hk Hlarger.
  split; [lia |]. split; [| split; [| lia]].
  - intros i h Hi Hk'.
    apply lookup_app_Some in Hi as [Hi | [Hge Hi]]; [specialize (Hmax i h Hi Hk'); lia |].
    apply list_lookup_singleton_Some in Hi as [_ <-]. lia.
  - intros _. split; [lia |]. split.
    + exists heap. rewrite Nat2Z.id. split; [| split; [exact Hk | reflexivity]].
      apply lookup_app_Some. right. split; [lia |].
      rewrite Nat.sub_diag. reflexivity.
    + intros i h Hi Hk' Hlt. rewrite Nat2Z.id in Hlt.
      apply lookup_app_Some in Hi as [Hi | [Hge Hi]]; [| lia].
      specialize (Hmax i h Hi Hk'). lia.
Qed.

Lemma largest_of_other kind heaps index size heap :
  largest_of kind heaps index size -> kind heap = false ->
  largest_of kind (heaps ++ [heap]) index size.
Proof.
  intros H Hk. apply largest_of_skip; [exact H |]. rewrite Hk. discriminate.
Qed.

Lemma filter_length_snoc {A} (f : A -> bool) l x :
  length (List.filter f (l ++ [x]))
  = (length (List.filter f l) + (if f x then 1 else 0))%nat.
Proof.
  rewrite List.filter_app, length_app. cbn [List.filter].
  destruct (f x); reflexivity.
Qed.

Lemma filter_length_le {A} (f : A -> bool) l :
  (length (List.filter f l) <= length l)%nat.
Proof.
  induction l as [| x l IH]; cbn; [lia |]. destruct (f x); cbn; lia.
Qed.

Lemma topology_of_heap_summarises seen heap t :
  summarises seen t -> (length seen < 16)%nat ->
  summarises (seen ++ [heap]) (topology_of_heap (Z.of_nat (length seen)) heap t).
Proof.
  intros (Hdl & Hho & Hcdl & Hcho) Hlen.
  pose proof (filter_length_le device_local seen) as Hle1.
  pose proof (filter_length_le host_only seen) as Hle2.
  assert (Hother : host_only heap = negb (device_local heap)) by reflexivity.
  unfold topology_of_heap.
  change (has_flag (flags heap) VK_MEMORY_HEAP_DEVICE_LOCAL_BIT) with (device_local heap).
  destruct (device_local heap) eqn:Hkind; cbv zeta; unfold summarises;
    cbn [largest_device_local_heap_size largest_device_local_heap_index
         largest_host_only_heap_size largest_host_only_heap_index
         device_local_heap_count host_only_heap_count];
    rewrite !filter_length_snoc, Hkind, Hother; cbn [negb].
  - split; [| split; [| split]].
    + destruct (Z.ltb_spec (largest_device_local_heap_size t) (size heap)).
      * eapply largest_of_take; eassumption.
      * apply largest_of_skip; [exact Hdl | intros _; lia].
    + apply largest_of_other; [exact Hho | exact Hother].
    + rewrite Hcdl. rewrite u32_small by (unfold in_u32; lia). lia.
    + rewrite Hcho. lia.
  - split; [| split; [| split]].
    + apply largest_of_other; [exact Hdl | exact Hkind].
    + destruct (Z.ltb_spec (largest_host_only_heap_size t) (size heap)).
      * eapply largest_of_take; [exact Hho | exact Hother | assumption].
      * apply largest_of_skip; [exact Hho | intros _; lia].
    + rewrite Hcdl. lia.
    + rewrite Hcho. rewrite u32_small by (unfold in_u32; lia). lia.
Qed.

Lemma heaps_loop_summarises rest :
  forall seen t,
    summarises seen t -> (length seen + length rest <= 16)%nat ->
    summarises (seen ++ rest) (for_each topology_of_heap (Z.of_nat (length seen)) rest t).
Proof.
  induction rest as [| heap rest IH]; intros seen t Hsum Hlen.
  - rewrite app_nil_r. exact Hsum.
  - cbn [for_each]. cbn [length] in Hlen.
    replace (seen ++ heap :: rest) with ((seen ++ [heap]) ++ rest)
      by (rewrite <- app_assoc; reflexivity).
    replace (Z.of_nat (length seen) + 1) with (Z.of_nat (length (seen ++ [heap])))
      by (rewrite length_app; cbn [length]; lia).
    apply IH.
    + apply topology_of_heap_summarises; [exact Hsum | lia].
    + rewrite length_app. cbn [length]. lia.
Qed.

Lemma types_loop_keeps_heaps types :
  forall i t,
    let t' := for_each topology_of_type i types t in
    largest_device_local_heap_size t' = largest_device_local_heap_size t /\
    largest_host_only_heap_size t' = largest_host_only_heap_size t /\
    largest_device_local_heap_index t' = largest_device_local_heap_index t /\
    largest_host_only_heap_index t' = largest_host_only_heap_index t /\
    device_local_heap_count t' = device_local_heap_count t /\
    host_only_heap_count t' = host_only_heap_count t.
Proof.
  induction types as [| type types IH]; intros i t; cbn [for_each].
  - cbv zeta. repeat split; reflexivity.
  - cbv zeta. destruct (IH (i + 1) (topology_of_type i type t))
      as (H1 & H2 & H3 & H4 & H5 & H6).
    rewrite H1, H2, H3, H4, H5, H6. unfold topology_of_type.
    destruct ((heapIndex type =? largest_device_local_heap_index t)
              && has_flag (propertyFlags type) VK_MEMORY_PROPERTY_DEVICE_LOCAL_BIT
              && negb (has_flag (propertyFlags type) VK_MEMORY_PROPERTY_HOST_VISIBLE_BIT));
      [repeat split; reflexivity |].
    destruct ((heapIndex type =? largest_host_only_heap_index t)
              && negb (has_flag (propertyFlags type) VK_MEMORY_PROPERTY_DEVICE_LOCAL_BIT)
              && has_flag (propertyFlags type) VK_MEMORY_PROPERTY_HOST_VISIBLE_BIT);
      repeat split; reflexivity.
Qed.

Lemma summarises_ext heaps t t' :
  summarises heaps t ->
  largest_device_local_heap_size t' = largest_device_local_heap_size t ->
  largest_host_only_heap_size t' = largest_host_only_heap_size t ->
  largest_device_local_heap_index t' = largest_device_local_heap_index t ->
  largest_host_only_heap_index t' = largest_host_only_heap_index t ->
  device_local_heap_count t' = device_local_heap_count t ->
  host_only_heap_count t' = host_only_heap_count t ->
  summarises heaps t'.
Proof.
  unfold summarises. intros H -> -> -> -> -> ->. exact H.
Qed.

Lemma no_topology_summarises : summarises [] no_topology.
Proof.
  unfold summarises, largest_of, no_topology; cbn.
  repeat split; try lia; try (intros i heap Hi; rewrite lookup_nil in Hi; discriminate).
Qed.

(** X16.  The topology of the heaps: with at most 16 heaps,
    [vkd3d_memory_info_get_topology] counts the device-local heaps and the
    others exactly, no heap of a kind is larger than the size it records
    for the kind, and a size that is not zero is the size of the heap at
    the index recorded, which is of the kind and the first of this size.
    When a kind has no heap, or only empty ones, its index is 0 whatever
    heap 0 is. *)
Theorem topology_names_the_largest_heap_of_each_kind
    (memory_properties : VkPhysicalDeviceMemoryProperties) :
  (length (memoryHeaps memory_properties) <= 16)%nat ->
  summarises (memoryHeaps memory_properties)
             (vkd3d_memory_info_get_topology memory_properties).
Proof.
  intros Hlen. unfold vkd3d_memory_info_get_topology.
  pose proof (heaps_loop_summarises (memoryHeaps memory_properties) [] no_topology
                no_topology_summarises Hlen) as Hsum.
  cbn [app length Z.of_nat] in Hsum.
  destruct (types_loop_keeps_heaps (memoryTypes memory_properties) 0
              (for_each topology_of_heap 0 (memoryHeaps memory_properties) no_topology))
    as (H1 & H2 & H3 & H4 & H5 & H6).
  eapply summarises_ext; eassumption.
Qed.



Lemma types_loop_flags types :
  forall i t,
    let t' := for_each topology_of_type i types t in
    exists_device_only_type t'
    = exists_device_only_type t
      || existsb (fun type => (heapIndex type =? largest_device_local_heap_index t)
                              && device_only_type type) types
    /\
    exists_host_only_type t'
    = exists_host_only_type t
      || existsb (fun type => (heapIndex type =? largest_host_only_heap_index t)
                              && host_only_type type) types.
Proof.
  induction types as [| type types IH]; intros i t; cbn [for_each existsb]; cbv zeta.
  - rewrite !orb_false_r. split; reflexivity.
  - destruct (IH (i + 1) (topology_of_type i type t)) as [-> ->].
    unfold topology_of_type, device_only_type, host_only_type.
    destruct (heapIndex type =? largest_device_local_heap_index t);
      destruct (heapIndex type =? largest_host_only_heap_index t);
      destruct (has_flag (propertyFlags type) VK_MEMORY_PROPERTY_DEVICE_LOCAL_BIT);
      destruct (has_flag (propertyFlags type) VK_MEMORY_PROPERTY_HOST_VISIBLE_BIT);
      cbn [andb negb orb exists_device_only_type exists_host_only_type
           largest_device_local_heap_index largest_host_only_heap_index];
      rewrite ?orb_true_r, ?orb_false_r; try (split; reflexivity);
      split; try reflexivity;
      destruct (exists_device_only_type t); destruct (exists_host_only_type t); reflexivity.
Qed.

Lemma existsb_lookup {A} (f : A -> bool) (l : list A) :
  existsb f l = true -> exists (i : nat) x, l !! i = Some x /\ f x = true.
Proof.
  induction l as [| x l IH]; cbn [existsb]; [discriminate |].
  destruct (f x) eqn:Hx; cbn [orb].
  - intros _. exists 0%nat, x. split; [reflexivity | exact Hx].
  - intros H. destruct (IH H) as (i & y & Hi & Hy).
    exists (S i), y. split; [exact Hi | exact Hy].
Qed.

(** X17.  Blocking leaves a way out: with at most 32 memory types, whenever
    the global mask computed from the topology of the device leaves out some
    memory type, it keeps a type that is DEVICE_LOCAL and not HOST_VISIBLE
    on the largest device-local heap, and a type that is HOST_VISIBLE and
    not DEVICE_LOCAL on the largest host-only heap. *)
Theorem blocking_keeps_a_device_only_and_a_host_only_type
    (no_upload_hvv : bool) (memory_properties : VkPhysicalDeviceMemoryProperties) (j : Z) :
  let topology := vkd3d_memory_info_get_topology memory_properties in
  let mask := vkd3d_memory_info_find_global_mask no_upload_hvv topology memory_properties in
  (length (memoryTypes memory_properties) <= 32)%nat ->
  0 <= j < 32 ->
  Z.testbit mask j = false ->
  (exists (d : nat) type,
      memoryTypes memory_properties !! d = Some type /\
      device_only_type type = true /\
      heapIndex type = largest_device_local_heap_index topology /\
      Z.testbit mask (Z.of_nat d) = true) /\
  (exists (h : nat) type,
      memoryTypes memory_properties !! h = Some type /\
      host_only_type type = true /\
      heapIndex type = largest_host_only_heap_index topology /\
      Z.testbit mask (Z.of_nat h) = true).
Proof.
  intros topology mask Hlen Hj Hbit.
  unfold mask in Hbit. rewrite global_mask_bit in Hbit by assumption.
  apply negb_false_iff in Hbit.
  apply andb_true_iff in Hbit as [Hbit _].
  apply andb_true_iff in Hbit as [Hbit Hhost].
  apply andb_true_iff in Hbit as [_ Hdevice].
  destruct (types_loop_keeps_heaps (memoryTypes memory_properties) 0
              (for_each topology_of_heap 0 (memoryHeaps memory_properties) no_topology))
    as (_ & _ & Hdi & Hhi & _ & _).
  destruct (types_loop_flags (memoryTypes memory_properties) 0
              (for_each topology_of_heap 0 (memoryHeaps memory_properties) no_topology))
    as (Hd & Hh).
  fold (vkd3d_memory_info_get_topology memory_properties) in Hdi, Hhi, Hd, Hh.
  fold topology in Hdi, Hhi, Hd, Hh.
  rewrite Hd in Hdevice. rewrite Hh in Hhost.
  rewrite <- Hdi in Hdevice. rewrite <- Hhi in Hhost.
  assert (Hflags0 : forall types i t,
            exists_device_only_type (for_each topology_of_heap i types t)
              = exists_device_only_type t /\
            exists_host_only_type (for_each topology_of_heap i types t)
              = exists_host_only_type t).
  { induction types as [| heap types IH]; intros i t; cbn [for_each]; [split; reflexivity |].
    destruct (IH (i + 1) (topology_of_heap i heap t)) as [-> ->].
    unfold topology_of_heap.
    destruct (has_flag (flags heap) VK_MEMORY_HEAP_DEVICE_LOCAL_BIT); split; reflexivity. }
  destruct (Hflags0 (memoryHeaps memory_properties) 0 no_topology) as [Hd0 Hh0].
  rewrite Hd0 in Hdevice. rewrite Hh0 in Hhost.
  cbn [no_topology exists_device_only_type exists_host_only_type orb] in Hdevice, Hhost.
  split.
  - destruct (existsb_lookup _ _ Hdevice) as (d & type & Hlook & Hprop).
    apply andb_true_iff in Hprop as [Hheap Hkind]. apply Z.eqb_eq in Hheap.
    exists d, type. split; [exact Hlook |]. split; [exact Hkind |]. split; [exact Hheap |].
    pose proof (lookup_lt_Some _ _ _ Hlook) as Hlt.
    unfold mask. rewrite global_mask_bit by lia.
    rewrite Nat2Z.id, Hlook. unfold is_blocked. fold topology. rewrite Hheap, Z.eqb_refl.
    cbn [negb andb]. rewrite !andb_false_r. reflexivity.
  - destruct (existsb_lookup _ _ Hhost) as (h & type & Hlook & Hprop).
    apply andb_true_iff in Hprop as [Hheap Hkind]. apply Z.eqb_eq in Hheap.
    exists h, type. split; [exact Hlook |]. split; [exact Hkind |]. split; [exact Hheap |].
    pose proof (lookup_lt_Some _ _ _ Hlook) as Hlt.
    unfold mask. rewrite global_mask_bit by lia.
    rewrite Nat2Z.id, Hlook. unfold is_blocked. fold topology. rewrite Hheap, Z.eqb_refl.
    cbn [negb andb]. rewrite !andb_false_r. reflexivity.
Qed.


Lemma budgets_loop memory_properties topology largest rest :
  memoryHeaps memory_properties !! Z.to_nat (largest_device_local_heap_index topology)
    = Some largest ->
  forall seen info,
    memoryTypes memory_properties = seen ++ rest ->
    (length (memoryTypes memory_properties) <= 32)%nat ->
    Forall (fun type => 0 <= heapIndex type
                        /\ (Z.to_nat (heapIndex type) < length (memoryHeaps memory_properties))%nat)
           rest ->
    (forall j, 0 <= j < 32 ->
               budget_entry_agrees memory_properties topology info j /\
               (Z.of_nat (length seen) <= j -> type_budget info !! j = None)) ->
    exists info',
      for_each (budget_of_type memory_properties topology) (Z.of_nat (length seen)) rest
               (Some info) = Some info' /\
      forall j, 0 <= j < 32 -> budget_entry_agrees memory_properties topology info' j.
Proof.
  intros Hlargest.
  induction rest as [| type rest IH]; intros seen info Hall Hlen Hvalid Hinv.
  - exists info. split; [reflexivity |]. intros j Hj. apply Hinv, Hj.
  - cbn [for_each]. inversion Hvalid as [| ? ? [Hnn Hheap] Hvalid']; subst.
    destruct (lookup_lt_is_Some_2 _ _ Hheap) as [heap Hlook].
    assert (Hhere : memoryTypes memory_properties !! length seen = Some type).
    { rewrite Hall. apply lookup_app_Some. right. split; [lia |].
      rewrite Nat.sub_diag. reflexivity. }
    assert (Hi : Z.of_nat (length seen) < 32).
    { apply lookup_lt_Some in Hhere. lia. }
    replace (Z.of_nat (length seen) + 1) with (Z.of_nat (length (seen ++ [type])))
      by (rewrite length_app; cbn [length]; lia).
    unfold budget_of_type at 2. rewrite Hlook, Hlargest.
    destruct ((Z.land (propertyFlags type) pinned_mask =? pinned_mask)
              && ((u64 (3 * size largest) / 4 <? size heap)
                  && has_flag (flags heap) VK_MEMORY_HEAP_DEVICE_LOCAL_BIT)) eqn:Hcond.
    + apply andb_true_iff in Hcond as [Hpinned Hneeds].
      apply andb_true_iff in Hneeds as [Hsize Hlocal].
      apply Z.eqb_eq in Hpinned. apply Z.ltb_lt in Hsize.
      apply IH.
      * rewrite Hall, <- app_assoc. reflexivity.
      * exact Hlen.
      * exact Hvalid'.
      * intros j Hj. destruct (Hinv j Hj) as [Hagree Hfresh].
        unfold budget_entry_agrees in *.
        cbn [type_budget type_current budget_sensitive_mask].
        destruct (Z.eq_dec j (Z.of_nat (length seen))) as [-> | Hne].
        -- rewrite !lookup_insert_eq. split.
           ++ split; [| split; [reflexivity |]].
              ** rewrite Z.lor_spec, bit_testbit by lia. rewrite Z.eqb_refl.
                 apply orb_true_r.
              ** exists type, heap, largest. rewrite Nat2Z.id.
                 repeat split; assumption.
           ++ rewrite length_app. cbn [length]. lia.
        -- rewrite !lookup_insert_ne by congruence. split.
           ++ rewrite Z.lor_spec, bit_testbit by lia.
              destruct (Z.eqb_spec (Z.of_nat (length seen)) j); [congruence |].
              rewrite orb_false_r. exact Hagree.
           ++ rewrite length_app. cbn [length]. intros Hge. apply Hfresh. lia.
    + apply IH.
      * rewrite Hall, <- app_assoc. reflexivity.
      * exact Hlen.
      * exact Hvalid'.
      * intros j Hj. destruct (Hinv j Hj) as [Hagree Hfresh].
        split; [exact Hagree |].
        rewrite length_app. cbn [length]. intros Hge. apply Hfresh. lia.
Qed.

(** X18.  Budgets: for a device of at most 16 heaps and 32 memory types
    whose types all name a heap of the device, the budgets computed from its
    own topology never read past the heaps, and the mask and the tables they
    fill agree type by type: a type has its bit set exactly when it has a
    budget, its current use is then 0, and a budget is only given to a
    HOST_VISIBLE and DEVICE_LOCAL type of a device-local heap larger than
    three quarters of the largest one, as a sixteenth of that heap. *)
Theorem budgets_agree_with_the_mask (memory_properties : VkPhysicalDeviceMemoryProperties) :
  (length (memoryHeaps memory_properties) <= 16)%nat ->
  (length (memoryTypes memory_properties) <= 32)%nat ->
  Forall (fun type => 0 <= heapIndex type
                      /\ (Z.to_nat (heapIndex type) < length (memoryHeaps memory_properties))%nat)
         (memoryTypes memory_properties) ->
  let topology := vkd3d_memory_info_get_topology memory_properties in
  exists info,
    vkd3d_memory_info_init_budgets topology memory_properties = Some info /\
    forall j, 0 <= j < 32 -> budget_entry_agrees memory_properties topology info j.
Proof.
  intros Hheaps Htypes Hvalid topology.
  set (empty := {| budget_sensitive_mask := 0; type_budget := ∅; type_current := ∅ |}).
  assert (Hempty : forall j, 0 <= j < 32 ->
            budget_entry_agrees memory_properties topology empty j).
  { intros j Hj. unfold budget_entry_agrees, empty. cbn.
    rewrite !lookup_empty. split; [apply Z.bits_0 | reflexivity]. }
  unfold vkd3d_memory_info_init_budgets. fold empty.
  destruct (Z.eqb_spec (device_local_heap_count topology) 0) as [Hnone | Hsome];
    cbn [orb]; [exists empty; split; [reflexivity | exact Hempty] |].
  destruct ((host_only_heap_count topology =? 0)
            || (negb (exists_device_only_type topology)
                || negb (exists_host_only_type topology))) eqn:Hearly.
  { destruct (host_only_heap_count topology =? 0); cbn [orb] in Hearly |- *;
      [exists empty; split; [reflexivity | exact Hempty] |].
    rewrite Hearly. exists empty. split; [reflexivity | exact Hempty]. }
  apply orb_false_iff in Hearly as [-> ->].
  assert (Hsummary : summarises (memoryHeaps memory_properties) topology).
  { pose proof (heaps_loop_summarises (memoryHeaps memory_properties) [] no_topology
                  no_topology_summarises Hheaps) as Hsum.
    cbn [app length Z.of_nat] in Hsum.
    destruct (types_loop_keeps_heaps (memoryTypes memory_properties) 0
                (for_each topology_of_heap 0 (memoryHeaps memory_properties) no_topology))
      as (H1 & H2 & H3 & H4 & H5 & H6).
    eapply summarises_ext; eassumption. }
  destruct Hsummary as ((Hnn & _ & Hat & Hzero) & _ & Hcount & _).
  assert (Hlargest : exists largest,
            memoryHeaps memory_properties
              !! Z.to_nat (largest_device_local_heap_index topology) = Some largest).
  { destruct (Z.eq_dec (largest_device_local_heap_size topology) 0) as [Hz | Hnz].
    - rewrite (Hzero Hz). change (Z.to_nat 0) with 0%nat.
      destruct (memoryHeaps memory_properties) as [| heap heaps] eqn:Hlist.
      + cbn in Hcount. contradiction.
      + exists heap. reflexivity.
    - destruct (Hat ltac:(lia)) as (_ & (heap & Hlook & _) & _).
      exists heap. exact Hlook. }
  destruct Hlargest as (largest & Hlargest).
  apply (budgets_loop memory_properties topology largest
           (memoryTypes memory_properties) Hlargest [] empty).
  - reflexivity.
  - exact Htypes.
  - exact Hvalid.
  - intros j Hj. split; [apply Hempty, Hj |]. intros _. apply lookup_empty.
Qed.


Lemma host_visible_mask_bit memory_properties j :
  (length (memoryTypes memory_properties) <= 32)%nat -> 0 <= j < 32 ->
  Z.testbit (host_visible_mask memory_properties) j = host_visible_type memory_properties j.
Proof.
  intros Hlen Hj. unfold host_visible_mask, host_visible_type.
  rewrite (for_each_mask_bits
             (fun type => has_flag (propertyFlags type) VK_MEMORY_PROPERTY_HOST_VISIBLE_BIT))
    by lia.
  rewrite Z.bits_0, Z.sub_0_r. cbn [orb].
  destruct (Z.leb_spec 0 j); [reflexivity | lia].
Qed.

Lemma land_allows a m j : allows (Z.land a m) j = true -> allows m j = true.
Proof.
  unfold allows. rewrite Z.land_spec. intros H. apply andb_true_iff in H as [_ H]. exact H.
Qed.

Lemma land_allows_l a m j : allows (Z.land a m) j = true -> allows a j = true.
Proof.
  unfold allows. rewrite Z.land_spec. intros H. apply andb_true_iff in H as [H _]. exact H.
Qed.

(** X19.  The masks of the memory info: when [vkd3d_memory_info_init]
    succeeds on a device of at most 32 memory types, both domains are
    filled in; a memory type allowed for buffers, sampled images or render
    targets in either domain is allowed by the global mask, and one allowed
    in the CPU accessible domain is a HOST_VISIBLE memory type of the
    device. *)
Theorem memory_domains_stay_within_the_global_mask
    (memory_properties : VkPhysicalDeviceMemoryProperties)
    (accelerationStructure : bool) (pthread_mutex_init : Z)
    (vkCreateBuffer : VkBufferCreateInfo -> Z * Z) (vkGetBufferMemoryRequirements : Z -> Z)
    (vkCreateImage : VkImageCreateInfo -> Z * Z) (vkGetImageMemoryRequirements : Z -> Z)
    (vkd3d_is_linear_tiling_supported : VkImageCreateInfo -> bool)
    (hresult_from_vk_result : Z -> HRESULT)
    (no_upload_hvv ignore_rtv_host_visible : bool)
    (info : vkd3d_memory_info) (log : list call) :
  (length (memoryTypes memory_properties) <= 32)%nat ->
  vkd3d_memory_info_init memory_properties accelerationStructure pthread_mutex_init
    vkCreateBuffer vkGetBufferMemoryRequirements vkCreateImage vkGetImageMemoryRequirements
    vkd3d_is_linear_tiling_supported hresult_from_vk_result
    no_upload_hvv ignore_rtv_host_visible = Some (S_OK, info, log) ->
  (forall vr, vr < 0 -> hresult_from_vk_result vr <> S_OK) ->
  exists device_domain host_domain,
    non_cpu_accessible_domain info = Some device_domain /\
    cpu_accessible_domain info = Some host_domain /\
    forall j, 0 <= j < 32 ->
      (domain_allows device_domain j = true -> allows (global_mask info) j = true) /\
      (domain_allows host_domain j = true ->
       allows (global_mask info) j = true /\ host_visible_type memory_properties j = true).
Proof.
  intros Hlen Hrun Hfail.
  unfold vkd3d_memory_info_init in Hrun.
  destruct (vkd3d_memory_info_init_budgets _ _) as [budget |]; [| discriminate].
  destruct (pthread_mutex_init =? 0); cbn [negb] in Hrun; [| discriminate].
  destruct (vkCreateBuffer _) as [vr0 buffer].
  destruct (Z.ltb_spec vr0 0) as [Hneg | _];
    [injection Hrun as Hhr _ _; exfalso; exact (Hfail _ Hneg Hhr) |].
  destruct (vkCreateImage _) as [vr1 image1] in Hrun.
  destruct (Z.ltb_spec vr1 0) as [Hneg | _];
    [injection Hrun as Hhr _ _; exfalso; exact (Hfail _ Hneg Hhr) |].
  destruct (linear_type_mask _ _ _ _ _) as [sampled_cpu log1] in Hrun.
  destruct (vkCreateImage _) as [vr2 image2] in Hrun.
  destruct (Z.ltb_spec vr2 0) as [Hneg | _];
    [injection Hrun as Hhr _ _; exfalso; exact (Hfail _ Hneg Hhr) |].
  destruct (linear_type_mask _ _ _ _ _) as [rt_ds_cpu log2] in Hrun.
  destruct (vkCreateImage _) as [vr3 image3] in Hrun.
  destruct (Z.ltb_spec vr3 0) as [Hneg | _];
    [injection Hrun as Hhr _ _; exfalso; exact (Hfail _ Hneg Hhr) |].
  injection Hrun as <- _.
  eexists _, _. split; [reflexivity |]. split; [reflexivity |].
  cbn [global_mask].
  intros j Hj. unfold domain_allows.
  cbn [buffer_type_mask sampled_type_mask rt_ds_type_mask]. split.
  - intros H. apply orb_true_iff in H as [H | H]; [apply orb_true_iff in H as [H | H] |];
      exact (land_allows _ _ _ H).
  - intros H.
    assert (Hboth : forall a, allows (Z.land (Z.land a
                       (vkd3d_memory_info_find_global_mask no_upload_hvv
                          (vkd3d_memory_info_get_topology memory_properties)
                          memory_properties))
                       (host_visible_mask memory_properties)) j = true ->
               allows (vkd3d_memory_info_find_global_mask no_upload_hvv
                          (vkd3d_memory_info_get_topology memory_properties)
                          memory_properties) j = true
               /\ host_visible_type memory_properties j = true).
    { intros a Ha. split.
      - exact (land_allows _ _ _ (land_allows_l _ _ _ Ha)).
      - rewrite <- host_visible_mask_bit by assumption. exact (land_allows _ _ _ Ha). }
    apply orb_true_iff in H as [H | H]; [apply orb_true_iff in H as [H | H] |].
    + exact (Hboth _ H).
    + exact (Hboth _ H).
    + destruct ((_ =? 0) || ignore_rtv_host_visible) in H; exact (Hboth _ H).
Qed.


Section Probes.

Variable vkCreateBuffer : VkBufferCreateInfo -> Z * Z.
Variable vkCreateImage : VkImageCreateInfo -> Z * Z.

Lemma created_images_app l1 l2 :
  created_images vkCreateImage (l1 ++ l2)
  = created_images vkCreateImage l1 ++ created_images vkCreateImage l2.
Proof.
  induction l1 as [| c l1 IH]; [reflexivity |].
  destruct c; cbn [app created_images]; try exact IH.
  destruct (fst (vkCreateImage info) =? VK_SUCCESS); cbn [app]; rewrite IH; reflexivity.
Qed.

Lemma created_buffers_app l1 l2 :
  created_buffers vkCreateBuffer (l1 ++ l2)
  = created_buffers vkCreateBuffer l1 ++ created_buffers vkCreateBuffer l2.
Proof.
  induction l1 as [| c l1 IH]; [reflexivity |].
  destruct c; cbn [app created_buffers]; try exact IH.
  destruct (fst (vkCreateBuffer info) =? VK_SUCCESS); cbn [app]; rewrite IH; reflexivity.
Qed.

Lemma destroyed_images_app l1 l2 :
  destroyed_images (l1 ++ l2) = destroyed_images l1 ++ destroyed_images l2.
Proof.
  induction l1 as [| c l1 IH]; [reflexivity |].
  destruct c; cbn [app destroyed_images]; rewrite ?IH; reflexivity.
Qed.

Lemma destroyed_buffers_app l1 l2 :
  destroyed_buffers (l1 ++ l2) = destroyed_buffers l1 ++ destroyed_buffers l2.
Proof.
  induction l1 as [| c l1 IH]; [reflexivity |].
  destruct c; cbn [app destroyed_buffers]; rewrite ?IH; reflexivity.
Qed.

Lemma balanced_failed_image log info :
  balanced vkCreateBuffer vkCreateImage log ->
  fst (vkCreateImage info) <> VK_SUCCESS ->
  balanced vkCreateBuffer vkCreateImage (log ++ [CreateImage info]).
Proof.
  intros [Hi Hb] Hvr. unfold balanced.
  rewrite created_images_app, destroyed_images_app, created_buffers_app, destroyed_buffers_app.
  cbn [created_images destroyed_images created_buffers destroyed_buffers].
  apply Z.eqb_neq in Hvr. rewrite Hvr, Hi, Hb. split; reflexivity.
Qed.

Lemma balanced_image log info image :
  balanced vkCreateBuffer vkCreateImage log ->
  fst (vkCreateImage info) = VK_SUCCESS -> snd (vkCreateImage info) = image ->
  balanced vkCreateBuffer vkCreateImage
    ((log ++ [CreateImage info]) ++ [GetImageMemoryRequirements image; DestroyImage image]).
Proof.
  intros [Hi Hb] Hvr Himage. unfold balanced.
  rewrite !created_images_app, !destroyed_images_app, !created_buffers_app,
    !destroyed_buffers_app.
  cbn [created_images destroyed_images created_buffers destroyed_buffers].
  rewrite Hvr, Himage, Hi, Hb. cbn. rewrite !app_nil_r. split; reflexivity.
Qed.

Lemma balanced_failed_buffer log info :
  balanced vkCreateBuffer vkCreateImage log ->
  fst (vkCreateBuffer info) <> VK_SUCCESS ->
  balanced vkCreateBuffer vkCreateImage (log ++ [CreateBuffer info]).
Proof.
  intros [Hi Hb] Hvr. unfold balanced.
  rewrite created_images_app, destroyed_images_app, created_buffers_app, destroyed_buffers_app.
  cbn [created_images destroyed_images created_buffers destroyed_buffers].
  apply Z.eqb_neq in Hvr. rewrite Hvr, Hi, Hb. split; reflexivity.
Qed.

Lemma balanced_buffer log info buffer :
  balanced vkCreateBuffer vkCreateImage log ->
  fst (vkCreateBuffer info) = VK_SUCCESS -> snd (vkCreateBuffer info) = buffer ->
  balanced vkCreateBuffer vkCreateImage
    ((log ++ [CreateBuffer info]) ++ [GetBufferMemoryRequirements buffer; DestroyBuffer buffer]).
Proof.
  intros [Hi Hb] Hvr Hbuffer. unfold balanced.
  rewrite !created_images_app, !destroyed_images_app, !created_buffers_app,
    !destroyed_buffers_app.
  cbn [created_images destroyed_images created_buffers destroyed_buffers].
  rewrite Hvr, Hbuffer, Hi, Hb. cbn. rewrite !app_nil_r. split; reflexivity.
Qed.

Lemma balanced_linear vkGetImageMemoryRequirements vkd3d_is_linear_tiling_supported
    info log mask log' :
  balanced vkCreateBuffer vkCreateImage log ->
  linear_type_mask vkCreateImage vkGetImageMemoryRequirements
    vkd3d_is_linear_tiling_supported info log = (mask, log') ->
  balanced vkCreateBuffer vkCreateImage log'.
Proof.
  intros Hlog. unfold linear_type_mask.
  destruct (vkd3d_is_linear_tiling_supported info); [| intros [= _ <-]; exact Hlog].
  destruct (vkCreateImage info) as [vr image] eqn:Hcall.
  destruct (Z.eqb_spec vr VK_SUCCESS) as [-> | Hne]; intros [= _ <-].
  - apply balanced_image; [exact Hlog | |]; rewrite Hcall; reflexivity.
  - apply balanced_failed_image; [exact Hlog |]. rewrite Hcall. exact Hne.
Qed.

End Probes.

Lemma returned_log {A B C} (a a' : A) (b b' : B) (l l' : C) :
  Some (a, b, l) = Some (a', b', l') -> l = l'.
Proof. congruence. Qed.

(** X20.  The probes of the memory info: whatever
    [vkd3d_memory_info_init] returns, on a driver whose creation calls
    answer [VK_SUCCESS] or an error, every dummy buffer and image it created
    has been destroyed again by the time it returns. *)
Theorem memory_info_probes_are_destroyed
    (memory_properties : VkPhysicalDeviceMemoryProperties)
    (accelerationStructure : bool) (pthread_mutex_init : Z)
    (vkCreateBuffer : VkBufferCreateInfo -> Z * Z) (vkGetBufferMemoryRequirements : Z -> Z)
    (vkCreateImage : VkImageCreateInfo -> Z * Z) (vkGetImageMemoryRequirements : Z -> Z)
    (vkd3d_is_linear_tiling_supported : VkImageCreateInfo -> bool)
    (hresult_from_vk_result : Z -> HRESULT)
    (no_upload_hvv ignore_rtv_host_visible : bool)
    (hr : HRESULT) (info : vkd3d_memory_info) (log : list call) :
  (forall image_info, fst (vkCreateImage image_info) <= VK_SUCCESS) ->
  (forall buffer_info, fst (vkCreateBuffer buffer_info) <= VK_SUCCESS) ->
  vkd3d_memory_info_init memory_properties accelerationStructure pthread_mutex_init
    vkCreateBuffer vkGetBufferMemoryRequirements vkCreateImage vkGetImageMemoryRequirements
    vkd3d_is_linear_tiling_supported hresult_from_vk_result
    no_upload_hvv ignore_rtv_host_visible = Some (hr, info, log) ->
  balanced vkCreateBuffer vkCreateImage log.
Proof.
  intros Himage Hbuffer Hrun.
  unfold VK_SUCCESS in Himage, Hbuffer.
  assert (Hstart : balanced vkCreateBuffer vkCreateImage [MutexInit])
    by (split; reflexivity).
  unfold vkd3d_memory_info_init in Hrun.
  destruct (vkd3d_memory_info_init_budgets _ _) as [budget |]; [| discriminate].
  destruct (pthread_mutex_init =? 0); cbn [negb] in Hrun;
    [| apply returned_log in Hrun; rewrite <- Hrun; exact Hstart].
  match type of Hrun with context [vkCreateBuffer ?i] =>
    pose proof (Hbuffer i) as Hle; destruct (vkCreateBuffer i) as [vr0 buffer] eqn:Hcall0
  end.
  cbn [fst] in Hle.
  destruct (Z.ltb_spec vr0 0) as [Hneg | Hok].
  { apply returned_log in Hrun; rewrite <- Hrun. apply balanced_failed_buffer; [exact Hstart |].
    rewrite Hcall0. unfold VK_SUCCESS. cbn [fst]. lia. }
  assert (vr0 = 0) as -> by lia. clear Hle Hok.
  match type of Hrun with context [[MutexInit] ++ [CreateBuffer ?i]] =>
    pose proof (balanced_buffer vkCreateBuffer vkCreateImage [MutexInit] i buffer Hstart
                  ltac:(rewrite Hcall0; reflexivity) ltac:(rewrite Hcall0; reflexivity))
      as Hlog0
  end.
  match type of Hlog0 with balanced _ _ ?l => set (log0 := l) in * end.
  match type of Hrun with context [vkCreateImage ?i] =>
    pose proof (Himage i) as Hle; destruct (vkCreateImage i) as [vr1 image1] eqn:Hcall1
  end.
  cbn [fst] in Hle.
  destruct (Z.ltb_spec vr1 0) as [Hneg | Hok].
  { apply returned_log in Hrun; rewrite <- Hrun. apply balanced_failed_image; [exact Hlog0 |].
    rewrite Hcall1. unfold VK_SUCCESS. cbn [fst]. lia. }
  assert (vr1 = 0) as -> by lia. clear Hle Hok.
  match type of Hrun with context [log0 ++ [CreateImage ?i]] =>
    pose proof (balanced_image vkCreateBuffer vkCreateImage log0 i image1 Hlog0
                  ltac:(rewrite Hcall1; reflexivity) ltac:(rewrite Hcall1; reflexivity))
      as Hlog1
  end.
  match type of Hlog1 with balanced _ _ ?l => set (log1 := l) in * end.
  destruct (linear_type_mask _ _ _ _ log1) as [sampled_cpu log2] eqn:Hlinear1 in Hrun.
  pose proof (balanced_linear _ _ _ _ _ _ _ _ Hlog1 Hlinear1) as Hlog2.
  match type of Hrun with context [vkCreateImage ?i] =>
    pose proof (Himage i) as Hle; destruct (vkCreateImage i) as [vr2 image2] eqn:Hcall2
  end.
  cbn [fst] in Hle.
  destruct (Z.ltb_spec vr2 0) as [Hneg | Hok].
  { apply returned_log in Hrun; rewrite <- Hrun. apply balanced_failed_image; [exact Hlog2 |].
    rewrite Hcall2. unfold VK_SUCCESS. cbn [fst]. lia. }
  assert (vr2 = 0) as -> by lia. clear Hle Hok.
  match type of Hrun with context [log2 ++ [CreateImage ?i]] =>
    pose proof (balanced_image vkCreateBuffer vkCreateImage log2 i image2 Hlog2
                  ltac:(rewrite Hcall2; reflexivity) ltac:(rewrite Hcall2; reflexivity))
      as Hlog3
  end.
  match type of Hlog3 with balanced _ _ ?l => set (log3 := l) in * end.
  destruct (linear_type_mask _ _ _ _ log3) as [rt_ds_cpu log4] eqn:Hlinear2 in Hrun.
  pose proof (balanced_linear _ _ _ _ _ _ _ _ Hlog3 Hlinear2) as Hlog4.
  match type of Hrun with context [vkCreateImage ?i] =>
    pose proof (Himage i) as Hle; destruct (vkCreateImage i) as [vr3 image3] eqn:Hcall3
  end.
  cbn [fst] in Hle.
  destruct (Z.ltb_spec vr3 0) as [Hneg | Hok].
  { apply returned_log in Hrun; rewrite <- Hrun. apply balanced_failed_image; [exact Hlog4 |].
    rewrite Hcall3. unfold VK_SUCCESS. cbn [fst]. lia. }
  assert (vr3 = 0) as -> by lia. clear Hle Hok.
  apply returned_log in Hrun; rewrite <- Hrun.
  apply balanced_image; [exact Hlog4 | |]; rewrite Hcall3; reflexivity.
Qed.

End MemoryFacts.

(** ** Mapping *)

Section MappingFacts.
Import Machine Api Resource Mapping.

Variable device : d3d12_device.
Variable memory_properties : MemoryInfo.VkPhysicalDeviceMemoryProperties.
Variable d3d12_resource_get_sub_resource_count : d3d12_resource -> Z.

(** X21.  The answers of Map: [d3d12_resource_Map] never answers E_NOTIMPL,
    a reserved resource being refused as not CPU accessible before that
    test.  It answers S_OK exactly when the resource is CPU accessible, the
    sub-resource exists and the resource is a buffer, or a texture mapped
    without asking for the pointer that is not a 3D texture with several
    mip levels; every other call is answered E_INVALIDARG, stores no pointer
    and calls nothing.  A pointer stored is the host address of the
    allocation. *)
Theorem map_is_never_not_implemented (r : mapped_resource) (sub_resource : Z)
    (read_range : option D3D12_RANGE) (data : bool)
    (hr : HRESULT) (pointer : option Z) (calls : list call) :
  d3d12_resource_Map device memory_properties d3d12_resource_get_sub_resource_count
    r sub_resource read_range data = Some (hr, pointer, calls) ->
  hr <> E_NOTIMPL /\
  (hr = S_OK \/ hr = E_INVALIDARG /\ pointer = None /\ calls = []) /\
  (hr = S_OK <->
   d3d12_resource_is_cpu_accessible device (resource r) = true /\
   sub_resource < u32 (d3d12_resource_get_sub_resource_count (resource r)) /\
   (d3d12_resource_is_texture (resource r) = true ->
    data = false /\ d3d12_resource_texture_validate_map (resource r) = true)) /\
  (hr = S_OK -> pointer = if data then Some (cpu_address r) else None).
Proof.
  unfold d3d12_resource_Map.
  destruct (d3d12_resource_is_cpu_accessible device (resource r)) eqn:Hcpu; cbn [negb].
  2: { intros [= <- <- <-]. repeat split; try discriminate.
       - right. repeat split.
       - intros (? & _); discriminate. }
  destruct (Z.leb_spec (u32 (d3d12_resource_get_sub_resource_count (resource r))) sub_resource)
    as [Hsub | Hsub].
  { intros [= <- <- <-]. repeat split; try discriminate.
    - right. repeat split.
    - intros (_ & ? & _); lia. }
  destruct (d3d12_resource_is_texture (resource r)
            && (data || negb (d3d12_resource_texture_validate_map (resource r)))) eqn:Htex.
  { intros [= <- <- <-]. repeat split; try discriminate.
    - right. repeat split.
    - intros (_ & _ & Himp). apply andb_true_iff in Htex as [Ht Hd].
      destruct (Himp Ht) as [-> Hv]. rewrite Hv in Hd. discriminate. }
  assert (Hres : has_flag (flags (resource r)) VKD3D_RESOURCE_RESERVED = false).
  { unfold d3d12_resource_is_cpu_accessible in Hcpu.
    apply andb_true_iff in Hcpu as [Hcpu _]. apply negb_true_iff in Hcpu. exact Hcpu. }
  rewrite Hres.
  assert (Hshape : d3d12_resource_is_texture (resource r) = true ->
                   data = false /\ d3d12_resource_texture_validate_map (resource r) = true).
  { intros Ht. rewrite Ht in Htex. cbn [andb] in Htex.
    apply orb_false_iff in Htex as [-> Hv]. apply negb_false_iff in Hv. split; [reflexivity | exact Hv]. }
  destruct data.
  - destruct (cpu_address r =? 0); [discriminate |].
    destruct (d3d12_resource_invalidate_range memory_properties r read_range); [| discriminate].
    intros [= <- <- <-]. repeat split; try discriminate; try assumption.
    + left. reflexivity.
    + apply Hshape; assumption.
    + apply Hshape; assumption.
  - destruct (d3d12_resource_invalidate_range memory_properties r read_range); [| discriminate].
    intros [= <- <- <-]. repeat split; try discriminate; try assumption.
    + left. reflexivity.
    + apply Hshape; assumption.
Qed.

Lemma mapped_range_of_buffer (r : mapped_resource) (range : D3D12_RANGE) type :
  MemoryInfo.memoryTypes memory_properties !! Z.to_nat (vk_memory_type r) = Some type ->
  has_flag (MemoryInfo.propertyFlags type) VK_MEMORY_PROPERTY_HOST_COHERENT_BIT = false ->
  d3d12_resource_is_buffer (resource r) = true ->
  Begin range < End_ range ->
  d3d12_resource_get_mapped_memory_range memory_properties r (Some range)
  = Some (Some {| memory := mem_vk_memory (resource r);
                  offset := u64 (mem_offset (resource r) + Begin range);
                  size := u64 (End_ range - Begin range) |}).
Proof.
  intros Htype Hcoherent Hbuffer Hrange.
  unfold d3d12_resource_get_mapped_memory_range.
  destruct (Z.leb_spec (End_ range) (Begin range)); [lia |].
  rewrite Htype, Hcoherent.
  unfold d3d12_resource_is_buffer in Hbuffer. rewrite Hbuffer. reflexivity.
Qed.

(** X22.  The bytes Map and Unmap hand to the driver: for a CPU accessible
    buffer on memory that is not HOST_COHERENT and a range of its bytes
    that is not empty, Map makes one call that invalidates, and Unmap one
    call that flushes, the same bytes: those of the range, counted from the
    place of the buffer in its allocation and lying within the buffer. *)
Theorem map_and_unmap_name_the_bytes_of_the_range (r : mapped_resource) (sub_resource : Z)
    (range : D3D12_RANGE) (data : bool) type :
  d3d12_resource_is_cpu_accessible device (resource r) = true ->
  d3d12_resource_is_buffer (resource r) = true ->
  sub_resource < u32 (d3d12_resource_get_sub_resource_count (resource r)) ->
  cpu_address r <> 0 ->
  MemoryInfo.memoryTypes memory_properties !! Z.to_nat (vk_memory_type r) = Some type ->
  has_flag (MemoryInfo.propertyFlags type) VK_MEMORY_PROPERTY_HOST_COHERENT_BIT = false ->
  0 <= Begin range < End_ range ->
  End_ range <= Width (desc (resource r)) ->
  0 <= mem_offset (resource r) ->
  mem_offset (resource r) + Width (desc (resource r)) < 2 ^ 64 ->
  exists bytes,
    d3d12_resource_Map device memory_properties d3d12_resource_get_sub_resource_count
      r sub_resource (Some range) data
    = Some (S_OK, if data then Some (cpu_address r) else None,
            [InvalidateMappedMemoryRanges bytes]) /\
    d3d12_resource_Unmap memory_properties d3d12_resource_get_sub_resource_count
      r sub_resource (Some range)
    = Some [FlushMappedMemoryRanges bytes] /\
    memory bytes = mem_vk_memory (resource r) /\
    offset bytes = mem_offset (resource r) + Begin range /\
    size bytes = End_ range - Begin range /\
    within bytes (mem_offset (resource r))
           (mem_offset (resource r) + Width (desc (resource r))).
Proof.
  intros Hcpu Hbuffer Hsub Haddress Htype Hcoherent Hrange Hend Hoffset Hfits.
  pose proof (mapped_range_of_buffer r range type Htype Hcoherent Hbuffer ltac:(lia)) as Hbytes.
  eexists. split; [| split].
  - unfold d3d12_resource_Map. rewrite Hcpu. cbn [negb].
    destruct (Z.leb_spec (u32 (d3d12_resource_get_sub_resource_count (resource r)))
                sub_resource); [lia |].
    assert (Htexture : d3d12_resource_is_texture (resource r) = false).
    { unfold d3d12_resource_is_texture. unfold d3d12_resource_is_buffer in Hbuffer.
      rewrite Hbuffer. reflexivity. }
    rewrite Htexture. cbn [andb].
    unfold d3d12_resource_is_cpu_accessible in Hcpu.
    apply andb_true_iff in Hcpu as [Hres _]. apply negb_true_iff in Hres. rewrite Hres.
    unfold d3d12_resource_invalidate_range. rewrite Hbytes.
    destruct data; [| reflexivity].
    destruct (Z.eqb_spec (cpu_address r) 0); [contradiction | reflexivity].
  - unfold d3d12_resource_Unmap.
    destruct (Z.leb_spec (u32 (d3d12_resource_get_sub_resource_count (resource r)))
                sub_resource); [lia |].
    unfold d3d12_resource_flush_range. rewrite Hbytes. reflexivity.
  - cbn [memory offset size]. unfold within. cbn [offset size].
    rewrite !u64_small by (unfold in_u64; lia).
    repeat split; lia.
Qed.

End MappingFacts.

(** ** The life of a view *)

Section ViewLifeFacts.
Import Machine Api ViewMap ViewLife.

Lemma destroy_entries_spec entries :
  forall w,
    base.NoDup (snd <$> entries) ->
    (forall view, view ∈ snd <$> entries -> is_Some (views w !! view)) ->
    exists w',
      destroy_entries entries w = Some w' /\
      map w' = map w /\ used_count w' = used_count w /\
      next w' = next w /\ cookies w' = cookies w /\
      (forall view, views w' !! view
                    = if decide (view ∈ snd <$> entries) then None else views w !! view) /\
      (forall handle, handle ∈ native w' <->
                      handle ∈ native w /\
                      ~ exists view v, view ∈ snd <$> entries /\ views w !! view = Some v
                                       /\ vk_handle v = handle).
Proof.
  induction entries as [| [key view] entries IH]; intros w Hdistinct Hlive.
  - exists w. split; [reflexivity |]. do 4 (split; [reflexivity |]). split.
    + intros view. rewrite decide_False; [reflexivity | apply not_elem_of_nil].
    + intros handle. split.
      * intros H. split; [exact H |].
        intros (a & va & Ha & _). apply elem_of_nil in Ha. exact Ha.
      * intros [H _]. exact H.
  - change (snd <$> (key, view) :: entries) with (view :: (snd <$> entries)) in *.
    apply list.NoDup_cons in Hdistinct as [Hfresh Hdistinct].
    destruct (Hlive view (list_elem_of_here _ _)) as [v Hv].
    cbn [destroy_entries]. unfold vkd3d_view_destroy. rewrite Hv.
    set (w1 := set_views w (delete view (views w)) (native w ∖ {[vk_handle v]})).
    destruct (IH w1 Hdistinct) as (w' & Hrun & Hmap & Hused & Hnext & Hcookies & Hviews & Hnative).
    { intros a Ha. cbn. rewrite lookup_delete_ne.
      - apply Hlive. right. exact Ha.
      - intros <-. contradiction. }
    exists w'. split; [exact Hrun |].
    split; [rewrite Hmap; reflexivity |]. split; [rewrite Hused; reflexivity |].
    split; [rewrite Hnext; reflexivity |]. split; [rewrite Hcookies; reflexivity |].
    split.
    + intros a. rewrite Hviews. cbn [w1 set_views views].
      destruct (decide (a ∈ snd <$> entries)) as [Hin | Hout].
      * rewrite decide_True by (right; exact Hin). reflexivity.
      * destruct (decide (a = view)) as [-> | Hne].
        -- rewrite decide_True by left. apply lookup_delete_eq.
        -- rewrite decide_False.
           ++ apply lookup_delete_ne. congruence.
           ++ intros Hin. apply elem_of_cons in Hin as [? | ?]; contradiction.
    + intros handle. rewrite Hnative. cbn [w1 set_views views native].
      rewrite elem_of_difference, elem_of_singleton. split.
      * intros [[Hin Hne] Hnone]. split; [exact Hin |].
        intros (a & va & Ha & Hva & Hhandle).
        apply elem_of_cons in Ha as [-> | Ha].
        -- rewrite Hv in Hva. injection Hva as <-. congruence.
        -- apply Hnone. exists a, va. split; [exact Ha |]. split; [| exact Hhandle].
           rewrite lookup_delete_ne; [exact Hva |]. intros <-. contradiction.
      * intros [Hin Hnone]. split; [split; [exact Hin |] |].
        -- intros ->. apply Hnone. exists view, v. split; [left |]. split; [exact Hv | reflexivity].
        -- intros (a & va & Ha & Hva & Hhandle). apply Hnone.
           exists a, va. split; [right; exact Ha |]. split; [| exact Hhandle].
           destruct (decide (a = view)) as [-> | Hne]; [contradiction |].
           rewrite lookup_delete_ne in Hva by congruence. exact Hva.
Qed.

(** X23.  Teardown of a view cache: when the entries of the map name
    distinct live views, [vkd3d_view_map_destroy] frees exactly these views
    and destroys exactly their native handles, whatever their reference
    counts, and leaves the map empty; views the map does not name, and
    their handles, stay as they were. *)
Theorem view_map_teardown_frees_the_views_of_the_map (w : world) :
  NoDup (entry_views w) ->
  (forall view, view ∈ entry_views w -> is_Some (views w !! view)) ->
  exists w',
    vkd3d_view_map_destroy w = Some w' /\
    map w' = [] /\ used_count w' = 0 /\
    (forall view, views w' !! view
                  = if decide (view ∈ entry_views w) then None else views w !! view) /\
    (forall handle, handle ∈ native w' <->
                    handle ∈ native w /\
                    ~ exists view v, view ∈ entry_views w /\ views w !! view = Some v
                                     /\ vk_handle v = handle).
Proof.
  intros Hdistinct Hlive. unfold vkd3d_view_map_destroy.
  apply NoDup_ListNoDup in Hdistinct.
  destruct (destroy_entries_spec (map w) w Hdistinct Hlive)
    as (w' & -> & _ & _ & _ & _ & Hviews & Hnative).
  exists (hash_map_clear w'). split; [reflexivity |].
  split; [reflexivity |]. split; [reflexivity |].
  split; [exact Hviews | exact Hnative].
Qed.

(** X24.  Reference counts of a view: on a live view whose count is below
    2^32 - 1, a reference taken and dropped again leaves everything as it
    was; dropping the last reference frees the view and destroys its native
    handle, and any later use of the view is a use of a freed object. *)
Theorem view_reference_round_trip (view : Z) (w : world) (v : vkd3d_view) :
  views w !! view = Some v ->
  0 <= refcount v < 2 ^ 32 - 1 ->
  (exists w1, vkd3d_view_incref view w = Some w1 /\
              (0 < refcount v -> vkd3d_view_decref view w1 = Some w)) /\
  (refcount v = 1 ->
   exists w2, vkd3d_view_decref view w = Some w2 /\
              vkd3d_view_destroy view w = Some w2 /\
              views w2 !! view = None /\
              (vk_handle v ∉ native w2) /\
              vkd3d_view_incref view w2 = None /\
              vkd3d_view_decref view w2 = None).
Proof.
  intros Hlive Hcount. split.
  - unfold vkd3d_view_incref. rewrite Hlive. eexists. split; [reflexivity |].
    intros Hpos. unfold vkd3d_view_decref. cbn [views set_views].
    rewrite lookup_insert_eq. cbn [refcount cookie vk_handle].
    rewrite (u32_small (refcount v + 1)) by (unfold in_u32; lia).
    replace (refcount v + 1 - 1) with (refcount v) by lia.
    rewrite (u32_small (refcount v)) by (unfold in_u32; lia).
    destruct (Z.eqb_spec (refcount v) 0); [lia |].
    unfold set_views. cbn [map used_count views native next cookies].
    rewrite insert_insert_eq.
    replace {| refcount := refcount v; cookie := cookie v; vk_handle := vk_handle v |}
      with v by (destruct v; reflexivity).
    rewrite insert_id by exact Hlive. destruct w; reflexivity.
  - intros Hone. unfold vkd3d_view_decref at 1. rewrite Hlive, Hone.
    change (u32 (1 - 1) =? 0) with true. cbv iota.
    unfold vkd3d_view_destroy. rewrite Hlive. eexists. split; [reflexivity |].
    split; [reflexivity |].
    cbn [views native set_views].
    split; [apply lookup_delete_eq |]. split; [set_solver |].
    unfold vkd3d_view_incref, vkd3d_view_decref. cbn [views set_views].
    rewrite lookup_delete_eq. split; reflexivity.
Qed.

End ViewLifeFacts.

(** ** The data buffer of a descriptor heap *)

Section HeapDataFacts.
Import Machine Api Resource HeapData.

Variable minStorageBufferOffsetAlignment nonCoherentAtomSize : Z.
Variable bindless_raw_va_aux_buffer : bool.
Variable bindless_offset_buffer : bool.
Variable VKD3D_ENABLE_DESCRIPTOR_QA : bool.
Variable vkd3d_descriptor_debug_active_qa_checks : bool.
Variable VKD3D_DESCRIPTOR_DEBUG_NUM_PAD_DESCRIPTORS : Z.
Variable vkd3d_descriptor_debug_heap_info_size : Z -> Z.
Variable force_host_cached no_upload_hvv : bool.
Variable vkd3d_create_buffer : D3D12_HEAP_PROPERTIES -> Z -> D3D12_RESOURCE_DESC -> HRESULT * Z.
Variable vkd3d_allocate_buffer_memory : Z -> Z -> HRESULT * Z.
Variable vkMapMemory : Z -> Z * Z.
Variable vkd3d_calloc : Z -> Z.
Variable hresult_from_vk_result : Z -> HRESULT.
Variable void_ptr_offset : Z -> Z -> Z.
Variable sizeof_vkd3d_bound_buffer_range : Z.

Lemma align_multiple x k :
  0 <= k < 32 -> 0 <= x < 2 ^ 48 ->
  x <= align x (2 ^ k) < x + 2 ^ 32 /\ align x (2 ^ k) mod 2 ^ k = 0.
Proof.
  intros Hk Hx.
  assert (Hp : 0 < 2 ^ k) by (apply Z.pow_pos_nonneg; lia).
  assert (Hle : 2 ^ k < 2 ^ 32) by (apply Z.pow_lt_mono_r; lia).
  split.
  - pose proof (align_pow2_bounds x k ltac:(lia) ltac:(lia) ltac:(lia)). lia.
  - rewrite align_pow2 by (unfold in_u64; lia).
    rewrite Z.mul_comm. apply Z.mod_mul. lia.
Qed.

Lemma sizes_facts (desc : D3D12_DESCRIPTOR_HEAP_DESC) k :
  Z.max minStorageBufferOffsetAlignment nonCoherentAtomSize = 2 ^ k -> 0 <= k < 32 ->
  0 <= NumDescriptors desc < 2 ^ 32 ->
  0 <= VKD3D_DESCRIPTOR_DEBUG_NUM_PAD_DESCRIPTORS < 2 ^ 32 ->
  0 <= vkd3d_descriptor_debug_heap_info_size (NumDescriptors desc) < 2 ^ 48 ->
  0 <= sizeof_vkd3d_bound_buffer_range < 2 ^ 16 ->
  forall s1 s2 s3,
    sizes minStorageBufferOffsetAlignment nonCoherentAtomSize bindless_raw_va_aux_buffer
      bindless_offset_buffer vkd3d_descriptor_debug_active_qa_checks
      VKD3D_DESCRIPTOR_DEBUG_NUM_PAD_DESCRIPTORS vkd3d_descriptor_debug_heap_info_size
      sizeof_vkd3d_bound_buffer_range desc
    = (s1, s2, s3) ->
    0 <= s1 < 2 ^ 50 /\ 0 <= s2 < 2 ^ 50 /\ 0 <= s3 < 2 ^ 50 /\
    s1 mod 2 ^ k = 0 /\ s2 mod 2 ^ k = 0 /\
    (Type_ desc = D3D12_DESCRIPTOR_HEAP_TYPE_CBV_SRV_UAV ->
     (bindless_raw_va_aux_buffer = true -> NumDescriptors desc * 8 <= s1) /\
     (bindless_offset_buffer = true ->
      NumDescriptors desc * sizeof_vkd3d_bound_buffer_range <= s2)).
Proof.
  intros Halign Hk Hn Hpad Hinfo Hsizeof s1 s2 s3. unfold sizes. rewrite Halign.
  unfold sizeof_VkDeviceAddress.
  assert (Hp : 0 < 2 ^ k) by (apply Z.pow_pos_nonneg; lia).
  assert (Hentries : 0 <= NumDescriptors desc * sizeof_vkd3d_bound_buffer_range < 2 ^ 48)
    by nia.
  rewrite (u64_small (NumDescriptors desc * sizeof_vkd3d_bound_buffer_range))
    by (unfold in_u64; lia).
  destruct (align_multiple (NumDescriptors desc * sizeof_vkd3d_bound_buffer_range) k Hk
              Hentries) as [Hb4 Hm4].
  set (a4 := align (NumDescriptors desc * sizeof_vkd3d_bound_buffer_range) (2 ^ k)) in *.
  rewrite (u64_small (NumDescriptors desc * 8)) by (unfold in_u64; lia).
  rewrite (u64_small (VKD3D_DESCRIPTOR_DEBUG_NUM_PAD_DESCRIPTORS * 8)) by (unfold in_u64; lia).
  destruct (align_multiple (NumDescriptors desc * 8) k Hk ltac:(lia)) as [Hb1 Hm1].
  destruct (align_multiple (VKD3D_DESCRIPTOR_DEBUG_NUM_PAD_DESCRIPTORS * 8) k Hk ltac:(lia))
    as [Hb2 Hm2].
  destruct (align_multiple (vkd3d_descriptor_debug_heap_info_size (NumDescriptors desc)) k
              Hk ltac:(lia)) as [Hb3 Hm3].
  set (a1 := align (NumDescriptors desc * 8) (2 ^ k)) in *.
  set (a2 := align (VKD3D_DESCRIPTOR_DEBUG_NUM_PAD_DESCRIPTORS * 8) (2 ^ k)) in *.
  set (a3 := align (vkd3d_descriptor_debug_heap_info_size (NumDescriptors desc)) (2 ^ k)) in *.
  assert (Hsum : (a1 + a2) mod 2 ^ k = 0).
  { rewrite Z.add_mod, Hm1, Hm2 by lia. apply Z.mod_0_l. lia. }
  rewrite (u64_small (a1 + a2)) by (unfold in_u64; lia).
  assert (Hzero : 0 mod 2 ^ k = 0) by (apply Z.mod_0_l; lia).
  destruct (Z.eqb_spec (Type_ desc) D3D12_DESCRIPTOR_HEAP_TYPE_CBV_SRV_UAV) as [Htype | Htype];
    destruct bindless_raw_va_aux_buffer, bindless_offset_buffer,
      vkd3d_descriptor_debug_active_qa_checks;
    intros [= <- <- <-]; repeat split; try lia; try assumption; try discriminate;
    try (intros; contradiction).
Qed.

(** X25.  The layout of the data buffer: on a device whose alignment is a
    power of two below 2^32, when [d3d12_descriptor_heap_init_data_buffer]
    goes through for a heap of CBV, SRV and UAV descriptors that holds at
    least one descriptor, the table of raw addresses and the table of buffer
    offsets, each where the bindless flags ask for it, lie in the buffer of
    the heap, start at a multiple of the alignment, have room for one entry
    per descriptor (8 bytes for an address, the size of a bound range for
    an offset) and end within the size asked of the allocator; the table of
    offsets starts where the table of addresses ends. *)
Theorem data_buffer_tables_fit_and_do_not_overlap
    (descriptor_heap : d3d12_descriptor_heap) (desc : D3D12_DESCRIPTOR_HEAP_DESC) (k : Z) :
  let result :=
    d3d12_descriptor_heap_init_data_buffer minStorageBufferOffsetAlignment nonCoherentAtomSize
      bindless_raw_va_aux_buffer bindless_offset_buffer VKD3D_ENABLE_DESCRIPTOR_QA
      vkd3d_descriptor_debug_active_qa_checks VKD3D_DESCRIPTOR_DEBUG_NUM_PAD_DESCRIPTORS
      vkd3d_descriptor_debug_heap_info_size force_host_cached no_upload_hvv
      vkd3d_create_buffer vkd3d_allocate_buffer_memory vkMapMemory vkd3d_calloc
      hresult_from_vk_result void_ptr_offset sizeof_vkd3d_bound_buffer_range
      descriptor_heap desc in
  let heap := snd (fst result) in
  Z.max minStorageBufferOffsetAlignment nonCoherentAtomSize = 2 ^ k -> 0 <= k < 32 ->
  0 < NumDescriptors desc < 2 ^ 32 ->
  0 <= VKD3D_DESCRIPTOR_DEBUG_NUM_PAD_DESCRIPTORS < 2 ^ 32 ->
  0 <= vkd3d_descriptor_debug_heap_info_size (NumDescriptors desc) < 2 ^ 48 ->
  0 < sizeof_vkd3d_bound_buffer_range < 2 ^ 16 ->
  Type_ desc = D3D12_DESCRIPTOR_HEAP_TYPE_CBV_SRV_UAV ->
  (forall vr, vr <> 0 -> hresult_from_vk_result vr <> S_OK) ->
  fst (fst result) = S_OK ->
  forall total, asked_size (snd result) = Some total ->
    (bindless_raw_va_aux_buffer = true ->
     Descriptor.buffer (descriptor (raw_va_aux_buffer heap)) = vk_buffer heap /\
     first_byte (raw_va_aux_buffer heap) = 0 /\
     NumDescriptors desc * 8 <= Descriptor.range (descriptor (raw_va_aux_buffer heap)) /\
     end_byte (raw_va_aux_buffer heap) <= total) /\
    (bindless_offset_buffer = true ->
     Descriptor.buffer (descriptor (buffer_ranges heap)) = vk_buffer heap /\
     first_byte (buffer_ranges heap) mod 2 ^ k = 0 /\
     NumDescriptors desc * sizeof_vkd3d_bound_buffer_range
     <= Descriptor.range (descriptor (buffer_ranges heap)) /\
     end_byte (buffer_ranges heap) <= total /\
     (bindless_raw_va_aux_buffer = true ->
      first_byte (buffer_ranges heap) = end_byte (raw_va_aux_buffer heap))).
Proof.
  intros result heap Halign Hk Hn Hpad Hinfo Hsizeof Htype Hvr.
  subst heap result. unfold d3d12_descriptor_heap_init_data_buffer.
  destruct (sizes _ _ _ _ _ _ _ _ desc) as [[s1 s2] s3] eqn:Hsizes.
  assert (Hentry : 0 < NumDescriptors desc * sizeof_vkd3d_bound_buffer_range) by nia.
  destruct (sizes_facts desc k Halign Hk ltac:(lia) Hpad Hinfo ltac:(lia) s1 s2 s3 Hsizes)
    as (H1 & H2 & H3 & Hm1 & Hm2 & Hroom).
  destruct (Hroom Htype) as [Hroom1 Hroom2]. clear Hroom.
  rewrite (u64_small (s1 + s2)) by (unfold in_u64; lia).
  rewrite (u64_small (s1 + s2 + s3)) by (unfold in_u64; lia).
  destruct (Z.eqb_spec (s1 + s2 + s3) 0) as [Hzero | Hsome].
  { cbn [fst snd asked_size]. intros _ total [=]. }
  assert (Hranges : forall h log total,
    let result :=
      (let '(offset, raw_va) :=
         d3d12_descriptor_heap_get_buffer_range void_ptr_offset h 0 s1 in
       let '(offset0, ranges) :=
         d3d12_descriptor_heap_get_buffer_range void_ptr_offset h offset s2 in
       (S_OK,
        {| vk_buffer := vk_buffer h; vk_memory := vk_memory h; host_memory := host_memory h;
           raw_va_aux_buffer := raw_va; buffer_ranges := ranges;
           descriptor_heap_info :=
             if VKD3D_ENABLE_DESCRIPTOR_QA
             then snd (d3d12_descriptor_heap_get_buffer_range void_ptr_offset h offset0 s3)
             else descriptor_heap_info h |},
        log)) in
    let heap := snd (fst result) in
    asked_size (snd result) = Some total -> s1 + s2 + s3 <= total ->
    (bindless_raw_va_aux_buffer = true ->
     Descriptor.buffer (descriptor (raw_va_aux_buffer heap)) = vk_buffer heap /\
     first_byte (raw_va_aux_buffer heap) = 0 /\
     NumDescriptors desc * 8 <= Descriptor.range (descriptor (raw_va_aux_buffer heap)) /\
     end_byte (raw_va_aux_buffer heap) <= total) /\
    (bindless_offset_buffer = true ->
     Descriptor.buffer (descriptor (buffer_ranges heap)) = vk_buffer heap /\
     first_byte (buffer_ranges heap) mod 2 ^ k = 0 /\
     NumDescriptors desc * sizeof_vkd3d_bound_buffer_range
     <= Descriptor.range (descriptor (buffer_ranges heap)) /\
     end_byte (buffer_ranges heap) <= total /\
     (bindless_raw_va_aux_buffer = true ->
      first_byte (buffer_ranges heap) = end_byte (raw_va_aux_buffer heap)))).
  { intros h log total. unfold d3d12_descriptor_heap_get_buffer_range.
    assert (Hp : 0 < 2 ^ k) by (apply Z.pow_pos_nonneg; lia).
    destruct (Z.eqb_spec s1 0) as [Hs1 | Hs1]; destruct (Z.eqb_spec s2 0) as [Hs2 | Hs2];
      cbn [negb fst snd raw_va_aux_buffer buffer_ranges vk_buffer descriptor];
      unfold first_byte, end_byte;
      cbn [descriptor Descriptor.buffer Descriptor.offset Descriptor.range];
      rewrite ?(u64_small (0 + s1)) by (unfold in_u64; lia);
      intros _ Htotal; split; intros Hflag;
      try (specialize (Hroom1 Hflag)); try (specialize (Hroom2 Hflag));
      try lia;
      repeat split; try lia; try (rewrite Z.add_0_l; assumption);
      try (apply Z.mod_0_l; lia);
      try (intros Hraw; specialize (Hroom1 Hraw); lia). }
  destruct (has_flag (dh_Flags desc) D3D12_DESCRIPTOR_HEAP_FLAG_SHADER_VISIBLE).
  - destruct (vkd3d_create_buffer _ _ _) as [hr0 buffer].
    destruct (FAILED hr0) eqn:Hf0.
    { cbn [fst snd]. intros ->. discriminate. }
    destruct (vkd3d_allocate_buffer_memory _ _) as [hr1 memory].
    destruct (FAILED hr1) eqn:Hf1.
    { cbn [fst snd]. intros ->. discriminate. }
    destruct (vkMapMemory memory) as [vr address].
    destruct (Z.eqb_spec vr 0) as [-> | Hne]; cbn [negb].
    2: { cbn [fst snd]. intros Hok. exfalso. exact (Hvr vr Hne Hok). }
    intros _ total Hasked. apply Hranges; [exact Hasked |].
    revert Hasked.
    destruct (d3d12_descriptor_heap_get_buffer_range _ _ 0 s1) as [o1 r1].
    destruct (d3d12_descriptor_heap_get_buffer_range _ _ o1 s2) as [o2 r2].
    cbn [snd app asked_size Width]. intros [= <-]. lia.
  - intros _ total Hasked. apply Hranges; [exact Hasked |].
    revert Hasked.
    destruct (d3d12_descriptor_heap_get_buffer_range _ _ 0 s1) as [o1 r1].
    destruct (d3d12_descriptor_heap_get_buffer_range _ _ o1 s2) as [o2 r2].
    cbn [snd asked_size]. intros [= <-]. lia.
Qed.

End HeapDataFacts.

(** ** Query heaps *)

Section QueryHeapFacts.
Import Machine Api Resource QueryHeap.

Variable vkd3d_malloc : bool.
Variable d3d12_query_heap_type_is_inline : Z -> bool.
Variable d3d12_query_heap_type_get_data_size : Z -> Z.
Variable vkCreateQueryPool : VkQueryPoolCreateInfo -> Z * Z.
Variable vkd3d_create_buffer : D3D12_HEAP_PROPERTIES -> Z -> D3D12_RESOURCE_DESC -> HRESULT * Z.
Variable vkd3d_allocate_buffer_memory : Z -> Z -> HRESULT * Z.
Variable vkd3d_private_store_init : HRESULT.
Variable hresult_from_vk_result : Z -> HRESULT.

Local Ltac create_cases d :=
  unfold d3d12_query_heap_create;
  destruct vkd3d_malloc; cbn [negb];
  [ destruct (d3d12_query_heap_type_is_inline (Type_ d)); cbn [negb];
    [ destruct (vkd3d_create_buffer _ _ _) as [hr0 buffer] eqn:Hcreate;
      destruct (FAILED hr0) eqn:Hbuffer;
      [ | destruct (vkd3d_allocate_buffer_memory buffer _) as [hr1 memory] eqn:Hallocate;
          destruct (FAILED hr1) eqn:Hmemory;
          [ | destruct (FAILED vkd3d_private_store_init) eqn:Hstore ] ]
    | destruct (Type_ d =? D3D12_QUERY_HEAP_TYPE_TIMESTAMP);
      [ destruct (vkCreateQueryPool _) as [vr pool] eqn:Hcreate;
        destruct (vr <? 0) eqn:Hpool;
        [ | destruct (FAILED vkd3d_private_store_init) eqn:Hstore ]
      | destruct (Type_ d =? D3D12_QUERY_HEAP_TYPE_PIPELINE_STATISTICS);
        [ destruct (vkCreateQueryPool _) as [vr pool] eqn:Hcreate;
          destruct (vr <? 0) eqn:Hpool;
          [ | destruct (FAILED vkd3d_private_store_init) eqn:Hstore ]
        | ] ] ]
  | ].

(** X26.  What creating a query heap leaves behind: a heap is handed out
    only with S_OK, with one reference and one reference taken on the
    device, and nothing freed; when none is handed out, no device reference
    is taken and the object, if it was allocated, is freed once.  The
    function never destroys a query pool and never frees device memory: a
    failure of the private store, the last step, frees the object and
    leaves the query pool, or the buffer and its memory, as created. *)
Theorem query_heap_create_outcomes (d : D3D12_QUERY_HEAP_DESC) :
  let '(hr, heap, log) :=
    (d3d12_query_heap_create vkd3d_malloc d3d12_query_heap_type_is_inline
     d3d12_query_heap_type_get_data_size vkCreateQueryPool vkd3d_create_buffer
     vkd3d_allocate_buffer_memory vkd3d_private_store_init hresult_from_vk_result d) in
  (forall pool memory,
      called (DestroyQueryPool pool) log = false /\
      called (FreeDeviceMemory memory) log = false) /\
  match heap with
  | Some object =>
      hr = S_OK /\ refcount object = 1 /\ desc object = d /\
      count_calls DeviceAddRef log = 1%nat /\ called Free log = false /\
      forall buffer, called (DestroyBuffer buffer) log = false
  | None =>
      called DeviceAddRef log = false /\
      count_calls Free log = (if vkd3d_malloc then 1%nat else 0%nat) /\
      (called PrivateStoreInit log = true ->
       hr = vkd3d_private_store_init /\
       forall buffer, called (DestroyBuffer buffer) log = false)
  end.
Proof.
  create_cases d; cbn; repeat split; try reflexivity; try discriminate.
Qed.

(** X27.  A query heap from creation to its last release: the heap
    [d3d12_query_heap_create] hands out, released once, is gone; the
    release destroys the query pool or the buffer and memory the creation
    obtained, the members it did not fill being null, frees the object once
    and drops the one device reference the creation took. *)
Theorem query_heap_created_and_released (d : D3D12_QUERY_HEAP_DESC)
    (hr : HRESULT) (object : d3d12_query_heap) (log : list call) :
  d3d12_query_heap_create vkd3d_malloc d3d12_query_heap_type_is_inline
    d3d12_query_heap_type_get_data_size vkCreateQueryPool vkd3d_create_buffer
    vkd3d_allocate_buffer_memory vkd3d_private_store_init hresult_from_vk_result d
  = (hr, Some object, log) ->
  exists log',
    d3d12_query_heap_Release object = (0, None, log') /\
    count_calls DeviceAddRef (log ++ log') = count_calls DeviceRelease (log ++ log') /\
    count_calls Malloc (log ++ log') = count_calls Free (log ++ log') /\
    called (DestroyQueryPool (vk_query_pool object)) log' = true /\
    called (DestroyBuffer (vk_buffer object)) log' = true /\
    called (FreeDeviceMemory (vk_memory object)) log' = true /\
    (if d3d12_query_heap_type_is_inline (Type_ d)
     then vk_query_pool object = 0 /\
          (exists heap_properties heap_flags buffer_desc,
              In (CreateBuffer heap_properties heap_flags buffer_desc) log /\
              vk_buffer object
              = snd (vkd3d_create_buffer heap_properties heap_flags buffer_desc) /\
              Width buffer_desc
              = u64 (d3d12_query_heap_type_get_data_size (Type_ d) * Count d)) /\
          vk_memory object
          = snd (vkd3d_allocate_buffer_memory (vk_buffer object)
                   VK_MEMORY_HEAP_DEVICE_LOCAL_BIT)
     else vk_buffer object = 0 /\ vk_memory object = 0 /\
          exists info,
            In (CreateQueryPool info) log /\
            vk_query_pool object = snd (vkCreateQueryPool info) /\
            queryCount info = Count d).
Proof.
  revert hr object log. create_cases d; intros hr object log [= <- <- <-];
    (eexists; split; [reflexivity |]);
    cbn [vk_query_pool vk_buffer vk_memory with_pool with_buffer];
    (split; [reflexivity |]); (split; [reflexivity |]);
    (split; [unfold called; cbn [existsb call_eqb]; rewrite Z.eqb_refl; reflexivity |]);
    (split; [unfold called; cbn [existsb call_eqb]; rewrite Z.eqb_refl; reflexivity |]);
    (split; [unfold called; cbn [existsb call_eqb]; rewrite Z.eqb_refl; reflexivity |]).
  - split; [reflexivity |]. split.
    + eexists _, _, _. split; [right; left; reflexivity |].
      rewrite Hcreate. split; reflexivity.
    + rewrite Hallocate. reflexivity.
  - split; [reflexivity |]. split; [reflexivity |].
    eexists. split; [right; left; reflexivity |].
    rewrite Hcreate. split; reflexivity.
  - split; [reflexivity |]. split; [reflexivity |].
    eexists. split; [right; left; reflexivity |].
    rewrite Hcreate. split; reflexivity.
Qed.

End QueryHeapFacts.

(** ** Descriptor sets of the static samplers *)

Section SamplerSetFacts.
Import Machine Api SamplerSets.

Variable pthread_mutex_lock : Z.
Variable hresult_from_errno : Z -> HRESULT.
Variable hresult_from_vk_result : Z -> HRESULT.
Variable vkAllocateDescriptorSets : Z -> Z -> Z * Z.
Variable vkCreateDescriptorPool : VkDescriptorPoolCreateInfo -> Z * Z.
Variable vkd3d_array_reserve : Z -> bool.

Lemma try_pools_spec pools :
  forall vk_layout vr0 set0 pool0 log0 vr vk_set vk_pool log,
    try_pools vkAllocateDescriptorSets pools vk_layout vr0 set0 pool0 log0
    = (vr, vk_set, vk_pool, log) ->
    vr0 <> VK_SUCCESS ->
    existsb creates_pool log = existsb creates_pool log0 /\
    (vr = vr0 \/ exists pool, vr = fst (vkAllocateDescriptorSets pool vk_layout)) /\
    exists tail, log = log0 ++ tail /\ existsb is_unlock tail = false
                 /\ existsb is_lock tail = false /\
    ((vr = VK_SUCCESS /\
      vkAllocateDescriptorSets vk_pool vk_layout = (VK_SUCCESS, vk_set) /\
      exists before after,
        pools = before ++ vk_pool :: after /\
        exhausted vkAllocateDescriptorSets vk_layout before)
     \/
     (vr <> VK_SUCCESS /\ exhausted vkAllocateDescriptorSets vk_layout pools)).
Proof.
  induction pools as [| pool pools IH];
    intros vk_layout vr0 set0 pool0 log0 vr vk_set vk_pool log Hrun Hvr0.
  - cbn in Hrun. injection Hrun as <- <- <- <-. split; [reflexivity |].
    split; [left; reflexivity |].
    exists []. rewrite app_nil_r. repeat split; try reflexivity.
    right. split; [exact Hvr0 | constructor].
  - cbn [try_pools] in Hrun.
    destruct (vkAllocateDescriptorSets pool vk_layout) as [vr1 set1] eqn:Hcall.
    destruct (Z.eqb_spec vr1 VK_SUCCESS) as [-> | Hne].
    + injection Hrun as <- <- <- <-. split.
      * rewrite existsb_app. cbn. rewrite !orb_false_r. reflexivity.
      * split; [right; exists pool; rewrite Hcall; reflexivity |].
        eexists. split; [reflexivity |]. split; [reflexivity |]. split; [reflexivity |].
        left. split; [reflexivity |]. split; [exact Hcall |].
        exists [], pools. split; [reflexivity | constructor].
    + destruct (IH _ _ _ _ _ _ _ _ _ Hrun Hne)
        as (Hcreated & Hlast & tail & -> & Hun & Hlk & Hcases).
      split.
      * rewrite Hcreated, existsb_app. cbn. rewrite !orb_false_r. reflexivity.
      * split.
        { destruct Hlast as [-> | Hlast]; [| right; exact Hlast].
          right. exists pool. rewrite Hcall. reflexivity. }
        exists (AllocateDescriptorSets pool vk_layout :: tail).
        split; [rewrite <- app_assoc; reflexivity |].
        split; [exact Hun |]. split; [exact Hlk |].
        destruct Hcases as [(Hok & Hset & before & after & -> & Hbefore) | (Hfail & Hall)].
        -- left. split; [exact Hok |]. split; [exact Hset |].
           exists (pool :: before), after. split; [reflexivity |].
           constructor; [rewrite Hcall; exact Hne | exact Hbefore].
        -- right. split; [exact Hfail |].
           constructor; [rewrite Hcall; exact Hne | exact Hall].
Qed.

(** X28.  Where the descriptor set of a static sampler comes from: on a
    driver that answers VK_SUCCESS or an error, when
    [vkd3d_sampler_state_allocate_descriptor_set] returns S_OK the set it
    stored was allocated from the pool it stored.  That pool is the first
    pool of the state that gives a set, and then the state is unchanged and
    no pool is created; or no pool of the state gives one, and then it is a
    new pool, added last to the pools of the state.  The mutex is locked
    once, first, and unlocked once, last. *)
Theorem sampler_set_comes_from_the_first_pool_that_gives_one
    (state state' : vkd3d_sampler_state) (vk_layout set0 pool0 vk_set vk_pool : Z)
    (log : list call) :
  (forall pool layout, fst (vkAllocateDescriptorSets pool layout) <= 0) ->
  (forall info, fst (vkCreateDescriptorPool info) <= 0) ->
  (forall vr, vr < 0 -> hresult_from_vk_result vr <> S_OK) ->
  (forall rc, rc <> 0 -> hresult_from_errno rc <> S_OK) ->
  vkd3d_sampler_state_allocate_descriptor_set pthread_mutex_lock hresult_from_errno
    hresult_from_vk_result vkAllocateDescriptorSets vkCreateDescriptorPool
    vkd3d_array_reserve state vk_layout set0 pool0
  = (S_OK, state', vk_set, vk_pool, log) ->
  vkAllocateDescriptorSets vk_pool vk_layout = (VK_SUCCESS, vk_set) /\
  ((state' = state /\ existsb creates_pool log = false /\
    exists before after,
      vk_descriptor_pools state = before ++ vk_pool :: after /\
      exhausted vkAllocateDescriptorSets vk_layout before)
   \/
   (exhausted vkAllocateDescriptorSets vk_layout (vk_descriptor_pools state) /\
    vk_descriptor_pools state' = vk_descriptor_pools state ++ [vk_pool] /\
    vkCreateDescriptorPool pool_info = (VK_SUCCESS, vk_pool))) /\
  exists calls, log = Lock :: calls ++ [Unlock] /\
                existsb is_lock calls = false /\ existsb is_unlock calls = false.
Proof.
  intros Halloc Hcreate Hvr Herrno.
  unfold vkd3d_sampler_state_allocate_descriptor_set.
  destruct (Z.eqb_spec pthread_mutex_lock 0) as [Hlock | Hlock]; cbn [negb].
  2: { intros [= Hhr _ _ _ _]. exfalso. exact (Herrno _ Hlock Hhr). }
  destruct (try_pools _ _ _ _ _ _ _) as [[[vr set1] pool1] log1] eqn:Htry.
  destruct (try_pools_spec _ _ _ _ _ _ _ _ _ _ Htry ltac:(discriminate))
    as (Hcreated & Hlast & tail & -> & Hun & Hlk & Hcases).
  change ([Lock] ++ tail) with (Lock :: tail) in Hcreated.
  cbn [existsb creates_pool orb] in Hcreated.
  destruct ((vr =? VK_ERROR_OUT_OF_POOL_MEMORY) || (vr =? VK_ERROR_FRAGMENTED_POOL)) eqn:Hout.
  - assert (Hfailed : vr <> VK_SUCCESS).
    { apply orb_true_iff in Hout as [H | H]; apply Z.eqb_eq in H; rewrite H; discriminate. }
    destruct Hcases as [(Hok & _) | (_ & Hall)]; [contradiction |].
    unfold vkd3d_sampler_state_create_descriptor_pool.
    destruct (vkCreateDescriptorPool pool_info) as [vr2 descriptorPool] eqn:Hpool.
    pose proof (Hcreate pool_info) as Hle. rewrite Hpool in Hle. cbn [fst] in Hle.
    destruct (Z.eqb_spec vr2 VK_SUCCESS) as [-> | Hne]; cbn [negb].
    2: { intros [= Hhr _ _ _ _]. exfalso. unfold VK_SUCCESS in Hne.
         exact (Hvr vr2 ltac:(lia) Hhr). }
    destruct (vkd3d_array_reserve _); cbn [negb]; [| intros [=]].
    destruct (vkAllocateDescriptorSets descriptorPool vk_layout) as [vr3 set3] eqn:Hcall.
    pose proof (Halloc descriptorPool vk_layout) as Hle3. rewrite Hcall in Hle3.
    cbn [fst] in Hle3.
    intros [= Hhr <- <- <- <-].
    assert (vr3 = 0) as ->.
    { destruct (Z.eq_dec vr3 0) as [H | H]; [exact H |].
      exfalso. exact (Hvr vr3 ltac:(lia) Hhr). }
    split; [exact Hcall |]. split.
    + right. split; [exact Hall |]. split; reflexivity.
    + exists (tail ++ [CreateDescriptorPool pool_info;
                       AllocateDescriptorSets descriptorPool vk_layout]).
      split; [cbn; rewrite <- !app_assoc; reflexivity |].
      rewrite !existsb_app, Hun, Hlk. split; reflexivity.
  - intros [= Hhr <- <- <- <-].
    destruct Hcases as [(Hok & Hset & before & after & Hpools & Hbefore) | (Hfail & Hall)].
    + split; [exact Hset |]. split.
      * left. split; [reflexivity |]. split.
        -- cbn [app existsb creates_pool orb]. rewrite existsb_app, Hcreated. reflexivity.
        -- exists before, after. split; assumption.
      * exists tail. split; [reflexivity |]. split; assumption.
    + exfalso. apply orb_false_iff in Hout as [H1 H2].
      apply Z.eqb_neq in H1.
      destruct Hlast as [-> | [pool Hpool]]; [contradiction |].
      pose proof (Halloc pool vk_layout) as Hle. rewrite <- Hpool in Hle.
      unfold VK_SUCCESS in Hfail. exact (Hvr vr ltac:(lia) Hhr).
Qed.

End SamplerSetFacts.

(** ** The theorems above at concrete cases *)

Section AtConcreteCases.
Import Machine Api.

Lemma cbv_range_stays_in_buffer_witness :
  exists s' b,
    Descriptor.d3d12_desc_create_cbv Examples.bindless Examples.mutable_heap
      (Some (Examples.cbv 0x10100 256)) (Examples.slot2 Examples.mutable_heap)
    = Some (tt, s') /\
    Descriptor.info (Descriptor.slot s') = Descriptor.desc_info_buffer b /\
    Descriptor.offset b = 0x100 /\
    Descriptor.offset b + Descriptor.range b <= 0x10000.
Proof.
  destruct (cbv_range_stays_in_buffer Examples.bindless Examples.mutable_heap
              (Examples.cbv 0x10100 256) Examples.constants
              (Examples.slot2 Examples.mutable_heap))
    as (s' & b & w & Hrun & Hinfo & _ & _ & _ & Hoffset & _ & _ & Hend).
  - reflexivity.
  - vm_compute. discriminate.
  - discriminate.
  - reflexivity.
  - vm_compute. discriminate.
  - vm_compute. split; [discriminate | reflexivity].
  - vm_compute. discriminate.
  - exists s', b. split; [exact Hrun |]. split; [exact Hinfo |].
    split; [exact Hoffset | exact Hend].
Defined.

Lemma acceleration_structure_srv_round_trip_witness :
  exists s1 s2,
    Descriptor.vkd3d_create_buffer_srv Examples.bindless Examples.mutable_heap None
      (Some Cases.acceleration_structure_srv) (Examples.slot2 Examples.mutable_heap)
    = Some (tt, s1) /\
    Descriptor.raw_va_aux_buffer s1 = Some [0; 0; 0x10200; 0] /\
    Descriptor.d3d12_descriptor_heap_write_null_descriptor_template Examples.mutable_heap
      VK_DESCRIPTOR_TYPE_STORAGE_BUFFER s1 = Some (tt, s2) /\
    Descriptor.raw_va_aux_buffer s2 = Some [0; 0; 0; 0].
Proof.
  destruct (acceleration_structure_srv_round_trip Examples.bindless Examples.mutable_heap
              None Cases.acceleration_structure_srv VK_DESCRIPTOR_TYPE_STORAGE_BUFFER
              (Examples.slot2 Examples.mutable_heap) [0; 0; 0; 0])
    as (s1 & s2 & Hrun & _ & Htable & _ & _ & _ & _ & _ & Hnull & Hcleared & _).
  - reflexivity.
  - discriminate.
  - reflexivity.
  - reflexivity.
  - vm_compute. lia.
  - exists s1, s2. split; [exact Hrun |]. split; [exact Htable |].
    split; [exact Hnull | exact Hcleared].
Defined.

Lemma ssbo_range_covers_request_witness :
  let result :=
    Descriptor.vkd3d_buffer_view_get_bound_range_ssbo Examples.bindless
      (Some Cases.upload_buffer) 20 100 Descriptor.no_bound_range in
  Descriptor.offset (fst result) = 256 + 2 ^ 4 * (20 / 2 ^ 4) /\
  Descriptor.offset (fst result) + Descriptor.byte_offset (snd result) = 256 + 20.
Proof.
  destruct (ssbo_range_covers_request Examples.bindless Cases.upload_buffer 20 100 4)
    as (_ & Hoffset & Hbyte & _).
  - reflexivity.
  - lia.
  - lia.
  - lia.
  - vm_compute. discriminate.
  - vm_compute. discriminate.
  - vm_compute. reflexivity.
  - split; [exact Hoffset | exact Hbyte].
Defined.



Lemma failed_placement_is_rolled_back_witness :
  Outcome.rolled_back
    (Resource.d3d12_resource_create_placed Examples.no_committed Examples.device
       Cookie.initial Examples.texture_desc (Examples.heap_of 0 1114112) 1114111 0 false).
Proof.
  exact (failed_placement_is_rolled_back Examples.no_committed Examples.device
           Cookie.initial Examples.texture_desc (Examples.heap_of 0 1114112) 1114111 0 false
           ltac:(discriminate)).
Defined.

Lemma failed_bind_is_reported_as_one_witness :
  let result :=
    Resource.d3d12_resource_create_placed Examples.no_committed Cases.refusing_device
      Cookie.initial Examples.texture_desc (Examples.heap_of 0 1114112) 0 0 false in
  Resource.status result = S_OK /\ Outcome.handed_out result = None.
Proof.
  destruct (failed_bind_is_reported_as_one Examples.no_committed Cases.refusing_device
              Cookie.initial Examples.texture_desc (Examples.heap_of 0 1114112) 0 0 false)
    as (Hstatus & Hnone & _).
  - reflexivity.
  - discriminate.
  - reflexivity.
  - reflexivity.
  - reflexivity.
  - discriminate.
  - reflexivity.
  - reflexivity.
  - intros image memory offset. reflexivity.
  - split; [exact Hstatus | exact Hnone].
Defined.

Lemma equal_view_keys_hash_alike_witness :
  ViewKey.vkd3d_view_entry_hash Examples.hash_uint64 Examples.hash_combine
    (ViewKey.VKD3D_VIEW_TYPE_SAMPLER
       (Examples.sampler D3D12_TEXTURE_ADDRESS_MODE_CLAMP Examples.black))
  = ViewKey.vkd3d_view_entry_hash Examples.hash_uint64 Examples.hash_combine
      (ViewKey.VKD3D_VIEW_TYPE_SAMPLER
         (Examples.sampler D3D12_TEXTURE_ADDRESS_MODE_CLAMP Examples.white)).
Proof.
  apply (equal_view_keys_hash_alike Examples.hash_uint64 Examples.hash_combine);
    reflexivity.
Defined.

Lemma plane_slice_is_not_part_of_the_view_key_witness :
  exists format k k1 k2,
    Descriptor.init_default_texture_view_desc Examples.bindless Cases.depth_texture 45
    = Some (format, k) /\
    Descriptor.texture_uav_key Cases.depth_texture k (Cases.plane_uav 0) = Some k1 /\
    Descriptor.texture_uav_key Cases.depth_texture k (Cases.plane_uav 1) = Some k2 /\
    ViewKey.vkd3d_view_entry_compare (ViewKey.VKD3D_VIEW_TYPE_IMAGE k1)
      (ViewKey.VKD3D_VIEW_TYPE_IMAGE k2) = true /\
    ViewKey.aspect_mask k1 = 2 /\ ViewKey.aspect_mask k2 = 4.
Proof.
  destruct (Descriptor.init_default_texture_view_desc Examples.bindless
              Cases.depth_texture 45) as [[format k] |] eqn:Hk;
    [| vm_compute in Hk; discriminate Hk].
  destruct (Descriptor.texture_uav_key Cases.depth_texture k (Cases.plane_uav 0))
    as [k1 |] eqn:Hk1; [| cbv in Hk1; discriminate Hk1].
  destruct (Descriptor.texture_uav_key Cases.depth_texture k (Cases.plane_uav 1))
    as [k2 |] eqn:Hk2; [| cbv in Hk2; discriminate Hk2].
  destruct (plane_slice_is_not_part_of_the_view_key Examples.bindless Cases.depth_texture
              45 format k k1 k2 (Cases.plane_uav 0) (Cases.plane_uav 1)
              Examples.hash_uint64 Examples.hash_combine Hk eq_refl
              (or_introl (conj eq_refl eq_refl)) Hk1 Hk2)
    as (Hcompare & _ & Ha1 & Ha2).
  exists format, k, k1, k2.
  split; [reflexivity |]. split; [exact Hk1 |]. split; [exact Hk2 |].
  split; [exact Hcompare |].
  vm_compute in Ha1, Ha2. injection Ha1 as Ha1. injection Ha2 as Ha2.
  split; symmetry; assumption.
Defined.

Lemma plane_aspect_is_one_bit_of_the_mask_witness :
  exists k,
    Descriptor.vk_image_aspect_flags_from_d3d12 (Some Cases.depth_stencil) 1 = Some (2 ^ k) /\
    Z.testbit (Resource.vk_aspect_mask Cases.depth_stencil) k = true.
Proof.
  destruct (plane_aspect_is_one_bit_of_the_mask Cases.depth_stencil 1)
    as (k & _ & Hplane & Hbit & _).
  - vm_compute. split; reflexivity.
  - exists k. split; [exact Hplane | exact Hbit].
Defined.

Lemma subresource_index_round_trip_witness :
  Subresource.vk_image_subresource_from_d3d12 (Some Cases.depth_stencil)
    (1 + 3 * (2 + 4 * 1)) 3 4 false
  = Some {| Subresource.aspectMask := 4; Subresource.mipLevel := 1;
            Subresource.arrayLayer := 2 |}.
Proof.
  apply (subresource_index_round_trip Cases.depth_stencil 1 2 1 3 4 4);
    try lia; reflexivity.
Defined.

Lemma composed_swizzle_reads_first_then_second_witness :
  exists c,
    TextureView.vk_component_mapping_compose Cases.alpha_only Cases.bgra = Some c /\
    TextureView.read_through 0 1 c Cases.texel
    = TextureView.read_through 0 1 Cases.bgra
        (TextureView.read_through 0 1 Cases.alpha_only Cases.texel).
Proof.
  destruct (composed_swizzle_reads_first_then_second Cases.alpha_only Cases.bgra 0 1)
    as (c & Hrun & _ & Hread).
  - reflexivity.
  - exists c. split; [exact Hrun | apply Hread].
Defined.

Lemma texture_view_levels_stay_within_the_request_witness :
  exists info,
    TextureView.texture_view_create_info Examples.rgba8 Cases.clamped_view = Some info /\
    1 <= TextureView.baseMipLevel (TextureView.subresourceRange info) /\
    TextureView.baseMipLevel (TextureView.subresourceRange info)
    + TextureView.levelCount (TextureView.subresourceRange info) = 1 + 4.
Proof.
  destruct (texture_view_levels_stay_within_the_request Examples.rgba8 Cases.clamped_view)
    as (info & Hrun & Hbase & _ & Hend & _).
  - vm_compute. discriminate.
  - vm_compute. discriminate.
  - vm_compute. reflexivity.
  - discriminate.
  - vm_compute. reflexivity.
  - exists info. split; [exact Hrun |]. split; [exact Hbase | exact Hend].
Defined.

Lemma global_mask_blocks_only_pinned_types_of_other_heaps_witness :
  Z.testbit
    (MemoryInfo.vkd3d_memory_info_find_global_mask true
       (MemoryInfo.vkd3d_memory_info_get_topology Cases.rebar) Cases.rebar) 2 = false.
Proof.
  apply (global_mask_blocks_only_pinned_types_of_other_heaps true
           (MemoryInfo.vkd3d_memory_info_get_topology Cases.rebar) Cases.rebar 2);
    [cbn; lia | lia |].
  split; [reflexivity |]. split; [vm_compute; reflexivity |].
  split; [vm_compute; discriminate |]. split; [reflexivity |]. split; [reflexivity |].
  eexists. split; [reflexivity |].
  split; [vm_compute; discriminate |]. split; [vm_compute; discriminate |].
  split; reflexivity.
Defined.

Lemma topology_names_the_largest_heap_of_each_kind_witness :
  MemoryInfo.summarises (MemoryInfo.memoryHeaps Cases.rebar)
    (MemoryInfo.vkd3d_memory_info_get_topology Cases.rebar).
Proof.
  apply (topology_names_the_largest_heap_of_each_kind Cases.rebar). cbn. lia.
Defined.

Lemma blocking_keeps_a_device_only_and_a_host_only_type_witness :
  exists (d : nat) type,
    MemoryInfo.memoryTypes Cases.rebar !! d = Some type /\
    MemoryInfo.device_only_type type = true /\
    Z.testbit
      (MemoryInfo.vkd3d_memory_info_find_global_mask true
         (MemoryInfo.vkd3d_memory_info_get_topology Cases.rebar) Cases.rebar)
      (Z.of_nat d) = true.
Proof.
  destruct (blocking_keeps_a_device_only_and_a_host_only_type true Cases.rebar 2)
    as [(d & type & Hlook & Hkind & _ & Hbit) _].
  - cbn. lia.
  - lia.
  - reflexivity.
  - exists d, type. split; [exact Hlook |]. split; [exact Hkind | exact Hbit].
Defined.

Lemma budgets_agree_with_the_mask_witness :
  exists info,
    MemoryInfo.vkd3d_memory_info_init_budgets
      (MemoryInfo.vkd3d_memory_info_get_topology Cases.rebar) Cases.rebar = Some info /\
    MemoryInfo.budget_entry_agrees Cases.rebar
      (MemoryInfo.vkd3d_memory_info_get_topology Cases.rebar) info 2.
Proof.
  destruct (budgets_agree_with_the_mask Cases.rebar) as (info & Hrun & Hagree).
  - cbn. lia.
  - cbn. lia.
  - repeat constructor; cbn; lia.
  - exists info. split; [exact Hrun |]. apply Hagree. lia.
Defined.

Lemma memory_info_init_succeeds :
  exists info log, Cases.memory_info_init = Some (S_OK, info, log).
Proof. eexists _, _. vm_compute. reflexivity. Qed.

Lemma memory_domains_stay_within_the_global_mask_witness :
  exists info log host_domain,
    Cases.memory_info_init = Some (S_OK, info, log) /\
    MemoryInfo.cpu_accessible_domain info = Some host_domain /\
    (MemoryInfo.domain_allows host_domain 2 = true ->
     MemoryInfo.allows (MemoryInfo.global_mask info) 2 = true).
Proof.
  destruct memory_info_init_succeeds as (info & log & Hrun).
  destruct (memory_domains_stay_within_the_global_mask Cases.rebar false 0
              Cases.create_buffer Cases.type_bits Cases.create_image Cases.type_bits
              Cases.linear_tiling Cases.hresult_of true false info log)
    as (device_domain & host_domain & _ & Hhost & Hmasks).
  - cbn. lia.
  - exact Hrun.
  - intros vr Hvr. unfold Cases.hresult_of.
    destruct (Z.eqb_spec vr 0); [lia | discriminate].
  - exists info, log, host_domain. split; [exact Hrun |]. split; [exact Hhost |].
    intros Hallowed. destruct (Hmasks 2 ltac:(lia)) as [_ H]. apply (H Hallowed).
Defined.

Lemma memory_info_probes_are_destroyed_witness :
  exists info log,
    Cases.memory_info_init = Some (S_OK, info, log) /\
    MemoryInfo.balanced Cases.create_buffer Cases.create_image log.
Proof.
  destruct memory_info_init_succeeds as (info & log & Hrun).
  exists info, log. split; [exact Hrun |].
  apply (memory_info_probes_are_destroyed Cases.rebar false 0
           Cases.create_buffer Cases.type_bits Cases.create_image Cases.type_bits
           Cases.linear_tiling Cases.hresult_of true false S_OK info log).
  - intros image_info. unfold Cases.create_image, MemoryInfo.VK_SUCCESS. cbn [fst]. lia.
  - intros buffer_info. unfold Cases.create_buffer, MemoryInfo.VK_SUCCESS. cbn [fst]. lia.
  - exact Hrun.
Defined.

Lemma map_is_never_not_implemented_witness :
  exists pointer calls,
    Mapping.d3d12_resource_Map Examples.device Cases.rebar Cases.one_sub_resource
      Cases.mapped_upload_buffer 0 None true = Some (S_OK, pointer, calls) /\
    pointer = Some 0x7000.
Proof.
  eexists _, _. split; [reflexivity |].
  apply (map_is_never_not_implemented Examples.device Cases.rebar Cases.one_sub_resource
           Cases.mapped_upload_buffer 0 None true S_OK _ _ eq_refl).
  reflexivity.
Defined.

Lemma map_and_unmap_name_the_bytes_of_the_range_witness :
  exists bytes,
    Mapping.d3d12_resource_Map Examples.device Cases.rebar Cases.one_sub_resource
      Cases.mapped_upload_buffer 0 (Some Cases.bytes_16_to_80) true
    = Some (S_OK, Some 0x7000, [Mapping.InvalidateMappedMemoryRanges bytes]) /\
    Mapping.d3d12_resource_Unmap Cases.rebar Cases.one_sub_resource
      Cases.mapped_upload_buffer 0 (Some Cases.bytes_16_to_80)
    = Some [Mapping.FlushMappedMemoryRanges bytes] /\
    Mapping.offset bytes = 256 + 16 /\ Mapping.size bytes = 80 - 16.
Proof.
  destruct (map_and_unmap_name_the_bytes_of_the_range Examples.device Cases.rebar
              Cases.one_sub_resource Cases.mapped_upload_buffer 0 Cases.bytes_16_to_80 true
              {| MemoryInfo.propertyFlags := 2; MemoryInfo.heapIndex := 2 |})
    as (bytes & Hmap & Hunmap & _ & Hoffset & Hsize & _).
  - reflexivity.
  - reflexivity.
  - vm_compute. reflexivity.
  - discriminate.
  - reflexivity.
  - reflexivity.
  - vm_compute. split; [discriminate | reflexivity].
  - vm_compute. discriminate.
  - vm_compute. discriminate.
  - vm_compute. reflexivity.
  - exists bytes. split; [exact Hmap |]. split; [exact Hunmap |].
    split; [exact Hoffset | exact Hsize].
Defined.

Lemma cache_views_are_live view :
  view ∈ ViewLife.entry_views Cases.cache -> is_Some (ViewMap.views Cases.cache !! view).
Proof.
  cbn. intros Hin. apply elem_of_cons in Hin as [-> | Hin].
  - eexists. vm_compute. reflexivity.
  - apply elem_of_cons in Hin as [-> | Hin].
    + eexists. vm_compute. reflexivity.
    + apply elem_of_nil in Hin. contradiction.
Qed.

Lemma cache_views_are_distinct : NoDup (ViewLife.entry_views Cases.cache).
Proof.
  cbn. constructor.
  - intros [H | []]. discriminate H.
  - constructor; [intros [] | constructor].
Qed.

Lemma view_map_teardown_frees_the_views_of_the_map_witness :
  exists w',
    ViewLife.vkd3d_view_map_destroy Cases.cache = Some w' /\
    ViewMap.map w' = [] /\
    ViewMap.views w' !! 1 = None /\ ViewMap.views w' !! 2 = None.
Proof.
  destruct (view_map_teardown_frees_the_views_of_the_map Cases.cache
              cache_views_are_distinct cache_views_are_live)
    as (w' & Hrun & Hmap & _ & Hviews & _).
  exists w'. split; [exact Hrun |]. split; [exact Hmap |].
  rewrite !Hviews. split; reflexivity.
Defined.

Lemma view_reference_round_trip_witness :
  exists w1,
    ViewLife.vkd3d_view_incref 1 Cases.cache = Some w1 /\
    ViewMap.vkd3d_view_decref 1 w1 = Some Cases.cache.
Proof.
  destruct (view_reference_round_trip 1 Cases.cache
              {| ViewMap.refcount := 1; ViewMap.cookie := 1; ViewMap.vk_handle := 1 |})
    as [(w1 & Hin & Hout) _].
  - vm_compute. reflexivity.
  - cbn. lia.
  - exists w1. split; [exact Hin |]. apply Hout. cbn. lia.
Defined.

Lemma data_buffer_tables_fit_and_do_not_overlap_witness :
  let heap := snd (fst Cases.init_data_buffer) in
  HeapData.first_byte (HeapData.buffer_ranges heap)
  = HeapData.end_byte (HeapData.raw_va_aux_buffer heap) /\
  HeapData.end_byte (HeapData.buffer_ranges heap) <= 2432.
Proof.
  destruct (data_buffer_tables_fit_and_do_not_overlap 16 64 true true false false 0
              (fun _ => 0) false false (fun _ _ _ => (S_OK, 31)) (fun _ _ => (S_OK, 32))
              (fun _ => (0, 0x8000)) (fun _ => 0x9000) Cases.hresult_of Z.add 16
              Cases.new_heap Cases.hundred_descriptors 6) with (total := 2432)
    as (_ & Hranges).
  - reflexivity.
  - lia.
  - cbn. lia.
  - lia.
  - lia.
  - lia.
  - reflexivity.
  - intros vr Hvr. unfold Cases.hresult_of.
    destruct (Z.eqb_spec vr 0); [contradiction | discriminate].
  - reflexivity.
  - reflexivity.
  - destruct (Hranges eq_refl) as (_ & _ & _ & Hend & Hnext).
    split; [exact (Hnext eq_refl) | exact Hend].
Defined.

Lemma query_heap_created_and_released_witness :
  exists object log log',
    Cases.query_heap_create Cases.timestamps = (S_OK, Some object, log) /\
    QueryHeap.d3d12_query_heap_Release object = (0, None, log') /\
    QueryHeap.called (QueryHeap.DestroyQueryPool 41) log' = true /\
    QueryHeap.count_calls QueryHeap.Malloc (log ++ log')
    = QueryHeap.count_calls QueryHeap.Free (log ++ log').
Proof.
  eexists _, _.
  destruct (query_heap_created_and_released true (fun type => type =? 0) (fun _ => 8)
              (fun _ => (0, 41)) (fun _ _ _ => (S_OK, 42)) (fun _ _ => (S_OK, 43)) S_OK
              Cases.hresult_of Cases.timestamps S_OK _ _ eq_refl)
    as (log' & Hrelease & _ & Hfree & Hpool & _).
  exists log'. split; [reflexivity |]. split; [exact Hrelease |].
  split; [exact Hpool | exact Hfree].
Defined.

Lemma allocate_descriptor_set_succeeds :
  exists state' vk_set vk_pool log,
    Cases.allocate_descriptor_set Cases.two_pools 7 0 0
    = (S_OK, state', vk_set, vk_pool, log).
Proof. eexists _, _, _, _. reflexivity. Qed.

Lemma sampler_set_comes_from_the_first_pool_that_gives_one_witness :
  exists state' vk_set vk_pool log,
    Cases.allocate_descriptor_set Cases.two_pools 7 0 0
    = (S_OK, state', vk_set, vk_pool, log) /\
    Cases.allocate_sets vk_pool 7 = (SamplerSets.VK_SUCCESS, vk_set) /\
    exists calls, log = SamplerSets.Lock :: calls ++ [SamplerSets.Unlock].
Proof.
  destruct allocate_descriptor_set_succeeds as (state' & vk_set & vk_pool & log & Hrun).
  exists state', vk_set, vk_pool, log. split; [exact Hrun |].
  destruct (sampler_set_comes_from_the_first_pool_that_gives_one 0 Cases.hresult_of
              (fun vr => if vr <? 0 then E_FAIL else S_OK) Cases.allocate_sets
              Cases.create_pool (fun _ => true) Cases.two_pools state' 7 0 0
              vk_set vk_pool log)
    as (Hset & _ & calls & Hlog & _).
  - intros pool layout. unfold Cases.allocate_sets.
    destruct (pool =? 51); cbn; [unfold SamplerSets.VK_ERROR_OUT_OF_POOL_MEMORY |]; lia.
  - intros info. cbn. lia.
  - intros vr Hvr. destruct (Z.ltb_spec vr 0); [discriminate | lia].
  - intros rc Hrc. unfold Cases.hresult_of.
    destruct (Z.eqb_spec rc 0); [contradiction | discriminate].
  - exact Hrun.
  - split; [exact Hset |]. exists calls. exact Hlog.
Defined.

End AtConcreteCases.
